(** * GRUB FAT driver ([fs/fat.c]): a shallow embedding and its properties

    The development follows the C file top to bottom: the on-disk
    structures, [fat_log2], [grub_fat_mount], [grub_fat_read_data],
    [grub_fat_find_dir], [grub_fat_dir], [grub_fat_open], [grub_fat_read]
    and [grub_fat_label].  The handle [struct grub_fat_data] is passed in
    and out of the functions that update it.  A function that can fail
    returns a [result]: the error it would leave in [grub_errno], or its
    value.  The loops of the directory scanner and of the label scan may
    run for ever on a cyclic cluster chain; they take a bound on the
    number of turns and return [None] when it is reached.

    Machine integers are modelled as [Z] with every wrap-around written
    out.  The driver is built for i386-pc: [int], [long], [unsigned long]
    and [grub_ssize_t] are 32 bits wide and the host is little-endian, so
    [grub_le_to_cpu16/32] are the identity on decoded values and [~0UL]
    is [0xFFFFFFFF].

    The functions are described first for a call that is entered with
    [grub_errno] clear and whose allocations succeed.  The module [Errno]
    then gives them with the value of [grub_errno] at entry and the
    outcome of each allocation as inputs; the lemmas [errno_clear_...]
    relate the two descriptions.

    Left out: the module reference counting ([grub_dl_ref],
    [grub_dl_unref]) and the release of the handle.  The read hook is
    represented by the list of data reads it would be shown. *)

From Stdlib Require Import String ZArith List Lia Bool.
Import ListNotations.
Local Open Scope string_scope.
Local Open Scope list_scope.
Local Open Scope Z_scope.

(** ** Machine words *)

Definition u8 (x : Z) : Z := x mod 2 ^ 8.
Definition u16 (x : Z) : Z := x mod 2 ^ 16.
Definition u32 (x : Z) : Z := x mod 2 ^ 32.

(** Conversion of a 32-bit pattern to [grub_ssize_t] (two's complement). *)
Definition s32 (x : Z) : Z :=
  let y := u32 x in if y <? 2 ^ 31 then y else y - 2 ^ 32.

(** [~0UL]. *)
Definition ALL_ONES : Z := 0xFFFFFFFF.

(** ** Byte strings *)

(** File names, paths and disk contents are lists of byte values. *)
Definition bytes := list Z.

Definition byte_at (bs : bytes) (i : Z) : Z := nth (Z.to_nat i) bs 0.

Definition le16 (bs : bytes) (off : Z) : Z :=
  byte_at bs off + 2 ^ 8 * byte_at bs (off + 1).

Definition le32 (bs : bytes) (off : Z) : Z :=
  byte_at bs off + 2 ^ 8 * byte_at bs (off + 1)
  + 2 ^ 16 * byte_at bs (off + 2) + 2 ^ 24 * byte_at bs (off + 3).

Fixpoint bytes_eqb (a b : bytes) : bool :=
  match a, b with
  | [], [] => true
  | x :: a', y :: b' => (x =? y) && bytes_eqb a' b'
  | _, _ => false
  end.

(** The C-string view of a buffer: the bytes before the first NUL. *)
Fixpoint cstr (bs : bytes) : bytes :=
  match bs with
  | [] => []
  | b :: bs' => if b =? 0 then [] else b :: cstr bs'
  end.

Fixpoint bytes_of_string (s : string) : bytes :=
  match s with
  | EmptyString => []
  | String c s' => Z.of_nat (Ascii.nat_of_ascii c) :: bytes_of_string s'
  end.

(** ** Errors *)

Inductive grub_err_t : Set :=
| GRUB_ERR_NONE
| GRUB_ERR_BAD_FS
| GRUB_ERR_BAD_FILE_TYPE
| GRUB_ERR_FILE_NOT_FOUND
| GRUB_ERR_DEVICE
| GRUB_ERR_OUT_OF_MEMORY.

(** What [grub_error (code, fmt, arg)] leaves in [grub_errno] and the
    error message: the code, the format string and its [%u] argument. *)
Record grub_error_t : Set := mk_error {
  err_code : grub_err_t;
  err_fmt : string;
  err_arg : option Z
}.

Definition grub_error (c : grub_err_t) (fmt : string) : grub_error_t :=
  mk_error c fmt None.

Definition grub_error_u (c : grub_err_t) (fmt : string) (n : Z) : grub_error_t :=
  mk_error c fmt (Some n).

Inductive result (A : Type) : Type :=
| Ok (a : A)
| Err (e : grub_error_t).
Arguments Ok {A} a.
Arguments Err {A} e.

(** ** The block device *)

(** Modelled from the spec: the block device is an external collaborator
    (grub/disk.h is not part of the driver).  A device has 512-byte native
    sectors; a read names a sector, a byte offset from it and a length, may
    straddle sectors, and succeeds or fails.  The device is a partial map
    from byte addresses to byte values (kept modulo 256); an address
    without a value is one the device cannot deliver (out of range or
    unreadable). *)
Definition grub_disk : Type := Z -> option Z.

Definition GRUB_DISK_SECTOR_BITS : Z := 9.

(** Modelled from the spec: the error a failed device read leaves behind
    ("DEVICE: any block-device read failure propagates unchanged"). *)
Definition disk_failure : grub_error_t :=
  grub_error GRUB_ERR_DEVICE "device read failed".

Fixpoint disk_bytes (d : grub_disk) (addr : Z) (n : nat) : option bytes :=
  match n with
  | O => Some []
  | S n' =>
      match d addr with
      | None => None
      | Some b =>
          match disk_bytes d (addr + 1) n' with
          | None => None
          | Some bs => Some (u8 b :: bs)
          end
      end
  end.

(** [grub_disk_read (disk, sector, offset, size, buf)]: [offset] and [size]
    are [unsigned long] parameters. *)
Definition grub_disk_read (d : grub_disk) (sector offset size : Z) : option bytes :=
  disk_bytes d (sector * 2 ^ GRUB_DISK_SECTOR_BITS + u32 offset) (Z.to_nat (u32 size)).

(** ** On-disk structures *)

Definition GRUB_FAT_DIR_ENTRY_SIZE : Z := 32.

Definition GRUB_FAT_ATTR_READ_ONLY : Z := 0x01.
Definition GRUB_FAT_ATTR_HIDDEN : Z := 0x02.
Definition GRUB_FAT_ATTR_SYSTEM : Z := 0x04.
Definition GRUB_FAT_ATTR_VOLUME_ID : Z := 0x08.
Definition GRUB_FAT_ATTR_DIRECTORY : Z := 0x10.
Definition GRUB_FAT_ATTR_ARCHIVE : Z := 0x20.

Definition GRUB_FAT_ATTR_LONG_NAME : Z :=
  Z.lor (Z.lor (Z.lor GRUB_FAT_ATTR_READ_ONLY GRUB_FAT_ATTR_HIDDEN)
           GRUB_FAT_ATTR_SYSTEM) GRUB_FAT_ATTR_VOLUME_ID.

Definition GRUB_FAT_ATTR_VALID : Z :=
  Z.lor (Z.lor (Z.lor (Z.lor GRUB_FAT_ATTR_READ_ONLY GRUB_FAT_ATTR_HIDDEN)
                  GRUB_FAT_ATTR_SYSTEM) GRUB_FAT_ATTR_DIRECTORY)
    GRUB_FAT_ATTR_ARCHIVE.

(** [struct grub_fat_bpb], packed: the fields the driver consults, decoded
    from their little-endian bytes. *)
Record grub_fat_bpb : Set := mk_bpb {
  bpb_bytes_per_sector : Z;       (* offset 11, 16 bits *)
  bpb_sectors_per_cluster : Z;    (* offset 13, 8 bits *)
  bpb_num_reserved_sectors : Z;   (* offset 14, 16 bits *)
  bpb_num_fats : Z;               (* offset 16, 8 bits *)
  bpb_num_root_entries : Z;       (* offset 17, 16 bits *)
  bpb_num_total_sectors_16 : Z;   (* offset 19, 16 bits *)
  bpb_media : Z;                  (* offset 21, 8 bits *)
  bpb_sectors_per_fat_16 : Z;     (* offset 22, 16 bits *)
  bpb_num_total_sectors_32 : Z;   (* offset 32, 32 bits *)
  bpb_sectors_per_fat_32 : Z;     (* offset 36, 32 bits *)
  bpb_extended_flags : Z;         (* offset 40, 16 bits *)
  bpb_fs_version : Z;             (* offset 42, 16 bits *)
  bpb_root_cluster : Z            (* offset 44, 32 bits *)
}.

(** [sizeof (struct grub_fat_bpb)]. *)
Definition SIZEOF_BPB : Z := 52.

Definition bpb_of_bytes (bs : bytes) : grub_fat_bpb :=
  {| bpb_bytes_per_sector := le16 bs 11;
     bpb_sectors_per_cluster := byte_at bs 13;
     bpb_num_reserved_sectors := le16 bs 14;
     bpb_num_fats := byte_at bs 16;
     bpb_num_root_entries := le16 bs 17;
     bpb_num_total_sectors_16 := le16 bs 19;
     bpb_media := byte_at bs 21;
     bpb_sectors_per_fat_16 := le16 bs 22;
     bpb_num_total_sectors_32 := le32 bs 32;
     bpb_sectors_per_fat_32 := le32 bs 36;
     bpb_extended_flags := le16 bs 40;
     bpb_fs_version := le16 bs 42;
     bpb_root_cluster := le32 bs 44 |}.

(** [struct grub_fat_data].  [file_size] and [cur_cluster] are not
    initialised by [grub_fat_mount] (the structure comes from
    [grub_malloc]); they are given the value 0 there.  [file_size] is
    assigned by [grub_fat_find_dir] before [grub_fat_open] reads it, and a
    read at a non-negative offset assigns [cur_cluster] before using it. *)
Record grub_fat_data : Set := mk_data {
  logical_sector_bits : Z;
  num_sectors : Z;
  fat_sector : Z;
  sectors_per_fat : Z;
  fat_size : Z;
  root_cluster : Z;
  root_sector : Z;
  num_root_sectors : Z;
  cluster_bits : Z;
  cluster_eof_mark : Z;
  cluster_sector : Z;
  num_clusters : Z;
  attr : Z;
  file_size : Z;
  file_cluster : Z;
  cur_cluster_num : Z;
  cur_cluster : Z
}.

(** ** [fat_log2] *)

(** The loop [for (i = 0; (x & 1) == 0; i++) x >>= 1;] on a non-zero [x]
    follows the binary digits of [x] from the least significant one: an
    even [x] is [q~0] and [x >>= 1] is [q]. *)
Fixpoint fat_log2_loop (x : positive) (i : Z) : Z :=
  match x with
  | xO q => fat_log2_loop q (i + 1)
  | xH => i
  | xI _ => -1
  end.

Definition fat_log2 (x : Z) : Z :=
  match x with
  | Zpos p => fat_log2_loop p 0
  | _ => -1
  end.

(** ** [grub_fat_mount] *)

Definition not_a_fat : grub_error_t :=
  grub_error GRUB_ERR_BAD_FS "not a fat filesystem".

(** The geometry part of [grub_fat_mount], up to the test
    [num_clusters <= 2]: the values the function has stored in
    [logical_sector_bits], [cluster_bits], [fat_sector], [sectors_per_fat],
    [num_sectors], [root_sector], [num_root_sectors], [cluster_sector] and
    [num_clusters] when it reaches line 217, or [None] when one of the
    earlier tests jumped to [fail]. *)
Record geometry : Set := mk_geometry {
  g_logical_sector_bits : Z;
  g_cluster_bits : Z;
  g_fat_sector : Z;
  g_sectors_per_fat : Z;
  g_num_sectors : Z;
  g_root_sector : Z;
  g_num_root_sectors : Z;
  g_cluster_sector : Z;
  g_num_clusters : Z
}.

Definition mount_geometry (bpb : grub_fat_bpb) : option geometry :=
  let lsb0 := fat_log2 (bpb_bytes_per_sector bpb) in
  if lsb0 <? GRUB_DISK_SECTOR_BITS then None else
  let lsb := lsb0 - GRUB_DISK_SECTOR_BITS in
  let cb0 := fat_log2 (bpb_sectors_per_cluster bpb) in
  if cb0 <? 0 then None else
  let cb := cb0 + lsb in
  let fs := u16 (Z.shiftl (bpb_num_reserved_sectors bpb) lsb) in
  if fs =? 0 then None else
  let spf :=
    u32 (Z.shiftl (if bpb_sectors_per_fat_16 bpb =? 0
                   then bpb_sectors_per_fat_32 bpb
                   else bpb_sectors_per_fat_16 bpb) lsb) in
  if spf =? 0 then None else
  let ns :=
    u32 (Z.shiftl (if bpb_num_total_sectors_16 bpb =? 0
                   then bpb_num_total_sectors_32 bpb
                   else bpb_num_total_sectors_16 bpb) lsb) in
  if ns =? 0 then None else
  if bpb_num_fats bpb =? 0 then None else
  let rs := u32 (fs + bpb_num_fats bpb * spf) in
  let nrs :=
    u32 (Z.shiftl
           (Z.shiftr (u32 (bpb_num_root_entries bpb * GRUB_FAT_DIR_ENTRY_SIZE
                           + bpb_bytes_per_sector bpb - 1))
              (lsb + GRUB_DISK_SECTOR_BITS)) lsb) in
  let cs := u32 (rs + nrs) in
  let nc := u32 (Z.shiftr (u32 (ns - cs)) (cb + lsb) + 2) in
  Some (mk_geometry lsb cb fs spf ns rs nrs cs nc).

Definition grub_fat_mount (disk : option grub_disk) : result grub_fat_data :=
  match disk with
  | None => Err not_a_fat
  | Some d =>
  match grub_disk_read d 0 0 SIZEOF_BPB with
  | None => Err not_a_fat
  | Some raw =>
  let bpb := bpb_of_bytes raw in
  match mount_geometry bpb with
  | None => Err not_a_fat
  | Some g =>
  if g_num_clusters g <=? 2 then Err not_a_fat else
  (* FAT32, or FAT12/FAT16: (root_cluster, fat_size, cluster_eof_mark,
     fat_sector), or a jump to fail. *)
  let variant : option (Z * Z * Z * Z) :=
    if bpb_sectors_per_fat_16 bpb =? 0 then
      let flags := bpb_extended_flags bpb in
      let active :=
        if Z.land flags 0x80 =? 0 then Some (g_fat_sector g)
        else
          let active_fat := Z.land flags 0xf in
          if active_fat >? bpb_num_fats bpb then None
          else Some (u16 (g_fat_sector g + u32 (active_fat * g_sectors_per_fat g))) in
      match active with
      | None => None
      | Some fs =>
          if negb (bpb_num_root_entries bpb =? 0) || negb (bpb_fs_version bpb =? 0)
          then None
          else Some (bpb_root_cluster bpb, 32, 0x0ffffff8, fs)
      end
    else if g_num_clusters g <=? 4085 + 2
         then Some (ALL_ONES, 12, 0x0ff8, g_fat_sector g)
         else Some (ALL_ONES, 16, 0xfff8, g_fat_sector g) in
  match variant with
  | None => Err not_a_fat
  | Some (rc, fsz, eof, fs) =>
  if g_num_sectors g <=? fs then Err not_a_fat else
  match grub_disk_read d fs 0 4 with
  | None => Err not_a_fat
  | Some ff =>
  let first_fat := le32 ff 0 in
  let '(first_fat, magic) :=
    if fsz =? 32 then (Z.land first_fat 0x0fffffff, 0x0fffff00)
    else if fsz =? 16 then (Z.land first_fat 0x0000ffff, 0xff00)
    else (Z.land first_fat 0x00000fff, 0x0f00) in
  if negb (first_fat =? Z.lor magic (bpb_media bpb)) then Err not_a_fat else
  Ok {| logical_sector_bits := g_logical_sector_bits g;
        num_sectors := g_num_sectors g;
        fat_sector := fs;
        sectors_per_fat := g_sectors_per_fat g;
        fat_size := fsz;
        root_cluster := rc;
        root_sector := g_root_sector g;
        num_root_sectors := g_num_root_sectors g;
        cluster_bits := g_cluster_bits g;
        cluster_eof_mark := eof;
        cluster_sector := g_cluster_sector g;
        num_clusters := g_num_clusters g;
        attr := GRUB_FAT_ATTR_DIRECTORY;
        file_size := 0;
        file_cluster := rc;
        cur_cluster_num := ALL_ONES;
        cur_cluster := 0 |}
  end end end end end.

(** ** [grub_fat_read_data] *)

Definition set_cursor (data : grub_fat_data) (num cl : Z) : grub_fat_data :=
  {| logical_sector_bits := logical_sector_bits data;
     num_sectors := num_sectors data;
     fat_sector := fat_sector data;
     sectors_per_fat := sectors_per_fat data;
     fat_size := fat_size data;
     root_cluster := root_cluster data;
     root_sector := root_sector data;
     num_root_sectors := num_root_sectors data;
     cluster_bits := cluster_bits data;
     cluster_eof_mark := cluster_eof_mark data;
     cluster_sector := cluster_sector data;
     num_clusters := num_clusters data;
     attr := attr data;
     file_size := file_size data;
     file_cluster := file_cluster data;
     cur_cluster_num := num;
     cur_cluster := cl |}.

(** The first [switch (data->fat_size)]: the byte offset of the FAT entry
    of the current cluster ([unsigned long] arithmetic). *)
Definition fat_offset (data : grub_fat_data) : Z :=
  if fat_size data =? 32 then u32 (Z.shiftl (cur_cluster data) 2)
  else if fat_size data =? 16 then u32 (Z.shiftl (cur_cluster data) 1)
  else u32 (cur_cluster data + Z.shiftr (cur_cluster data) 1).

(** [(data->fat_size + 7) >> 3]: the number of bytes read from the FAT. *)
Definition fat_entry_bytes (data : grub_fat_data) : Z :=
  Z.shiftr (fat_size data + 7) 3.

(** The second [switch (data->fat_size)], applied to the 32-bit word
    [next_cluster] that received the bytes read from the FAT. *)
Definition fat_entry_value (data : grub_fat_data) (next_cluster : Z) : Z :=
  if fat_size data =? 16 then Z.land next_cluster 0xFFFF
  else if fat_size data =? 12 then
    Z.land (if negb (Z.land (cur_cluster data) 1 =? 0)
            then Z.shiftr next_cluster 4 else next_cluster) 0x0FFF
  else next_cluster.

(** "Read the FAT": the value of [next_cluster] at the end-of-chain test,
    or [None] when the device read failed.  When only two bytes are read
    the upper half of the local variable [next_cluster] keeps whatever the
    stack held; it is taken as 0 here, and
    [fat_entry_value_upper_half] shows that the masks discard it. *)
Definition fat_next (disk : grub_disk) (data : grub_fat_data) : option Z :=
  match grub_disk_read disk (fat_sector data) (fat_offset data) (fat_entry_bytes data) with
  | None => None
  | Some bs => Some (fat_entry_value data (le32 bs 0))
  end.

Definition invalid_cluster (n : Z) : grub_error_t :=
  grub_error_u GRUB_ERR_BAD_FS "invalid cluster %u" n.

(** How the inner loop [while (logical_cluster > data->cur_cluster_num)]
    is left: the condition became false, or one of the three [return]s. *)
Inductive walk_result : Set :=
| WalkReached (data : grub_fat_data)
| WalkEnd (data : grub_fat_data)
| WalkFail (data : grub_fat_data) (e : grub_error_t).

(** The inner loop.  Each turn adds one to [cur_cluster_num], so from
    [cur_cluster_num <= logical_cluster] the body runs
    [logical_cluster - cur_cluster_num] times unless it returns; [n] is
    that number of turns. *)
Fixpoint find_next_cluster (disk : grub_disk) (n : nat) (data : grub_fat_data)
  : walk_result :=
  match n with
  | O => WalkReached data
  | S n' =>
      match fat_next disk data with
      | None => WalkFail data disk_failure
      | Some next_cluster =>
          if next_cluster >=? cluster_eof_mark data then WalkEnd data
          else if (next_cluster <? 2) || (next_cluster >=? num_clusters data)
          then WalkFail data (invalid_cluster next_cluster)
          else find_next_cluster disk n'
                 (set_cursor data (u32 (cur_cluster_num data + 1)) next_cluster)
      end
  end.

(** One device read of file data, as the read hook observes it, together
    with the cluster it was computed from. *)
Record data_read : Set := mk_data_read {
  dr_cluster : Z;
  dr_sector : Z;
  dr_offset : Z;
  dr_size : Z
}.

(** The outcome of a call: the handle as the call leaves it, the value
    returned ([Ok n] for [n], [Err e] for [-1] with [grub_errno] set to
    [e]), the bytes stored through [buf] in order, and the data reads
    issued.  Here [grub_errno] is clear when the driver is entered, so
    the test [if (grub_errno)] after a data read fires exactly when that
    read failed; [Errno.read_loop] below is the loop for any value of
    [grub_errno] at entry. *)
Record read_result : Set := mk_read {
  rd_data : grub_fat_data;
  rd_ret : result Z;
  rd_buf : bytes;
  rd_reads : list data_read
}.

Definition logical_cluster_bits (data : grub_fat_data) : Z :=
  cluster_bits data + logical_sector_bits data + GRUB_DISK_SECTOR_BITS.

Definition data_sector (data : grub_fat_data) : Z :=
  u32 (cluster_sector data
       + u32 (Z.shiftl (cur_cluster data - 2)
                (cluster_bits data + logical_sector_bits data))).

(** The loop [while (len)].  [fuel] bounds the number of turns; [None]
    means the bound was too small. *)
Fixpoint read_loop (disk : grub_disk) (fuel : nat) (data : grub_fat_data)
    (logical_cluster offset len ret : Z) (buf : bytes) (reads : list data_read)
  : option read_result :=
  if len =? 0 then Some (mk_read data (Ok ret) buf reads) else
  match fuel with
  | O => None
  | S fuel' =>
      match find_next_cluster disk
              (Z.to_nat (logical_cluster - cur_cluster_num data)) data with
      | WalkEnd data' => Some (mk_read data' (Ok ret) buf reads)
      | WalkFail data' e => Some (mk_read data' (Err e) buf reads)
      | WalkReached data' =>
          let sector := data_sector data' in
          let size := Z.shiftl 1 (logical_cluster_bits data') - offset in
          let size := if size >? len then len else size in
          let reads' := reads ++ [mk_data_read (cur_cluster data') sector offset size] in
          match grub_disk_read disk sector offset size with
          | None => Some (mk_read data' (Err disk_failure) buf reads')
          | Some bs =>
              read_loop disk fuel' data' (u32 (logical_cluster + 1)) 0
                (len - size) (ret + size) (buf ++ bs) reads'
          end
      end
  end.

Definition grub_fat_read_data (disk : grub_disk) (data : grub_fat_data)
    (offset len : Z) : option read_result :=
  if file_cluster data =? ALL_ONES then
    let size := s32 (u32 (Z.shiftl (num_root_sectors data) GRUB_DISK_SECTOR_BITS) - offset) in
    let size := if size >? len then len else size in
    match grub_disk_read disk (root_sector data) offset size with
    | None => Some (mk_read data (Err disk_failure) [] [])
    | Some bs => Some (mk_read data (Ok size) bs [])
    end
  else
    let bits := logical_cluster_bits data in
    let logical_cluster := u32 (Z.shiftr offset bits) in
    let offset := Z.land offset (Z.shiftl 1 bits - 1) in
    let data :=
      if logical_cluster <? cur_cluster_num data
      then set_cursor data 0 (file_cluster data) else data in
    read_loop disk (Z.abs_nat len) data logical_cluster offset len 0 [] [].

(** ** Directory records *)

(** A directory record is kept as its 32 raw bytes: the C code looks at
    the same bytes once as [struct grub_fat_dir_entry] and once as
    [struct grub_fat_long_name_entry]. *)
Definition dir_name (dir : bytes) : bytes := firstn 11 dir.
Definition dir_attr (dir : bytes) : Z := byte_at dir 11.
Definition dir_first_cluster_high (dir : bytes) : Z := le16 dir 20.
Definition dir_first_cluster_low (dir : bytes) : Z := le16 dir 26.
Definition dir_file_size (dir : bytes) : Z := le32 dir 28.

Definition ln_id (dir : bytes) : Z := byte_at dir 0.
Definition ln_checksum (dir : bytes) : Z := byte_at dir 13.
Definition ln_name1 (dir : bytes) : list Z :=
  map (fun i => le16 dir (1 + 2 * i)) [0; 1; 2; 3; 4].
Definition ln_name2 (dir : bytes) : list Z :=
  map (fun i => le16 dir (14 + 2 * i)) [0; 1; 2; 3; 4; 5].
Definition ln_name3 (dir : bytes) : list Z :=
  map (fun i => le16 dir (28 + 2 * i)) [0; 1].

(** [dir.name[0] = c]. *)
Definition set_name0 (dir : bytes) (c : Z) : bytes := c :: tl dir.

(** "This is a workaround for Japanese":
    [if (dir.name[0] == 0x05) dir.name[0] = 0xe5;]. *)
Definition name0_workaround (dir : bytes) : bytes :=
  if byte_at dir 0 =? 0x05 then set_name0 dir 0xe5 else dir.

(** The bytes of [dir] after a read stored [bs] at its start. *)
Definition overwrite (dir bs : bytes) : bytes :=
  bs ++ skipn (length bs) dir.

(** The local variable [dir] before the first read.  It is not
    initialised in C; its contents reach the handle only on paths where
    the callers discard the handle. *)
Definition dir_initial : bytes := repeat 0 32.

(** [for (sum = 0, i = 0; i < sizeof (dir.name); i++)
      sum = ((sum >> 1) | (sum << 7)) + dir.name[i];]
    with [sum] a [grub_uint8_t]. *)
Definition sum_step (sum b : Z) : Z :=
  u8 (Z.lor (Z.shiftr sum 1) (Z.shiftl sum 7) + b).

Definition sum8dot3 (name : bytes) : Z := fold_left sum_step name 0.

(** ** Path components *)

Fixpoint skip_slashes (path : bytes) : bytes :=
  match path with
  | [] => []
  | c :: p => if c =? 47 then skip_slashes p else path
  end.

(** Modelled from the spec: [grub_strchr] is a kernel string helper
    outside the driver; it returns the suffix of [s] that starts at the
    first occurrence of [c], as C's [strchr] does. *)
Fixpoint grub_strchr (s : bytes) (c : Z) : option bytes :=
  match s with
  | [] => None
  | b :: s' => if b =? c then Some s else grub_strchr s' c
  end.

(** Modelled from the spec: [grub_strndup] is a kernel string helper
    outside the driver; it copies at most [n] bytes of the C string [s],
    as C's [strndup] does. *)
Definition grub_strndup (s : bytes) (n : Z) : bytes := cstr (firstn (Z.to_nat n) s).

(** "Extract a directory name": the path after its leading slashes,
    [dirp] and [dirname]. *)
Definition extract_dirname (path : bytes) : option bytes * bytes :=
  let path := skip_slashes path in
  match grub_strchr path 47 with
  | Some dirp => (Some dirp, firstn (length path - length dirp) path)
  | None => (None, path)
  end.

(** ** [grub_fat_find_dir] *)

Record lfn_state : Set := mk_lfn {
  slot : Z;
  slots : Z;
  checksum : Z;
  unibuf : list Z
}.

(** [int slot = -1, slots = -1; int checksum = -1;] and the freshly
    allocated [unibuf] of [0x40 * 13] code units (taken as zeros). *)
Definition lfn_initial : lfn_state := mk_lfn (-1) (-1) (-1) (repeat 0 (0x40 * 13)).

(** The three [grub_memcpy] calls: 5 + 6 + 2 code units stored at
    [unibuf + pos]. *)
Definition store_units (buf : list Z) (pos : Z) (units : list Z) : list Z :=
  firstn (Z.to_nat pos) buf ++ units
  ++ skipn (Z.to_nat pos + length units) buf.

(** "Handle long name entries": the body of
    [if (dir.attr == GRUB_FAT_ATTR_LONG_NAME)]. *)
Definition long_name_entry (st : lfn_state) (dir : bytes) : lfn_state :=
  let id := ln_id dir in
  let first := negb (Z.land id 0x40 =? 0) in
  let id := if first then Z.land id 0x3f else id in
  let st :=
    if first then mk_lfn id id (ln_checksum dir) (unibuf st) else st in
  if negb (id =? slot st) || (slot st =? 0)
     || negb (checksum st =? ln_checksum dir)
  then mk_lfn (slot st) (slots st) (-1) (unibuf st)
  else
    let slot' := slot st - 1 in
    mk_lfn slot' (slots st) (checksum st)
      (store_units (unibuf st) (slot' * 13)
         (ln_name1 dir ++ ln_name2 dir ++ ln_name3 dir)).

Definition hook_call : Set := (bytes * Z)%type.

Inductive scan_step : Set :=
| ScanContinue (st : lfn_state) (dir : bytes) (calls : list hook_call)
| ScanBreak (dir : bytes) (calls : list hook_call).

Definition file_not_found : grub_error_t :=
  grub_error GRUB_ERR_FILE_NOT_FOUND "file not found".
Definition not_a_directory : grub_error_t :=
  grub_error GRUB_ERR_BAD_FILE_TYPE "not a directory".
Definition not_a_file : grub_error_t :=
  grub_error GRUB_ERR_BAD_FILE_TYPE "not a file".

Record find_result : Set := mk_find {
  fr_data : grub_fat_data;
  fr_next : option bytes;           (* the value returned: [dirp] or NULL *)
  fr_errno : option grub_error_t;   (* [grub_errno] if the call set it *)
  fr_calls : list hook_call         (* the calls made to [hook], in order *)
}.

Section Scanner.

(** The kernel's string helpers are outside the driver; the scanner is
    parameterised by them. *)
Variable grub_isspace : Z -> bool.
Variable grub_tolower : Z -> Z.
(** [grub_utf16_to_utf8 (dest, src, size)]: the bytes stored at [dest]
    for the code units [src]. *)
Variable grub_utf16_to_utf8 : list Z -> bytes.

Variable disk : grub_disk.

(** The two [for] loops of "Convert the 8.3 file name": the bytes stored
    for a run of name bytes. *)
Fixpoint name_chars (bs : bytes) : bytes :=
  match bs with
  | [] => []
  | b :: bs' =>
      if (b =? 0) || grub_isspace b then []
      else u8 (grub_tolower b) :: name_chars bs'
  end.

(** "Convert the 8.3 file name".  [filep] ends on the last byte stored,
    the ['.'] if the second loop stored nothing; the terminator goes onto
    that byte when it is a ['.'] and after it otherwise. *)
Definition convert_8dot3 (name : bytes) : bytes :=
  let buf := name_chars (firstn 8 name) ++ [46]
             ++ name_chars (firstn 3 (skipn 8 name)) in
  cstr (if last buf 0 =? 46 then removelast buf else buf).

(** The long file name: [slots * 13] code units decoded, then the
    terminator. *)
Definition long_filename (st : lfn_state) : bytes :=
  cstr (grub_utf16_to_utf8 (firstn (Z.to_nat (slots st * 13)) (unibuf st))).

Definition dir_flag (dir : bytes) : Z := Z.land (dir_attr dir) GRUB_FAT_ATTR_DIRECTORY.

(** What the loop body does with [filename]: the listing case
    [*dirname == '\0' && call_hook], the comparison with [dirname], or
    neither ([None]: control goes on below). *)
Definition offer (dirname : bytes) (call_hook : bool) (hook : bytes -> Z -> bool)
    (filename dir : bytes) : option (bool * list hook_call) :=
  if bytes_eqb dirname [] && call_hook then
    Some (hook filename (dir_flag dir), [(filename, dir_flag dir)])
  else if bytes_eqb dirname filename then
    Some (true, if call_hook then [(filename, dir_flag dir)] else [])
  else None.

(** The body of [while (1)] after a record was read whose first byte is
    not 0. *)
Definition scan_entry (dirname : bytes) (call_hook : bool)
    (hook : bytes -> Z -> bool) (st : lfn_state) (dir : bytes) : scan_step :=
  if dir_attr dir =? GRUB_FAT_ATTR_LONG_NAME then
    ScanContinue (long_name_entry st dir) dir []
  else if (byte_at dir 0 =? 0xe5)
          || negb (Z.land (dir_attr dir) (Z.lnot GRUB_FAT_ATTR_VALID) =? 0)
  then ScanContinue st dir []
  else
    let dir := name0_workaround dir in
    let invalid := mk_lfn (slot st) (slots st) (-1) (unibuf st) in
    (* "Convert the 8.3 file name" and what follows it. *)
    let short (st' : lfn_state) :=
      match offer dirname call_hook hook (convert_8dot3 (dir_name dir)) dir with
      | Some (true, calls) => ScanBreak dir calls
      | Some (false, calls) => ScanContinue st' dir calls
      | None => ScanContinue st' dir []
      end in
    if negb (checksum st =? -1) && (slot st =? 0) then
      if sum8dot3 (dir_name dir) =? checksum st then
        match offer dirname call_hook hook (long_filename st) dir with
        | Some (true, calls) => ScanBreak dir calls
        | Some (false, calls) => ScanContinue invalid dir calls
        | None => short invalid
        end
      else short invalid
    else short st.

(** The loop [while (1)].  [fuel] bounds the number of records read;
    [None] means the bound was too small.  The result is the handle, the
    last contents of [dir], what the loop left in [grub_errno] and the
    hook calls.  [grub_errno] is clear when the loop is entered, so the
    test of line 501 turns on the value the read returned;
    [Errno.find_dir_loop] below is the loop for any value of [grub_errno]
    at entry. *)
Fixpoint find_dir_loop (dirname : bytes) (call_hook : bool)
    (hook : bytes -> Z -> bool) (fuel : nat) (data : grub_fat_data)
    (st : lfn_state) (dir : bytes) (offset : Z) (calls : list hook_call)
  : option (grub_fat_data * bytes * option grub_error_t * list hook_call) :=
  match fuel with
  | O => None
  | S fuel' =>
      let offset := offset + GRUB_FAT_DIR_ENTRY_SIZE in
      match grub_fat_read_data disk data offset GRUB_FAT_DIR_ENTRY_SIZE with
      | None => None
      | Some r =>
          let dir := overwrite dir (rd_buf r) in
          let full :=
            match rd_ret r with
            | Ok n => n =? GRUB_FAT_DIR_ENTRY_SIZE
            | Err _ => false
            end in
          if negb full || (byte_at dir 0 =? 0) then
            let errno :=
              match rd_ret r with
              | Err e => Some e
              | Ok _ => if call_hook then None else Some file_not_found
              end in
            Some (rd_data r, dir, errno, calls)
          else
            match scan_entry dirname call_hook hook st dir with
            | ScanContinue st' dir' c =>
                find_dir_loop dirname call_hook hook fuel' (rd_data r) st' dir'
                  offset (calls ++ c)
            | ScanBreak dir' c => Some (rd_data r, dir', None, calls ++ c)
            end
      end
  end.

Definition no_hook : bytes -> Z -> bool := fun _ _ => false.

(** [grub_fat_find_dir] when its three allocations succeed;
    [Errno.grub_fat_find_dir] below has their outcomes as an input. *)
Definition grub_fat_find_dir (fuel : nat) (data : grub_fat_data) (path : bytes)
    (hook : option (bytes -> Z -> bool)) : option find_result :=
  if Z.land (attr data) GRUB_FAT_ATTR_DIRECTORY =? 0 then
    Some (mk_find data None (Some not_a_directory) [])
  else
    let '(dirp, dirname) := extract_dirname path in
    let call_hook :=
      match dirp, hook with None, Some _ => true | _, _ => false end in
    let h := match hook with Some h => h | None => no_hook end in
    match find_dir_loop dirname call_hook h fuel data lfn_initial dir_initial
            (- GRUB_FAT_DIR_ENTRY_SIZE) [] with
    | None => None
    | Some (data, dir, errno, calls) =>
        let data :=
          {| logical_sector_bits := logical_sector_bits data;
             num_sectors := num_sectors data;
             fat_sector := fat_sector data;
             sectors_per_fat := sectors_per_fat data;
             fat_size := fat_size data;
             root_cluster := root_cluster data;
             root_sector := root_sector data;
             num_root_sectors := num_root_sectors data;
             cluster_bits := cluster_bits data;
             cluster_eof_mark := cluster_eof_mark data;
             cluster_sector := cluster_sector data;
             num_clusters := num_clusters data;
             attr := dir_attr dir;
             file_size := s32 (dir_file_size dir);
             file_cluster :=
               u32 (Z.lor (Z.shiftl (dir_first_cluster_high dir) 16)
                      (dir_first_cluster_low dir));
             cur_cluster_num := ALL_ONES;
             cur_cluster := cur_cluster data |} in
        Some (mk_find data dirp errno calls)
    end.

(** ** [grub_fat_dir], [grub_fat_open], [grub_fat_read] *)

(** The [do ... while] loops over the path components.  Every call of
    [grub_fat_find_dir] that returns a next path returns a strictly
    shorter one, so [n] greater than the length of the path is enough. *)
Fixpoint dir_loop (n fuel : nat) (data : grub_fat_data) (p : bytes)
    (hook : option (bytes -> Z -> bool)) (calls : list hook_call)
  : option (option grub_error_t * list hook_call) :=
  match n with
  | O => None
  | S n' =>
      match grub_fat_find_dir fuel data p hook with
      | None => None
      | Some r =>
          match fr_next r, fr_errno r with
          | Some p', None => dir_loop n' fuel (fr_data r) p' hook (calls ++ fr_calls r)
          | _, errno => Some (errno, calls ++ fr_calls r)
          end
      end
  end.

(** The value returned is [grub_errno]; the hook calls are kept with it. *)
Definition grub_fat_dir (fuel : nat) (path : bytes)
    (hook : option (bytes -> Z -> bool))
  : option (option grub_error_t * list hook_call) :=
  match grub_fat_mount (Some disk) with
  | Err e => Some (Some e, [])
  | Ok data => dir_loop (S (length path)) fuel data path hook []
  end.

Fixpoint open_loop (n fuel : nat) (data : grub_fat_data) (p : bytes)
  : option (result grub_fat_data) :=
  match n with
  | O => None
  | S n' =>
      match grub_fat_find_dir fuel data p None with
      | None => None
      | Some r =>
          match fr_errno r with
          | Some e => Some (Err e)
          | None =>
              match fr_next r with
              | Some p' => open_loop n' fuel (fr_data r) p'
              | None => Some (Ok (fr_data r))
              end
          end
      end
  end.

(** [Ok data]: the call returns [GRUB_ERR_NONE] with [file->data = data]
    and [file->size = data->file_size]. *)
Definition grub_fat_open (fuel : nat) (name : bytes) : option (result grub_fat_data) :=
  match grub_fat_mount (Some disk) with
  | Err e => Some (Err e)
  | Ok data =>
      match open_loop (S (length name)) fuel data name with
      | None => None
      | Some (Err e) => Some (Err e)
      | Some (Ok data) =>
          if negb (Z.land (attr data) GRUB_FAT_ATTR_DIRECTORY =? 0)
          then Some (Err not_a_file)
          else Some (Ok data)
      end
  end.

(** [grub_fat_read (file, buf, len)] with [file->data = data] and
    [file->offset = offset]. *)
Definition grub_fat_read (data : grub_fat_data) (offset len : Z) : option read_result :=
  grub_fat_read_data disk data offset len.

(** ** [grub_fat_label] *)

(** The loop [while (1)] of [grub_fat_label]: [Ok (Some l)] when [*label]
    is set to a copy of [l], [Ok None] when it is set to 0, [Err e] when
    the call returns [grub_errno = e].  [grub_errno] is clear when the
    loop is entered, so the test of line 752 turns on the value the read
    returned; [Errno.label_loop] below is the loop for any value of
    [grub_errno] at entry. *)
Fixpoint label_loop (fuel : nat) (data : grub_fat_data) (offset : Z)
  : option (result (option bytes)) :=
  match fuel with
  | O => None
  | S fuel' =>
      let offset := offset + GRUB_FAT_DIR_ENTRY_SIZE in
      match grub_fat_read_data disk data offset GRUB_FAT_DIR_ENTRY_SIZE with
      | None => None
      | Some r =>
          let dir := rd_buf r in
          let full :=
            match rd_ret r with
            | Ok n => n =? GRUB_FAT_DIR_ENTRY_SIZE
            | Err _ => false
            end in
          if negb full || (byte_at dir 0 =? 0) then
            match rd_ret r with
            | Err e => Some (Err e)
            | Ok _ => Some (Ok None)
            end
          else if dir_attr dir =? GRUB_FAT_ATTR_VOLUME_ID then
            Some (Ok (Some (grub_strndup dir 11)))
          else label_loop fuel' (rd_data r) offset
      end
  end.

Definition grub_fat_label (fuel : nat) : option (result (option bytes)) :=
  match grub_fat_mount (Some disk) with
  | Err e => Some (Err e)
  | Ok data =>
      if Z.land (attr data) GRUB_FAT_ATTR_DIRECTORY =? 0
      then Some (Err not_a_directory)
      else label_loop fuel data (- GRUB_FAT_DIR_ENTRY_SIZE)
  end.

End Scanner.

(** ** The driver with [grub_errno] and the allocator as inputs *)

(** The functions above describe a call that is entered with [grub_errno]
    clear and whose allocations succeed.  The module [Errno] gives the
    same functions with two more inputs: the value [grub_errno] has when
    the function is entered ([None] for [GRUB_ERR_NONE], [Some e] for an
    error that is pending), and the outcome of every allocation the
    function makes.  The code reads the global [grub_errno] in five
    places (lines 419, 501, 641, 671 and 752) and returns early after a
    failed [grub_malloc] in three (lines 160, 465 and 480); the results
    of [grub_strdup] (line 473) and [grub_strndup] (line 763) are not
    tested.

    Of the functions outside the driver: [grub_disk_read] returns 0 when
    the device delivers the bytes and not 0 when it does not, whatever
    [grub_errno] holds, and a read that fails leaves [disk_failure] in
    [grub_errno]; a failed allocation leaves what its outcome says; every
    other call (a device read or an allocation that succeeds,
    [grub_free], the string helpers, the hook) leaves [grub_errno] as it
    is. *)

(** The outcome of an allocation: it succeeds, or it returns a null
    pointer, and then [errno] is the value of [grub_errno] after the
    call. *)
Inductive alloc_result : Set :=
| AllocOk
| AllocFail (errno : option grub_error_t).

(** The allocations of one call of [grub_fat_find_dir]: [dirname] (line
    464 when the path goes on, line 473 when it does not), [filename]
    and [unibuf] (lines 478 and 479). *)
Record find_dir_allocs : Set := mk_allocs {
  alloc_dirname : alloc_result;
  alloc_filename : alloc_result;
  alloc_unibuf : alloc_result
}.

Definition allocs_ok : find_dir_allocs := mk_allocs AllocOk AllocOk AllocOk.

(** [grub_errno] after an allocation. *)
Definition errno_alloc (errno : option grub_error_t) (a : alloc_result)
  : option grub_error_t :=
  match a with
  | AllocOk => errno
  | AllocFail errno' => errno'
  end.

Definition alloc_failed (a : alloc_result) : bool :=
  match a with
  | AllocOk => false
  | AllocFail _ => true
  end.

(** [grub_errno] after a call of [grub_fat_read_data] that was entered
    with [errno] and returned [ret]: the error of a call that set one,
    the old value if not. *)
Definition errno_after (errno : option grub_error_t) (ret : result Z)
  : option grub_error_t :=
  match ret with
  | Err e => Some e
  | Ok _ => errno
  end.

(** What the kernel's allocator leaves in [grub_errno] when it fails
    ([kern/mm.c] is not part of the driver; the driver itself never names
    this error).  It is used in examples only. *)
Definition out_of_memory : grub_error_t :=
  grub_error GRUB_ERR_OUT_OF_MEMORY "out of memory".

(** What [grub_fat_find_dir] does after its loop (lines 612-618): the
    handle takes the attributes, the size and the first cluster of the
    record in [dir], its cursor is invalidated, and [dirp] is returned. *)
Definition find_dir_result (dirp : option bytes)
    (l : option (grub_fat_data * bytes * option grub_error_t * list hook_call))
  : option find_result :=
  match l with
  | None => None
  | Some (data, dir, errno, calls) =>
      Some (mk_find
              {| logical_sector_bits := logical_sector_bits data;
                 num_sectors := num_sectors data;
                 fat_sector := fat_sector data;
                 sectors_per_fat := sectors_per_fat data;
                 fat_size := fat_size data;
                 root_cluster := root_cluster data;
                 root_sector := root_sector data;
                 num_root_sectors := num_root_sectors data;
                 cluster_bits := cluster_bits data;
                 cluster_eof_mark := cluster_eof_mark data;
                 cluster_sector := cluster_sector data;
                 num_clusters := num_clusters data;
                 attr := dir_attr dir;
                 file_size := s32 (dir_file_size dir);
                 file_cluster :=
                   u32 (Z.lor (Z.shiftl (dir_first_cluster_high dir) 16)
                          (dir_first_cluster_low dir));
                 cur_cluster_num := ALL_ONES;
                 cur_cluster := cur_cluster data |} dirp errno calls)
  end.

Module Errno.

(** [grub_fat_mount]: [if (! disk) goto fail;], then the allocation of
    the handle, [if (! data) goto fail;], then the function as above.
    Every failure ends in [grub_error (GRUB_ERR_BAD_FS, ...)]; a mount
    that succeeds leaves [grub_errno] as it was. *)
Definition grub_fat_mount (alloc_data : alloc_result) (disk : option grub_disk)
  : result grub_fat_data :=
  match disk with
  | None => Err not_a_fat
  | Some _ =>
      match alloc_data with
      | AllocFail _ => Err not_a_fat
      | AllocOk => grub_fat_mount disk
      end
  end.

(** The loop [while (len)] of [grub_fat_read_data].  After the data read
    the code tests [grub_errno], not the value [grub_disk_read] returned
    (lines 417-420): with an error pending the call returns -1 after the
    first data read, whether that read failed or not.  [Err e] stands for
    the value -1 with [grub_errno = e] at the return. *)
Fixpoint read_loop (disk : grub_disk) (errno : option grub_error_t)
    (fuel : nat) (data : grub_fat_data)
    (logical_cluster offset len ret : Z) (buf : bytes) (reads : list data_read)
  : option read_result :=
  if len =? 0 then Some (mk_read data (Ok ret) buf reads) else
  match fuel with
  | O => None
  | S fuel' =>
      match find_next_cluster disk
              (Z.to_nat (logical_cluster - cur_cluster_num data)) data with
      | WalkEnd data' => Some (mk_read data' (Ok ret) buf reads)
      | WalkFail data' e => Some (mk_read data' (Err e) buf reads)
      | WalkReached data' =>
          let sector := data_sector data' in
          let size := Z.shiftl 1 (logical_cluster_bits data') - offset in
          let size := if size >? len then len else size in
          let reads' := reads ++ [mk_data_read (cur_cluster data') sector offset size] in
          match grub_disk_read disk sector offset size with
          | None => Some (mk_read data' (Err disk_failure) buf reads')
          | Some bs =>
              match errno with
              | Some e => Some (mk_read data' (Err e) (buf ++ bs) reads')
              | None =>
                  read_loop disk None fuel' data' (u32 (logical_cluster + 1)) 0
                    (len - size) (ret + size) (buf ++ bs) reads'
              end
          end
      end
  end.

(** The root directory branch and the two tests of the chain walk look at
    the value [grub_disk_read] returns, so they do not depend on
    [grub_errno]. *)
Definition grub_fat_read_data (disk : grub_disk) (errno : option grub_error_t)
    (data : grub_fat_data) (offset len : Z) : option read_result :=
  if file_cluster data =? ALL_ONES then
    let size := s32 (u32 (Z.shiftl (num_root_sectors data) GRUB_DISK_SECTOR_BITS) - offset) in
    let size := if size >? len then len else size in
    match grub_disk_read disk (root_sector data) offset size with
    | None => Some (mk_read data (Err disk_failure) [] [])
    | Some bs => Some (mk_read data (Ok size) bs [])
    end
  else
    let bits := logical_cluster_bits data in
    let logical_cluster := u32 (Z.shiftr offset bits) in
    let offset := Z.land offset (Z.shiftl 1 bits - 1) in
    let data :=
      if logical_cluster <? cur_cluster_num data
      then set_cursor data 0 (file_cluster data) else data in
    read_loop disk errno (Z.abs_nat len) data logical_cluster offset len 0 [] [].

Section Scanner.

Variable grub_isspace : Z -> bool.
Variable grub_tolower : Z -> Z.
Variable grub_utf16_to_utf8 : list Z -> bytes.
Variable disk : grub_disk.

(** The body of [while (1)] with [dirname] as the code has it: a pointer
    that is null when the unchecked [grub_strdup] of line 473 failed.
    The records the loop passes over (long name records, deleted records
    and records with reserved attribute bits) are handled without a look
    at [dirname]; every other record reaches [*dirname] (line 558 or line
    595), which has no defined result for a null pointer. *)
Definition scan_entry_dirname (dirname : option bytes) (call_hook : bool)
    (hook : bytes -> Z -> bool) (st : lfn_state) (dir : bytes)
  : option scan_step :=
  match dirname with
  | Some dirname =>
      Some (scan_entry grub_isspace grub_tolower grub_utf16_to_utf8
              dirname call_hook hook st dir)
  | None =>
      if (dir_attr dir =? GRUB_FAT_ATTR_LONG_NAME)
         || (byte_at dir 0 =? 0xe5)
         || negb (Z.land (dir_attr dir) (Z.lnot GRUB_FAT_ATTR_VALID) =? 0)
      then Some (scan_entry grub_isspace grub_tolower grub_utf16_to_utf8
                   [] call_hook hook st dir)
      else None
  end.

(** The loop [while (1)] of [grub_fat_find_dir]; the third component of
    the result is [grub_errno] when the loop is left.  A record that is
    read in full leaves [grub_errno] as it was; at the end of the
    directory "file not found" is reported only if [grub_errno] is clear
    (line 501). *)
Fixpoint find_dir_loop (dirname : option bytes) (call_hook : bool)
    (hook : bytes -> Z -> bool) (fuel : nat) (errno : option grub_error_t)
    (data : grub_fat_data)
    (st : lfn_state) (dir : bytes) (offset : Z) (calls : list hook_call)
  : option (grub_fat_data * bytes * option grub_error_t * list hook_call) :=
  match fuel with
  | O => None
  | S fuel' =>
      let offset := offset + GRUB_FAT_DIR_ENTRY_SIZE in
      match grub_fat_read_data disk errno data offset GRUB_FAT_DIR_ENTRY_SIZE with
      | None => None
      | Some r =>
          let dir := overwrite dir (rd_buf r) in
          let full :=
            match rd_ret r with
            | Ok n => n =? GRUB_FAT_DIR_ENTRY_SIZE
            | Err _ => false
            end in
          if negb full || (byte_at dir 0 =? 0) then
            let errno' :=
              match errno_after errno (rd_ret r) with
              | Some e => Some e
              | None => if call_hook then None else Some file_not_found
              end in
            Some (rd_data r, dir, errno', calls)
          else
            match scan_entry_dirname dirname call_hook hook st dir with
            | None => None
            | Some (ScanContinue st' dir' c) =>
                find_dir_loop dirname call_hook hook fuel' errno (rd_data r) st' dir'
                  offset (calls ++ c)
            | Some (ScanBreak dir' c) => Some (rd_data r, dir', errno, calls ++ c)
            end
      end
  end.

(** [grub_fat_find_dir]; [fr_errno] is [grub_errno] when the call
    returns.  After a failed allocation that the code tests for (lines
    465 and 480) the call returns NULL with the handle untouched.  The
    result of [grub_strdup] (line 473) is not tested: the function goes
    on with a null [dirname]. *)
Definition grub_fat_find_dir (fuel : nat) (mem : find_dir_allocs)
    (errno : option grub_error_t) (data : grub_fat_data) (path : bytes)
    (hook : option (bytes -> Z -> bool)) : option find_result :=
  if Z.land (attr data) GRUB_FAT_ATTR_DIRECTORY =? 0 then
    Some (mk_find data None (Some not_a_directory) [])
  else
    let '(dirp, dirname) := extract_dirname path in
    match dirp, alloc_dirname mem with
    | Some _, AllocFail errno' => Some (mk_find data None errno' [])
    | _, a =>
        let dirname := if alloc_failed a then None else Some dirname in
        let errno := errno_alloc (errno_alloc (errno_alloc errno a) (alloc_filename mem))
                       (alloc_unibuf mem) in
        if alloc_failed (alloc_filename mem) || alloc_failed (alloc_unibuf mem)
        then Some (mk_find data None errno [])
        else
          let call_hook :=
            match dirp, hook with None, Some _ => true | _, _ => false end in
          let h := match hook with Some h => h | None => no_hook end in
          find_dir_result dirp
            (find_dir_loop dirname call_hook h fuel errno data lfn_initial
               dir_initial (- GRUB_FAT_DIR_ENTRY_SIZE) [])
    end.

(** The loop of [grub_fat_dir]: [while (p && grub_errno == GRUB_ERR_NONE)].
    [mem i] gives the allocations of call number [i]. *)
Fixpoint dir_loop (n fuel : nat) (mem : nat -> find_dir_allocs) (i : nat)
    (errno : option grub_error_t) (data : grub_fat_data) (p : bytes)
    (hook : option (bytes -> Z -> bool)) (calls : list hook_call)
  : option (option grub_error_t * list hook_call) :=
  match n with
  | O => None
  | S n' =>
      match grub_fat_find_dir fuel (mem i) errno data p hook with
      | None => None
      | Some r =>
          match fr_next r, fr_errno r with
          | Some p', None =>
              dir_loop n' fuel mem (S i) None (fr_data r) p' hook (calls ++ fr_calls r)
          | _, errno' => Some (errno', calls ++ fr_calls r)
          end
      end
  end.

(** [grub_fat_dir]: the value returned is [grub_errno]. *)
Definition grub_fat_dir (fuel : nat) (alloc_data : alloc_result)
    (mem : nat -> find_dir_allocs) (errno : option grub_error_t)
    (path : bytes) (hook : option (bytes -> Z -> bool))
  : option (option grub_error_t * list hook_call) :=
  match grub_fat_mount alloc_data (Some disk) with
  | Err e => Some (Some e, [])
  | Ok data => dir_loop (S (length path)) fuel mem 0 errno data path hook []
  end.

(** The loop of [grub_fat_open]: [if (grub_errno != GRUB_ERR_NONE) goto
    fail;] after every call. *)
Fixpoint open_loop (n fuel : nat) (mem : nat -> find_dir_allocs) (i : nat)
    (errno : option grub_error_t) (data : grub_fat_data) (p : bytes)
  : option (result grub_fat_data) :=
  match n with
  | O => None
  | S n' =>
      match grub_fat_find_dir fuel (mem i) errno data p None with
      | None => None
      | Some r =>
          match fr_errno r with
          | Some e => Some (Err e)
          | None =>
              match fr_next r with
              | Some p' => open_loop n' fuel mem (S i) None (fr_data r) p'
              | None => Some (Ok (fr_data r))
              end
          end
      end
  end.

(** [grub_fat_open]: [Err e] when the call returns [grub_errno = e]. *)
Definition grub_fat_open (fuel : nat) (alloc_data : alloc_result)
    (mem : nat -> find_dir_allocs) (errno : option grub_error_t)
    (name : bytes) : option (result grub_fat_data) :=
  match grub_fat_mount alloc_data (Some disk) with
  | Err e => Some (Err e)
  | Ok data =>
      match open_loop (S (length name)) fuel mem 0 errno data name with
      | None => None
      | Some (Err e) => Some (Err e)
      | Some (Ok data) =>
          if negb (Z.land (attr data) GRUB_FAT_ATTR_DIRECTORY =? 0)
          then Some (Err not_a_file)
          else Some (Ok data)
      end
  end.

(** The loop of [grub_fat_label]: at the end of the directory the call
    fails with whatever [grub_errno] holds (line 752).  The result of
    [grub_strndup] is stored as it is: a null pointer is a null label. *)
Fixpoint label_loop (fuel : nat) (alloc_label : alloc_result)
    (errno : option grub_error_t) (data : grub_fat_data) (offset : Z)
  : option (result (option bytes)) :=
  match fuel with
  | O => None
  | S fuel' =>
      let offset := offset + GRUB_FAT_DIR_ENTRY_SIZE in
      match grub_fat_read_data disk errno data offset GRUB_FAT_DIR_ENTRY_SIZE with
      | None => None
      | Some r =>
          let dir := rd_buf r in
          let full :=
            match rd_ret r with
            | Ok n => n =? GRUB_FAT_DIR_ENTRY_SIZE
            | Err _ => false
            end in
          if negb full || (byte_at dir 0 =? 0) then
            match errno_after errno (rd_ret r) with
            | Some e => Some (Err e)
            | None => Some (Ok None)
            end
          else if dir_attr dir =? GRUB_FAT_ATTR_VOLUME_ID then
            Some (Ok (match alloc_label with
                      | AllocOk => Some (grub_strndup dir 11)
                      | AllocFail _ => None
                      end))
          else label_loop fuel' alloc_label errno (rd_data r) offset
      end
  end.

(** [grub_fat_label].  The branch of line 733 sets "not a directory" and
    returns 0; it is kept as [Err not_a_directory], as in the function
    described first, and is never taken: the handle [grub_fat_mount]
    returns has the directory bit. *)
Definition grub_fat_label (fuel : nat) (alloc_data alloc_label : alloc_result)
    (errno : option grub_error_t) : option (result (option bytes)) :=
  match grub_fat_mount alloc_data (Some disk) with
  | Err e => Some (Err e)
  | Ok data =>
      if Z.land (attr data) GRUB_FAT_ATTR_DIRECTORY =? 0
      then Some (Err not_a_directory)
      else label_loop fuel alloc_label errno data (- GRUB_FAT_DIR_ENTRY_SIZE)
  end.

End Scanner.

End Errno.

(** ** Notions used in the statements *)

(** [x] is a power of two. *)
Definition is_pow2 (x : Z) : Prop := exists k, 0 <= k /\ x = 2 ^ k.

(** The BPB that [grub_fat_mount] reads from a device. *)
Definition mount_bpb (disk : grub_disk) : option grub_fat_bpb :=
  match grub_disk_read disk 0 0 SIZEOF_BPB with
  | Some raw => Some (bpb_of_bytes raw)
  | None => None
  end.

(** The FAT length field that [grub_fat_mount] selects: the 16-bit one
    unless it is zero. *)
Definition bpb_fat_sectors (bpb : grub_fat_bpb) : Z :=
  if bpb_sectors_per_fat_16 bpb =? 0
  then bpb_sectors_per_fat_32 bpb else bpb_sectors_per_fat_16 bpb.

(** Every element is a byte value. *)
Definition all_bytes (bs : bytes) : Prop := Forall (fun b => 0 <= b < 256) bs.

(** The handle a walk leaves behind, however it ends. *)
Definition walk_data (w : walk_result) : grub_fat_data :=
  match w with
  | WalkReached d | WalkEnd d | WalkFail d _ => d
  end.

(** The cold restart of the cursor (lines 342-343). *)
Definition restart (data : grub_fat_data) : grub_fat_data :=
  set_cursor data 0 (file_cluster data).

(** Two handles that differ at most in the cursor. *)
Definition same_file (a b : grub_fat_data) : Prop :=
  set_cursor a 0 0 = set_cursor b 0 0.

(** The cursor is invalid, or it is where the walk from the first cluster
    of the file arrives after [cur_cluster_num] turns. *)
Definition cursor_ok (disk : grub_disk) (data : grub_fat_data) : Prop :=
  cur_cluster_num data = ALL_ONES
  \/ (0 <= cur_cluster_num data < 2 ^ 31
      /\ find_next_cluster disk (Z.to_nat (cur_cluster_num data)) (restart data)
         = WalkReached data).

(** What the caller of a read sees: the value returned and the bytes
    stored. *)
Definition read_out (r : option read_result) : option (result Z * bytes) :=
  match r with
  | Some r => Some (rd_ret r, rd_buf r)
  | None => None
  end.

(** Reads of consecutive ranges [offset, offset + l1), [offset + l1,
    offset + l1 + l2), ... on one handle, one call after the other; the
    bytes of all calls in order, or the first error. *)
Fixpoint read_pieces (disk : grub_disk) (data : grub_fat_data) (offset : Z)
    (lens : list Z) : option (result bytes) :=
  match lens with
  | [] => Some (Ok [])
  | l :: rest =>
      match grub_fat_read_data disk data offset l with
      | None => None
      | Some r =>
          match rd_ret r with
          | Err e => Some (Err e)
          | Ok _ =>
              match read_pieces disk (rd_data r) (offset + l) rest with
              | Some (Ok bs) => Some (Ok (rd_buf r ++ bs))
              | other => other
              end
          end
      end
  end.

(** The bytes of a single read, or its error. *)
Definition read_bytes (r : option read_result) : option (result bytes) :=
  match r with
  | Some r =>
      match rd_ret r with
      | Ok _ => Some (Ok (rd_buf r))
      | Err e => Some (Err e)
      end
  | None => None
  end.

(** The sum of a list of lengths. *)
Definition sum_list (l : list Z) : Z := fold_right Z.add 0 l.

(** The FAT as the device holds it: byte [k] of the active FAT. *)
Definition fat_table (disk : grub_disk) (data : grub_fat_data) (k : Z) : Z :=
  match disk (fat_sector data * 2 ^ GRUB_DISK_SECTOR_BITS + k) with
  | Some b => u8 b
  | None => 0
  end.

(** Bit [j] of a byte table read as one little-endian bit string. *)
Definition table_bit (tbl : Z -> Z) (j : Z) : bool :=
  Z.testbit (tbl (j / 8)) (j mod 8).

(** The number whose binary digits, least significant first, are [bits]. *)
Fixpoint bits_value (bits : list bool) : Z :=
  match bits with
  | [] => 0
  | b :: rest => Z.b2z b + 2 * bits_value rest
  end.

(** The bit-wise decode of entry [c] of a packed FAT12 table: the twelve
    bits from bit [12 * c] on. *)
Definition fat12_entry (tbl : Z -> Z) (c : Z) : Z :=
  bits_value (map (fun i => table_bit tbl (12 * c + i))
                [0; 1; 2; 3; 4; 5; 6; 7; 8; 9; 10; 11]).

(** Rotation of an 8-bit value one place to the right. *)
Definition rotate_right_8 (s : Z) : Z := s / 2 + 128 * (s mod 2).

(** The checksum as the specification words it: the fold
    [s => rotate_right_8 (s) + b] from 0, in 8-bit arithmetic. *)
Definition sum8dot3_spec (name : bytes) : Z :=
  fold_left (fun s b => (rotate_right_8 s + b) mod 256) name 0.

(** Root directory record [i] as a read on the freshly mounted handle
    delivers it. *)
Definition root_record (disk : grub_disk) (data : grub_fat_data) (i : Z)
  : option read_result :=
  grub_fat_read_data disk data (GRUB_FAT_DIR_ENTRY_SIZE * i) GRUB_FAT_DIR_ENTRY_SIZE.

(** The hook calls a turn of the scanner makes. *)
Definition step_calls (s : scan_step) : list hook_call :=
  match s with
  | ScanContinue _ _ calls | ScanBreak _ calls => calls
  end.

(** Whether a turn of the scanner leaves the loop. *)
Definition step_breaks (s : scan_step) : bool :=
  match s with
  | ScanContinue _ _ _ => false
  | ScanBreak _ _ => true
  end.

(** A record that reaches the 8.3 part of the loop body: not a long-name
    slot, not deleted, no attribute bit outside [GRUB_FAT_ATTR_VALID]. *)
Definition accepted_entry (dir : bytes) : Prop :=
  dir_attr dir <> GRUB_FAT_ATTR_LONG_NAME
  /\ byte_at dir 0 <> 0xe5
  /\ Z.land (dir_attr dir) (Z.lnot GRUB_FAT_ATTR_VALID) = 0.

(** The long-name group is complete and its checksum is that of [name]. *)
Definition lfn_complete (st : lfn_state) (name : bytes) : Prop :=
  slot st = 0 /\ sum8dot3 name = checksum st.

(** A record is skipped by the scanner: the loop goes on with the
    long-name state and [dir] as they were and without a hook call. *)
Definition skipped (step : scan_step) (st : lfn_state) (dir : bytes) : Prop :=
  step = ScanContinue st dir [].

(** Trailing spaces stripped. *)
Fixpoint strip_trailing_spaces (bs : bytes) : bytes :=
  match bs with
  | [] => []
  | b :: rest =>
      match strip_trailing_spaces rest with
      | [] => if b =? 32 then [] else [b]
      | rest' => b :: rest'
      end
  end.

(** The 8.3 name as the specification words it: bytes 0-7 as the base and
    8-10 as the extension, trailing spaces stripped, lowercased, joined by
    ['.'] only when the extension is not empty. *)
Definition name_8dot3_spec (tolower : Z -> Z) (name : bytes) : bytes :=
  let base := map tolower (strip_trailing_spaces (firstn 8 name)) in
  let ext := map tolower (strip_trailing_spaces (firstn 3 (skipn 8 name))) in
  match ext with
  | [] => base
  | _ => base ++ [46] ++ ext
  end.

(** The bytes before the first NUL or whitespace byte. *)
Fixpoint name_run (isspace : Z -> bool) (bs : bytes) : bytes :=
  match bs with
  | [] => []
  | b :: rest => if (b =? 0) || isspace b then [] else b :: name_run isspace rest
  end.

(** ** Notions used in the proofs *)

(** [P] holds of 0, 1, ..., [k - 1]. *)
Fixpoint all_below (k : nat) (P : Z -> Prop) : Prop :=
  match k with
  | O => True
  | S k' => all_below k' P /\ P (Z.of_nat k')
  end.

(** A result of the loop entered with the counters at zero, seen from a
    loop entered with [ret], [buf] and [reads]. *)
Definition shift_read (ret : Z) (buf : bytes) (reads : list data_read)
    (r : read_result) : read_result :=
  mk_read (rd_data r)
    (match rd_ret r with Ok n => Ok (ret + n) | Err e => Err e end)
    (buf ++ rd_buf r) (reads ++ rd_reads r).

(** The loop with the counters at zero and the fuel its length calls for. *)
Definition loop_run (disk : grub_disk) (data : grub_fat_data)
    (logical_cluster offset len : Z) : option read_result :=
  read_loop disk (Z.abs_nat len) data logical_cluster offset len 0 [] [].

(** The size of the next data read: what is left of the cluster, or of the
    request. *)
Definition chunk_size (data : grub_fat_data) (offset len : Z) : Z :=
  let size := Z.shiftl 1 (logical_cluster_bits data) - offset in
  if size >? len then len else size.

(** The logical cluster and the offset in it that a read starts from. *)
Definition read_cluster (d : grub_fat_data) (offset : Z) : Z :=
  u32 (Z.shiftr offset (logical_cluster_bits d)).
Definition read_offset (d : grub_fat_data) (offset : Z) : Z :=
  Z.land offset (Z.shiftl 1 (logical_cluster_bits d) - 1).

(** The read served from a cold cursor. *)
Definition cold_read (disk : grub_disk) (d : grub_fat_data) (offset len : Z)
  : option read_result :=
  loop_run disk (restart d) (read_cluster d offset) (read_offset d offset) len.

(** The bytes of two reads in order, or the first error. *)
Definition combine_bytes (a b : option (result bytes)) : option (result bytes) :=
  match a with
  | Some (Ok x) =>
      match b with
      | Some (Ok y) => Some (Ok (x ++ y))
      | other => other
      end
  | other => other
  end.

(** The volume part of a handle: everything but the current file. *)
Definition volume_of (d : grub_fat_data) : grub_fat_data :=
  {| logical_sector_bits := logical_sector_bits d;
     num_sectors := num_sectors d;
     fat_sector := fat_sector d;
     sectors_per_fat := sectors_per_fat d;
     fat_size := fat_size d;
     root_cluster := root_cluster d;
     root_sector := root_sector d;
     num_root_sectors := num_root_sectors d;
     cluster_bits := cluster_bits d;
     cluster_eof_mark := cluster_eof_mark d;
     cluster_sector := cluster_sector d;
     num_clusters := num_clusters d;
     attr := 0; file_size := 0; file_cluster := 0;
     cur_cluster_num := 0; cur_cluster := 0 |}.

(** Two handles on one volume. *)
Definition same_volume (a b : grub_fat_data) : Prop := volume_of a = volume_of b.

(** A record the label scan passes over: read in full, not the end of
    the directory, attribute byte other than [GRUB_FAT_ATTR_VOLUME_ID]. *)
Definition passed_over (r : read_result) : Prop :=
  rd_ret r = Ok GRUB_FAT_DIR_ENTRY_SIZE
  /\ byte_at (rd_buf r) 0 <> 0
  /\ dir_attr (rd_buf r) <> GRUB_FAT_ATTR_VOLUME_ID.

(** ** Notions used in the further properties *)

(** The errors of the chain walk. *)
Definition walk_error (d : grub_fat_data) (e : grub_error_t) : Prop :=
  e = disk_failure
  \/ exists v, e = invalid_cluster v
       /\ (v < 2 \/ num_clusters d <= v) /\ v < cluster_eof_mark d.

(** One of the allocations of a call of [grub_fat_find_dir] failed and
    left [e] in [grub_errno]. *)
Definition alloc_error (mem : find_dir_allocs) (e : grub_error_t) : Prop :=
  alloc_dirname mem = AllocFail (Some e)
  \/ alloc_filename mem = AllocFail (Some e)
  \/ alloc_unibuf mem = AllocFail (Some e).

(** The device sector of the first byte of cluster [c]. *)
Definition cluster_to_sector (d : grub_fat_data) (c : Z) : Z :=
  data_sector (set_cursor d 0 c).

(** The 13 code units of a long-name slot, in name order. *)
Definition ln_units (dir : bytes) : list Z :=
  ln_name1 dir ++ ln_name2 dir ++ ln_name3 dir.

(** Slots [k], [k - 1], ..., 1 of a long-name group with checksum [sum],
    in directory order. *)
Fixpoint slot_run (k : nat) (sum : Z) (ds : list bytes) {struct ds} : Prop :=
  match ds with
  | [] => k = 0%nat
  | d :: rest =>
      match k with
      | O => False
      | S k' => ln_id d = Z.of_nat k /\ ln_checksum d = sum /\ slot_run k' sum rest
      end
  end.

(** The state of the assembler is within its buffer of [0x40 * 13] code
    units. *)
Definition lfn_in_buffer (st : lfn_state) : Prop :=
  length (unibuf st) = Z.to_nat (0x40 * 13) /\ -1 <= slot st <= 63.

(** Record [i] of the directory of a handle, as a read delivers it. *)
Definition dir_record (disk : grub_disk) (data : grub_fat_data) (i : Z)
  : option read_result :=
  grub_fat_read_data disk data (GRUB_FAT_DIR_ENTRY_SIZE * i) GRUB_FAT_DIR_ENTRY_SIZE.

(** The directory of [data] starts with the records [recs]: each of them
    is read in full and has a first byte other than 0. *)
Definition holds_records (disk : grub_disk) (data : grub_fat_data)
    (recs : list bytes) : Prop :=
  forall i, (i < length recs)%nat ->
    exists r, dir_record disk data (Z.of_nat i) = Some r
      /\ rd_ret r = Ok GRUB_FAT_DIR_ENTRY_SIZE
      /\ rd_buf r = nth i recs []
      /\ byte_at (nth i recs []) 0 <> 0.

(** A read that ends the scan of a directory: it fails, comes back short,
    or delivers a record whose first byte is 0. *)
Definition ends_directory (r : read_result) : Prop :=
  rd_ret r <> Ok GRUB_FAT_DIR_ENTRY_SIZE \/ byte_at (rd_buf r) 0 = 0.

(** A record that is neither deleted nor carries an attribute bit outside
    [GRUB_FAT_ATTR_VALID]. *)
Definition listed (rec : bytes) : bool :=
  negb (byte_at rec 0 =? 0xe5)
  && (Z.land (dir_attr rec) (Z.lnot GRUB_FAT_ATTR_VALID) =? 0).

Section RecordScan.

Variable grub_isspace : Z -> bool.
Variable grub_tolower : Z -> Z.
Variable grub_utf16_to_utf8 : list Z -> bytes.

(** The body of the loop of [grub_fat_find_dir] applied to the records
    of a directory, one after the other, until it leaves the loop:
    [ScanBreak] when it left the loop at one of the records,
    [ScanContinue] when it passed them all. *)
Fixpoint scan_records (dirname : bytes) (call_hook : bool)
    (hook : bytes -> Z -> bool) (st : lfn_state) (dir : bytes)
    (recs : list bytes) (calls : list hook_call) : scan_step :=
  match recs with
  | [] => ScanContinue st dir calls
  | rec :: rest =>
      match scan_entry grub_isspace grub_tolower grub_utf16_to_utf8
              dirname call_hook hook st rec with
      | ScanContinue st' dir' c =>
          scan_records dirname call_hook hook st' dir' rest (calls ++ c)
      | ScanBreak dir' c => ScanBreak dir' (calls ++ c)
      end
  end.

(** The name and the directory flag the scanner works out for a record
    without a long name. *)
Definition short_entry (rec : bytes) : hook_call :=
  (convert_8dot3 grub_isspace grub_tolower (dir_name (name0_workaround rec)),
   dir_flag (name0_workaround rec)).

(** The records of a directory that a look-up of [dirname] passes: none
    is a long-name slot, none is named [dirname]. *)
Definition passes (dirname : bytes) (recs : list bytes) : Prop :=
  Forall (fun rec => dir_attr rec <> GRUB_FAT_ATTR_LONG_NAME
                     /\ (listed rec = true -> fst (short_entry rec) <> dirname))
    recs.

End RecordScan.

(** The handle that [grub_fat_find_dir] leaves for the record [m] of the
    directory of [data] (lines 612-616): the volume of [data], the
    attribute byte, size and first cluster of [m], an invalid cursor. *)
Definition entry_handle (data : grub_fat_data) (m : bytes) : grub_fat_data :=
  {| logical_sector_bits := logical_sector_bits data;
     num_sectors := num_sectors data;
     fat_sector := fat_sector data;
     sectors_per_fat := sectors_per_fat data;
     fat_size := fat_size data;
     root_cluster := root_cluster data;
     root_sector := root_sector data;
     num_root_sectors := num_root_sectors data;
     cluster_bits := cluster_bits data;
     cluster_eof_mark := cluster_eof_mark data;
     cluster_sector := cluster_sector data;
     num_clusters := num_clusters data;
     attr := dir_attr m;
     file_size := s32 (dir_file_size m);
     file_cluster :=
       u32 (Z.lor (Z.shiftl (dir_first_cluster_high m) 16)
              (dir_first_cluster_low m));
     cur_cluster_num := ALL_ONES;
     cur_cluster := cur_cluster data |}.

Section Resolve.

Variable grub_isspace : Z -> bool.
Variable grub_tolower : Z -> Z.
Variable disk : grub_disk.
Variable fuel : nat.

(** [m] is the first record of the directory of [data] whose name is
    [dirname], after the records [recs], none of which is a long-name
    slot. *)
Definition first_match (data : grub_fat_data) (dirname : bytes)
    (recs : list bytes) (m : bytes) : Prop :=
  Z.land (attr data) GRUB_FAT_ATTR_DIRECTORY <> 0
  /\ passes grub_isspace grub_tolower dirname recs
  /\ (S (length recs) < fuel)%nat
  /\ 32 * Z.of_nat (S (length recs)) + 32 < 2 ^ 31
  /\ holds_records disk data (recs ++ [m])
  /\ dir_attr m <> GRUB_FAT_ATTR_LONG_NAME /\ listed m = true
  /\ fst (short_entry grub_isspace grub_tolower m) = dirname.

(** Following the components of the path [p] from the directory of
    [data], each one found as the first match among records with short
    names, leads to the handle [d] with the path [q] left. *)
Inductive leads : grub_fat_data -> bytes -> grub_fat_data -> bytes -> Prop :=
| leads_nowhere data p : leads data p data p
| leads_below data p p' recs m d q :
    first_match data (snd (extract_dirname p)) recs m ->
    fst (extract_dirname p) = Some p' ->
    leads (entry_handle data m) p' d q ->
    leads data p d q.

End Resolve.

(** ** Example volumes *)

(** A device of [size] bytes: zero everywhere except for the listed
    regions (start address, contents); the first matching region wins. *)
Fixpoint image_byte (regions : list (Z * bytes)) (a : Z) : Z :=
  match regions with
  | [] => 0
  | (start, bs) :: rest =>
      if (start <=? a) && (a <? start + Z.of_nat (length bs))
      then byte_at bs (a - start)
      else image_byte rest a
  end.

Definition image (size : Z) (regions : list (Z * bytes)) : grub_disk :=
  fun a => if (0 <=? a) && (a <? size) then Some (image_byte regions a) else None.

Definition enc16 (x : Z) : bytes := [x mod 256; (x / 256) mod 256].
Definition enc32 (x : Z) : bytes :=
  [x mod 256; (x / 256) mod 256; (x / 65536) mod 256; (x / 16777216) mod 256].

(** The 52 bytes of a BPB with the given fields. *)
Definition bpb_bytes (b : grub_fat_bpb) : bytes :=
  repeat 0 11
  ++ enc16 (bpb_bytes_per_sector b) ++ [bpb_sectors_per_cluster b]
  ++ enc16 (bpb_num_reserved_sectors b) ++ [bpb_num_fats b]
  ++ enc16 (bpb_num_root_entries b) ++ enc16 (bpb_num_total_sectors_16 b)
  ++ [bpb_media b] ++ enc16 (bpb_sectors_per_fat_16 b)
  ++ repeat 0 8
  ++ enc32 (bpb_num_total_sectors_32 b) ++ enc32 (bpb_sectors_per_fat_32 b)
  ++ enc16 (bpb_extended_flags b) ++ enc16 (bpb_fs_version b)
  ++ enc32 (bpb_root_cluster b) ++ repeat 0 4.

(** A short-name directory record. *)
Definition dirent (name : bytes) (at_ cluster size : Z) : bytes :=
  firstn 11 (name ++ repeat 32 11) ++ [at_] ++ repeat 0 8
  ++ enc16 (cluster / 65536) ++ repeat 0 4 ++ enc16 (cluster mod 65536)
  ++ enc32 size.

(** A long-name slot holding 13 code units. *)
Definition lfn_slot (id sum : Z) (units : list Z) : bytes :=
  let u := units ++ repeat 0xFFFF 13 in
  [id] ++ flat_map enc16 (firstn 5 u) ++ [0x0F; 0; sum]
  ++ flat_map enc16 (firstn 6 (skipn 5 u)) ++ [0; 0]
  ++ flat_map enc16 (firstn 2 (skipn 11 u)).

(** ASCII instances of the string helpers, for the examples. *)
Definition ascii_isspace (c : Z) : bool :=
  (c =? 32) || (c =? 9) || (c =? 10) || (c =? 13).
Definition ascii_tolower (c : Z) : Z :=
  if (65 <=? c) && (c <=? 90) then c + 32 else c.
(** Code units below 128 as themselves; enough for the examples. *)
Definition ascii_utf16_to_utf8 (us : list Z) : bytes := map (fun u => u mod 256) us.

(** A handle of zeros, for the branches below that are never taken. *)
Definition no_data : grub_fat_data := mk_data 0 0 0 0 0 0 0 0 0 0 0 0 0 0 0 0 0.

(** A FAT12 volume of 16 sectors of 512 bytes: one reserved sector, one
    FAT of one sector, a root directory of 16 entries, clusters of one
    sector.  The root directory holds the file HELLO.TXT, 6 bytes long, in
    cluster 2, whose FAT entry is the end-of-chain value 0xFFF. *)
Definition floppy_bpb : grub_fat_bpb :=
  {| bpb_bytes_per_sector := 512; bpb_sectors_per_cluster := 1;
     bpb_num_reserved_sectors := 1; bpb_num_fats := 1;
     bpb_num_root_entries := 16; bpb_num_total_sectors_16 := 16;
     bpb_media := 0xF8; bpb_sectors_per_fat_16 := 1;
     bpb_num_total_sectors_32 := 0; bpb_sectors_per_fat_32 := 0;
     bpb_extended_flags := 0; bpb_fs_version := 0; bpb_root_cluster := 0 |}.

Definition floppy : grub_disk :=
  image (16 * 512)
    [ (0, bpb_bytes floppy_bpb);
      (512, [0xF8; 0xFF; 0xFF; 0xFF; 0x0F]);
      (1024, dirent (bytes_of_string "HELLO   TXT") 0x20 2 6);
      (1536, bytes_of_string "hello") ;
      (1541, [10; 1; 2; 3; 4; 5; 6; 7; 8; 9; 10]) ].

(** The handle [grub_fat_mount] returns for [floppy]. *)
Definition floppy_root : grub_fat_data :=
  Eval vm_compute in
    match grub_fat_mount (Some floppy) with
    | Ok data => data
    | Err _ => no_data
    end.

(** The handle of /hello.txt on [floppy]. *)
Definition hello_file : grub_fat_data :=
  Eval vm_compute in
    match grub_fat_open ascii_isspace ascii_tolower ascii_utf16_to_utf8 floppy 17
            (bytes_of_string "/hello.txt") with
    | Some (Ok d) => d
    | _ => no_data
    end.

(** The same volume with a second directory entry, EMPTY.TXT: a file of
    0 bytes, whose first cluster is recorded as 0. *)
Definition floppy2 : grub_disk :=
  image (16 * 512)
    [ (0, bpb_bytes floppy_bpb);
      (512, [0xF8; 0xFF; 0xFF; 0xFF; 0x0F]);
      (1024, dirent (bytes_of_string "HELLO   TXT") 0x20 2 6);
      (1056, dirent (bytes_of_string "EMPTY   TXT") 0x20 0 0);
      (1536, bytes_of_string "hello") ;
      (1541, [10]) ].

(** The handle of /empty.txt on [floppy2]. *)
Definition empty_file : grub_fat_data :=
  Eval vm_compute in
    match grub_fat_open ascii_isspace ascii_tolower ascii_utf16_to_utf8 floppy2 17
            (bytes_of_string "/empty.txt") with
    | Some (Ok d) => d
    | _ => no_data
    end.

(** A volume with [sectors_per_fat_16 = 0] and 14 clusters: 16 sectors,
    one reserved sector, one FAT of one sector (32-bit field), no fixed
    root directory, root cluster 2. *)
Definition small32_bpb : grub_fat_bpb :=
  {| bpb_bytes_per_sector := 512; bpb_sectors_per_cluster := 1;
     bpb_num_reserved_sectors := 1; bpb_num_fats := 1;
     bpb_num_root_entries := 0; bpb_num_total_sectors_16 := 16;
     bpb_media := 0xF8; bpb_sectors_per_fat_16 := 0;
     bpb_num_total_sectors_32 := 0; bpb_sectors_per_fat_32 := 1;
     bpb_extended_flags := 0; bpb_fs_version := 0; bpb_root_cluster := 2 |}.

Definition small32 : grub_disk :=
  image (16 * 512)
    [ (0, bpb_bytes small32_bpb);
      (512, enc32 0x0FFFFFF8 ++ enc32 0x0FFFFFFF ++ enc32 0x0FFFFFFF) ].

(** The handle [grub_fat_mount] returns for [small32]. *)
Definition small32_root : grub_fat_data :=
  Eval vm_compute in
    match grub_fat_mount (Some small32) with
    | Ok data => data
    | Err _ => no_data
    end.

(** The volume of 16 sectors with a root directory that starts with a
    deleted entry carrying the volume-label attribute, followed by a live
    volume label. *)
Definition labelled : grub_disk :=
  image (16 * 512)
    [ (0, bpb_bytes floppy_bpb);
      (512, [0xF8; 0xFF; 0xFF; 0xFF; 0x0F]);
      (1024, dirent (bytes_of_string "HELLO   TXT") 0x20 2 6);
      (1056, dirent (0xE5 :: bytes_of_string "LDLABEL   ") 0x08 0 0);
      (1088, dirent (bytes_of_string "MY VOLUME  ") 0x08 0 0) ].

(** The same volume with a live volume label, "MY VOLUME  ", as the second
    entry of the root directory. *)
Definition named : grub_disk :=
  image (16 * 512)
    [ (0, bpb_bytes floppy_bpb);
      (512, [0xF8; 0xFF; 0xFF; 0xFF; 0x0F]);
      (1024, dirent (bytes_of_string "HELLO   TXT") 0x20 2 6);
      (1056, dirent (bytes_of_string "MY VOLUME  ") 0x08 0 0) ].

(** The handle [grub_fat_mount] returns for [named]. *)
Definition named_root : grub_fat_data :=
  Eval vm_compute in
    match grub_fat_mount (Some named) with
    | Ok data => data
    | Err _ => no_data
    end.

(** The volume [floppy] with a file BIG.BIN of 1024 bytes in cluster 2,
    whose FAT entry holds 0 instead of the next cluster. *)
Definition corrupt : grub_disk :=
  image (16 * 512)
    [ (0, bpb_bytes floppy_bpb);
      (512, [0xF8; 0xFF; 0xFF; 0x00; 0x00]);
      (1024, dirent (bytes_of_string "BIG     BIN") 0x20 2 1024) ].

(** The handle of /big.bin on [corrupt]. *)
Definition big_file : grub_fat_data :=
  Eval vm_compute in
    match grub_fat_open ascii_isspace ascii_tolower ascii_utf16_to_utf8 corrupt 17
            (bytes_of_string "/big.bin") with
    | Some (Ok d) => d
    | _ => no_data
    end.

(** A boot sector whose [bytes_per_sector] is 513. *)
Definition odd_sector : grub_disk :=
  image (16 * 512)
    [ (0, bpb_bytes
            {| bpb_bytes_per_sector := 513; bpb_sectors_per_cluster := 1;
               bpb_num_reserved_sectors := 1; bpb_num_fats := 1;
               bpb_num_root_entries := 16; bpb_num_total_sectors_16 := 16;
               bpb_media := 0xF8; bpb_sectors_per_fat_16 := 1;
               bpb_num_total_sectors_32 := 0; bpb_sectors_per_fat_32 := 0;
               bpb_extended_flags := 0; bpb_fs_version := 0;
               bpb_root_cluster := 0 |});
      (512, [0xF8; 0xFF; 0xFF]) ].

(** The short name and its checksum for the long name
    "A Long File Name.txt". *)
Definition long_short : bytes := bytes_of_string "ALONGF~1TXT".
Definition long_sum : Z := Eval vm_compute in sum8dot3 long_short.

(** A FAT32 volume whose root directory (cluster 2) holds one file with
    the long name "A Long File Name.txt" in two slots. *)
Definition long32 : grub_disk :=
  image (16 * 512)
    [ (0, bpb_bytes small32_bpb);
      (512, enc32 0x0FFFFFF8 ++ enc32 0x0FFFFFFF ++ enc32 0x0FFFFFFF
            ++ enc32 0x0FFFFFFF);
      (1024, lfn_slot 0x42 long_sum (bytes_of_string "ame.txt" ++ [0]));
      (1056, lfn_slot 0x01 long_sum (bytes_of_string "A Long File N"));
      (1088, dirent long_short 0x20 3 6);
      (1536, bytes_of_string "hello") ].

(** The handle [grub_fat_mount] returns for [labelled]. *)
Definition labelled_root : grub_fat_data :=
  Eval vm_compute in
    match grub_fat_mount (Some labelled) with
    | Ok data => data
    | Err _ => no_data
    end.

(** The directory record of HELLO.TXT. *)
Definition hello_entry : bytes := dirent (bytes_of_string "HELLO   TXT") 0x20 2 6.

(** The checksum of the short name HELLO.TXT. *)
Definition hello_sum : Z := Eval vm_compute in sum8dot3 (dir_name hello_entry).

(** The long-name state after one slot for HELLO.TXT that holds the name
    "Ab". *)
Definition hello_lfn : lfn_state :=
  long_name_entry lfn_initial (lfn_slot 0x41 hello_sum [65; 98; 0]).

(** The long-name state after the first of the two slots of
    "A Long File Name.txt". *)
Definition long_pending : lfn_state :=
  long_name_entry lfn_initial
    (lfn_slot 0x42 long_sum (bytes_of_string "ame.txt" ++ [0])).

(** A record with first byte 0xE5 and the long-name attribute, and a
    short-name record whose base has a space inside. *)
Definition deleted_slot : bytes := lfn_slot 0xE5 0 [].
Definition spaced_entry : bytes := dirent (bytes_of_string "A B     TXT") 0x20 2 6.
Definition deleted_entry : bytes := dirent (0xE5 :: bytes_of_string "ELLO   TXT") 0x20 2 6.

(** The device [floppy] with its data area and root directory wiped. *)
Definition floppy_blank : grub_disk :=
  image (16 * 512)
    [ (0, bpb_bytes floppy_bpb);
      (512, [0xF8; 0xFF; 0xFF; 0xFF; 0x0F]) ].

(** The volume [floppy] with a directory SUB in cluster 3 that holds the
    entry INNER.TXT. *)
Definition tree : grub_disk :=
  image (16 * 512)
    [ (0, bpb_bytes floppy_bpb);
      (512, [0xF8; 0xFF; 0xFF; 0xFF; 0xFF; 0xFF]);
      (1024, dirent (bytes_of_string "HELLO   TXT") 0x20 2 6);
      (1056, dirent (bytes_of_string "SUB") 0x10 3 0);
      (1536, bytes_of_string "hello");
      (1541, [10]);
      (2048, dirent (bytes_of_string "INNER   TXT") 0x20 2 6) ].

(** * Properties *)

(** ** The model at work *)

Example fat_log2_512 : fat_log2 512 = 9.
Proof. reflexivity. Qed.

Example fat_log2_513 : fat_log2 513 = -1.
Proof. reflexivity. Qed.

Example mount_floppy : grub_fat_mount (Some floppy) = Ok floppy_root.
Proof. vm_compute. reflexivity. Qed.

Example mount_odd_sector : grub_fat_mount (Some odd_sector) = Err not_a_fat.
Proof. vm_compute. reflexivity. Qed.

Example open_hello :
  grub_fat_open ascii_isspace ascii_tolower ascii_utf16_to_utf8 floppy 17
    (bytes_of_string "/hello.txt") = Some (Ok hello_file).
Proof. vm_compute. reflexivity. Qed.

Example read_hello :
  read_out (grub_fat_read floppy hello_file 0 6)
  = Some (Ok 6, bytes_of_string "hello" ++ [10]).
Proof. vm_compute. reflexivity. Qed.

Example open_missing :
  grub_fat_open ascii_isspace ascii_tolower ascii_utf16_to_utf8 floppy 17
    (bytes_of_string "/nothere") = Some (Err file_not_found).
Proof. vm_compute. reflexivity. Qed.

Example open_through_file :
  grub_fat_open ascii_isspace ascii_tolower ascii_utf16_to_utf8 floppy 17
    (bytes_of_string "/hello.txt/x") = Some (Err not_a_directory).
Proof. vm_compute. reflexivity. Qed.

Example list_floppy :
  grub_fat_dir ascii_isspace ascii_tolower ascii_utf16_to_utf8 floppy 17
    (bytes_of_string "/") (Some no_hook)
  = Some (None, [(bytes_of_string "hello.txt", 0)]).
Proof. vm_compute. reflexivity. Qed.

Example list_long32 :
  grub_fat_dir ascii_isspace ascii_tolower ascii_utf16_to_utf8 long32 17
    (bytes_of_string "/") (Some no_hook)
  = Some (None, [(bytes_of_string "A Long File Name.txt", 0)]).
Proof. vm_compute. reflexivity. Qed.

Example read_corrupt :
  read_out (grub_fat_read corrupt big_file 0 1024)
  = Some (Err (invalid_cluster 0), repeat 0 512).
Proof. vm_compute. reflexivity. Qed.

Example label_floppy : grub_fat_label floppy 17 = Some (Ok None).
Proof. vm_compute. reflexivity. Qed.

(** ** Words and bytes *)

Lemma u8_range x : 0 <= u8 x < 256.
Proof. unfold u8. apply Z.mod_pos_bound. reflexivity. Qed.


Lemma u32_range x : 0 <= u32 x < 2 ^ 32.
Proof. unfold u32. apply Z.mod_pos_bound. reflexivity. Qed.

Lemma u32_small x : 0 <= x < 2 ^ 32 -> u32 x = x.
Proof. intros. unfold u32. apply Z.mod_small. assumption. Qed.

Lemma disk_bytes_all_bytes d n : forall a bs,
  disk_bytes d a n = Some bs -> all_bytes bs.
Proof.
  induction n as [|n IH]; simpl; intros a bs H.
  - injection H as <-. constructor.
  - destruct (d a) as [b|]; [|discriminate].
    destruct (disk_bytes d (a + 1) n) as [bs'|] eqn:E; [|discriminate].
    injection H as <-. constructor; [apply u8_range | eapply IH; eassumption].
Qed.


Lemma byte_at_range bs i : all_bytes bs -> 0 <= byte_at bs i < 256.
Proof.
  intros H. unfold byte_at.
  destruct (nth_in_or_default (Z.to_nat i) bs 0) as [Hin | ->]; [|lia].
  unfold all_bytes in H. rewrite Forall_forall in H. apply H. assumption.
Qed.

Lemma le16_range bs i : all_bytes bs -> 0 <= le16 bs i < 65536.
Proof.
  intros H. unfold le16.
  pose proof (byte_at_range bs i H). pose proof (byte_at_range bs (i + 1) H). lia.
Qed.

(** ** [fat_log2] *)

Lemma fat_log2_loop_spec p : forall i,
  0 <= i ->
  fat_log2_loop p i = -1
  \/ (i <= fat_log2_loop p i /\ Zpos p = 2 ^ (fat_log2_loop p i - i)).
Proof.
  induction p as [p IH | p IH |]; intros i Hi; simpl.
  - left. reflexivity.
  - destruct (IH (i + 1)) as [E | [Hle E]]; [lia | left; assumption |].
    right. split; [lia|].
    replace (fat_log2_loop p (i + 1) - i) with (Z.succ (fat_log2_loop p (i + 1) - (i + 1))) by lia.
    rewrite Z.pow_succ_r by lia. rewrite <- E. reflexivity.
  - right. split; [lia|]. rewrite Z.sub_diag. reflexivity.
Qed.

Lemma fat_log2_spec x :
  fat_log2 x = -1 \/ (0 <= fat_log2 x /\ x = 2 ^ fat_log2 x).
Proof.
  destruct x as [|p|p]; simpl; auto.
  destruct (fat_log2_loop_spec p 0) as [E | [Hle E]]; [lia | auto |].
  right. split; [assumption|]. rewrite Z.sub_0_r in E. assumption.
Qed.

Lemma fat_log2_loop_pow2 (n : nat) : forall i,
  fat_log2_loop (Pos.pow 2 (Pos.of_succ_nat n)) i = i + Z.of_nat (S n).
Proof.
  induction n as [|n IH]; intros i.
  - simpl. lia.
  - change (Pos.of_succ_nat (S n)) with (Pos.succ (Pos.of_succ_nat n)).
    rewrite Pos.pow_succ_r. simpl fat_log2_loop. rewrite IH. lia.
Qed.

Lemma fat_log2_pow2 k : 0 <= k -> fat_log2 (2 ^ k) = k.
Proof.
  intros Hk. destruct (Z.eq_dec k 0) as [-> | Hne]; [reflexivity|].
  assert (exists n, k = Z.of_nat (S n)) as [n ->].
  { exists (Z.to_nat (k - 1)). lia. }
  replace (2 ^ Z.of_nat (S n)) with (Zpos (Pos.pow 2 (Pos.of_succ_nat n))).
  - unfold fat_log2. rewrite fat_log2_loop_pow2. lia.
  - rewrite Pos2Z.inj_pow. f_equal; lia.
Qed.

Lemma fat_log2_not_pow2 x : ~ is_pow2 x -> fat_log2 x = -1.
Proof.
  intros H. destruct (fat_log2_spec x) as [E | [Hle E]]; [assumption|].
  exfalso. apply H. exists (fat_log2 x). auto.
Qed.

Lemma fat_log2_small x : x < 512 -> fat_log2 x < 9.
Proof.
  intros H. destruct (fat_log2_spec x) as [E | [Hle E]]; [lia|].
  destruct (Z_lt_le_dec (fat_log2 x) 9) as [|Hge]; [assumption|exfalso].
  assert (2 ^ 9 <= 2 ^ fat_log2 x) by (apply Z.pow_le_mono_r; lia).
  change (2 ^ 9) with 512 in *. lia.
Qed.

(** ** [grub_fat_mount] *)

(** Case analysis on a test of [H] that has no test inside it. *)
Ltac case_guard H :=
  let T := type of H in
  match T with
  | context [match ?scrutinee with _ => _ end] =>
      tryif (match scrutinee with
             | context [match _ with _ => _ end] => idtac
             end)
      then fail
      else destruct scrutinee eqn:?
  end.

(** A test of [H] whose first branch contradicts [H]. *)
Ltac split_if H :=
  match type of H with
  | (if ?c then _ else _) = _ => destruct c eqn:?; [discriminate H|]
  end.

Lemma mount_geometry_inv bpb g :
  mount_geometry bpb = Some g ->
  9 <= fat_log2 (bpb_bytes_per_sector bpb)
  /\ 0 <= fat_log2 (bpb_sectors_per_cluster bpb)
  /\ g_logical_sector_bits g = fat_log2 (bpb_bytes_per_sector bpb) - 9
  /\ g_cluster_bits g
     = fat_log2 (bpb_sectors_per_cluster bpb) + (fat_log2 (bpb_bytes_per_sector bpb) - 9)
  /\ g_sectors_per_fat g = u32 (Z.shiftl (bpb_fat_sectors bpb) (g_logical_sector_bits g))
  /\ g_sectors_per_fat g <> 0
  /\ bpb_num_fats bpb <> 0.
Proof.
  unfold mount_geometry, bpb_fat_sectors, GRUB_DISK_SECTOR_BITS. cbv zeta. intros H.
  repeat split_if H.
  injection H as <-. simpl. repeat split; lia.
Qed.

Lemma mount_geometry_fails bpb :
  (~ is_pow2 (bpb_bytes_per_sector bpb) \/ bpb_bytes_per_sector bpb < 512
   \/ ~ is_pow2 (bpb_sectors_per_cluster bpb) \/ bpb_num_fats bpb = 0
   \/ bpb_fat_sectors bpb = 0) ->
  mount_geometry bpb = None.
Proof.
  intros H. destruct (mount_geometry bpb) as [g|] eqn:E; [exfalso|reflexivity].
  destruct (mount_geometry_inv _ _ E) as (H1 & H2 & H3 & H4 & H5 & H6 & H7).
  destruct H as [H | [H | [H | [H | H]]]].
  - apply fat_log2_not_pow2 in H. lia.
  - apply fat_log2_small in H. lia.
  - apply fat_log2_not_pow2 in H. lia.
  - contradiction.
  - rewrite H in H5. rewrite Z.shiftl_0_l in H5. contradiction.
Qed.

Lemma mount_inv disk data :
  grub_fat_mount disk = Ok data ->
  exists d bpb g,
    disk = Some d /\ mount_bpb d = Some bpb /\ mount_geometry bpb = Some g
    /\ 2 < g_num_clusters g
    /\ logical_sector_bits data = g_logical_sector_bits g
    /\ cluster_bits data = g_cluster_bits g
    /\ sectors_per_fat data = g_sectors_per_fat g
    /\ num_clusters data = g_num_clusters g
    /\ attr data = GRUB_FAT_ATTR_DIRECTORY
    /\ cur_cluster_num data = ALL_ONES
    /\ file_cluster data = root_cluster data
    /\ ((bpb_sectors_per_fat_16 bpb = 0 /\ fat_size data = 32
         /\ cluster_eof_mark data = 0x0ffffff8
         /\ root_cluster data = bpb_root_cluster bpb)
        \/ (bpb_sectors_per_fat_16 bpb <> 0 /\ g_num_clusters g <= 4085 + 2
            /\ fat_size data = 12 /\ cluster_eof_mark data = 0x0ff8
            /\ root_cluster data = ALL_ONES)
        \/ (bpb_sectors_per_fat_16 bpb <> 0 /\ 4085 + 2 < g_num_clusters g
            /\ fat_size data = 16 /\ cluster_eof_mark data = 0xfff8
            /\ root_cluster data = ALL_ONES)).
Proof.
  unfold grub_fat_mount. intros H.
  destruct disk as [d|]; [|discriminate].
  destruct (grub_disk_read d 0 0 SIZEOF_BPB) as [raw|] eqn:Eraw; [|discriminate].
  remember (bpb_of_bytes raw) as bpb eqn:Ebpb.
  destruct (mount_geometry bpb) as [g|] eqn:Eg; [|discriminate].
  exists d, bpb, g. unfold mount_bpb. rewrite Eraw, Ebpb.
  do 2 (split; [reflexivity|]). rewrite <- Ebpb. split; [assumption|].
  repeat (case_guard H; try discriminate H);
    injection H as <-; simpl;
    repeat match goal with
    | E : Some _ = Some _ |- _ => injection E as <- <- <- <-
    | E : (_, _) = (_, _) |- _ => injection E as <- <-
    end;
    (repeat split; try reflexivity; try lia);
    first [ left; repeat split; (reflexivity || lia)
          | right; left; repeat split; (reflexivity || lia)
          | right; right; repeat split; (reflexivity || lia) ].
Qed.

Lemma mount_error disk e : grub_fat_mount disk = Err e -> e = not_a_fat.
Proof.
  unfold grub_fat_mount. intros H.
  repeat match type of H with
  | Err _ = Err _ => injection H as <-; reflexivity
  | Ok _ = Err _ => discriminate H
  | match ?x with _ => _ end = _ => destruct x
  | (let '(_, _) := ?x in _) = _ => destruct x
  end.
Qed.

Lemma mount_bpb_ranges d bpb :
  mount_bpb d = Some bpb ->
  0 <= bpb_bytes_per_sector bpb < 65536
  /\ 0 <= bpb_sectors_per_cluster bpb < 256
  /\ 0 <= bpb_num_fats bpb < 256.
Proof.
  unfold mount_bpb, grub_disk_read. intros H.
  destruct (disk_bytes d _ _) as [raw|] eqn:E; [|discriminate].
  injection H as <-. apply disk_bytes_all_bytes in E. simpl.
  split; [apply le16_range; assumption|].
  split; apply byte_at_range; assumption.
Qed.

Lemma pow2_ge_512 k : 9 <= k -> 512 <= 2 ^ k.
Proof.
  intros H. change 512 with (2 ^ 9). apply Z.pow_le_mono_r; lia.
Qed.

(** Claim C5.  Every handle returned by a successful mount comes from a
    BPB whose [bytes_per_sector] is a power of two not below 512, whose
    [sectors_per_cluster] is a power of two and whose [num_fats] is at
    least 1, and has [sectors_per_fat > 0] and [num_clusters > 2]; a
    failed mount reports [GRUB_ERR_BAD_FS], "not a fat filesystem"; and a
    BPB that violates one of the five conditions makes the mount fail in
    that way. *)
Theorem mount_checks_bpb (disk : option grub_disk) :
  (forall data, grub_fat_mount disk = Ok data ->
     exists d bpb, disk = Some d /\ mount_bpb d = Some bpb
       /\ is_pow2 (bpb_bytes_per_sector bpb)
       /\ 512 <= bpb_bytes_per_sector bpb
       /\ is_pow2 (bpb_sectors_per_cluster bpb)
       /\ 1 <= bpb_num_fats bpb
       /\ 0 < sectors_per_fat data
       /\ 2 < num_clusters data)
  /\ (forall e, grub_fat_mount disk = Err e ->
        err_code e = GRUB_ERR_BAD_FS /\ err_fmt e = "not a fat filesystem")
  /\ (forall d bpb, disk = Some d -> mount_bpb d = Some bpb ->
        (~ is_pow2 (bpb_bytes_per_sector bpb)
         \/ bpb_bytes_per_sector bpb < 512
         \/ ~ is_pow2 (bpb_sectors_per_cluster bpb)
         \/ bpb_num_fats bpb < 1
         \/ bpb_fat_sectors bpb = 0
         \/ (forall g, mount_geometry bpb = Some g ->
               g_sectors_per_fat g <= 0 \/ g_num_clusters g <= 2)) ->
        grub_fat_mount disk = Err not_a_fat).
Proof.
  split; [|split].
  - intros data H.
    destruct (mount_inv _ _ H)
      as (d & bpb & g & Hd & Hb & Hg & Hnc & _ & _ & Hspf & Hn & _).
    destruct (mount_geometry_inv _ _ Hg) as (H1 & H2 & H3 & H4 & H5 & H6 & H7).
    destruct (mount_bpb_ranges _ _ Hb) as (R1 & R2 & R3).
    exists d, bpb. do 2 (split; [assumption|]).
    destruct (fat_log2_spec (bpb_bytes_per_sector bpb)) as [E | [_ E]]; [lia|].
    destruct (fat_log2_spec (bpb_sectors_per_cluster bpb)) as [E' | [_ E']]; [lia|].
    split; [exists (fat_log2 (bpb_bytes_per_sector bpb)); split; [lia | assumption]|].
    split; [rewrite E; apply pow2_ge_512; assumption|].
    split; [exists (fat_log2 (bpb_sectors_per_cluster bpb)); split; assumption|].
    split; [lia|].
    split; [|lia].
    rewrite Hspf. pose proof (u32_range (Z.shiftl (bpb_fat_sectors bpb) (g_logical_sector_bits g))).
    lia.
  - intros e H. apply mount_error in H. subst e. split; reflexivity.
  - intros d bpb -> Hb Hbad.
    destruct (grub_fat_mount (Some d)) as [data|e] eqn:E.
    + exfalso.
      destruct (mount_inv _ _ E)
        as (d' & bpb' & g & Hd & Hb' & Hg & Hnc & _ & _ & Hspf & Hn & _).
      injection Hd as <-. rewrite Hb in Hb'. injection Hb' as <-.
      destruct (mount_geometry_inv _ _ Hg) as (H1 & H2 & H3 & H4 & H5 & H6 & H7).
      destruct (mount_bpb_ranges _ _ Hb) as (R1 & R2 & R3).
      destruct Hbad as [Hbad | [Hbad | [Hbad | [Hbad | [Hbad | Hbad]]]]].
      * rewrite mount_geometry_fails in Hg by auto. discriminate.
      * rewrite mount_geometry_fails in Hg by auto. discriminate.
      * rewrite mount_geometry_fails in Hg by auto. discriminate.
      * lia.
      * rewrite mount_geometry_fails in Hg by auto 6. discriminate.
      * destruct (Hbad g Hg) as [Hz | Hz]; [|lia].
        pose proof (u32_range (Z.shiftl (bpb_fat_sectors bpb) (g_logical_sector_bits g))).
        lia.
    + f_equal. apply mount_error with (disk := Some d). assumption.
Qed.

(** Claim C5 at the volume [floppy]. *)
Lemma mount_checks_bpb_witness :
  grub_fat_mount (Some floppy) = Ok floppy_root
  /\ 0 < sectors_per_fat floppy_root /\ 2 < num_clusters floppy_root.
Proof.
  split; [vm_compute; reflexivity|].
  destruct (proj1 (mount_checks_bpb (Some floppy)) floppy_root)
    as (d & bpb & _ & _ & _ & _ & _ & _ & H1 & H2).
  - vm_compute. reflexivity.
  - split; assumption.
Defined.

(** Claim C1 fails as stated: [small32] is accepted by the mount with
    [num_clusters = 14 <= 4085 + 2], and it is mounted as FAT32, with the
    end-of-chain mark 0x0ffffff8, not as FAT12. *)
Lemma fat_variant_by_count_only_fails :
  grub_fat_mount (Some small32) = Ok small32_root
  /\ num_clusters small32_root <= 4085 + 2
  /\ fat_size small32_root = 32
  /\ cluster_eof_mark small32_root = 0x0ffffff8.
Proof. vm_compute. repeat split; discriminate. Qed.

(** Claim C1, amended.  For every BPB accepted by the mount the variant
    is decided by [sectors_per_fat_16] first and by the cluster count
    second: FAT32 (end-of-chain mark 0x0ffffff8) if [sectors_per_fat_16]
    is 0; if not, FAT12 (0x0ff8) when [num_clusters <= 4085 + 2] and
    FAT16 (0xfff8) otherwise. *)
Theorem mount_fat_variant disk data :
  grub_fat_mount disk = Ok data ->
  exists d bpb, disk = Some d /\ mount_bpb d = Some bpb
    /\ if bpb_sectors_per_fat_16 bpb =? 0
       then fat_size data = 32 /\ cluster_eof_mark data = 0x0ffffff8
       else if num_clusters data <=? 4085 + 2
            then fat_size data = 12 /\ cluster_eof_mark data = 0x0ff8
            else fat_size data = 16 /\ cluster_eof_mark data = 0xfff8.
Proof.
  intros H.
  destruct (mount_inv _ _ H)
    as (d & bpb & g & Hd & Hb & Hg & Hnc & _ & _ & _ & Hn & _ & _ & _ & Hv).
  exists d, bpb. do 2 (split; [assumption|]). rewrite Hn.
  destruct Hv as [(E & F & M & _) | [(E & C & F & M & _) | (E & C & F & M & _)]].
  - rewrite E. simpl. auto.
  - destruct (bpb_sectors_per_fat_16 bpb =? 0) eqn:E0; [lia|].
    destruct (g_num_clusters g <=? 4085 + 2) eqn:E1; [auto|lia].
  - destruct (bpb_sectors_per_fat_16 bpb =? 0) eqn:E0; [lia|].
    destruct (g_num_clusters g <=? 4085 + 2) eqn:E1; [lia|auto].
Qed.

(** Claim C1, amended, at the volume [floppy]: a FAT12 volume. *)
Lemma mount_fat_variant_witness :
  fat_size floppy_root = 12 /\ cluster_eof_mark floppy_root = 0x0ff8.
Proof.
  destruct (mount_fat_variant (Some floppy) floppy_root) as (d & bpb & Hd & Hb & H).
  - vm_compute. reflexivity.
  - injection Hd as <-. vm_compute in Hb. injection Hb as <-.
    exact H.
Defined.

(** ** The cursor and the chain walk *)



Lemma same_file_refl d : same_file d d.
Proof. reflexivity. Qed.

Lemma same_file_sym a b : same_file a b -> same_file b a.
Proof. unfold same_file. intros H. symmetry. assumption. Qed.

Lemma same_file_trans a b c : same_file a b -> same_file b c -> same_file a c.
Proof. unfold same_file. intros H1 H2. congruence. Qed.


Lemma same_file_eq a b :
  same_file a b ->
  b = set_cursor a (cur_cluster_num b) (cur_cluster b).
Proof.
  unfold same_file. intros H. destruct a, b. simpl in *.
  injection H as -> -> -> -> -> -> -> -> -> -> -> -> -> -> ->. reflexivity.
Qed.

Lemma same_file_restart a b : same_file a b -> restart a = restart b.
Proof.
  intros H. rewrite (same_file_eq _ _ H). reflexivity.
Qed.

(** What a handle keeps when only the cursor changes. *)
Lemma same_file_fields a b :
  same_file a b ->
  file_cluster b = file_cluster a /\ num_clusters b = num_clusters a
  /\ cluster_eof_mark b = cluster_eof_mark a /\ fat_size b = fat_size a
  /\ logical_cluster_bits b = logical_cluster_bits a
  /\ num_root_sectors b = num_root_sectors a /\ root_sector b = root_sector a
  /\ fat_sector b = fat_sector a.
Proof.
  intros H. rewrite (same_file_eq _ _ H). repeat split.
Qed.

Lemma find_next_cluster_add disk n m : forall d,
  find_next_cluster disk (n + m) d
  = match find_next_cluster disk n d with
    | WalkReached d' => find_next_cluster disk m d'
    | r => r
    end.
Proof.
  induction n as [|n IH]; intros d; simpl; [reflexivity|].
  destruct (fat_next disk d) as [v|]; [|reflexivity].
  destruct (v >=? cluster_eof_mark d); [reflexivity|].
  destruct ((v <? 2) || (v >=? num_clusters d)); [reflexivity|].
  apply IH.
Qed.

Lemma find_next_cluster_same_file disk n : forall d,
  same_file d (walk_data (find_next_cluster disk n d)).
Proof.
  induction n as [|n IH]; intros d; simpl; [reflexivity|].
  destruct (fat_next disk d) as [v|]; [|reflexivity].
  destruct (v >=? cluster_eof_mark d); [reflexivity|].
  destruct ((v <? 2) || (v >=? num_clusters d)); [reflexivity|].
  eapply same_file_trans; [|apply IH]. reflexivity.
Qed.

Lemma find_next_cluster_reached_num disk n : forall d d',
  find_next_cluster disk n d = WalkReached d' ->
  0 <= cur_cluster_num d -> cur_cluster_num d + Z.of_nat n < 2 ^ 32 ->
  cur_cluster_num d' = cur_cluster_num d + Z.of_nat n.
Proof.
  induction n as [|n IH]; intros d d' H H0 Hb.
  - simpl in H. injection H as <-. simpl. lia.
  - simpl in H.
    destruct (fat_next disk d) as [v|]; [|discriminate].
    destruct (v >=? cluster_eof_mark d); [discriminate|].
    destruct ((v <? 2) || (v >=? num_clusters d)); [discriminate|].
    apply IH in H; simpl cur_cluster_num in *.
    + rewrite H. rewrite u32_small by lia. lia.
    + apply u32_range.
    + rewrite u32_small by lia. lia.
Qed.

(** A walk that does not arrive stopped at some earlier turn, on a
    handle from which the very next turn stops in the same way. *)
Lemma find_next_cluster_stops disk n : forall d w,
  find_next_cluster disk n d = w ->
  (forall d', w <> WalkReached d') ->
  exists k, (k < n)%nat
    /\ find_next_cluster disk k d = WalkReached (walk_data w)
    /\ find_next_cluster disk 1 (walk_data w) = w.
Proof.
  induction n as [|n IH]; intros d w H Hw.
  - simpl in H. subst w. exfalso. eapply Hw. reflexivity.
  - simpl in H.
    destruct (fat_next disk d) as [v|] eqn:Ev.
    + destruct (v >=? cluster_eof_mark d) eqn:E1.
      * subst w. exists 0%nat. simpl. rewrite Ev, E1. repeat split. lia.
      * destruct ((v <? 2) || (v >=? num_clusters d)) eqn:E2.
        -- subst w. exists 0%nat. simpl. rewrite Ev, E1, E2. repeat split. lia.
        -- destruct (IH _ _ H Hw) as (k & Hk & H1 & H2).
           exists (S k). split; [lia|]. split; [|assumption].
           simpl. rewrite Ev, E1, E2. assumption.
    + subst w. exists 0%nat. simpl. rewrite Ev. repeat split. lia.
Qed.

Lemma find_next_cluster_stuck disk d w m :
  find_next_cluster disk 1 d = w ->
  (forall d', w <> WalkReached d') ->
  find_next_cluster disk (S m) d = w.
Proof.
  intros H Hw. change (S m) with (1 + m)%nat. rewrite find_next_cluster_add.
  rewrite H. destruct w; try reflexivity. exfalso. eapply Hw. reflexivity.
Qed.

(** Every cluster a walk moves the cursor to was accepted by the range
    test. *)
Lemma find_next_cluster_checked disk n : forall d,
  let d' := walk_data (find_next_cluster disk n d) in
  d' = d \/ 2 <= cur_cluster d' < num_clusters d'.
Proof.
  induction n as [|n IH]; intros d; simpl; [left; reflexivity|].
  destruct (fat_next disk d) as [v|]; [|left; reflexivity].
  destruct (v >=? cluster_eof_mark d) eqn:E1; [left; reflexivity|].
  destruct ((v <? 2) || (v >=? num_clusters d)) eqn:E2; [left; reflexivity|].
  right.
  destruct (IH (set_cursor d (u32 (cur_cluster_num d + 1)) v)) as [-> | H].
  - simpl. lia.
  - assumption.
Qed.

Lemma cursor_ok_restart disk d : cursor_ok disk (restart d).
Proof.
  right. simpl. split; [lia|]. reflexivity.
Qed.

Lemma cursor_ok_walk disk n d :
  cursor_ok disk d -> 0 <= cur_cluster_num d ->
  cur_cluster_num d + Z.of_nat n < 2 ^ 31 ->
  cursor_ok disk (walk_data (find_next_cluster disk n d)).
Proof.
  intros Hok H0 Hb.
  destruct Hok as [Hinv | (Hr & Hw)]; [unfold ALL_ONES in Hinv; lia|].
  assert (Hgen : forall k d', (k <= n)%nat ->
            find_next_cluster disk k d = WalkReached d' -> cursor_ok disk d').
  { intros k d' Hk Hk'. right.
    pose proof (find_next_cluster_reached_num _ _ _ _ Hk' H0 ltac:(lia)) as Hn.
    split; [lia|].
    pose proof (find_next_cluster_same_file disk k d) as Hs. rewrite Hk' in Hs.
    simpl in Hs. rewrite <- (same_file_restart _ _ Hs).
    rewrite Hn. replace (Z.to_nat (cur_cluster_num d + Z.of_nat k))
      with (Z.to_nat (cur_cluster_num d) + k)%nat by lia.
    rewrite find_next_cluster_add, Hw. assumption. }
  destruct (find_next_cluster disk n d) as [d'|d'|d' e] eqn:E; simpl.
  - eapply Hgen; [|eassumption]. lia.
  - destruct (find_next_cluster_stops _ _ _ _ E) as (k & Hk & H1 & _); [discriminate|].
    eapply Hgen; [|eassumption]. lia.
  - destruct (find_next_cluster_stops _ _ _ _ E) as (k & Hk & H1 & _); [discriminate|].
    eapply Hgen; [|eassumption]. lia.
Qed.

(** ** The read loop *)

Lemma shift_read_shift a b c a' b' c' r :
  shift_read a b c (shift_read a' b' c' r)
  = shift_read (a + a') (b ++ b') (c ++ c') r.
Proof.
  unfold shift_read. simpl. destruct (rd_ret r); rewrite <- ?app_assoc; try reflexivity.
  rewrite Z.add_assoc. reflexivity.
Qed.

Lemma read_loop_acc disk fuel : forall d lc off len ret buf reads,
  read_loop disk fuel d lc off len ret buf reads
  = option_map (shift_read ret buf reads) (read_loop disk fuel d lc off len 0 [] []).
Proof.
  induction fuel as [|fuel IH]; intros d lc off len ret buf reads; simpl.
  - destruct (len =? 0); [|reflexivity].
    simpl. unfold shift_read. simpl. rewrite Z.add_0_r, !app_nil_r. reflexivity.
  - destruct (len =? 0).
    { simpl. unfold shift_read. simpl. rewrite Z.add_0_r, !app_nil_r. reflexivity. }
    destruct (find_next_cluster disk _ d) as [d'|d'|d' e].
    + match goal with |- context [grub_disk_read ?a ?b ?c ?s] =>
        destruct (grub_disk_read a b c s) as [bs|] end.
      * rewrite IH.
        match goal with
        | |- _ = option_map _ (read_loop _ _ ?c ?d ?e ?f ?r ?b0 ?rs) =>
            rewrite (IH c d e f r b0 rs)
        end.
        match goal with |- context [read_loop ?a ?b ?c ?d ?e ?f 0 [] []] =>
          destruct (read_loop a b c d e f 0 [] []) as [r|] end; [|reflexivity].
        simpl. rewrite shift_read_shift. reflexivity.
      * simpl. unfold shift_read. simpl. rewrite app_nil_r. reflexivity.
    + simpl. unfold shift_read. simpl. rewrite Z.add_0_r, !app_nil_r. reflexivity.
    + simpl. unfold shift_read. simpl. rewrite !app_nil_r. reflexivity.
Qed.

Lemma walk_bits disk n d :
  logical_cluster_bits (walk_data (find_next_cluster disk n d)) = logical_cluster_bits d.
Proof.
  pose proof (find_next_cluster_same_file disk n d) as H.
  apply same_file_fields in H. tauto.
Qed.

Lemma shiftl_1_pos b : 0 <= b -> 1 <= Z.shiftl 1 b.
Proof.
  intros H. rewrite Z.shiftl_1_l. pose proof (Z.pow_pos_nonneg 2 b). lia.
Qed.

Lemma read_loop_fuel disk f : forall f' d lc off len ret buf reads,
  0 <= logical_cluster_bits d ->
  0 <= off < Z.shiftl 1 (logical_cluster_bits d) ->
  (Z.abs_nat len <= f)%nat -> (Z.abs_nat len <= f')%nat ->
  read_loop disk f d lc off len ret buf reads
  = read_loop disk f' d lc off len ret buf reads
  /\ read_loop disk f d lc off len ret buf reads <> None.
Proof.
  induction f as [|f IH]; intros f' d lc off len ret buf reads HB Hoff Hf Hf'.
  - assert (len = 0) as -> by lia. destruct f'; simpl; split; (reflexivity || discriminate).
  - destruct (Z.eq_dec len 0) as [-> | Hne].
    { destruct f'; simpl; split; (reflexivity || discriminate). }
    destruct f' as [|f']; [lia|]. simpl.
    destruct (len =? 0) eqn:E0; [lia|].
    pose proof (walk_bits disk (Z.to_nat (lc - cur_cluster_num d)) d) as Hb.
    destruct (find_next_cluster disk _ d) as [d'|d'|d' e];
      [|split; (reflexivity || discriminate)..].
    simpl in Hb.
    match goal with |- context [grub_disk_read ?a ?b ?c ?s] =>
      destruct (grub_disk_read a b c s) as [bs|] end;
      [|split; (reflexivity || discriminate)].
    pose proof (shiftl_1_pos _ HB).
    apply IH; rewrite ?Hb; try lia.
    + destruct (Z.shiftl 1 (logical_cluster_bits d) - off >? len) eqn:E; lia.
    + destruct (Z.shiftl 1 (logical_cluster_bits d) - off >? len) eqn:E; lia.
Qed.

Lemma loop_run_zero disk d lc off :
  loop_run disk d lc off 0 = Some (mk_read d (Ok 0) [] []).
Proof. reflexivity. Qed.

(** One turn of the loop. *)
Lemma loop_run_step disk d lc off len :
  0 <= logical_cluster_bits d ->
  0 <= off < Z.shiftl 1 (logical_cluster_bits d) ->
  len <> 0 ->
  loop_run disk d lc off len
  = match find_next_cluster disk (Z.to_nat (lc - cur_cluster_num d)) d with
    | WalkEnd d' => Some (mk_read d' (Ok 0) [] [])
    | WalkFail d' e => Some (mk_read d' (Err e) [] [])
    | WalkReached d' =>
        let size := chunk_size d' off len in
        let rd := mk_data_read (cur_cluster d') (data_sector d') off size in
        match grub_disk_read disk (data_sector d') off size with
        | None => Some (mk_read d' (Err disk_failure) [] [rd])
        | Some bs =>
            option_map (shift_read size bs [rd])
              (loop_run disk d' (u32 (lc + 1)) 0 (len - size))
        end
    end.
Proof.
  intros HB Hoff Hne. unfold loop_run.
  destruct (Z.abs_nat len) as [|f] eqn:Ef; [lia|]. simpl.
  destruct (len =? 0) eqn:E0; [lia|].
  pose proof (walk_bits disk (Z.to_nat (lc - cur_cluster_num d)) d) as Hb.
  destruct (find_next_cluster disk _ d) as [d'|d'|d' e]; try reflexivity.
  simpl in Hb. unfold chunk_size.
  match goal with |- context [grub_disk_read ?a ?b ?c ?s] =>
    destruct (grub_disk_read a b c s) as [bs|] end; [|reflexivity].
  rewrite read_loop_acc. simpl. f_equal.
  pose proof (shiftl_1_pos _ HB).
  apply read_loop_fuel; rewrite ?Hb; try lia.
  - destruct (Z.shiftl 1 (logical_cluster_bits d) - off >? len) eqn:E; lia.
Qed.

Lemma loop_run_total disk d lc off len :
  0 <= logical_cluster_bits d ->
  0 <= off < Z.shiftl 1 (logical_cluster_bits d) ->
  exists r, loop_run disk d lc off len = Some r.
Proof.
  intros HB Hoff. unfold loop_run.
  destruct (read_loop_fuel disk (Z.abs_nat len) (Z.abs_nat len) d lc off len 0 [] [])
    as [_ H]; try assumption; try lia.
  destruct (read_loop disk _ d lc off len 0 [] []) as [r|]; [exists r; reflexivity|].
  contradiction.
Qed.

Lemma land_mask_range off b :
  0 <= b -> 0 <= Z.land off (Z.shiftl 1 b - 1) < Z.shiftl 1 b.
Proof.
  intros H. rewrite Z.shiftl_1_l.
  replace (2 ^ b - 1) with (Z.ones b) by (rewrite Z.ones_equiv; lia).
  rewrite Z.land_ones by assumption.
  apply Z.mod_pos_bound. apply Z.pow_pos_nonneg; lia.
Qed.

(** The reader returns. *)
Lemma grub_fat_read_data_total disk d offset len :
  0 <= logical_cluster_bits d ->
  exists r, grub_fat_read_data disk d offset len = Some r.
Proof.
  intros HB. unfold grub_fat_read_data.
  destruct (file_cluster d =? ALL_ONES).
  - destruct (grub_disk_read disk _ _ _); eexists; reflexivity.
  - cbv zeta.
    match goal with |- context [read_loop _ _ ?d' ?lc ?off _ _ _ _] =>
      apply (loop_run_total disk d' lc off len) end.
    + destruct (_ <? _); assumption.
    + destruct (_ <? _); apply land_mask_range; assumption.
Qed.

(** ** Reads and the cursor *)

Lemma read_data_chain disk d offset len :
  file_cluster d <> ALL_ONES ->
  grub_fat_read_data disk d offset len
  = loop_run disk
      (if read_cluster d offset <? cur_cluster_num d then restart d else d)
      (read_cluster d offset) (read_offset d offset) len.
Proof.
  intros H. unfold grub_fat_read_data.
  destruct (file_cluster d =? ALL_ONES) eqn:E; [lia|]. reflexivity.
Qed.

Lemma read_position d offset :
  0 <= logical_cluster_bits d -> 0 <= offset < 2 ^ 31 ->
  let P := Z.shiftl 1 (logical_cluster_bits d) in
  read_cluster d offset = offset / P
  /\ read_offset d offset = offset mod P
  /\ 0 <= read_cluster d offset <= offset
  /\ 0 <= read_offset d offset < P
  /\ read_cluster d offset * P + read_offset d offset = offset.
Proof.
  intros HB Hoff P. unfold read_cluster, read_offset. fold P.
  assert (HP : P = 2 ^ logical_cluster_bits d) by (apply Z.shiftl_1_l).
  assert (0 < P) by (rewrite HP; apply Z.pow_pos_nonneg; lia).
  rewrite Z.shiftr_div_pow2 by assumption. rewrite <- HP.
  replace (P - 1) with (Z.ones (logical_cluster_bits d))
    by (rewrite Z.ones_equiv; lia).
  rewrite Z.land_ones by assumption. rewrite <- HP.
  assert (0 <= offset / P <= offset).
  { split; [apply Z.div_pos; lia|]. apply Z.div_le_upper_bound; nia. }
  rewrite u32_small by lia.
  pose proof (Z.mod_pos_bound offset P ltac:(lia)).
  pose proof (Z.div_mod offset P ltac:(lia)).
  repeat split; lia.
Qed.

Lemma restart_bits d : logical_cluster_bits (restart d) = logical_cluster_bits d.
Proof. reflexivity. Qed.

(** A read on a handle with a sound cursor delivers what the read from a
    cold cursor delivers. *)
Lemma read_data_cold disk d offset len :
  cursor_ok disk d -> file_cluster d <> ALL_ONES ->
  0 <= logical_cluster_bits d -> 0 <= offset < 2 ^ 31 ->
  read_out (grub_fat_read_data disk d offset len)
  = read_out (cold_read disk d offset len).
Proof.
  intros Hok Hch HB Hoff. rewrite read_data_chain by assumption. unfold cold_read.
  destruct (read_position d offset HB Hoff) as (_ & _ & Hlc & Hro & _).
  destruct (read_cluster d offset <? cur_cluster_num d) eqn:E; [reflexivity|].
  destruct Hok as [Hinv | (Hr & Hw)]; [unfold ALL_ONES in Hinv; lia|].
  destruct (Z.eq_dec len 0) as [-> | Hne]; [reflexivity|].
  rewrite !loop_run_step by assumption.
  change (cur_cluster_num (restart d)) with 0. rewrite Z.sub_0_r.
  replace (Z.to_nat (read_cluster d offset))
    with (Z.to_nat (cur_cluster_num d)
          + Z.to_nat (read_cluster d offset - cur_cluster_num d))%nat by lia.
  rewrite find_next_cluster_add, Hw. reflexivity.
Qed.

Lemma read_data_root disk a b offset len :
  same_file a b -> file_cluster a = ALL_ONES ->
  read_out (grub_fat_read_data disk a offset len)
  = read_out (grub_fat_read_data disk b offset len).
Proof.
  intros Hs Hroot. unfold grub_fat_read_data.
  destruct (same_file_fields _ _ Hs) as (-> & _ & _ & _ & _ & -> & -> & _).
  rewrite Hroot. simpl.
  destruct (grub_disk_read disk _ _ _); reflexivity.
Qed.

(** Handles of one file with sound cursors serve a read alike. *)
Lemma read_data_same_file disk a b offset len :
  cursor_ok disk a -> cursor_ok disk b -> same_file a b ->
  0 <= logical_cluster_bits a -> 0 <= offset < 2 ^ 31 ->
  read_out (grub_fat_read_data disk a offset len)
  = read_out (grub_fat_read_data disk b offset len).
Proof.
  intros Ha Hb Hs HB Hoff.
  destruct (same_file_fields _ _ Hs) as (Hfc & _ & _ & _ & Hbits & _).
  destruct (Z.eq_dec (file_cluster a) ALL_ONES) as [Hroot | Hch].
  - apply read_data_root; assumption.
  - rewrite !read_data_cold by (assumption || congruence).
    unfold cold_read, read_cluster, read_offset.
    rewrite (same_file_restart _ _ Hs), Hbits. reflexivity.
Qed.

Lemma shift_read_data a b c r : rd_data (shift_read a b c r) = rd_data r.
Proof. reflexivity. Qed.

(** The loop leaves a sound cursor on the same file. *)
Lemma loop_run_cursor_ok disk (n : nat) : forall d lc off len r,
  (Z.to_nat len <= n)%nat ->
  cursor_ok disk d -> 0 <= cur_cluster_num d <= lc ->
  0 <= logical_cluster_bits d ->
  0 <= off < Z.shiftl 1 (logical_cluster_bits d) ->
  0 <= len ->
  (len <> 0 -> lc * Z.shiftl 1 (logical_cluster_bits d) + off + len < 2 ^ 31) ->
  loop_run disk d lc off len = Some r ->
  cursor_ok disk (rd_data r) /\ same_file d (rd_data r).
Proof.
  induction n as [|n IH]; intros d lc off len r Hn Hok Hcur HB Hoff Hlen Hbound Hr.
  - assert (len = 0) as -> by lia. rewrite loop_run_zero in Hr.
    injection Hr as <-. split; [assumption | reflexivity].
  - destruct (Z.eq_dec len 0) as [-> | Hne].
    { rewrite loop_run_zero in Hr. injection Hr as <-. split; [assumption | reflexivity]. }
    specialize (Hbound Hne).
    pose proof (shiftl_1_pos _ HB) as HP.
    assert (Hlc : lc < 2 ^ 31) by nia.
    rewrite loop_run_step in Hr by assumption.
    pose proof (cursor_ok_walk disk (Z.to_nat (lc - cur_cluster_num d)) d Hok
                  ltac:(lia) ltac:(lia)) as Hok'.
    pose proof (find_next_cluster_same_file disk (Z.to_nat (lc - cur_cluster_num d)) d) as Hs.
    pose proof (walk_bits disk (Z.to_nat (lc - cur_cluster_num d)) d) as Hb.
    destruct (find_next_cluster disk _ d) as [d'|d'|d' e] eqn:Ew; simpl in *;
      try (injection Hr as <-; split; assumption).
    pose proof (find_next_cluster_reached_num _ _ _ _ Ew ltac:(lia) ltac:(lia)) as Hnum.
    destruct (grub_disk_read disk _ _ _) as [bs|];
      [|injection Hr as <-; split; assumption].
    destruct (loop_run disk d' (u32 (lc + 1)) 0 (len - chunk_size d' off len))
      as [r'|] eqn:Er'; [|discriminate].
    simpl in Hr. injection Hr as <-. rewrite shift_read_data.
    assert (Hsz : 1 <= chunk_size d' off len <= len
                  /\ (chunk_size d' off len <> len ->
                      chunk_size d' off len = Z.shiftl 1 (logical_cluster_bits d) - off)).
    { unfold chunk_size. rewrite Hb.
      destruct (Z.shiftl 1 (logical_cluster_bits d) - off >? len) eqn:E; lia. }
    rewrite u32_small in Er' by lia.
    apply IH in Er'; rewrite ?Hb; try assumption; try lia.
    destruct Er' as [Ho Hs']. split; [assumption|].
    eapply same_file_trans; eassumption.
Qed.

Lemma read_data_cursor_ok disk d offset len r :
  cursor_ok disk d -> 0 <= logical_cluster_bits d ->
  0 <= offset -> 0 <= len -> offset + len < 2 ^ 31 ->
  grub_fat_read_data disk d offset len = Some r ->
  cursor_ok disk (rd_data r) /\ same_file d (rd_data r).
Proof.
  intros Hok HB Hoff Hlen Hb Hr.
  destruct (Z.eq_dec (file_cluster d) ALL_ONES) as [Hroot | Hch].
  - unfold grub_fat_read_data in Hr. rewrite Hroot in Hr. simpl in Hr.
    destruct (grub_disk_read disk _ _ _); injection Hr as <-; split;
      (assumption || reflexivity).
  - rewrite read_data_chain in Hr by assumption.
    destruct (read_position d offset HB ltac:(lia)) as (_ & _ & Hlc & Hro & Hpos).
    destruct (read_cluster d offset <? cur_cluster_num d) eqn:E.
    + assert (H : cursor_ok disk (rd_data r) /\ same_file (restart d) (rd_data r)).
      { eapply (loop_run_cursor_ok disk (Z.to_nat len)); [..|exact Hr];
          try assumption; try lia;
          first [ apply cursor_ok_restart | simpl; lia
                | rewrite restart_bits; intros _; lia ]. }
      destruct H as [Ho Hs]. split; [assumption|].
      eapply same_file_trans; [|eassumption]. reflexivity.
    + eapply (loop_run_cursor_ok disk (Z.to_nat len)); [..|exact Hr];
        try assumption; try lia.
      destruct Hok as [Hinv | (Hr' & _)]; [unfold ALL_ONES in Hinv|]; lia.
Qed.

(** The count returned never exceeds the length asked for. *)
Lemma read_loop_ret_le disk f : forall d lc off len ret buf reads r n,
  0 <= len ->
  read_loop disk f d lc off len ret buf reads = Some r ->
  rd_ret r = Ok n -> n <= ret + len.
Proof.
  induction f as [|f IH]; intros d lc off len ret buf reads r n Hlen Hr Hn; simpl in Hr.
  - destruct (len =? 0) eqn:E; [|discriminate].
    injection Hr as <-. simpl in Hn. injection Hn as <-. lia.
  - destruct (len =? 0) eqn:E.
    { injection Hr as <-. simpl in Hn. injection Hn as <-. lia. }
    destruct (find_next_cluster disk _ d) as [d'|d'|d' e].
    + destruct (grub_disk_read disk _ _ _) as [bs|].
      * apply IH with (n := n) in Hr; try assumption.
        -- destruct (_ >? len) eqn:E'; lia.
        -- destruct (_ >? len) eqn:E'; lia.
      * injection Hr as <-. discriminate.
    + injection Hr as <-. simpl in Hn. injection Hn as <-. lia.
    + injection Hr as <-. discriminate.
Qed.

Lemma read_data_ret_le disk d offset len r n :
  0 <= len ->
  grub_fat_read_data disk d offset len = Some r ->
  rd_ret r = Ok n -> n <= len.
Proof.
  intros Hlen Hr Hn. unfold grub_fat_read_data in Hr.
  destruct (file_cluster d =? ALL_ONES).
  - destruct (grub_disk_read disk _ _ _) as [bs|]; injection Hr as <-; [|discriminate].
    simpl in Hn. injection Hn as <-.
    destruct (_ >? len) eqn:E; lia.
  - eapply read_loop_ret_le in Hr; [|assumption|eassumption]. lia.
Qed.

(** Past the end of the chain nothing is delivered. *)
Lemma read_data_past_end disk d d' offset len (j : nat) :
  cursor_ok disk d -> file_cluster d <> ALL_ONES ->
  0 <= logical_cluster_bits d -> 0 <= offset < 2 ^ 31 ->
  find_next_cluster disk j (restart d) = WalkEnd d' ->
  Z.of_nat j <= read_cluster d offset ->
  read_out (grub_fat_read_data disk d offset len) = Some (Ok 0, []).
Proof.
  intros Hok Hch HB Hoff Hj Hle.
  rewrite read_data_cold by assumption. unfold cold_read.
  destruct (Z.eq_dec len 0) as [-> | Hne]; [reflexivity|].
  destruct (read_position d offset HB Hoff) as (_ & _ & Hlc & Hro & _).
  rewrite loop_run_step by assumption.
  change (cur_cluster_num (restart d)) with 0. rewrite Z.sub_0_r.
  replace (Z.to_nat (read_cluster d offset))
    with (j + (Z.to_nat (read_cluster d offset) - j))%nat by lia.
  rewrite find_next_cluster_add, Hj. reflexivity.
Qed.

(** Clusters read as data: the one the loop was entered with, or one
    that passed the range test. *)
Lemma read_loop_reads disk f : forall d lc off len ret buf reads r x,
  read_loop disk f d lc off len ret buf reads = Some r ->
  In x (rd_reads r) ->
  In x reads \/ dr_cluster x = cur_cluster d
  \/ 2 <= dr_cluster x < num_clusters d.
Proof.
  induction f as [|f IH]; intros d lc off len ret buf reads r x Hr Hx; simpl in Hr.
  - destruct (len =? 0); [|discriminate]. injection Hr as <-. left. assumption.
  - destruct (len =? 0); [injection Hr as <-; left; assumption|].
    pose proof (find_next_cluster_checked disk (Z.to_nat (lc - cur_cluster_num d)) d) as Hc.
    pose proof (find_next_cluster_same_file disk (Z.to_nat (lc - cur_cluster_num d)) d) as Hs.
    apply same_file_fields in Hs. destruct Hs as (_ & Hnc & _).
    destruct (find_next_cluster disk _ d) as [d'|d'|d' e]; simpl in Hc, Hnc;
      try (injection Hr as <-; left; assumption).
    assert (Hd' : cur_cluster d' = cur_cluster d
                  \/ 2 <= cur_cluster d' < num_clusters d).
    { destruct Hc as [-> | Hc]; [left; reflexivity | right; lia]. }
    destruct (grub_disk_read disk _ _ _) as [bs|].
    + destruct (IH _ _ _ _ _ _ _ _ _ Hr Hx) as [Hin | [Hin | Hin]].
      * apply in_app_or in Hin. destruct Hin as [Hin | [<- | []]]; [left; assumption|].
        simpl. right. assumption.
      * right. rewrite Hin. assumption.
      * right. right. lia.
    + injection Hr as <-. simpl in Hx.
      apply in_app_or in Hx. destruct Hx as [Hin | [<- | []]]; [left; assumption|].
      simpl. right. assumption.
Qed.

Lemma read_data_reads disk d offset len r x :
  cursor_ok disk d -> 0 <= logical_cluster_bits d -> 0 <= offset < 2 ^ 31 ->
  grub_fat_read_data disk d offset len = Some r ->
  In x (rd_reads r) ->
  dr_cluster x = file_cluster d \/ 2 <= dr_cluster x < num_clusters d.
Proof.
  intros Hok HB Hoff Hr Hx.
  destruct (Z.eq_dec (file_cluster d) ALL_ONES) as [Hroot | Hch].
  - unfold grub_fat_read_data in Hr. rewrite Hroot in Hr. simpl in Hr.
    destruct (grub_disk_read disk _ _ _); injection Hr as <-; destruct Hx.
  - rewrite read_data_chain in Hr by assumption.
    destruct (read_position d offset HB Hoff) as (_ & _ & Hlc & _).
    unfold loop_run in Hr.
    destruct (read_loop_reads _ _ _ _ _ _ _ _ _ _ x Hr Hx) as [[] | H].
    destruct (read_cluster d offset <? cur_cluster_num d) eqn:E.
    + exact H.
    + destruct H as [H | H]; [|right; assumption].
      destruct Hok as [Hinv | (Hr' & Hw)]; [unfold ALL_ONES in Hinv; lia|].
      pose proof (find_next_cluster_checked disk (Z.to_nat (cur_cluster_num d)) (restart d)) as Hc.
      rewrite Hw in Hc. simpl in Hc.
      destruct Hc as [Hc | Hc]; [|right; lia].
      left. rewrite H, Hc. reflexivity.
Qed.

(** ** Reading a range in two pieces *)

Lemma read_bytes_shift s bs rs X :
  read_bytes (option_map (shift_read s bs rs) X)
  = combine_bytes (Some (Ok bs)) (read_bytes X).
Proof.
  destruct X as [r|]; [|reflexivity]. simpl. unfold read_bytes. simpl.
  destruct (rd_ret r); reflexivity.
Qed.

Lemma combine_bytes_assoc bs A S :
  combine_bytes (combine_bytes (Some (Ok bs)) A) S
  = combine_bytes (Some (Ok bs)) (combine_bytes A S).
Proof.
  destruct A as [[x|e]|]; try reflexivity. simpl.
  destruct S as [[y|e]|]; try reflexivity. simpl. rewrite app_assoc. reflexivity.
Qed.

Lemma combine_bytes_nil_r A : combine_bytes A (Some (Ok [])) = A.
Proof.
  destruct A as [[x|e]|]; try reflexivity. simpl. rewrite app_nil_r. reflexivity.
Qed.

Lemma combine_bytes_nil_l A : combine_bytes (Some (Ok [])) A = A.
Proof. destruct A as [[x|e]|]; reflexivity. Qed.

Lemma disk_bytes_app d n m : forall a,
  disk_bytes d a (n + m)
  = match disk_bytes d a n with
    | None => None
    | Some x =>
        match disk_bytes d (a + Z.of_nat n) m with
        | None => None
        | Some y => Some (x ++ y)
        end
    end.
Proof.
  induction n as [|n IH]; intros a.
  - simpl. rewrite Z.add_0_r. destruct (disk_bytes d a m); reflexivity.
  - cbn [Nat.add disk_bytes]. destruct (d a) as [b|]; [|reflexivity].
    rewrite IH. destruct (disk_bytes d (a + 1) n) as [x|]; [|reflexivity].
    replace (a + 1 + Z.of_nat n) with (a + Z.of_nat (S n)) by lia.
    destruct (disk_bytes d (a + Z.of_nat (S n)) m); reflexivity.
Qed.

Lemma grub_disk_read_split d sector off s1 s2 :
  0 <= off -> 0 <= s1 -> 0 <= s2 -> off + s1 + s2 < 2 ^ 32 ->
  grub_disk_read d sector off (s1 + s2)
  = match grub_disk_read d sector off s1 with
    | None => None
    | Some x =>
        match grub_disk_read d sector (off + s1) s2 with
        | None => None
        | Some y => Some (x ++ y)
        end
    end.
Proof.
  intros H0 H1 H2 Hb. unfold grub_disk_read.
  rewrite !u32_small by lia.
  replace (Z.to_nat (s1 + s2)) with (Z.to_nat s1 + Z.to_nat s2)%nat by lia.
  rewrite disk_bytes_app.
  replace (sector * 2 ^ GRUB_DISK_SECTOR_BITS + off + Z.of_nat (Z.to_nat s1))
    with (sector * 2 ^ GRUB_DISK_SECTOR_BITS + (off + s1)) by lia.
  reflexivity.
Qed.

Lemma position_in_cluster lc off x P :
  0 < P -> 0 <= off -> 0 <= x -> off + x < P ->
  (lc * P + off + x) / P = lc /\ (lc * P + off + x) mod P = off + x.
Proof.
  intros HP H0 Hx Hlt.
  replace (lc * P + off + x) with (off + x + lc * P) by lia.
  rewrite Z.div_add, Z.mod_add by lia.
  rewrite Z.div_small, Z.mod_small by lia. lia.
Qed.

(** Once the walk has arrived at a cluster, a read further on may as
    well start there. *)
Lemma loop_run_advance disk d d' lc lc2 off2 l2 :
  find_next_cluster disk (Z.to_nat (lc - cur_cluster_num d)) d = WalkReached d' ->
  0 <= cur_cluster_num d <= lc -> lc <= lc2 < 2 ^ 32 ->
  0 <= logical_cluster_bits d ->
  0 <= off2 < Z.shiftl 1 (logical_cluster_bits d) ->
  read_bytes (loop_run disk d lc2 off2 l2)
  = read_bytes (loop_run disk d' lc2 off2 l2).
Proof.
  intros Hw Hcur Hlc HB Hoff.
  destruct (Z.eq_dec l2 0) as [-> | Hne]; [reflexivity|].
  pose proof (walk_bits disk (Z.to_nat (lc - cur_cluster_num d)) d) as Hb.
  rewrite Hw in Hb. simpl in Hb.
  pose proof (find_next_cluster_reached_num _ _ _ _ Hw ltac:(lia) ltac:(lia)) as Hnum.
  rewrite !loop_run_step by (rewrite ?Hb; assumption).
  replace (Z.to_nat (lc2 - cur_cluster_num d))
    with (Z.to_nat (lc - cur_cluster_num d) + Z.to_nat (lc2 - lc))%nat by lia.
  rewrite find_next_cluster_add, Hw.
  replace (lc2 - cur_cluster_num d') with (lc2 - lc) by lia.
  reflexivity.
Qed.

Lemma loop_run_split disk (n : nat) : forall d lc off l1 l2,
  (Z.to_nat l1 <= n)%nat ->
  0 <= logical_cluster_bits d ->
  let P := Z.shiftl 1 (logical_cluster_bits d) in
  0 <= off < P -> 0 <= cur_cluster_num d <= lc ->
  0 <= l1 -> 0 <= l2 -> lc * P + off + l1 + l2 < 2 ^ 31 ->
  read_bytes (loop_run disk d lc off (l1 + l2))
  = combine_bytes (read_bytes (loop_run disk d lc off l1))
      (read_bytes (loop_run disk d ((lc * P + off + l1) / P)
                     ((lc * P + off + l1) mod P) l2)).
Proof.
  induction n as [|n IH]; intros d lc off l1 l2 Hn HB P Hoff Hcur Hl1 Hl2 Hbound.
  - assert (l1 = 0) as -> by lia.
    pose proof (shiftl_1_pos _ HB) as HP. fold P in HP.
    destruct (position_in_cluster lc off 0 P) as [-> ->]; try lia.
    rewrite Z.add_0_l, Z.add_0_r, loop_run_zero. simpl read_bytes at 2.
    rewrite combine_bytes_nil_l. reflexivity.
  - pose proof (shiftl_1_pos _ HB) as HP. fold P in HP.
    destruct (Z.eq_dec l1 0) as [-> | Hne1].
    { destruct (position_in_cluster lc off 0 P) as [-> ->]; try lia.
      rewrite Z.add_0_l, Z.add_0_r, loop_run_zero. simpl read_bytes at 2.
      rewrite combine_bytes_nil_l. reflexivity. }
    destruct (Z.eq_dec l2 0) as [-> | Hne2].
    { rewrite Z.add_0_r, loop_run_zero. simpl read_bytes at 3.
      rewrite combine_bytes_nil_r. reflexivity. }
    assert (Hlc2 : lc <= (lc * P + off + l1) / P < 2 ^ 31).
    { split.
      - apply Z.div_le_lower_bound; lia.
      - apply Z.div_lt_upper_bound; nia. }
    assert (Hoff2 : 0 <= (lc * P + off + l1) mod P < P)
      by (apply Z.mod_pos_bound; lia).
    rewrite (loop_run_step disk d lc off (l1 + l2)) by (assumption || lia).
    rewrite (loop_run_step disk d lc off l1) by (assumption || lia).
    pose proof (walk_bits disk (Z.to_nat (lc - cur_cluster_num d)) d) as Hb.
    destruct (find_next_cluster disk (Z.to_nat (lc - cur_cluster_num d)) d)
      as [d'|d'|d' e] eqn:Ew; simpl in Hb.
    + (* the walk arrives *)
      pose proof (find_next_cluster_reached_num _ _ _ _ Ew ltac:(lia) ltac:(lia)) as Hnum.
      rewrite (loop_run_advance disk d d' lc _ _ l2 Ew) by (assumption || lia).
      cbv zeta. unfold chunk_size. rewrite Hb. fold P.
      destruct (P - off >? l1) eqn:E1.
      * (* the first piece ends inside this cluster *)
        destruct (position_in_cluster lc off l1 P) as [-> ->]; try lia.
        rewrite (loop_run_step disk d' lc (off + l1) l2)
          by (rewrite ?Hb; fold P; (assumption || lia)).
        replace (lc - cur_cluster_num d') with 0 by lia. cbn [Z.to_nat find_next_cluster].
        cbv zeta. unfold chunk_size. rewrite Hb. fold P.
        set (s2 := if P - (off + l1) >? l2 then l2 else P - (off + l1)).
        assert (Hs2 : 0 <= s2 <= l2 /\ off + l1 + s2 <= P)
          by (unfold s2; destruct (P - (off + l1) >? l2) eqn:E2; lia).
        replace (if P - off >? l1 + l2 then l1 + l2 else P - off) with (l1 + s2)
          by (unfold s2; destruct (P - off >? l1 + l2) eqn:E3;
              destruct (P - (off + l1) >? l2) eqn:E2; lia).
        rewrite grub_disk_read_split by nia.
        destruct (grub_disk_read disk (data_sector d') off l1) as [bs1|];
          [|reflexivity].
        rewrite Z.sub_diag, loop_run_zero.
        destruct (grub_disk_read disk (data_sector d') (off + l1) s2) as [bs2|].
        -- rewrite !read_bytes_shift.
           replace (l1 + l2 - (l1 + s2)) with (l2 - s2) by lia.
           destruct (read_bytes (loop_run disk d' (u32 (lc + 1)) 0 (l2 - s2)))
             as [[y|e]|]; simpl; rewrite ?app_nil_r, ?app_assoc; reflexivity.
        -- simpl. reflexivity.
      * (* the first piece goes on past this cluster *)
        replace (if P - off >? l1 + l2 then l1 + l2 else P - off) with (P - off)
          by (destruct (P - off >? l1 + l2) eqn:E3; lia).
        destruct (grub_disk_read disk (data_sector d') off (P - off)) as [bs|];
          [|reflexivity].
        rewrite !read_bytes_shift, u32_small by lia.
        replace (l1 + l2 - (P - off)) with (l1 - (P - off) + l2) by lia.
        rewrite (IH d' (lc + 1) 0 (l1 - (P - off)) l2);
          rewrite ?Hb; fold P; try lia.
        replace ((lc + 1) * P + 0 + (l1 - (P - off))) with (lc * P + off + l1) by lia.
        rewrite combine_bytes_assoc. reflexivity.
    + (* the chain ends before the range starts *)
      rewrite (loop_run_step disk d _ _ l2) by (assumption || lia).
      replace (Z.to_nat ((lc * P + off + l1) / P - cur_cluster_num d))
        with (Z.to_nat (lc - cur_cluster_num d)
              + Z.to_nat ((lc * P + off + l1) / P - lc))%nat by lia.
      rewrite find_next_cluster_add, Ew. reflexivity.
    + reflexivity.
Qed.

(** ** Handles of open files *)

Lemma same_file_volume a b : same_file a b -> same_volume a b.
Proof.
  intros H. rewrite (same_file_eq _ _ H). reflexivity.
Qed.

Lemma same_volume_bits a b :
  same_volume a b ->
  logical_cluster_bits b = logical_cluster_bits a
  /\ num_clusters b = num_clusters a.
Proof.
  unfold same_volume, volume_of, logical_cluster_bits. intros H.
  injection H as -> _ _ _ _ _ _ _ -> _ _ ->. split; reflexivity.
Qed.

Lemma read_loop_same_file disk f : forall d lc off len ret buf reads r,
  read_loop disk f d lc off len ret buf reads = Some r -> same_file d (rd_data r).
Proof.
  induction f as [|f IH]; intros d lc off len ret buf reads r Hr; simpl in Hr.
  - destruct (len =? 0); [|discriminate]. injection Hr as <-. reflexivity.
  - destruct (len =? 0); [injection Hr as <-; reflexivity|].
    pose proof (find_next_cluster_same_file disk (Z.to_nat (lc - cur_cluster_num d)) d) as Hs.
    destruct (find_next_cluster disk _ d) as [d'|d'|d' e]; simpl in Hs;
      try (injection Hr as <-; assumption).
    destruct (grub_disk_read disk _ _ _) as [bs|];
      [|injection Hr as <-; assumption].
    eapply same_file_trans; [eassumption|]. eapply IH. eassumption.
Qed.

Lemma read_data_keeps_file disk d offset len r :
  grub_fat_read_data disk d offset len = Some r -> same_file d (rd_data r).
Proof.
  unfold grub_fat_read_data. intros Hr.
  destruct (file_cluster d =? ALL_ONES).
  - destruct (grub_disk_read disk _ _ _); injection Hr as <-; reflexivity.
  - apply read_loop_same_file in Hr.
    destruct (_ <? _); [|assumption].
    eapply same_file_trans; [|eassumption]. reflexivity.
Qed.

Section Handles.

Variable grub_isspace : Z -> bool.
Variable grub_tolower : Z -> Z.
Variable grub_utf16_to_utf8 : list Z -> bytes.
Variable disk : grub_disk.

Lemma find_dir_loop_volume dirname call_hook hook fuel :
  forall data st dir offset calls data' dir' errno calls',
  find_dir_loop grub_isspace grub_tolower grub_utf16_to_utf8 disk dirname
    call_hook hook fuel data st dir offset calls
  = Some (data', dir', errno, calls') ->
  same_file data data'.
Proof.
  induction fuel as [|fuel IH]; intros data st dir offset calls data' dir' errno calls' H;
    simpl in H; [discriminate|].
  destruct (grub_fat_read_data disk data _ _) as [r|] eqn:Er; [|discriminate].
  apply read_data_keeps_file in Er.
  destruct (negb _ || _).
  - injection H as <- _ _ _. assumption.
  - destruct (scan_entry _ _ _ _ _ _ _ _) as [st' dir1 c | dir1 c].
    + eapply same_file_trans; [eassumption|]. eapply IH. eassumption.
    + injection H as <- _ _ _. assumption.
Qed.

Lemma find_dir_volume fuel data path hook r :
  grub_fat_find_dir grub_isspace grub_tolower grub_utf16_to_utf8 disk fuel data path hook
  = Some r ->
  same_volume data (fr_data r)
  /\ (fr_errno r = None -> cur_cluster_num (fr_data r) = ALL_ONES).
Proof.
  unfold grub_fat_find_dir. intros H.
  destruct (Z.land (attr data) GRUB_FAT_ATTR_DIRECTORY =? 0).
  - injection H as <-. simpl. split; [reflexivity | discriminate].
  - destruct (extract_dirname path) as [dirp dirname].
    destruct (find_dir_loop _ _ _ _ _ _ _ _ _ _ _ _ _) as [[[[data' dir'] errno] calls]|] eqn:E;
      [|discriminate].
    apply find_dir_loop_volume in E. injection H as <-. simpl.
    split; [|reflexivity].
    apply same_file_volume in E. unfold same_volume in *. rewrite E. reflexivity.
Qed.

Lemma open_loop_volume n fuel : forall data p d,
  open_loop grub_isspace grub_tolower grub_utf16_to_utf8 disk n fuel data p = Some (Ok d) ->
  same_volume data d /\ cur_cluster_num d = ALL_ONES.
Proof.
  induction n as [|n IH]; intros data p d H; simpl in H; [discriminate|].
  destruct (grub_fat_find_dir _ _ _ _ _ _ _ _) as [r|] eqn:Er; [|discriminate].
  apply find_dir_volume in Er. destruct Er as [Hv Hc].
  destruct (fr_errno r); [discriminate|].
  destruct (fr_next r) as [p'|].
  - apply IH in H. destruct H as [Hv' Hc']. split; [|assumption].
    unfold same_volume in *. congruence.
  - injection H as <-. split; [assumption | apply Hc; reflexivity].
Qed.

Lemma mount_bits d0 :
  grub_fat_mount (Some disk) = Ok d0 -> 9 <= logical_cluster_bits d0.
Proof.
  intros H.
  destruct (mount_inv _ _ H) as (d & bpb & g & _ & _ & Hg & _ & Hl & Hc & _).
  destruct (mount_geometry_inv _ _ Hg) as (H1 & H2 & H3 & H4 & _).
  unfold logical_cluster_bits, GRUB_DISK_SECTOR_BITS. lia.
Qed.

(** What [grub_fat_open] hands to the file layer: a handle on the mounted
    volume, with an invalid cursor, of an entry that is not a directory. *)
Lemma open_handle fuel name d :
  grub_fat_open grub_isspace grub_tolower grub_utf16_to_utf8 disk fuel name = Some (Ok d) ->
  cursor_ok disk d /\ 9 <= logical_cluster_bits d
  /\ Z.land (attr d) GRUB_FAT_ATTR_DIRECTORY = 0.
Proof.
  unfold grub_fat_open. intros H.
  destruct (grub_fat_mount (Some disk)) as [d0|e] eqn:Em; [|discriminate].
  destruct (open_loop _ _ _ _ _ _ _ _) as [[d1|e]|] eqn:Eo; try discriminate.
  destruct (negb _) eqn:Ed; [discriminate|]. injection H as <-.
  apply open_loop_volume in Eo. destruct Eo as [Hv Hc].
  apply same_volume_bits in Hv. destruct Hv as [Hb _].
  pose proof (mount_bits _ Em).
  split; [left; assumption|]. split; [lia|].
  apply negb_false_iff in Ed. lia.
Qed.

End Handles.

Lemma read_bytes_of_out x y : read_out x = read_out y -> read_bytes x = read_bytes y.
Proof.
  destruct x as [x|], y as [y|]; simpl; intros H; try discriminate; [|reflexivity].
  injection H as H1 H2. unfold read_bytes. rewrite H1, H2. reflexivity.
Qed.

Lemma cold_read_same_file disk a b offset len :
  same_file a b -> cold_read disk a offset len = cold_read disk b offset len.
Proof.
  intros Hs. unfold cold_read, read_cluster, read_offset.
  destruct (same_file_fields _ _ Hs) as (_ & _ & _ & _ & -> & _).
  rewrite (same_file_restart _ _ Hs). reflexivity.
Qed.

Lemma cold_read_split disk d a l1 l2 :
  0 <= logical_cluster_bits d ->
  0 <= a -> 0 <= l1 -> 0 <= l2 -> a + l1 + l2 < 2 ^ 31 ->
  read_bytes (cold_read disk d a (l1 + l2))
  = combine_bytes (read_bytes (cold_read disk d a l1))
      (read_bytes (cold_read disk d (a + l1) l2)).
Proof.
  intros HB Ha Hl1 Hl2 Hb. unfold cold_read.
  destruct (read_position d a HB ltac:(lia)) as (_ & _ & Hlc & Hro & Hpos).
  destruct (read_position d (a + l1) HB ltac:(lia)) as (-> & -> & _).
  rewrite (loop_run_split disk (Z.to_nat l1) (restart d) _ _ l1 l2);
    rewrite ?restart_bits; try assumption; try lia.
  - rewrite Hpos. reflexivity.
  - simpl. lia.
Qed.

Lemma read_pieces_whole disk lens : forall d a,
  cursor_ok disk d -> file_cluster d <> ALL_ONES ->
  0 <= logical_cluster_bits d ->
  0 <= a -> Forall (fun l => 0 <= l) lens -> a + sum_list lens < 2 ^ 31 ->
  read_pieces disk d a lens
  = read_bytes (grub_fat_read_data disk d a (sum_list lens)).
Proof.
  induction lens as [|l rest IH]; intros d a Hok Hch HB Ha Hl Hb.
  - simpl. unfold grub_fat_read_data.
    destruct (file_cluster d =? ALL_ONES) eqn:E; [lia|]. reflexivity.
  - inversion Hl as [|? ? Hl0 Hrest]; subst.
    assert (Hsum : 0 <= sum_list rest).
    { clear -Hrest. induction Hrest; simpl; lia. }
    simpl in Hb. cbn [read_pieces sum_list fold_right].
    fold (sum_list rest).
    rewrite (read_bytes_of_out _ _ (read_data_cold disk d a (l + sum_list rest) Hok Hch HB ltac:(lia))).
    rewrite cold_read_split by (assumption || lia).
    rewrite <- (read_bytes_of_out _ _ (read_data_cold disk d a l Hok Hch HB ltac:(lia))).
    destruct (grub_fat_read_data disk d a l) as [r|] eqn:Er; [|reflexivity].
    destruct (read_data_cursor_ok disk d a l r Hok HB Ha Hl0 ltac:(lia) Er) as [Hok' Hs].
    destruct (same_file_fields _ _ Hs) as (Hfc & _ & _ & _ & Hbits & _).
    unfold read_bytes at 1.
    destruct (rd_ret r) as [n|e]; [|reflexivity].
    rewrite IH; try assumption; try lia; try congruence.
    rewrite (read_bytes_of_out _ _
               (read_data_cold disk (rd_data r) (a + l) (sum_list rest) Hok'
                  ltac:(congruence) ltac:(lia) ltac:(lia))).
    rewrite (cold_read_same_file disk d (rd_data r)) by assumption.
    destruct (read_bytes (cold_read disk (rd_data r) (a + l) (sum_list rest)))
      as [[bs|e]|]; reflexivity.
Qed.



(** Claim C3 fails as stated: /hello.txt on [floppy] is 6 bytes long;
    [read (0, 16)] returns 16, more than [file_size - offset], and
    [read (6, 10)], whose offset is not below [file_size], returns 10. *)
Lemma read_count_exceeds_file_size :
  grub_fat_open ascii_isspace ascii_tolower ascii_utf16_to_utf8 floppy 17
    (bytes_of_string "/hello.txt") = Some (Ok hello_file)
  /\ file_size hello_file = 6
  /\ (exists r, grub_fat_read floppy hello_file 0 16 = Some r
        /\ rd_ret r = Ok 16 /\ ~ 16 <= file_size hello_file - 0)
  /\ (exists r, grub_fat_read floppy hello_file 6 10 = Some r
        /\ 6 >= file_size hello_file /\ rd_ret r = Ok 10).
Proof.
  split; [vm_compute; reflexivity|]. split; [reflexivity|]. split.
  - eexists. split; [vm_compute; reflexivity|]. split; [reflexivity|].
    vm_compute. intros H. apply H. reflexivity.
  - eexists. split; [vm_compute; reflexivity|]. split; [|reflexivity].
    vm_compute. discriminate.
Qed.

(** Claim C3, amended.  For every file opened through the driver, every
    handle of it with a sound cursor and every request with [len >= 0],
    the positional reader returns, and the count it returns is at most
    [len].  [file_size] is not consulted: the count is limited by the end
    of the cluster chain, and when the chain ends after [j] clusters a
    read at an offset of [j] clusters or more returns 0 bytes. *)
Theorem read_count_bounds
    (grub_isspace : Z -> bool) (grub_tolower : Z -> Z)
    (grub_utf16_to_utf8 : list Z -> bytes) (disk : grub_disk)
    (fuel : nat) (name : bytes) (d0 d : grub_fat_data) (offset len : Z) :
  grub_fat_open grub_isspace grub_tolower grub_utf16_to_utf8 disk fuel name
  = Some (Ok d0) ->
  same_file d0 d -> cursor_ok disk d ->
  0 <= len ->
  exists r, grub_fat_read disk d offset len = Some r
    /\ (forall n, rd_ret r = Ok n -> n <= len)
    /\ (forall (j : nat) d',
          file_cluster d <> ALL_ONES -> 0 <= offset < 2 ^ 31 ->
          find_next_cluster disk j (restart d) = WalkEnd d' ->
          Z.of_nat j * 2 ^ logical_cluster_bits d <= offset ->
          rd_ret r = Ok 0 /\ rd_buf r = []).
Proof.
  intros Hopen Hs Hok Hlen.
  destruct (open_handle _ _ _ _ _ _ _ Hopen) as (_ & HB0 & _).
  destruct (same_file_fields _ _ Hs) as (_ & _ & _ & _ & Hbits & _).
  assert (HB : 0 <= logical_cluster_bits d) by lia.
  destruct (grub_fat_read_data_total disk d offset len HB) as [r Hr].
  exists r. split; [assumption|]. split.
  - intros n Hn. eapply read_data_ret_le; eassumption.
  - intros j d' Hch Hoff Hj Hle.
    assert (Hjc : Z.of_nat j <= read_cluster d offset).
    { destruct (read_position d offset HB Hoff) as (-> & _).
      rewrite Z.shiftl_1_l. apply Z.div_le_lower_bound; [|lia].
      apply Z.pow_pos_nonneg; lia. }
    pose proof (read_data_past_end disk d d' offset len j Hok Hch HB Hoff Hj Hjc) as H.
    rewrite Hr in H. simpl in H. injection H as H1 H2. split; assumption.
Qed.

(** Claim C3, amended, at /hello.txt on [floppy]: a read one cluster into a
    chain of one cluster. *)
Lemma read_count_bounds_witness :
  exists r, grub_fat_read floppy hello_file 512 16 = Some r
    /\ rd_ret r = Ok 0 /\ rd_buf r = [].
Proof.
  destruct (read_count_bounds ascii_isspace ascii_tolower ascii_utf16_to_utf8
              floppy 17 (bytes_of_string "/hello.txt") hello_file hello_file 512 16)
    as (r & Hr & _ & H).
  - vm_compute. reflexivity.
  - reflexivity.
  - left. reflexivity.
  - lia.
  - exists r. split; [assumption|].
    apply (H 1%nat (restart hello_file)).
    + vm_compute. discriminate.
    + lia.
    + vm_compute. reflexivity.
    + vm_compute. discriminate.
Defined.

(** Claim C2 fails as stated: /empty.txt on [floppy2] records 0 as its
    first cluster; it is opened, and [read (0, 1)] returns 1 byte read
    as data from cluster index 0, which is not in [2, num_clusters). *)
Lemma data_read_of_unchecked_cluster :
  grub_fat_open ascii_isspace ascii_tolower ascii_utf16_to_utf8 floppy2 17
    (bytes_of_string "/empty.txt") = Some (Ok empty_file)
  /\ exists r x, grub_fat_read floppy2 empty_file 0 1 = Some r
       /\ rd_ret r = Ok 1
       /\ In x (rd_reads r) /\ dr_cluster x = 0
       /\ ~ (2 <= dr_cluster x < num_clusters empty_file).
Proof.
  split; [vm_compute; reflexivity|].
  eexists. eexists. split; [vm_compute; reflexivity|].
  split; [reflexivity|]. split; [left; reflexivity|]. split; [reflexivity|].
  simpl. lia.
Qed.

(** Claim C2, amended.  In the loop of [grub_fat_read_data], when the
    chain walk has made [k] turns and fetches the FAT value [v] in the
    next one: if [v >= cluster_eof_mark] the call returns [ret], the
    number of bytes delivered so far, without an error; if [v] is below
    the mark and [v < 2] or [v >= num_clusters], the call fails with
    [GRUB_ERR_BAD_FS], "invalid cluster %u" with argument [v] (it returns
    -1); if not, the walk moves to cluster [v].  Consequently every
    cluster index read as data on a handle of an open file is the first
    cluster of the file, which nothing checks, or lies in
    [2, num_clusters). *)
Theorem chain_walk_checks (disk : grub_disk) :
  (forall d d' (k m : nat) v lc off len ret buf reads fuel,
     len <> 0 ->
     Z.to_nat (lc - cur_cluster_num d) = (k + S m)%nat ->
     find_next_cluster disk k d = WalkReached d' ->
     fat_next disk d' = Some v ->
     (cluster_eof_mark d' <= v ->
        read_loop disk (S fuel) d lc off len ret buf reads
        = Some (mk_read d' (Ok ret) buf reads))
     /\ (v < cluster_eof_mark d' -> v < 2 \/ num_clusters d' <= v ->
           read_loop disk (S fuel) d lc off len ret buf reads
           = Some (mk_read d' (Err (invalid_cluster v)) buf reads)
           /\ invalid_cluster v
              = mk_error GRUB_ERR_BAD_FS "invalid cluster %u" (Some v))
     /\ (v < cluster_eof_mark d' -> 2 <= v < num_clusters d' ->
           find_next_cluster disk (S k) d
           = WalkReached (set_cursor d' (u32 (cur_cluster_num d' + 1)) v)))
  /\ (forall grub_isspace grub_tolower grub_utf16_to_utf8 fuel name d0 d
             offset len r x,
        grub_fat_open grub_isspace grub_tolower grub_utf16_to_utf8 disk fuel name
        = Some (Ok d0) ->
        same_file d0 d -> cursor_ok disk d ->
        0 <= offset < 2 ^ 31 ->
        grub_fat_read disk d offset len = Some r ->
        In x (rd_reads r) ->
        dr_cluster x = file_cluster d \/ 2 <= dr_cluster x < num_clusters d).
Proof.
  split.
  - intros d d' k m v lc off len ret buf reads fuel Hlen Hn Hk Hv.
    assert (Hstep : forall w, find_next_cluster disk 1 d' = w ->
              (forall d1, w <> WalkReached d1) ->
              find_next_cluster disk (Z.to_nat (lc - cur_cluster_num d)) d = w).
    { intros w Hw Hnot. rewrite Hn, find_next_cluster_add, Hk.
      apply find_next_cluster_stuck; assumption. }
    split; [|split].
    + intros Heof. simpl. destruct (len =? 0) eqn:E; [lia|].
      rewrite (Hstep (WalkEnd d')); [reflexivity | | discriminate].
      simpl. rewrite Hv. destruct (v >=? cluster_eof_mark d') eqn:E1; [reflexivity | lia].
    + intros Hlt Hbad. split; [|reflexivity].
      simpl. destruct (len =? 0) eqn:E; [lia|].
      rewrite (Hstep (WalkFail d' (invalid_cluster v))); [reflexivity | | discriminate].
      simpl. rewrite Hv. destruct (v >=? cluster_eof_mark d') eqn:E1; [lia|].
      destruct ((v <? 2) || (v >=? num_clusters d')) eqn:E2; [reflexivity | lia].
    + intros Hlt Hgood. replace (S k) with (k + 1)%nat by lia.
      rewrite find_next_cluster_add, Hk. simpl. rewrite Hv.
      destruct (v >=? cluster_eof_mark d') eqn:E1; [lia|].
      destruct ((v <? 2) || (v >=? num_clusters d')) eqn:E2; [lia | reflexivity].
  - intros grub_isspace grub_tolower grub_utf16_to_utf8 fuel name d0 d offset len r x
      Hopen Hs Hok Hoff Hr Hx.
    destruct (open_handle _ _ _ _ _ _ _ Hopen) as (_ & HB0 & _).
    destruct (same_file_fields _ _ Hs) as (_ & _ & _ & _ & Hbits & _).
    eapply read_data_reads; try eassumption. lia.
Qed.

(** Claim C2, amended, at /hello.txt on [floppy]: the walk to the second
    cluster meets the end-of-chain value and 512 bytes are returned. *)
Lemma chain_walk_checks_witness :
  read_loop floppy 1 (restart hello_file) 1 0 16 512 [] []
  = Some (mk_read (restart hello_file) (Ok 512) [] []).
Proof.
  apply (proj1 (chain_walk_checks floppy) (restart hello_file) (restart hello_file)
           0%nat 0%nat 0xFFF 1 0 16 512 [] [] 0%nat).
  - discriminate.
  - reflexivity.
  - reflexivity.
  - vm_compute. reflexivity.
  - vm_compute. discriminate.
Defined.

(** ** FAT12 entries *)

Lemma bits_value_testbit l : forall n,
  0 <= n -> Z.testbit (bits_value l) n = nth (Z.to_nat n) l false.
Proof.
  induction l as [|b l IH]; intros n Hn; cbn [bits_value].
  - rewrite Z.testbit_0_l. destruct (Z.to_nat n); reflexivity.
  - replace (Z.b2z b + 2 * bits_value l) with (2 * bits_value l + Z.b2z b) by lia.
    destruct (Z.eq_dec n 0) as [-> | Hne].
    + apply Z.testbit_0_r.
    + replace n with (Z.succ (n - 1)) at 1 by lia.
      rewrite Z.testbit_succ_r by lia. rewrite IH by lia.
      replace (Z.to_nat n) with (S (Z.to_nat (n - 1))) by lia. reflexivity.
Qed.

Lemma testbit_two_bytes x y n :
  0 <= x < 256 -> 0 <= n ->
  Z.testbit (x + 2 ^ 8 * y) n
  = if n <? 8 then Z.testbit x n else Z.testbit y (n - 8).
Proof.
  intros Hx Hn. replace (x + 2 ^ 8 * y) with (x + y * 2 ^ 8) by lia.
  destruct (n <? 8) eqn:E.
  - rewrite <- (Z.mod_pow2_bits_low (x + y * 2 ^ 8) 8 n) by lia.
    rewrite Z.mod_add by lia. rewrite Z.mod_small by lia. reflexivity.
  - replace n with (n - 8 + 8) at 1 by lia.
    rewrite <- Z.div_pow2_bits by lia.
    rewrite Z.div_add by lia. rewrite Z.div_small by lia. reflexivity.
Qed.

Lemma land_1_odd c : Z.land c 1 = if Z.odd c then 1 else 0.
Proof.
  change 1 with (Z.ones 1) at 1. rewrite Z.land_ones by lia.
  change (2 ^ 1) with 2. apply Zmod_odd.
Qed.

(** The upper half of [next_cluster] does not reach the value used: for
    the 12- and 16-bit variants the masks remove it. *)
Lemma fat_entry_value_upper_half d lo hi :
  fat_size d = 12 \/ fat_size d = 16 ->
  0 <= lo < 2 ^ 16 -> 0 <= hi ->
  fat_entry_value d (lo + 2 ^ 16 * hi) = fat_entry_value d lo.
Proof.
  intros Hsz Hlo Hhi. unfold fat_entry_value.
  assert (Hlow : forall k, 0 <= k <= 4 ->
            Z.land (Z.shiftr (lo + 2 ^ 16 * hi) k) (Z.ones (16 - k))
            = Z.land (Z.shiftr lo k) (Z.ones (16 - k))).
  { intros k Hk. rewrite !Z.land_ones by lia. rewrite !Z.shiftr_div_pow2 by lia.
    replace (2 ^ 16) with (2 ^ k * 2 ^ (16 - k))
      by (rewrite <- Z.pow_add_r by lia; f_equal; lia).
    rewrite <- Z.mul_assoc, (Z.mul_comm (2 ^ k)), Z.div_add by lia.
    rewrite (Z.mul_comm (2 ^ (16 - k))), Z.mod_add by lia. reflexivity. }
  destruct Hsz as [-> | ->]; simpl.
  - destruct (negb (Z.land (cur_cluster d) 1 =? 0)).
    + change 4095 with (Z.ones (16 - 4)). apply Hlow. lia.
    + pose proof (Hlow 0 ltac:(lia)) as H0. rewrite !Z.shiftr_0_r in H0.
      change 4095 with (Z.ones 12).
      apply Z.bits_inj'. intros n Hn. rewrite !Z.land_spec.
      destruct (Z_lt_le_dec n 12).
      * f_equal. transitivity (Z.testbit (Z.land (lo + 2 ^ 16 * hi) (Z.ones (16 - 0))) n).
        -- rewrite Z.land_spec, Z.ones_spec_low by lia. rewrite andb_true_r. reflexivity.
        -- rewrite H0, Z.land_spec, Z.ones_spec_low by lia. rewrite andb_true_r. reflexivity.
      * rewrite Z.ones_spec_high by lia. rewrite !andb_false_r. reflexivity.
  - pose proof (Hlow 0 ltac:(lia)) as H0. rewrite !Z.shiftr_0_r in H0. exact H0.
Qed.

Lemma all_below_spec (k : nat) (P : Z -> Prop) :
  all_below k P -> forall n, 0 <= n < Z.of_nat k -> P n.
Proof.
  induction k as [|k IH]; intros H n Hn; [lia|].
  destruct H as [Hk Hl].
  destruct (Z.eq_dec n (Z.of_nat k)) as [-> | Hne]; [assumption|].
  apply IH; [assumption | lia].
Qed.

(** One bit of the entry: the index of the byte and of the bit in it are
    found by linear arithmetic on [c] and [c / 2]. *)
Ltac fat12_bit c T0 T1 :=
  rewrite ?Z.shiftr_spec by lia;
  rewrite testbit_two_bytes by lia;
  match goal with
  | |- context [if ?b then _ else _] =>
      let v := eval vm_compute in b in change b with v; cbv iota
  end;
  match goal with
  | |- context [Z.to_nat ?k] =>
      let v := eval vm_compute in (Z.to_nat k) in change (Z.to_nat k) with v
  end;
  cbn [nth map]; unfold table_bit;
  match goal with
  | |- Z.testbit (u8 ?b) ?i = Z.testbit (fat_table ?disk ?d ?q) ?r =>
      first
        [ replace q with (c + c / 2) by (Z.div_mod_to_equations; lia);
          replace r with i by (Z.div_mod_to_equations; lia);
          rewrite T0; reflexivity
        | replace q with (c + c / 2 + 1) by (Z.div_mod_to_equations; lia);
          replace r with i by (Z.div_mod_to_equations; lia);
          rewrite T1; reflexivity ]
  end.

(** Claim C7.  On a FAT12 volume, for a current cluster [c] (with
    [c + c / 2] below 2^32), the FAT walker reads 2 bytes at FAT byte
    offset [c + c / 2], takes them as a little-endian value, shifts it
    right by 4 iff [c] is odd and keeps the low 12 bits; and for odd and
    even [c] alike the value is the bit-wise decode of entry [c] of the
    packed table, the twelve bits from bit [12 * c] on. *)
Theorem fat12_walker_decodes (disk : grub_disk) (d : grub_fat_data) (b0 b1 : Z) :
  let c := cur_cluster d in
  let fat := fat_sector d * 2 ^ GRUB_DISK_SECTOR_BITS in
  fat_size d = 12 ->
  0 <= c -> c + c / 2 < 2 ^ 32 ->
  disk (fat + (c + c / 2)) = Some b0 ->
  disk (fat + (c + c / 2) + 1) = Some b1 ->
  fat_offset d = c + c / 2
  /\ fat_entry_bytes d = 2
  /\ grub_disk_read disk (fat_sector d) (fat_offset d) (fat_entry_bytes d)
     = Some [u8 b0; u8 b1]
  /\ fat_next disk d
     = Some (Z.land (if Z.odd c
                     then Z.shiftr (u8 b0 + 2 ^ 8 * u8 b1) 4
                     else u8 b0 + 2 ^ 8 * u8 b1) 0x0FFF)
  /\ fat_next disk d = Some (fat12_entry (fat_table disk d) c).
Proof.
  intros c fat Hsz Hc Hb H0 H1.
  assert (Hoff : fat_offset d = c + c / 2).
  { unfold fat_offset. rewrite Hsz. simpl. fold c.
    rewrite Z.shiftr_div_pow2 by lia. change (2 ^ 1) with 2.
    apply u32_small. split; [|assumption].
    pose proof (Z.div_pos c 2 Hc ltac:(lia)). lia. }
  assert (Hw : fat_entry_bytes d = 2) by (unfold fat_entry_bytes; rewrite Hsz; reflexivity).
  assert (Hrd : grub_disk_read disk (fat_sector d) (fat_offset d) (fat_entry_bytes d)
                = Some [u8 b0; u8 b1]).
  { rewrite Hoff, Hw. unfold grub_disk_read. fold fat.
    rewrite u32_small by (pose proof (Z.div_pos c 2 Hc ltac:(lia)); lia).
    change (Z.to_nat (u32 2)) with 2%nat. simpl. rewrite H0, H1. reflexivity. }
  assert (Hnext : fat_next disk d
     = Some (Z.land (if Z.odd c
                     then Z.shiftr (u8 b0 + 2 ^ 8 * u8 b1) 4
                     else u8 b0 + 2 ^ 8 * u8 b1) 0x0FFF)).
  { unfold fat_next. rewrite Hrd. unfold fat_entry_value. rewrite Hsz. simpl Z.eqb.
    cbv iota. fold c. rewrite land_1_odd.
    unfold le32, byte_at. simpl nth.
    replace (u8 b0 + 2 ^ 8 * u8 b1 + 2 ^ 16 * 0 + 2 ^ 24 * 0)
      with (u8 b0 + 2 ^ 8 * u8 b1) by lia.
    destruct (Z.odd c); reflexivity. }
  do 4 (split; [assumption|]).
  rewrite Hnext. f_equal.
  assert (T0 : fat_table disk d (c + c / 2) = u8 b0).
  { unfold fat_table. fold fat. rewrite H0. reflexivity. }
  assert (T1 : fat_table disk d (c + c / 2 + 1) = u8 b1).
  { unfold fat_table. fold fat.
    replace (fat + (c + c / 2 + 1)) with (fat + (c + c / 2) + 1) by lia.
    rewrite H1. reflexivity. }
  pose proof (u8_range b0) as R0. pose proof (u8_range b1) as R1.
  pose proof (Zmod_odd c) as Hodd.
  apply Z.bits_inj'. intros n Hn.
  unfold fat12_entry. rewrite bits_value_testbit by assumption.
  rewrite Z.land_spec.
  destruct (Z_lt_le_dec n 12) as [Hlt | Hge].
  - change 4095 with (Z.ones 12). rewrite Z.ones_spec_low by lia. rewrite andb_true_r.
    pattern n. apply (all_below_spec 12); [|lia].
    cbn [all_below]. repeat split;
      cbn [Z.of_nat Pos.of_succ_nat Pos.succ];
      destruct (Z.odd c) eqn:Eo; fat12_bit c T0 T1.
  - change 4095 with (Z.ones 12). rewrite Z.ones_spec_high by lia.
    rewrite andb_false_r.
    symmetry. apply nth_overflow. simpl. lia.
Qed.

(** Claim C7 at entry 2 of the FAT of [floppy]. *)
Lemma fat12_walker_decodes_witness :
  fat_next floppy (restart hello_file)
  = Some (fat12_entry (fat_table floppy (restart hello_file)) 2).
Proof.
  apply (fat12_walker_decodes floppy (restart hello_file) 0xFF 0x0F).
  - reflexivity.
  - vm_compute. discriminate.
  - vm_compute. reflexivity.
  - vm_compute. reflexivity.
  - vm_compute. reflexivity.
Defined.

(** ** The short-name checksum *)

Lemma sum_step_range s b : 0 <= sum_step s b < 256.
Proof. unfold sum_step. apply u8_range. Qed.

Lemma fold_sum_step_range l : forall a,
  0 <= a < 256 -> 0 <= fold_left sum_step l a < 256.
Proof.
  induction l as [|b l IH]; intros a Ha; simpl; [assumption|].
  apply IH. apply sum_step_range.
Qed.

Lemma sum8dot3_range name : 0 <= sum8dot3 name < 256.
Proof. unfold sum8dot3. apply fold_sum_step_range. lia. Qed.

Lemma lor_disjoint_halves s :
  0 <= s < 256 -> Z.lor (Z.shiftr s 1) (Z.shiftl s 7) = s / 2 + 128 * s.
Proof.
  intros Hs. rewrite Z.shiftr_div_pow2, Z.shiftl_mul_pow2 by lia.
  change (2 ^ 1) with 2. change (2 ^ 7) with 128.
  assert (Hland : Z.land (s / 2) (s * 128) = 0).
  { apply Z.bits_inj'. intros n Hn.
    rewrite Z.land_spec, Z.bits_0.
    destruct (Z_lt_le_dec n 7) as [Hlt | Hge].
    - change 128 with (2 ^ 7). rewrite Z.mul_pow2_bits_low by lia.
      apply andb_false_r.
    - assert (Hsmall : s / 2 = (s / 2) mod 2 ^ 7).
      { symmetry. apply Z.mod_small. change (2 ^ 7) with 128.
        Z.div_mod_to_equations. lia. }
      rewrite Hsmall, Z.mod_pow2_bits_high by lia. reflexivity. }
  pose proof (Z.add_lor_land (s / 2) (s * 128)) as H.
  rewrite Hland in H. lia.
Qed.

Lemma sum_step_rotate s b :
  0 <= s < 256 -> sum_step s b = (rotate_right_8 s + b) mod 256.
Proof.
  intros Hs. unfold sum_step, rotate_right_8, u8.
  rewrite lor_disjoint_halves by assumption.
  change (2 ^ 8) with 256.
  replace (s / 2 + 128 * s + b)
    with (s / 2 + 128 * (s mod 2) + b + (s / 2) * 256)
    by (Z.div_mod_to_equations; lia).
  apply Z.mod_add. lia.
Qed.

Lemma fold_sum_step_spec l : forall a,
  0 <= a < 256 ->
  fold_left sum_step l a
  = fold_left (fun s b => (rotate_right_8 s + b) mod 256) l a.
Proof.
  induction l as [|b l IH]; intros a Ha; simpl; [reflexivity|].
  rewrite <- sum_step_rotate by assumption.
  apply IH. apply sum_step_range.
Qed.

Lemma sum8dot3_is_spec name : sum8dot3 name = sum8dot3_spec name.
Proof. unfold sum8dot3, sum8dot3_spec. apply fold_sum_step_spec. lia. Qed.

(** ** The scanner *)

Lemma bytes_eqb_eq a : forall b, bytes_eqb a b = true <-> a = b.
Proof.
  induction a as [|x a IH]; intros [|y b]; simpl; split; intros H;
    try reflexivity; try discriminate.
  - apply andb_true_iff in H. destruct H as [H1 H2].
    apply Z.eqb_eq in H1. apply IH in H2. congruence.
  - injection H as -> ->. rewrite Z.eqb_refl. apply IH. reflexivity.
Qed.

Section ScannerFacts.

Variable grub_isspace : Z -> bool.
Variable grub_tolower : Z -> Z.
Variable grub_utf16_to_utf8 : list Z -> bytes.

Lemma lfn_complete_dec st name :
  (negb (checksum st =? -1) && (slot st =? 0)) && (sum8dot3 name =? checksum st) = true
  <-> lfn_complete st name.
Proof.
  unfold lfn_complete. pose proof (sum8dot3_range name) as Hr. split.
  - intros H. apply andb_true_iff in H. destruct H as [H1 H2].
    apply andb_true_iff in H1. lia.
  - intros [H1 H2]. rewrite H1, <- H2. simpl.
    destruct (sum8dot3 name =? -1) eqn:E; [lia|]. rewrite Z.eqb_refl. reflexivity.
Qed.

(** The name the scanner works with for an accepted record: the long
    name when the group is complete with the right checksum, the 8.3 name
    if not. *)
Lemma scan_accepted_listing hook st dir :
  accepted_entry dir ->
  let dir' := name0_workaround dir in
  step_calls (scan_entry grub_isspace grub_tolower grub_utf16_to_utf8 [] true hook st dir)
  = if (negb (checksum st =? -1) && (slot st =? 0))
       && (sum8dot3 (dir_name dir') =? checksum st)
    then [(long_filename grub_utf16_to_utf8 st, dir_flag dir')]
    else [(convert_8dot3 grub_isspace grub_tolower (dir_name dir'), dir_flag dir')].
Proof.
  intros (Ha & H0 & Hv) dir'. unfold scan_entry.
  destruct (dir_attr dir =? GRUB_FAT_ATTR_LONG_NAME) eqn:E1; [lia|].
  destruct (byte_at dir 0 =? 229) eqn:E2; [lia|].
  rewrite Hv. simpl negb. simpl orb. cbv iota. fold dir'.
  unfold offer. simpl bytes_eqb. simpl andb.
  destruct (negb (checksum st =? -1) && (slot st =? 0)); simpl andb.
  - destruct (sum8dot3 (dir_name dir') =? checksum st).
    + destruct (hook (long_filename grub_utf16_to_utf8 st) (dir_flag dir')); reflexivity.
    + destruct (hook (convert_8dot3 grub_isspace grub_tolower (dir_name dir')) (dir_flag dir')); reflexivity.
  - destruct (hook (convert_8dot3 grub_isspace grub_tolower (dir_name dir')) (dir_flag dir')); reflexivity.
Qed.

Lemma scan_accepted_lookup dirname call_hook hook st dir :
  accepted_entry dir ->
  dirname <> [] \/ call_hook = false ->
  let dir' := name0_workaround dir in
  step_breaks (scan_entry grub_isspace grub_tolower grub_utf16_to_utf8 dirname call_hook hook st dir)
  = ((negb (checksum st =? -1) && (slot st =? 0))
     && (sum8dot3 (dir_name dir') =? checksum st)
     && bytes_eqb dirname (long_filename grub_utf16_to_utf8 st))
    || bytes_eqb dirname (convert_8dot3 grub_isspace grub_tolower (dir_name dir')).
Proof.
  intros (Ha & H0 & Hv) Hmode dir'. unfold scan_entry.
  destruct (dir_attr dir =? GRUB_FAT_ATTR_LONG_NAME) eqn:E1; [lia|].
  destruct (byte_at dir 0 =? 229) eqn:E2; [lia|].
  rewrite Hv. simpl negb. simpl orb. cbv iota. fold dir'.
  unfold offer.
  assert (Hl : bytes_eqb dirname [] && call_hook = false).
  { destruct Hmode as [Hd | ->]; [|apply andb_false_r].
    destruct dirname; [contradiction | reflexivity]. }
  rewrite Hl.
  destruct (negb (checksum st =? -1) && (slot st =? 0)); simpl andb.
  - destruct (sum8dot3 (dir_name dir') =? checksum st); simpl andb.
    + destruct (bytes_eqb dirname (long_filename grub_utf16_to_utf8 st)); simpl; [reflexivity|].
      destruct (bytes_eqb dirname (convert_8dot3 grub_isspace grub_tolower (dir_name dir'))); reflexivity.
    + destruct (bytes_eqb dirname (convert_8dot3 grub_isspace grub_tolower (dir_name dir'))); reflexivity.
  - destruct (bytes_eqb dirname (convert_8dot3 grub_isspace grub_tolower (dir_name dir'))); reflexivity.
Qed.

Lemma scan_long_name_slot dirname call_hook hook st dir :
  dir_attr dir = GRUB_FAT_ATTR_LONG_NAME ->
  scan_entry grub_isspace grub_tolower grub_utf16_to_utf8 dirname call_hook hook st dir
  = ScanContinue (long_name_entry st dir) dir [].
Proof.
  intros H. unfold scan_entry. rewrite H. reflexivity.
Qed.

End ScannerFacts.

Lemma cstr_no_nul l : Forall (fun c => c <> 0) l -> cstr l = l.
Proof.
  induction 1 as [|c l Hc _ IH]; simpl; [reflexivity|].
  destruct (c =? 0) eqn:E; [lia|]. rewrite IH. reflexivity.
Qed.

Lemma last_app_cons (a : bytes) x b d : last (a ++ x :: b) d = last (x :: b) d.
Proof.
  induction a as [|y a IH]; [reflexivity|].
  simpl app. rewrite <- IH. simpl. destruct (a ++ x :: b) eqn:E; [|reflexivity].
  destruct a; discriminate.
Qed.

Lemma name_chars_run isspace tolower bs :
  name_chars isspace tolower bs
  = map (fun b => u8 (tolower b)) (name_run isspace bs).
Proof.
  induction bs as [|b bs IH]; simpl; [reflexivity|].
  destruct ((b =? 0) || isspace b); [reflexivity|]. simpl. rewrite IH. reflexivity.
Qed.

Lemma name_run_padded isspace core k :
  isspace 32 = true ->
  Forall (fun b => b <> 0 /\ isspace b = false) core ->
  name_run isspace (core ++ repeat 32 k) = core
  /\ strip_trailing_spaces (core ++ repeat 32 k) = core.
Proof.
  intros Hsp Hcore. split.
  - induction Hcore as [|b core [Hb Hs] _ IH]; simpl.
    + destruct k; simpl; [reflexivity|]. rewrite Hsp. reflexivity.
    + destruct (b =? 0) eqn:E; [lia|]. rewrite Hs. simpl. rewrite IH. reflexivity.
  - induction Hcore as [|b core [Hb Hs] _ IH]; simpl.
    + induction k as [|k IHk]; simpl; [reflexivity|]. rewrite IHk. reflexivity.
    + rewrite IH. destruct core; [|reflexivity].
      destruct (b =? 32) eqn:E; [|reflexivity].
      apply Z.eqb_eq in E. subst b. congruence.
Qed.

Lemma convert_8dot3_parts isspace tolower name :
  let base := name_chars isspace tolower (firstn 8 name) in
  let ext := name_chars isspace tolower (firstn 3 (skipn 8 name)) in
  Forall (fun c => c <> 0) (base ++ ext) -> last ext 0 <> 46 ->
  convert_8dot3 isspace tolower name
  = match ext with [] => base | _ => base ++ [46] ++ ext end.
Proof.
  intros base ext Hnz Hlast. unfold convert_8dot3. fold base. fold ext.
  clearbody base ext.
  apply Forall_app in Hnz. destruct Hnz as [Hb He].
  destruct ext as [|x ext'].
  - change ([46] ++ []) with [46].
    rewrite last_last, Z.eqb_refl, removelast_last. apply cstr_no_nul. assumption.
  - change ([46] ++ x :: ext') with (46 :: x :: ext'). rewrite last_app_cons.
    change (last (46 :: x :: ext') 0) with (last (x :: ext') 0).
    destruct (last (x :: ext') 0 =? 46) eqn:E; [lia|].
    apply cstr_no_nul. apply Forall_app. split; [assumption|].
    constructor; [lia | assumption].
Qed.

Lemma ln_units_length dir : length (ln_units dir) = 13%nat.
Proof. reflexivity. Qed.

Lemma store_units_length buf pos units :
  0 <= pos -> (Z.to_nat pos + length units <= length buf)%nat ->
  length (store_units buf pos units) = length buf.
Proof.
  intros Hp Hl. unfold store_units.
  rewrite !length_app, length_firstn, length_skipn. lia.
Qed.

Lemma store_units_skipn buf pos units :
  0 <= pos -> (Z.to_nat pos + length units <= length buf)%nat ->
  skipn (Z.to_nat pos) (store_units buf pos units)
  = units ++ skipn (Z.to_nat pos + length units) buf.
Proof.
  intros Hp Hl. unfold store_units.
  rewrite skipn_app, length_firstn.
  replace (Nat.min (Z.to_nat pos) (length buf)) with (Z.to_nat pos) by lia.
  rewrite Nat.sub_diag. cbn [skipn].
  rewrite skipn_all2 by (rewrite length_firstn; lia). reflexivity.
Qed.

Lemma land_64_small k : 0 <= k < 64 -> Z.land k 64 = 0.
Proof.
  intros Hk. apply Z.bits_inj'. intros n Hn.
  rewrite Z.land_spec, Z.bits_0. change 64 with (2 ^ 6).
  rewrite Z.pow2_bits_eqb by lia.
  destruct (Z.eqb_spec 6 n) as [<- | Hne]; [|apply andb_false_r].
  rewrite andb_true_r. rewrite <- (Z.mod_small k (2 ^ 6)) by (change (2 ^ 6) with 64; lia).
  apply Z.mod_pow2_bits_high. lia.
Qed.

Lemma land_63_range x : 0 <= Z.land x 63 <= 63.
Proof.
  change 63 with (Z.ones 6) at 1 2. rewrite Z.land_ones by lia.
  pose proof (Z.mod_pos_bound x (2 ^ 6) ltac:(lia)). change (2 ^ 6) with 64 in *. lia.
Qed.

Lemma firstn_add {A} (a b : nat) : forall l : list A,
  firstn (a + b) l = firstn a l ++ firstn b (skipn a l).
Proof.
  induction a as [|a IH]; intros l; [reflexivity|].
  destruct l as [|x l]; [cbn; rewrite firstn_nil; reflexivity|].
  cbn [Nat.add firstn skipn app]. rewrite IH. reflexivity.
Qed.

Lemma firstn_exact {A} (u r : list A) n : length u = n -> firstn n (u ++ r) = u.
Proof.
  intros <-. rewrite firstn_app, Nat.sub_diag, firstn_all, firstn_O. apply app_nil_r.
Qed.

Lemma skipn_exact {A} (u r : list A) n : length u = n -> skipn n (u ++ r) = r.
Proof.
  intros <-. rewrite skipn_app, Nat.sub_diag, skipn_all. reflexivity.
Qed.

(** A slot of the run, taken in sequence. *)
Lemma long_name_entry_next st d (k' : nat) :
  ln_id d = Z.of_nat (S k') -> (S k' <= 63)%nat ->
  slot st = Z.of_nat (S k') -> checksum st = ln_checksum d ->
  long_name_entry st d
  = mk_lfn (Z.of_nat k') (slots st) (checksum st)
      (store_units (unibuf st) (Z.of_nat k' * 13) (ln_units d)).
Proof.
  intros Hid Hk Hs Hc. unfold long_name_entry.
  rewrite Hid, land_64_small by lia. change (negb (0 =? 0)) with false. cbv iota.
  rewrite Hs, Z.eqb_refl, Hc, Z.eqb_refl.
  destruct (Z.eqb_spec (Z.of_nat (S k')) 0) as [E|E]; [lia|]. cbn [negb orb].
  replace (Z.of_nat (S k') - 1) with (Z.of_nat k') by lia. reflexivity.
Qed.

Lemma slot_run_fold sum : forall ds (k : nat) st,
  slot_run k sum ds -> slot st = Z.of_nat k -> checksum st = sum ->
  (k <= 63)%nat -> (13 * k <= length (unibuf st))%nat ->
  let st' := fold_left long_name_entry ds st in
  slot st' = 0 /\ slots st' = slots st /\ checksum st' = sum
  /\ length (unibuf st') = length (unibuf st)
  /\ firstn (13 * k) (unibuf st') = flat_map ln_units (rev ds)
  /\ skipn (13 * k) (unibuf st') = skipn (13 * k) (unibuf st).
Proof.
  induction ds as [|d rest IH]; intros k st Hrun Hs Hc Hk Hlen; cbn [slot_run] in Hrun.
  - subst k. cbn. repeat split; assumption.
  - destruct k as [|k']; [contradiction|]. destruct Hrun as (Hid & Hsum & Hrun).
    cbn [fold_left].
    rewrite (long_name_entry_next st d k') by (assumption || congruence).
    set (buf1 := store_units (unibuf st) (Z.of_nat k' * 13) (ln_units d)).
    assert (Hpos : Z.to_nat (Z.of_nat k' * 13) = (13 * k')%nat) by lia.
    assert (Hl1 : length buf1 = length (unibuf st)).
    { apply store_units_length; [lia|]. rewrite Hpos, ln_units_length. lia. }
    assert (Hs1 : skipn (13 * k') buf1
                  = ln_units d ++ skipn (13 * k' + 13) (unibuf st)).
    { rewrite <- Hpos. unfold buf1. rewrite store_units_skipn.
      - rewrite ln_units_length, Hpos. reflexivity.
      - lia.
      - rewrite Hpos, ln_units_length. lia. }
    destruct (IH k' (mk_lfn (Z.of_nat k') (slots st) (checksum st) buf1) Hrun)
      as (H1 & H2 & H3 & H4 & H5 & H6); cbn [slot checksum unibuf slots];
      try reflexivity; try assumption; try lia.
    cbv zeta. cbn [slots unibuf] in *.
    split; [assumption|]. split; [assumption|]. split; [assumption|].
    split; [congruence|].
    rewrite Hs1 in H6.
    replace (13 * S k')%nat with (13 * k' + 13)%nat by lia.
    set (final := unibuf (fold_left long_name_entry rest
                            (mk_lfn (Z.of_nat k') (slots st) (checksum st) buf1))) in *.
    split.
    + rewrite firstn_add, H5, H6, firstn_exact by apply ln_units_length.
      cbn [rev]. rewrite flat_map_app. cbn [flat_map]. rewrite app_nil_r. reflexivity.
    + replace (13 * k' + 13)%nat with (13 + 13 * k')%nat by lia.
      rewrite <- !skipn_skipn. rewrite H6, skipn_exact by apply ln_units_length.
      rewrite skipn_skipn. f_equal. lia.
Qed.

(** The first slot of a group, then the slots of the run. *)
Lemma long_name_group_fold (st : lfn_state) (first : bytes) (rest : list bytes) :
  let n := S (length rest) in
  (n <= 63)%nat ->
  Z.land (ln_id first) 0x40 <> 0 ->
  Z.land (ln_id first) 0x3f = Z.of_nat n ->
  slot_run (length rest) (ln_checksum first) rest ->
  (13 * n <= length (unibuf st))%nat ->
  let st' := fold_left long_name_entry (first :: rest) st in
  slot st' = 0 /\ slots st' = Z.of_nat n /\ checksum st' = ln_checksum first
  /\ firstn (13 * n) (unibuf st') = flat_map ln_units (rev (first :: rest)).
Proof.
  intros n Hn Hflag Hid Hrun Hlen st'.
  set (sum := ln_checksum first) in *.
  assert (Hfirst : long_name_entry st first
                   = mk_lfn (Z.of_nat (length rest)) (Z.of_nat n) sum
                       (store_units (unibuf st) (Z.of_nat (length rest) * 13)
                          (ln_units first))).
  { unfold long_name_entry.
    destruct (Z.eqb_spec (Z.land (ln_id first) 64) 0) as [E|E]; [contradiction|].
    cbn [negb]. cbv iota. cbn [slot slots checksum unibuf].
    rewrite Hid, !Z.eqb_refl.
    destruct (Z.eqb_spec (Z.of_nat n) 0) as [E0|E0]; [unfold n in E0; lia|].
    cbn [negb orb].
    replace (Z.of_nat n - 1) with (Z.of_nat (length rest)) by (unfold n; lia).
    reflexivity. }
  assert (Hpos : Z.to_nat (Z.of_nat (length rest) * 13) = (13 * length rest)%nat) by lia.
  set (buf1 := store_units (unibuf st) (Z.of_nat (length rest) * 13) (ln_units first)) in *.
  assert (Hl1 : length buf1 = length (unibuf st)).
  { apply store_units_length; [lia|]. rewrite Hpos, ln_units_length. unfold n in Hlen. lia. }
  assert (Hs1 : skipn (13 * length rest) buf1
                = ln_units first ++ skipn (13 * length rest + 13) (unibuf st)).
  { rewrite <- Hpos. unfold buf1. rewrite store_units_skipn.
    - rewrite ln_units_length, Hpos. reflexivity.
    - lia.
    - rewrite Hpos, ln_units_length. unfold n in Hlen. lia. }
  destruct (slot_run_fold sum rest (length rest)
              (mk_lfn (Z.of_nat (length rest)) (Z.of_nat n) sum buf1) Hrun)
    as (H1 & H2 & H3 & H4 & H5 & H6); cbn [slot checksum unibuf slots];
    try reflexivity; try (unfold n in *; lia).
  cbn [slots unibuf] in H2, H4, H5, H6.
  assert (Est : st' = fold_left long_name_entry rest
                        (mk_lfn (Z.of_nat (length rest)) (Z.of_nat n) sum buf1)).
  { unfold st'. cbn [fold_left]. rewrite Hfirst. reflexivity. }
  rewrite <- Est in *.
  do 3 (split; [assumption|]).
  replace (13 * n)%nat with (13 * length rest + 13)%nat by (unfold n; lia).
  rewrite firstn_add, H5, H6, Hs1, firstn_exact by apply ln_units_length.
  cbn [rev]. rewrite flat_map_app. cbn [flat_map]. rewrite app_nil_r. reflexivity.
Qed.

(** After a well-formed group, the long name is the decoded code units of
    its slots. *)
Lemma long_name_group_filename (grub_utf16_to_utf8 : list Z -> bytes)
    (st : lfn_state) (first : bytes) (rest : list bytes) :
  let n := S (length rest) in
  (n <= 63)%nat ->
  Z.land (ln_id first) 0x40 <> 0 ->
  Z.land (ln_id first) 0x3f = Z.of_nat n ->
  slot_run (length rest) (ln_checksum first) rest ->
  (13 * n <= length (unibuf st))%nat ->
  long_filename grub_utf16_to_utf8 (fold_left long_name_entry (first :: rest) st)
  = cstr (grub_utf16_to_utf8 (flat_map ln_units (rev (first :: rest)))).
Proof.
  intros n Hn Hflag Hid Hrun Hlen.
  destruct (long_name_group_fold st first rest Hn Hflag Hid Hrun Hlen)
    as (_ & H2 & _ & H4).
  unfold long_filename. rewrite H2. subst n.
  replace (Z.to_nat (Z.of_nat (S (length rest)) * 13))
    with (13 * S (length rest))%nat by lia.
  rewrite H4. reflexivity.
Qed.

(** An accepted record after a well-formed group whose checksum is that
    of the record's name bytes. *)
Lemma scan_after_group (grub_utf16_to_utf8 : list Z -> bytes) st first rest dir :
  let n := S (length rest) in
  (n <= 63)%nat ->
  Z.land (ln_id first) 0x40 <> 0 ->
  Z.land (ln_id first) 0x3f = Z.of_nat n ->
  slot_run (length rest) (ln_checksum first) rest ->
  (13 * n <= length (unibuf st))%nat ->
  sum8dot3 (dir_name (name0_workaround dir)) = ln_checksum first ->
  let st' := fold_left long_name_entry (first :: rest) st in
  lfn_complete st' (dir_name (name0_workaround dir))
  /\ long_filename grub_utf16_to_utf8 st'
     = cstr (grub_utf16_to_utf8 (flat_map ln_units (rev (first :: rest)))).
Proof.
  intros n Hn Hflag Hid Hrun Hlen Hsum st'.
  destruct (long_name_group_fold st first rest Hn Hflag Hid Hrun Hlen)
    as (H1 & _ & H3 & _).
  fold st' in H1, H3.
  split; [split; [exact H1 | rewrite H3; exact Hsum]|].
  apply long_name_group_filename; assumption.
Qed.



(** Claim C8 fails as stated, in two places: a record whose first byte
    is 0xE5 and whose attribute byte is 0x0F is not skipped, it goes
    through the long-name assembler and changes its state; and the name
    produced for "A B     TXT" is "a.txt", where stripping trailing spaces
    gives "a b.txt". *)
Lemma deleted_slot_and_inner_space :
  (byte_at deleted_slot 0 = 0xe5
   /\ ~ skipped (scan_entry ascii_isspace ascii_tolower ascii_utf16_to_utf8
                   [] true no_hook hello_lfn deleted_slot)
          hello_lfn deleted_slot)
  /\ (accepted_entry spaced_entry
      /\ step_calls (scan_entry ascii_isspace ascii_tolower ascii_utf16_to_utf8
                       [] true no_hook lfn_initial spaced_entry)
         = [(bytes_of_string "a.txt", 0)]
      /\ name_8dot3_spec ascii_tolower (dir_name spaced_entry)
         = bytes_of_string "a b.txt").
Proof.
  split; [split; [reflexivity|] | split; [|split]].
  - unfold skipped. vm_compute. discriminate.
  - vm_compute. repeat split; discriminate.
  - vm_compute. reflexivity.
  - vm_compute. reflexivity.
Qed.

Lemma convert_8dot3_runs isspace tolower name :
  let base := name_chars isspace tolower (firstn 8 name) in
  let ext := name_chars isspace tolower (firstn 3 (skipn 8 name)) in
  convert_8dot3 isspace tolower name
  = cstr (base ++ match ext with
                  | [] => []
                  | _ => 46 :: (if last ext 0 =? 46 then removelast ext else ext)
                  end).
Proof.
  intros base ext. unfold convert_8dot3. fold base. fold ext. clearbody base ext.
  destruct ext as [|x ext'].
  - change ([46] ++ []) with [46].
    rewrite last_last, Z.eqb_refl, removelast_last, app_nil_r. reflexivity.
  - change ([46] ++ x :: ext') with (46 :: x :: ext'). rewrite last_app_cons.
    change (last (46 :: x :: ext') 0) with (last (x :: ext') 0).
    destruct (last (x :: ext') 0 =? 46); [|reflexivity].
    rewrite removelast_app by discriminate. reflexivity.
Qed.

(** Claim C8, amended.  A record whose first name byte is 0xE5 and
    whose attribute byte is not the long-name value is skipped.  A first
    name byte 0x05 is rewritten to 0xE5 before the name is formed.  The
    8.3 name handed out (when no long name is attached) is formed from
    the rewritten name bytes: the base is bytes 0-7 up to the first NUL
    or whitespace byte, the extension bytes 8-10 likewise, both
    lowercased.  An empty extension adds nothing to the base; an
    extension that is not empty follows a ['.'], without its last byte
    when that byte is a ['.'] (the terminator is written over it); and
    the name ends before the first NUL that lowercasing produces.  So
    when lowercasing yields no NUL and the extension does not end in
    ['.'], the name is the base alone or the base, a ['.'] and the
    extension.  For a field that is padded with spaces and has no NUL or
    whitespace before the padding, the run up to the first NUL or
    whitespace byte is the field with its trailing spaces stripped. *)
Theorem short_name_entries
    (grub_isspace : Z -> bool) (grub_tolower : Z -> Z)
    (grub_utf16_to_utf8 : list Z -> bytes) :
  (forall dirname call_hook hook st dir,
     byte_at dir 0 = 0xe5 -> dir_attr dir <> GRUB_FAT_ATTR_LONG_NAME ->
     skipped (scan_entry grub_isspace grub_tolower grub_utf16_to_utf8
                dirname call_hook hook st dir) st dir)
  /\ (forall dir,
        byte_at dir 0 = 0x05 ->
        name0_workaround dir = set_name0 dir 0xe5
        /\ byte_at (name0_workaround dir) 0 = 0xe5)
  /\ (forall hook st dir,
        accepted_entry dir ->
        ~ lfn_complete st (dir_name (name0_workaround dir)) ->
        step_calls (scan_entry grub_isspace grub_tolower grub_utf16_to_utf8
                      [] true hook st dir)
        = [(convert_8dot3 grub_isspace grub_tolower
              (dir_name (name0_workaround dir)),
            dir_flag (name0_workaround dir))])
  /\ (forall name,
        let lower := map (fun b => u8 (grub_tolower b)) in
        let base := lower (name_run grub_isspace (firstn 8 name)) in
        let ext := lower (name_run grub_isspace (firstn 3 (skipn 8 name))) in
        convert_8dot3 grub_isspace grub_tolower name
        = cstr (base ++ match ext with
                        | [] => []
                        | _ => 46 :: (if last ext 0 =? 46 then removelast ext else ext)
                        end))
  /\ (forall name,
        let lower := map (fun b => u8 (grub_tolower b)) in
        let base := lower (name_run grub_isspace (firstn 8 name)) in
        let ext := lower (name_run grub_isspace (firstn 3 (skipn 8 name))) in
        Forall (fun c => c <> 0) (base ++ ext) -> last ext 0 <> 46 ->
        convert_8dot3 grub_isspace grub_tolower name
        = match ext with [] => base | _ => base ++ [46] ++ ext end)
  /\ (forall core k,
        grub_isspace 32 = true ->
        Forall (fun b => b <> 0 /\ grub_isspace b = false) core ->
        name_run grub_isspace (core ++ repeat 32 k) = core
        /\ strip_trailing_spaces (core ++ repeat 32 k) = core).
Proof.
  split; [|split; [|split; [|split; [|split]]]].
  - intros dirname call_hook hook st dir H0 Ha. unfold skipped, scan_entry.
    destruct (dir_attr dir =? GRUB_FAT_ATTR_LONG_NAME) eqn:E; [lia|].
    rewrite H0. reflexivity.
  - intros dir H0. unfold name0_workaround. rewrite H0. simpl. split; reflexivity.
  - intros hook st dir Hacc Hn.
    rewrite scan_accepted_listing by assumption.
    pose proof (lfn_complete_dec st (dir_name (name0_workaround dir))) as Hdec.
    destruct ((negb (checksum st =? -1) && (slot st =? 0))
              && (sum8dot3 (dir_name (name0_workaround dir)) =? checksum st));
      [|reflexivity].
    exfalso. apply Hn, Hdec. reflexivity.
  - intros name lower base ext. subst lower base ext.
    rewrite <- !name_chars_run. apply convert_8dot3_runs.
  - intros name lower base ext Hnz Hlast. subst lower base ext.
    rewrite <- !name_chars_run in *. apply convert_8dot3_parts; assumption.
  - intros core k. apply name_run_padded.
Qed.

(** Claim C8, amended, at a deleted short-name record, at the name bytes
    of HELLO.TXT, and at an extension that ends in a dot. *)
Lemma short_name_entries_witness :
  skipped (scan_entry ascii_isspace ascii_tolower ascii_utf16_to_utf8
             [] true no_hook hello_lfn deleted_entry) hello_lfn deleted_entry
  /\ convert_8dot3 ascii_isspace ascii_tolower (bytes_of_string "HELLO   TXT")
     = bytes_of_string "hello.txt"
  /\ convert_8dot3 ascii_isspace ascii_tolower (bytes_of_string "A       B. ")
     = bytes_of_string "a.b".
Proof.
  split; [|split].
  - apply (proj1 (short_name_entries ascii_isspace ascii_tolower ascii_utf16_to_utf8)).
    + reflexivity.
    + vm_compute. discriminate.
  - rewrite (proj1 (proj2 (proj2 (proj2 (proj2
               (short_name_entries ascii_isspace ascii_tolower ascii_utf16_to_utf8)))))
               (bytes_of_string "HELLO   TXT")).
    + vm_compute. reflexivity.
    + vm_compute. repeat constructor; discriminate.
    + vm_compute. discriminate.
  - rewrite (proj1 (proj2 (proj2 (proj2
               (short_name_entries ascii_isspace ascii_tolower ascii_utf16_to_utf8))))
               (bytes_of_string "A       B. ")).
    vm_compute. reflexivity.
Defined.

(** ** The label scan *)

(** One turn of the label loop, by what the read delivers. *)
Lemma label_loop_step disk fuel st offset r :
  grub_fat_read_data disk st (offset + GRUB_FAT_DIR_ENTRY_SIZE) GRUB_FAT_DIR_ENTRY_SIZE
  = Some r ->
  label_loop disk (S fuel) st offset
  = match rd_ret r with
    | Err e => Some (Err e)
    | Ok n =>
        if negb (n =? GRUB_FAT_DIR_ENTRY_SIZE) || (byte_at (rd_buf r) 0 =? 0)
        then Some (Ok None)
        else if dir_attr (rd_buf r) =? GRUB_FAT_ATTR_VOLUME_ID
             then Some (Ok (Some (grub_strndup (rd_buf r) 11)))
             else label_loop disk fuel (rd_data r) (offset + GRUB_FAT_DIR_ENTRY_SIZE)
    end.
Proof.
  intros Hr. cbn [label_loop]. rewrite Hr.
  destruct (rd_ret r) as [n|e]; [|reflexivity].
  destruct (negb (n =? GRUB_FAT_DIR_ENTRY_SIZE) || (byte_at (rd_buf r) 0 =? 0));
    reflexivity.
Qed.

Lemma record_offset (i : nat) :
  GRUB_FAT_DIR_ENTRY_SIZE * Z.of_nat i - GRUB_FAT_DIR_ENTRY_SIZE + GRUB_FAT_DIR_ENTRY_SIZE
  = GRUB_FAT_DIR_ENTRY_SIZE * Z.of_nat i.
Proof. lia. Qed.

(** The read of record [i] on a handle the scan has got to delivers what
    the read on the freshly mounted handle delivers. *)
Lemma label_read disk d0 st (i : nat) :
  cursor_ok disk d0 -> 0 <= logical_cluster_bits d0 ->
  cursor_ok disk st -> same_file d0 st ->
  GRUB_FAT_DIR_ENTRY_SIZE * Z.of_nat i + GRUB_FAT_DIR_ENTRY_SIZE < 2 ^ 31 ->
  exists r, grub_fat_read_data disk st (GRUB_FAT_DIR_ENTRY_SIZE * Z.of_nat i)
              GRUB_FAT_DIR_ENTRY_SIZE = Some r
    /\ read_out (root_record disk d0 (Z.of_nat i)) = Some (rd_ret r, rd_buf r)
    /\ cursor_ok disk (rd_data r) /\ same_file d0 (rd_data r).
Proof.
  intros Hok0 HB Hok Hs Hb. unfold GRUB_FAT_DIR_ENTRY_SIZE in *.
  destruct (same_file_fields _ _ Hs) as (_ & _ & _ & _ & Hbits & _).
  destruct (grub_fat_read_data_total disk st (32 * Z.of_nat i) 32 ltac:(lia)) as [r Hr].
  exists r. split; [assumption|].
  destruct (read_data_cursor_ok disk st (32 * Z.of_nat i) 32 r Hok
              ltac:(lia) ltac:(lia) ltac:(lia) ltac:(lia) Hr) as [Hok' Hs'].
  split; [|split; [assumption | apply same_file_trans with st; assumption]].
  unfold root_record, GRUB_FAT_DIR_ENTRY_SIZE.
  rewrite (read_data_same_file disk d0 st) by (assumption || lia).
  rewrite Hr. reflexivity.
Qed.

(** The scan passes over the records [i], ..., [i + k - 1]. *)
Lemma label_loop_passes disk d0 (k : nat) : forall (i : nat) st fuel,
  cursor_ok disk d0 -> 0 <= logical_cluster_bits d0 ->
  cursor_ok disk st -> same_file d0 st ->
  GRUB_FAT_DIR_ENTRY_SIZE * Z.of_nat (i + k) + GRUB_FAT_DIR_ENTRY_SIZE < 2 ^ 31 ->
  (forall j, (i <= j < i + k)%nat ->
     exists r, root_record disk d0 (Z.of_nat j) = Some r /\ passed_over r) ->
  exists st',
    cursor_ok disk st' /\ same_file d0 st'
    /\ label_loop disk (k + fuel) st
         (GRUB_FAT_DIR_ENTRY_SIZE * Z.of_nat i - GRUB_FAT_DIR_ENTRY_SIZE)
       = label_loop disk fuel st'
           (GRUB_FAT_DIR_ENTRY_SIZE * Z.of_nat (i + k) - GRUB_FAT_DIR_ENTRY_SIZE).
Proof.
  induction k as [|k IH]; intros i st fuel Hok0 HB Hok Hs Hb Hpass.
  - exists st. rewrite Nat.add_0_r. repeat split; assumption.
  - destruct (label_read disk d0 st i Hok0 HB Hok Hs) as (r & Hr & Hout & Hok' & Hs').
    { unfold GRUB_FAT_DIR_ENTRY_SIZE in *. lia. }
    destruct (Hpass i ltac:(lia)) as (r0 & Hr0 & Hret & Hb0 & Hattr).
    rewrite Hr0 in Hout. simpl in Hout. injection Hout as Hret' Hbuf'.
    rewrite <- record_offset in Hr.
    cbn [Nat.add]. rewrite (label_loop_step _ _ _ _ _ Hr).
    rewrite <- Hret', Hret, Z.eqb_refl, <- Hbuf'. simpl negb. simpl orb.
    destruct (byte_at (rd_buf r0) 0 =? 0) eqn:E0; [lia|].
    destruct (dir_attr (rd_buf r0) =? GRUB_FAT_ATTR_VOLUME_ID) eqn:E1; [lia|].
    rewrite record_offset.
    destruct (IH (S i) (rd_data r) fuel Hok0 HB Hok' Hs') as (st' & H1 & H2 & H3).
    + replace (S i + k)%nat with (i + S k)%nat by lia. assumption.
    + intros j Hj. apply Hpass. lia.
    + exists st'. split; [assumption|]. split; [assumption|].
      replace (i + S k)%nat with (S i + k)%nat by lia.
      rewrite <- H3. f_equal. unfold GRUB_FAT_DIR_ENTRY_SIZE. lia.
Qed.

(** The label scan from the mounted handle, by the first record that is
    not passed over. *)
Lemma label_scan disk d0 (k fuel : nat) r :
  grub_fat_mount (Some disk) = Ok d0 ->
  (k < fuel)%nat ->
  GRUB_FAT_DIR_ENTRY_SIZE * Z.of_nat k + GRUB_FAT_DIR_ENTRY_SIZE < 2 ^ 31 ->
  (forall j, (j < k)%nat ->
     exists r, root_record disk d0 (Z.of_nat j) = Some r /\ passed_over r) ->
  root_record disk d0 (Z.of_nat k) = Some r ->
  (forall e, rd_ret r = Err e -> grub_fat_label disk fuel = Some (Err e))
  /\ (forall n, rd_ret r = Ok n ->
        n <> GRUB_FAT_DIR_ENTRY_SIZE \/ byte_at (rd_buf r) 0 = 0 ->
        grub_fat_label disk fuel = Some (Ok None))
  /\ (rd_ret r = Ok GRUB_FAT_DIR_ENTRY_SIZE -> byte_at (rd_buf r) 0 <> 0 ->
        dir_attr (rd_buf r) = GRUB_FAT_ATTR_VOLUME_ID ->
        grub_fat_label disk fuel = Some (Ok (Some (grub_strndup (rd_buf r) 11)))).
Proof.
  intros Hm Hk Hb Hpass Hr.
  assert (Hok0 : cursor_ok disk d0).
  { destruct (mount_inv _ _ Hm) as (d & bpb & g & _ & _ & _ & _ & _ & _ & _ & _ & _ & Hc & _).
    left. assumption. }
  assert (HB : 0 <= logical_cluster_bits d0) by (pose proof (mount_bits _ _ Hm); lia).
  assert (Hattr : (Z.land (attr d0) GRUB_FAT_ATTR_DIRECTORY =? 0) = false).
  { destruct (mount_inv _ _ Hm) as (d & bpb & g & _ & _ & _ & _ & _ & _ & _ & _ & -> & _).
    reflexivity. }
  unfold grub_fat_label. rewrite Hm, Hattr.
  replace fuel with (k + S (fuel - S k))%nat by lia.
  change (- GRUB_FAT_DIR_ENTRY_SIZE)
    with (GRUB_FAT_DIR_ENTRY_SIZE * Z.of_nat 0 - GRUB_FAT_DIR_ENTRY_SIZE).
  destruct (label_loop_passes disk d0 k 0 d0 (S (fuel - S k)) Hok0 HB Hok0
              (same_file_refl d0)) as (st' & Hok' & Hs' & ->).
  { simpl Nat.add. assumption. }
  { intros j Hj. apply Hpass. lia. }
  simpl Nat.add.
  destruct (label_read disk d0 st' k Hok0 HB Hok' Hs' Hb) as (r' & Hr' & Hout & _).
  rewrite Hr in Hout. simpl in Hout. injection Hout as Hret Hbuf.
  rewrite <- record_offset in Hr'.
  rewrite (label_loop_step _ _ _ _ _ Hr'). rewrite <- Hret, <- Hbuf.
  split; [|split].
  - intros e ->. reflexivity.
  - intros n -> Hend.
    destruct (negb (n =? GRUB_FAT_DIR_ENTRY_SIZE) || (byte_at (rd_buf r) 0 =? 0)) eqn:E;
      [reflexivity|].
    exfalso. apply orb_false_iff in E. destruct E as [E1 E2].
    apply negb_false_iff in E1. lia.
  - intros -> H0 Ha. rewrite Z.eqb_refl. simpl negb. simpl orb.
    destruct (byte_at (rd_buf r) 0 =? 0) eqn:E0; [lia|].
    rewrite Ha, Z.eqb_refl. reflexivity.
Qed.

Lemma grub_strndup_name dir :
  Forall (fun b => b <> 0) (dir_name dir) ->
  grub_strndup dir 11 = dir_name dir.
Proof.
  intros H. unfold grub_strndup. change (Z.to_nat 11) with 11%nat.
  apply cstr_no_nul. exact H.
Qed.

(** Claim C9.  On a mounted volume, if the root directory records before
    record [k] are read in full, do not end the directory and have an
    attribute byte other than [GRUB_FAT_ATTR_VOLUME_ID], then: if record
    [k] is such a record with attribute byte exactly 0x08, the label is
    the copy [grub_strndup] makes of its 11 name bytes (all 11 of them
    when none is NUL); if record [k] has first name byte 0, or the read
    comes back short without an error, the label is null and no error is
    reported.  Long-name slots are records like any other here. *)
Theorem label_first_volume_id (disk : grub_disk) (d0 : grub_fat_data)
    (k fuel : nat) (r : read_result) :
  grub_fat_mount (Some disk) = Ok d0 ->
  (k < fuel)%nat ->
  GRUB_FAT_DIR_ENTRY_SIZE * Z.of_nat k + GRUB_FAT_DIR_ENTRY_SIZE < 2 ^ 31 ->
  (forall j, (j < k)%nat ->
     exists rj, root_record disk d0 (Z.of_nat j) = Some rj
       /\ rd_ret rj = Ok GRUB_FAT_DIR_ENTRY_SIZE
       /\ byte_at (rd_buf rj) 0 <> 0
       /\ dir_attr (rd_buf rj) <> GRUB_FAT_ATTR_VOLUME_ID) ->
  root_record disk d0 (Z.of_nat k) = Some r ->
  (rd_ret r = Ok GRUB_FAT_DIR_ENTRY_SIZE -> byte_at (rd_buf r) 0 <> 0 ->
     dir_attr (rd_buf r) = GRUB_FAT_ATTR_VOLUME_ID ->
     grub_fat_label disk fuel = Some (Ok (Some (grub_strndup (rd_buf r) 11)))
     /\ (Forall (fun b => b <> 0) (dir_name (rd_buf r)) ->
         grub_strndup (rd_buf r) 11 = dir_name (rd_buf r)))
  /\ (forall n, rd_ret r = Ok n ->
        n <> GRUB_FAT_DIR_ENTRY_SIZE \/ byte_at (rd_buf r) 0 = 0 ->
        grub_fat_label disk fuel = Some (Ok None))
  /\ (forall e, rd_ret r = Err e -> grub_fat_label disk fuel = Some (Err e)).
Proof.
  intros Hm Hk Hb Hpass Hr.
  destruct (label_scan disk d0 k fuel r Hm Hk Hb Hpass Hr) as (He & Hend & Hv).
  split; [|split; assumption].
  intros Hret H0 Ha. split; [apply Hv; assumption|].
  apply grub_strndup_name.
Qed.

(** Claim C9 at [named]: the label is the 11 name bytes, not trimmed. *)
Lemma label_first_volume_id_witness :
  grub_fat_label named 17 = Some (Ok (Some (bytes_of_string "MY VOLUME  "))).
Proof.
  destruct (grub_fat_read_data named named_root 32 32) as [r|] eqn:Er;
    [|vm_compute in Er; discriminate].
  destruct (label_first_volume_id named named_root 1%nat 17%nat r) as (H & _).
  - vm_compute. reflexivity.
  - lia.
  - vm_compute. reflexivity.
  - intros j Hj. assert (j = 0%nat) as -> by lia.
    eexists. split; [vm_compute; reflexivity|].
    split; [reflexivity|]. split; vm_compute; discriminate.
  - exact Er.
  - vm_compute in Er. injection Er as <-.
    destruct H as [H _]; [reflexivity | vm_compute; discriminate | reflexivity |].
    rewrite H. vm_compute. reflexivity.
Defined.

(** Claim C10.  The label scan does not filter deleted entries: if the
    records before record [k] are passed over and record [k] has first
    name byte 0xE5 and attribute byte exactly 0x08, its name is the
    label.  One turn of the loop on a record read in full: first name
    byte 0 ends the scan with a null label; attribute byte 0x08 ends it
    with the name of the record; any other attribute byte, and nothing
    else, makes the scan go on to the next record. *)
Theorem label_returns_deleted_volume_entry (disk : grub_disk) :
  (forall d0 (k fuel : nat) r,
     grub_fat_mount (Some disk) = Ok d0 ->
     (k < fuel)%nat ->
     GRUB_FAT_DIR_ENTRY_SIZE * Z.of_nat k + GRUB_FAT_DIR_ENTRY_SIZE < 2 ^ 31 ->
     (forall j, (j < k)%nat ->
        exists rj, root_record disk d0 (Z.of_nat j) = Some rj
          /\ rd_ret rj = Ok GRUB_FAT_DIR_ENTRY_SIZE
          /\ byte_at (rd_buf rj) 0 <> 0
          /\ dir_attr (rd_buf rj) <> GRUB_FAT_ATTR_VOLUME_ID) ->
     root_record disk d0 (Z.of_nat k) = Some r ->
     rd_ret r = Ok GRUB_FAT_DIR_ENTRY_SIZE ->
     byte_at (rd_buf r) 0 = 0xe5 ->
     dir_attr (rd_buf r) = GRUB_FAT_ATTR_VOLUME_ID ->
     grub_fat_label disk fuel = Some (Ok (Some (grub_strndup (rd_buf r) 11))))
  /\ (forall fuel st offset r,
        grub_fat_read_data disk st (offset + GRUB_FAT_DIR_ENTRY_SIZE)
          GRUB_FAT_DIR_ENTRY_SIZE = Some r ->
        rd_ret r = Ok GRUB_FAT_DIR_ENTRY_SIZE ->
        (byte_at (rd_buf r) 0 = 0 ->
           label_loop disk (S fuel) st offset = Some (Ok None))
        /\ (byte_at (rd_buf r) 0 <> 0 ->
              dir_attr (rd_buf r) = GRUB_FAT_ATTR_VOLUME_ID ->
              label_loop disk (S fuel) st offset
              = Some (Ok (Some (grub_strndup (rd_buf r) 11))))
        /\ (byte_at (rd_buf r) 0 <> 0 ->
              dir_attr (rd_buf r) <> GRUB_FAT_ATTR_VOLUME_ID ->
              label_loop disk (S fuel) st offset
              = label_loop disk fuel (rd_data r) (offset + GRUB_FAT_DIR_ENTRY_SIZE))).
Proof.
  split.
  - intros d0 k fuel r Hm Hk Hb Hpass Hr Hret H0 Ha.
    destruct (label_scan disk d0 k fuel r Hm Hk Hb Hpass Hr) as (_ & _ & Hv).
    apply Hv; try assumption. rewrite H0. discriminate.
  - intros fuel st offset r Hr Hret.
    rewrite (label_loop_step _ _ _ _ _ Hr), Hret, Z.eqb_refl. simpl negb. simpl orb.
    split; [|split].
    + intros H0. rewrite H0. reflexivity.
    + intros H0 Ha. destruct (byte_at (rd_buf r) 0 =? 0) eqn:E0; [lia|].
      rewrite Ha, Z.eqb_refl. reflexivity.
    + intros H0 Ha. destruct (byte_at (rd_buf r) 0 =? 0) eqn:E0; [lia|].
      destruct (dir_attr (rd_buf r) =? GRUB_FAT_ATTR_VOLUME_ID) eqn:E1; [lia|].
      reflexivity.
Qed.

(** Claim C10 at [labelled]: the deleted entry is returned. *)
Lemma label_returns_deleted_volume_entry_witness :
  grub_fat_label labelled 17
  = Some (Ok (Some (0xE5 :: bytes_of_string "LDLABEL   "))).
Proof.
  destruct (grub_fat_read_data labelled labelled_root 32 32) as [r|] eqn:Er;
    [|vm_compute in Er; discriminate].
  rewrite (proj1 (label_returns_deleted_volume_entry labelled) labelled_root 1%nat 17%nat r).
  - vm_compute in Er. injection Er as <-. vm_compute. reflexivity.
  - vm_compute. reflexivity.
  - lia.
  - vm_compute. reflexivity.
  - intros j Hj. assert (j = 0%nat) as -> by lia.
    eexists. split; [vm_compute; reflexivity|].
    split; [reflexivity|]. split; vm_compute; discriminate.
  - exact Er.
  - vm_compute in Er. injection Er as <-. reflexivity.
  - vm_compute in Er. injection Er as <-. reflexivity.
  - vm_compute in Er. injection Er as <-. reflexivity.
Defined.

(** * Further properties *)

(** ** More on [fat_log2] and [grub_fat_mount] *)

(** Property X1.  [fat_log2] inverts the powers of two: it returns [k >= 0]
    exactly when [x = 2 ^ k], and it returns -1 exactly when [x] is not a
    power of two (0 and the odd numbers above 1 included). *)
Theorem fat_log2_inverts_pow2 (x : Z) :
  (forall k, 0 <= k -> (fat_log2 x = k <-> x = 2 ^ k))
  /\ (fat_log2 x = -1 <-> ~ is_pow2 x).
Proof.
  split.
  - intros k Hk. split.
    + intros H. destruct (fat_log2_spec x) as [E | [_ E]]; [lia|].
      rewrite H in E. exact E.
    + intros ->. apply fat_log2_pow2. exact Hk.
  - split.
    + intros H (k & Hk & ->). rewrite fat_log2_pow2 in H by exact Hk. lia.
    + apply fat_log2_not_pow2.
Qed.

(** The values [grub_fat_mount] has computed when it reaches line 217, by
    field. *)
Lemma mount_geometry_fields bpb g :
  mount_geometry bpb = Some g ->
  let lsb := fat_log2 (bpb_bytes_per_sector bpb) - 9 in
  g_logical_sector_bits g = lsb
  /\ g_fat_sector g = u16 (Z.shiftl (bpb_num_reserved_sectors bpb) lsb)
  /\ g_fat_sector g <> 0
  /\ g_num_sectors g
     = u32 (Z.shiftl (if bpb_num_total_sectors_16 bpb =? 0
                      then bpb_num_total_sectors_32 bpb
                      else bpb_num_total_sectors_16 bpb) lsb)
  /\ g_num_sectors g <> 0
  /\ g_root_sector g = u32 (g_fat_sector g + bpb_num_fats bpb * g_sectors_per_fat g)
  /\ g_num_root_sectors g
     = u32 (Z.shiftl
              (Z.shiftr (u32 (bpb_num_root_entries bpb * 32
                              + bpb_bytes_per_sector bpb - 1)) (lsb + 9)) lsb)
  /\ g_cluster_sector g = u32 (g_root_sector g + g_num_root_sectors g)
  /\ g_num_clusters g
     = u32 (Z.shiftr (u32 (g_num_sectors g - g_cluster_sector g))
              (g_cluster_bits g + lsb) + 2).
Proof.
  unfold mount_geometry, GRUB_DISK_SECTOR_BITS, GRUB_FAT_DIR_ENTRY_SIZE. cbv zeta.
  intros H. repeat split_if H.
  injection H as <-. cbn [g_logical_sector_bits g_fat_sector g_num_sectors
    g_root_sector g_num_root_sectors g_cluster_sector g_num_clusters
    g_cluster_bits g_sectors_per_fat].
  repeat split; try reflexivity; lia.
Qed.

(** What a successful mount has read and stored, beyond the geometry. *)
Lemma mount_layout disk data :
  grub_fat_mount (Some disk) = Ok data ->
  exists bpb g ff,
    mount_bpb disk = Some bpb /\ mount_geometry bpb = Some g
    /\ num_sectors data = g_num_sectors g
    /\ root_sector data = g_root_sector g
    /\ num_root_sectors data = g_num_root_sectors g
    /\ cluster_sector data = g_cluster_sector g
    /\ fat_sector data < num_sectors data
    /\ grub_disk_read disk (fat_sector data) 0 4 = Some ff
    /\ (if fat_size data =? 32
        then Z.land (le32 ff 0) 0x0fffffff = Z.lor 0x0fffff00 (bpb_media bpb)
        else if fat_size data =? 16
        then Z.land (le32 ff 0) 0xffff = Z.lor 0xff00 (bpb_media bpb)
        else Z.land (le32 ff 0) 0xfff = Z.lor 0x0f00 (bpb_media bpb))
    /\ (if bpb_sectors_per_fat_16 bpb =? 0
        then bpb_num_root_entries bpb = 0 /\ bpb_fs_version bpb = 0
             /\ (if Z.land (bpb_extended_flags bpb) 0x80 =? 0
                 then fat_sector data = g_fat_sector g
                 else Z.land (bpb_extended_flags bpb) 0xf <= bpb_num_fats bpb
                      /\ fat_sector data
                         = u16 (g_fat_sector g
                                + u32 (Z.land (bpb_extended_flags bpb) 0xf
                                       * g_sectors_per_fat g)))
        else fat_sector data = g_fat_sector g).
Proof.
  unfold grub_fat_mount. intros H.
  destruct (grub_disk_read disk 0 0 SIZEOF_BPB) as [raw|] eqn:Eraw; [|discriminate].
  remember (bpb_of_bytes raw) as bpb eqn:Ebpb.
  destruct (mount_geometry bpb) as [g|] eqn:Eg; [|discriminate].
  split_if H.
  match type of H with
  | match ?v with _ => _ end = _ => destruct v as [[[[rc fsz] eof] fs]|] eqn:Ev; [|discriminate]
  end.
  split_if H.
  destruct (grub_disk_read disk fs 0 4) as [ff|] eqn:Eff; [|discriminate].
  exists bpb, g, ff. unfold mount_bpb. rewrite Eraw, <- Ebpb.
  split; [reflexivity|]. split; [exact Eg|].
  assert (Hfsz : fsz = 32 \/ fsz = 16 \/ fsz = 12).
  { repeat (case_guard Ev; try discriminate Ev); injection Ev as <- <- <- <-; auto. }
  assert (Hcheck :
    (if fsz =? 32
     then Z.land (le32 ff 0) 0x0fffffff = Z.lor 0x0fffff00 (bpb_media bpb)
     else if fsz =? 16
     then Z.land (le32 ff 0) 0xffff = Z.lor 0xff00 (bpb_media bpb)
     else Z.land (le32 ff 0) 0xfff = Z.lor 0x0f00 (bpb_media bpb))
    /\ data = {| logical_sector_bits := g_logical_sector_bits g;
        num_sectors := g_num_sectors g;
        fat_sector := fs;
        sectors_per_fat := g_sectors_per_fat g;
        fat_size := fsz;
        root_cluster := rc;
        root_sector := g_root_sector g;
        num_root_sectors := g_num_root_sectors g;
        cluster_bits := g_cluster_bits g;
        cluster_eof_mark := eof;
        cluster_sector := g_cluster_sector g;
        num_clusters := g_num_clusters g;
        attr := GRUB_FAT_ATTR_DIRECTORY;
        file_size := 0;
        file_cluster := rc;
        cur_cluster_num := ALL_ONES;
        cur_cluster := 0 |}).
  { destruct Hfsz as [-> | [-> | ->]]; cbn [Z.eqb Pos.eqb] in H |- *;
      match type of H with
      | (if negb (?a =? ?b) then _ else _) = _ =>
          destruct (Z.eqb_spec a b) as [E|E]; cbn [negb] in H;
          [injection H as <-; split; [exact E | reflexivity] | discriminate H]
      end. }
  destruct Hcheck as [Hcheck ->]. clear H.
  cbn [num_sectors root_sector num_root_sectors cluster_sector fat_sector fat_size].
  do 4 (split; [reflexivity|]).
  split; [lia|]. split; [exact Eff|]. split; [exact Hcheck|].
  destruct (bpb_sectors_per_fat_16 bpb =? 0) eqn:E16.
  - destruct (Z.land (bpb_extended_flags bpb) 128 =? 0) eqn:E80.
    + destruct (negb (bpb_num_root_entries bpb =? 0) || negb (bpb_fs_version bpb =? 0)) eqn:Ez;
        [discriminate|].
      apply orb_false_iff in Ez. destruct Ez as [Ez1 Ez2].
      apply negb_false_iff in Ez1, Ez2.
      injection Ev as _ _ _ <-. repeat split; lia.
    + destruct (Z.land (bpb_extended_flags bpb) 15 >? bpb_num_fats bpb) eqn:Ea; [discriminate|].
      destruct (negb (bpb_num_root_entries bpb =? 0) || negb (bpb_fs_version bpb =? 0)) eqn:Ez;
        [discriminate|].
      apply orb_false_iff in Ez. destruct Ez as [Ez1 Ez2].
      apply negb_false_iff in Ez1, Ez2.
      injection Ev as _ _ _ <-. repeat split; lia.
  - destruct (g_num_clusters g <=? 4085 + 2); injection Ev as _ _ _ <-; reflexivity.
Qed.

Lemma pow2_lt_inv k n : 0 <= k -> 0 <= n -> 2 ^ k < 2 ^ n -> k < n.
Proof.
  intros Hk Hn H. apply (Z.pow_lt_mono_r_iff 2); lia.
Qed.

(** Property X2.  A mounted volume keeps its sizes as shift counts:
    [bytes_per_sector] is [2 ^ (logical_sector_bits + 9)] with
    [logical_sector_bits] between 0 and 6, [sectors_per_cluster] is
    [2 ^ (cluster_bits - logical_sector_bits)] with an exponent of at most
    7, and the cluster size in bytes that the reader works with,
    [1 << logical_cluster_bits], lies between 2^9 and 2^28 and is
    [sectors_per_cluster * bytes_per_sector * 2 ^ logical_sector_bits]. *)
Theorem mount_sizes_as_shifts (disk : grub_disk) (data : grub_fat_data) :
  grub_fat_mount (Some disk) = Ok data ->
  exists bpb, mount_bpb disk = Some bpb
    /\ 0 <= logical_sector_bits data <= 6
    /\ bpb_bytes_per_sector bpb = 2 ^ (logical_sector_bits data + GRUB_DISK_SECTOR_BITS)
    /\ logical_sector_bits data <= cluster_bits data <= logical_sector_bits data + 7
    /\ bpb_sectors_per_cluster bpb = 2 ^ (cluster_bits data - logical_sector_bits data)
    /\ 9 <= logical_cluster_bits data <= 28
    /\ Z.shiftl 1 (logical_cluster_bits data)
       = bpb_sectors_per_cluster bpb * bpb_bytes_per_sector bpb
         * 2 ^ logical_sector_bits data.
Proof.
  intros H.
  destruct (mount_inv _ _ H)
    as (d & bpb & g & Hd & Hb & Hg & _ & Hl & Hc & _).
  injection Hd as <-.
  destruct (mount_geometry_inv _ _ Hg) as (H1 & H2 & H3 & H4 & _).
  destruct (mount_bpb_ranges _ _ Hb) as (R1 & R2 & _).
  destruct (fat_log2_spec (bpb_bytes_per_sector bpb)) as [E | [_ E]]; [lia|].
  destruct (fat_log2_spec (bpb_sectors_per_cluster bpb)) as [E' | [_ E']]; [lia|].
  assert (Hs : fat_log2 (bpb_bytes_per_sector bpb) < 16).
  { apply pow2_lt_inv; [lia | lia |]. rewrite <- E. change (2 ^ 16) with 65536. lia. }
  assert (Hs' : fat_log2 (bpb_sectors_per_cluster bpb) < 8).
  { apply pow2_lt_inv; [lia | lia |]. rewrite <- E'. change (2 ^ 8) with 256. lia. }
  exists bpb. split; [exact Hb|].
  unfold logical_cluster_bits, GRUB_DISK_SECTOR_BITS. rewrite Hl, Hc, H3, H4.
  split; [lia|].
  split; [rewrite E at 1; f_equal; lia|].
  split; [lia|].
  split; [rewrite E' at 1; f_equal; lia|].
  split; [lia|].
  rewrite Z.shiftl_1_l.
  set (a := fat_log2 (bpb_bytes_per_sector bpb)) in *.
  set (b := fat_log2 (bpb_sectors_per_cluster bpb)) in *.
  rewrite E, E'. rewrite <- !Z.pow_add_r by lia. f_equal. lia.
Qed.

(** Property X2 at [floppy]: sectors and clusters of 512 bytes. *)
Lemma mount_sizes_as_shifts_witness :
  logical_sector_bits floppy_root = 0 /\ logical_cluster_bits floppy_root = 9.
Proof.
  destruct (mount_sizes_as_shifts floppy floppy_root) as (bpb & Hb & H1 & H2 & H3 & H4 & H5 & H6).
  - vm_compute. reflexivity.
  - vm_compute. split; reflexivity.
Defined.

Lemma land_low_byte x m media :
  0 <= media < 256 -> Z.land m 255 = 255 ->
  forall magic, Z.land magic 255 = 0 ->
  Z.land x m = Z.lor magic media -> Z.land x 255 = media.
Proof.
  intros Hm Hmask magic Hmagic H.
  rewrite <- Hmask at 1. rewrite Z.land_assoc, H, Z.land_lor_distr_l, Hmagic, Z.lor_0_l.
  change 255 with (Z.ones 8). rewrite Z.land_ones by lia. apply Z.mod_small.
  change (2 ^ 8) with 256. lia.
Qed.

Lemma mount_bpb_fields d bpb :
  mount_bpb d = Some bpb ->
  0 <= bpb_media bpb < 256
  /\ 0 <= bpb_num_root_entries bpb < 65536
  /\ 0 <= bpb_num_reserved_sectors bpb < 65536.
Proof.
  unfold mount_bpb, grub_disk_read. intros H.
  destruct (disk_bytes d _ _) as [raw|] eqn:E; [|discriminate].
  injection H as <-. apply disk_bytes_all_bytes in E. simpl.
  split; [apply byte_at_range; assumption|].
  split; apply le16_range; assumption.
Qed.

Lemma le32_low_byte bs : all_bytes bs -> Z.land (le32 bs 0) 255 = byte_at bs 0.
Proof.
  intros H. unfold le32.
  pose proof (byte_at_range bs 0 H).
  change 255 with (Z.ones 8). rewrite Z.land_ones by lia. change (2 ^ 8) with 256.
  replace (byte_at bs 0 + 256 * byte_at bs (0 + 1) + 2 ^ 16 * byte_at bs (0 + 2)
           + 2 ^ 24 * byte_at bs (0 + 3))
    with (byte_at bs 0
          + (byte_at bs (0 + 1) + 256 * byte_at bs (0 + 2)
             + 65536 * byte_at bs (0 + 3)) * 256) by lia.
  rewrite Z.mod_add by lia. apply Z.mod_small. assumption.
Qed.

(** Property X5.  A mount succeeds only if the FAT starts inside the
    volume ([fat_sector < num_sectors]), its first four bytes can be read,
    and the first FAT entry, masked to the width of the variant, is the
    magic of the variant or-ed with [bpb.media]; so the first byte of the
    FAT is the media byte of the BPB. *)
Theorem mount_checks_media_descriptor (disk : grub_disk) (data : grub_fat_data) :
  grub_fat_mount (Some disk) = Ok data ->
  exists bpb ff,
    mount_bpb disk = Some bpb
    /\ fat_sector data < num_sectors data
    /\ grub_disk_read disk (fat_sector data) 0 4 = Some ff
    /\ (if fat_size data =? 32
        then Z.land (le32 ff 0) 0x0fffffff = Z.lor 0x0fffff00 (bpb_media bpb)
        else if fat_size data =? 16
        then Z.land (le32 ff 0) 0xffff = Z.lor 0xff00 (bpb_media bpb)
        else Z.land (le32 ff 0) 0xfff = Z.lor 0x0f00 (bpb_media bpb))
    /\ byte_at ff 0 = bpb_media bpb.
Proof.
  intros H.
  destruct (mount_layout _ _ H) as (bpb & g & ff & Hb & _ & _ & _ & _ & _ & Hlt & Hff & Hck & _).
  exists bpb, ff. do 4 (split; [assumption|]).
  destruct (mount_bpb_fields _ _ Hb) as (Rm & _).
  assert (Hbytes : all_bytes ff).
  { unfold grub_disk_read in Hff. eapply disk_bytes_all_bytes. exact Hff. }
  rewrite <- (le32_low_byte ff Hbytes).
  destruct (fat_size data =? 32); [|destruct (fat_size data =? 16)];
    eapply land_low_byte; try exact Hck; try exact Rm; reflexivity.
Qed.

(** Property X5 at [floppy]: the FAT starts with the media byte 0xF8. *)
Lemma mount_checks_media_descriptor_witness :
  exists ff, grub_disk_read floppy (fat_sector floppy_root) 0 4 = Some ff
    /\ byte_at ff 0 = 0xF8.
Proof.
  destruct (mount_checks_media_descriptor floppy floppy_root)
    as (bpb & ff & Hb & _ & Hff & _ & Hm).
  - vm_compute. reflexivity.
  - exists ff. split; [exact Hff|].
    vm_compute in Hb. injection Hb as <-. exact Hm.
Defined.

(** The size of the fixed root area: the root entries, rounded up to whole
    logical sectors. *)
Lemma root_sectors_value bpb g :
  mount_geometry bpb = Some g ->
  0 <= bpb_bytes_per_sector bpb < 65536 ->
  0 <= bpb_num_root_entries bpb < 65536 ->
  let bps := bpb_bytes_per_sector bpb in
  let q := (bpb_num_root_entries bpb * 32 + bps - 1) / bps in
  g_num_root_sectors g = q * 2 ^ g_logical_sector_bits g
  /\ g_num_root_sectors g * 512 = q * bps
  /\ 0 <= g_num_root_sectors g * 512 < 2 ^ 31.
Proof.
  intros Hg Rb Rn bps q.
  destruct (mount_geometry_inv _ _ Hg) as (H1 & _ & H3 & _).
  destruct (mount_geometry_fields _ _ Hg) as (_ & _ & _ & _ & _ & _ & Hn & _).
  destruct (fat_log2_spec (bpb_bytes_per_sector bpb)) as [E | [_ E]]; [lia|].
  assert (Hs : fat_log2 (bpb_bytes_per_sector bpb) < 16).
  { apply pow2_lt_inv; [lia | lia |]. rewrite <- E. change (2 ^ 16) with 65536. lia. }
  set (lsb := fat_log2 (bpb_bytes_per_sector bpb) - 9) in *.
  assert (Ebps : bps = 2 ^ lsb * 512).
  { unfold bps. rewrite E at 1. change 512 with (2 ^ 9).
    rewrite <- Z.pow_add_r by lia. f_equal. lia. }
  assert (Hp : 1 <= 2 ^ lsb <= 64).
  { split; [pose proof (Z.pow_pos_nonneg 2 lsb); lia|].
    change 64 with (2 ^ 6). apply Z.pow_le_mono_r; lia. }
  assert (Hq : 0 <= q < 2 ^ 22).
  { unfold q. split; [apply Z.div_pos; lia|].
    apply Z.div_lt_upper_bound; [lia|]. change (2 ^ 22) with 4194304. nia. }
  assert (Hv : g_num_root_sectors g = q * 2 ^ lsb).
  { rewrite Hn. fold bps. rewrite (u32_small (_ + bps - 1))
      by (change (2 ^ 32) with 4294967296; unfold bps; lia).
    rewrite Z.shiftr_div_pow2, Z.shiftl_mul_pow2 by lia.
    replace (2 ^ (lsb + 9)) with bps
      by (rewrite Ebps, Z.pow_add_r by lia; reflexivity).
    fold q. apply u32_small. change (2 ^ 22) with 4194304 in Hq.
    change (2 ^ 32) with 4294967296. nia. }
  assert (Hqb : 0 <= q * bps <= bpb_num_root_entries bpb * 32 + bps - 1).
  { split; [unfold bps in *; nia|]. rewrite Z.mul_comm. apply Z.mul_div_le.
    unfold bps. lia. }
  rewrite H3. fold lsb. split; [exact Hv|]. rewrite Hv.
  replace (q * 2 ^ lsb * 512) with (q * bps) by (rewrite Ebps; ring).
  split; [reflexivity|]. change (2 ^ 31) with 2147483648. unfold bps in *. lia.
Qed.

(** Property X4.  On a volume mounted as FAT32 the BPB has
    [sectors_per_fat_16 = 0], [num_root_entries = 0] and [fs_version = 0];
    there is no fixed root area ([num_root_sectors = 0], so the data
    clusters start at [root_sector]); the root directory is the cluster
    chain that starts at [bpb.root_cluster]; and if bit 0x80 of
    [extended_flags] is set, the active FAT [flags & 0xf] is at most
    [num_fats]. *)
Theorem mount_fat32_root_in_clusters (disk : grub_disk) (data : grub_fat_data) :
  grub_fat_mount (Some disk) = Ok data -> fat_size data = 32 ->
  exists bpb, mount_bpb disk = Some bpb
    /\ bpb_sectors_per_fat_16 bpb = 0
    /\ bpb_num_root_entries bpb = 0 /\ bpb_fs_version bpb = 0
    /\ num_root_sectors data = 0
    /\ cluster_sector data = root_sector data
    /\ root_cluster data = bpb_root_cluster bpb
    /\ file_cluster data = bpb_root_cluster bpb
    /\ (Z.land (bpb_extended_flags bpb) 0x80 <> 0 ->
        Z.land (bpb_extended_flags bpb) 0xf <= bpb_num_fats bpb).
Proof.
  intros H Hsz.
  destruct (mount_inv _ _ H)
    as (d & bpb & g & Hd & Hb & Hg & _ & _ & _ & _ & _ & _ & _ & Hfc & Hv).
  injection Hd as <-.
  destruct (mount_layout _ _ H)
    as (bpb' & g' & ff & Hb' & Hg' & _ & Hrs & Hnrs & Hcs & _ & _ & _ & Hvar).
  rewrite Hb in Hb'. injection Hb' as <-. rewrite Hg in Hg'. injection Hg' as <-.
  destruct Hv as [(E & _ & _ & Hrc) | [(_ & _ & F & _) | (_ & _ & F & _)]]; try lia.
  rewrite E in Hvar. cbn [Z.eqb] in Hvar. destruct Hvar as (Hnre & Hver & Hact).
  destruct (mount_bpb_ranges _ _ Hb) as (Rb & _).
  destruct (root_sectors_value bpb g Hg Rb ltac:(lia)) as (_ & Hsize & _).
  rewrite Hnre in Hsize.
  destruct (mount_geometry_inv _ _ Hg) as (H1 & _).
  destruct (fat_log2_spec (bpb_bytes_per_sector bpb)) as [E2 | [_ E2]]; [lia|].
  assert (Hbps : 512 <= bpb_bytes_per_sector bpb)
    by (rewrite E2; apply pow2_ge_512; assumption).
  rewrite Z.div_small in Hsize by lia.
  assert (Hz : num_root_sectors data = 0) by lia.
  exists bpb. do 4 (split; [assumption|]). split; [exact Hz|].
  split.
  { destruct (mount_geometry_fields _ _ Hg) as (_ & _ & _ & _ & _ & Hr & _ & Hc & _).
    rewrite Hcs, Hc, Hrs, <- Hnrs, Hz, Z.add_0_r, Hr.
    unfold u32. apply Z.mod_mod. discriminate. }
  split; [exact Hrc|]. split; [congruence|].
  intros Hflag. destruct (Z.land (bpb_extended_flags bpb) 128 =? 0) eqn:E80; [lia|].
  tauto.
Qed.

(** Property X4 at [small32]: the root directory starts at cluster 2. *)
Lemma mount_fat32_root_in_clusters_witness :
  num_root_sectors small32_root = 0 /\ file_cluster small32_root = 2.
Proof.
  destruct (mount_fat32_root_in_clusters small32 small32_root)
    as (bpb & Hb & _ & _ & _ & Hz & _ & _ & Hfc & _).
  - vm_compute. reflexivity.
  - reflexivity.
  - vm_compute in Hb. injection Hb as <-. split; assumption.
Defined.

(** Property X3.  On a volume mounted as FAT12 or FAT16 the root directory
    is a fixed area: [root_cluster] and [file_cluster] are [~0], the area
    starts at sector [fat_sector + num_fats * sectors_per_fat] (in 32-bit
    arithmetic), its length in bytes is [num_root_entries * 32] rounded up
    to a whole number of logical sectors, and the data clusters start
    right after it. *)
Theorem mount_fixed_root_area (disk : grub_disk) (data : grub_fat_data) :
  grub_fat_mount (Some disk) = Ok data -> fat_size data <> 32 ->
  exists bpb, mount_bpb disk = Some bpb
    /\ root_cluster data = ALL_ONES /\ file_cluster data = ALL_ONES
    /\ root_sector data
       = u32 (fat_sector data + bpb_num_fats bpb * sectors_per_fat data)
    /\ num_root_sectors data * 512
       = (bpb_num_root_entries bpb * GRUB_FAT_DIR_ENTRY_SIZE
          + bpb_bytes_per_sector bpb - 1) / bpb_bytes_per_sector bpb
         * bpb_bytes_per_sector bpb
    /\ bpb_num_root_entries bpb * GRUB_FAT_DIR_ENTRY_SIZE
       <= num_root_sectors data * 512
       < bpb_num_root_entries bpb * GRUB_FAT_DIR_ENTRY_SIZE + bpb_bytes_per_sector bpb
    /\ cluster_sector data = u32 (root_sector data + num_root_sectors data).
Proof.
  intros H Hsz.
  destruct (mount_inv _ _ H)
    as (d & bpb & g & Hd & Hb & Hg & _ & _ & _ & Hspf & _ & _ & _ & Hfc & Hv).
  injection Hd as <-.
  destruct (mount_layout _ _ H)
    as (bpb' & g' & ff & Hb' & Hg' & _ & Hrs & Hnrs & Hcs & _ & _ & _ & Hvar).
  rewrite Hb in Hb'. injection Hb' as <-. rewrite Hg in Hg'. injection Hg' as <-.
  assert (E16 : bpb_sectors_per_fat_16 bpb <> 0 /\ root_cluster data = ALL_ONES).
  { destruct Hv as [(_ & F & _) | [(E & _ & _ & _ & R) | (E & _ & _ & _ & R)]];
      [contradiction | auto | auto]. }
  destruct E16 as [E16 Hrc].
  destruct (bpb_sectors_per_fat_16 bpb =? 0) eqn:E; [lia|].
  destruct (mount_bpb_ranges _ _ Hb) as (Rb & _).
  destruct (mount_bpb_fields _ _ Hb) as (_ & Rn & _).
  destruct (root_sectors_value bpb g Hg Rb Rn) as (_ & Hsize & _).
  destruct (mount_geometry_fields _ _ Hg) as (_ & _ & _ & _ & _ & Hr & _ & Hc & _).
  destruct (mount_geometry_inv _ _ Hg) as (H1 & _).
  destruct (fat_log2_spec (bpb_bytes_per_sector bpb)) as [E2 | [_ E2]]; [lia|].
  assert (Hbps : 512 <= bpb_bytes_per_sector bpb)
    by (rewrite E2; apply pow2_ge_512; assumption).
  exists bpb. split; [exact Hb|]. split; [exact Hrc|]. split; [congruence|].
  unfold GRUB_FAT_DIR_ENTRY_SIZE.
  split; [rewrite Hrs, Hr, Hvar, Hspf; reflexivity|].
  rewrite Hnrs. split; [exact Hsize|].
  split; [|rewrite Hcs, Hc, Hrs; reflexivity].
  rewrite Hsize.
  pose proof (Z.div_mod (bpb_num_root_entries bpb * 32 + bpb_bytes_per_sector bpb - 1)
                (bpb_bytes_per_sector bpb) ltac:(lia)) as Hdm.
  pose proof (Z.mod_pos_bound (bpb_num_root_entries bpb * 32 + bpb_bytes_per_sector bpb - 1)
                (bpb_bytes_per_sector bpb) ltac:(lia)) as Hmb.
  lia.
Qed.

(** Property X3 at [floppy]: 16 root entries in sector 2, data from sector 3. *)
Lemma mount_fixed_root_area_witness :
  root_sector floppy_root = 2 /\ num_root_sectors floppy_root * 512 = 512
  /\ cluster_sector floppy_root = 3.
Proof.
  destruct (mount_fixed_root_area floppy floppy_root)
    as (bpb & Hb & _ & _ & Hr & Hn & _ & Hc).
  - vm_compute. reflexivity.
  - vm_compute. discriminate.
  - vm_compute in Hb. injection Hb as <-.
    split; [exact Hr|]. split; [exact Hn | exact Hc].
Defined.

(** A read sees the addressed bytes only. *)
Lemma disk_bytes_ext d1 d2 n : forall a,
  (forall x, a <= x < a + Z.of_nat n -> d2 x = d1 x) ->
  disk_bytes d2 a n = disk_bytes d1 a n.
Proof.
  induction n as [|n IH]; intros a H; [reflexivity|].
  cbn [disk_bytes]. rewrite (H a) by lia. rewrite (IH (a + 1)); [reflexivity|].
  intros x Hx. apply H. lia.
Qed.

(** Property X6.  [grub_fat_mount] looks at nothing but the BPB (the first
    [sizeof (bpb)] bytes of the device) and the four bytes at the start of
    the FAT: a device that agrees on these bytes with a device that is
    mounted is mounted too, with the same handle. *)
Theorem mount_reads_bpb_and_first_fat_entry (d1 d2 : grub_disk) (data : grub_fat_data) :
  grub_fat_mount (Some d1) = Ok data ->
  (forall a, 0 <= a < SIZEOF_BPB -> d2 a = d1 a) ->
  (forall a, 0 <= a < 4 ->
     d2 (fat_sector data * 2 ^ GRUB_DISK_SECTOR_BITS + a)
     = d1 (fat_sector data * 2 ^ GRUB_DISK_SECTOR_BITS + a)) ->
  grub_fat_mount (Some d2) = Ok data.
Proof.
  intros H Hbpb Hfat.
  assert (Eb : grub_disk_read d2 0 0 SIZEOF_BPB = grub_disk_read d1 0 0 SIZEOF_BPB).
  { unfold grub_disk_read. apply disk_bytes_ext. intros x Hx. apply Hbpb.
    unfold SIZEOF_BPB in *. change (Z.of_nat (Z.to_nat (u32 52))) with 52 in Hx.
    change (u32 0) with 0 in Hx. lia. }
  assert (Ef : grub_disk_read d2 (fat_sector data) 0 4
               = grub_disk_read d1 (fat_sector data) 0 4).
  { unfold grub_disk_read. apply disk_bytes_ext. intros x Hx.
    change (Z.of_nat (Z.to_nat (u32 4))) with 4 in Hx. change (u32 0) with 0 in Hx.
    replace x with (fat_sector data * 2 ^ GRUB_DISK_SECTOR_BITS
                    + (x - fat_sector data * 2 ^ GRUB_DISK_SECTOR_BITS)) by lia.
    apply Hfat. lia. }
  unfold grub_fat_mount in *. rewrite Eb.
  destruct (grub_disk_read d1 0 0 SIZEOF_BPB) as [raw|]; [|discriminate].
  destruct (mount_geometry (bpb_of_bytes raw)) as [g|]; [|discriminate].
  split_if H.
  match type of H with
  | match ?v with _ => _ end = _ => destruct v as [[[[rc fsz] eof] fs]|]; [|discriminate]
  end.
  split_if H.
  assert (Hfs : fat_sector data = fs).
  { destruct (grub_disk_read d1 fs 0 4) as [ff|]; [|discriminate].
    destruct (fsz =? 32); [|destruct (fsz =? 16)];
      match type of H with
      | (if ?c then _ else _) = _ => destruct c; [discriminate H|]
      end; injection H as <-; reflexivity. }
  rewrite <- Hfs in *. rewrite Ef. exact H.
Qed.

(** Property X6 at [floppy] and [floppy_blank]. *)
Lemma mount_reads_bpb_and_first_fat_entry_witness :
  grub_fat_mount (Some floppy_blank) = Ok floppy_root.
Proof.
  apply (mount_reads_bpb_and_first_fat_entry floppy floppy_blank floppy_root).
  - vm_compute. reflexivity.
  - intros a Ha. unfold SIZEOF_BPB in Ha.
    assert (Hn : a = Z.of_nat (Z.to_nat a)) by lia. rewrite Hn.
    assert (Hlt : (Z.to_nat a < 52)%nat) by lia.
    clear Hn Ha. revert Hlt. generalize (Z.to_nat a). clear a. intros n Hn.
    do 52 (destruct n as [|n]; [vm_compute; reflexivity|]). lia.
  - intros a Ha.
    assert (a = 0 \/ a = 1 \/ a = 2 \/ a = 3) as [-> | [-> | [-> | ->]]] by lia;
      vm_compute; reflexivity.
Defined.

(** ** More on [grub_fat_read_data] *)

Lemma disk_bytes_length d n : forall a bs,
  disk_bytes d a n = Some bs -> length bs = n.
Proof.
  induction n as [|n IH]; intros a bs H; cbn [disk_bytes] in H.
  - injection H as <-. reflexivity.
  - destruct (d a) as [b|]; [|discriminate].
    destruct (disk_bytes d (a + 1) n) as [bs'|] eqn:E; [|discriminate].
    injection H as <-. cbn [length]. f_equal. eapply IH. exact E.
Qed.

Lemma grub_disk_read_length d sector off size bs :
  0 <= size < 2 ^ 32 ->
  grub_disk_read d sector off size = Some bs -> Z.of_nat (length bs) = size.
Proof.
  unfold grub_disk_read. intros Hs H. apply disk_bytes_length in H.
  rewrite H, u32_small by assumption. lia.
Qed.

(** Property X7.  For the fixed root directory ([file_cluster = ~0]) a read
    at an offset within the area is one device read at byte
    [root_sector * 512 + offset] of [min (len, area - offset)] bytes; that
    number is returned and the handle is left as it was.  If the device
    read fails the call returns -1 with the device error. *)
Theorem read_root_directory (disk : grub_disk) (d : grub_fat_data) (offset len : Z) :
  file_cluster d = ALL_ONES ->
  num_root_sectors d * 512 < 2 ^ 31 ->
  0 <= offset <= num_root_sectors d * 512 -> 0 <= len ->
  let size := Z.min len (num_root_sectors d * 512 - offset) in
  grub_fat_read_data disk d offset len
  = match disk_bytes disk (root_sector d * 512 + offset) (Z.to_nat size) with
    | Some bs => Some (mk_read d (Ok size) bs [])
    | None => Some (mk_read d (Err disk_failure) [] [])
    end.
Proof.
  intros Hroot Hsmall Hoff Hlen size. unfold grub_fat_read_data.
  rewrite Hroot, Z.eqb_refl. cbv zeta.
  unfold GRUB_DISK_SECTOR_BITS. rewrite Z.shiftl_mul_pow2 by lia. change (2 ^ 9) with 512.
  change (2 ^ 31) with 2147483648 in Hsmall.
  rewrite (u32_small (num_root_sectors d * 512))
    by (change (2 ^ 32) with 4294967296; lia).
  assert (Hs : s32 (num_root_sectors d * 512 - offset) = num_root_sectors d * 512 - offset).
  { unfold s32. rewrite u32_small by (change (2 ^ 32) with 4294967296; lia).
    change (2 ^ 31) with 2147483648.
    destruct (num_root_sectors d * 512 - offset <? 2147483648) eqn:E; lia. }
  rewrite Hs.
  assert (Hsize : (if num_root_sectors d * 512 - offset >? len
                   then len else num_root_sectors d * 512 - offset) = size).
  { unfold size. destruct (num_root_sectors d * 512 - offset >? len) eqn:E; lia. }
  rewrite Hsize. unfold grub_disk_read, GRUB_DISK_SECTOR_BITS. change (2 ^ 9) with 512.
  rewrite !u32_small by (change (2 ^ 32) with 4294967296; lia).
  destruct (disk_bytes disk _ _); reflexivity.
Qed.

(** Property X7 at [floppy]: 64 bytes asked for 32 bytes before the end of
    the root directory. *)
Lemma read_root_directory_witness :
  read_out (grub_fat_read_data floppy floppy_root 480 64)
  = Some (Ok 32, repeat 0 32).
Proof.
  rewrite (read_root_directory floppy floppy_root 480 64).
  - vm_compute. reflexivity.
  - reflexivity.
  - vm_compute. reflexivity.
  - vm_compute. split; discriminate.
  - lia.
Defined.

Lemma read_loop_buffer disk f : forall d lc off len ret buf reads r,
  0 <= logical_cluster_bits d ->
  0 <= off < Z.shiftl 1 (logical_cluster_bits d) ->
  0 <= len < 2 ^ 32 ->
  read_loop disk f d lc off len ret buf reads = Some r ->
  Z.of_nat (length (rd_buf r)) <= Z.of_nat (length buf) + len
  /\ (forall n, rd_ret r = Ok n ->
        Z.of_nat (length (rd_buf r)) - Z.of_nat (length buf) = n - ret).
Proof.
  induction f as [|f IH]; intros d lc off len ret buf reads r HB Hoff Hlen Hr;
    cbn [read_loop] in Hr.
  - destruct (len =? 0) eqn:E; [|discriminate]. injection Hr as <-. cbn.
    split; [lia|]. intros n Hn. injection Hn as <-. lia.
  - destruct (len =? 0) eqn:E.
    { injection Hr as <-. cbn. split; [lia|]. intros n Hn. injection Hn as <-. lia. }
    pose proof (walk_bits disk (Z.to_nat (lc - cur_cluster_num d)) d) as Hb.
    destruct (find_next_cluster disk _ d) as [d'|d'|d' e]; cbn [walk_data] in Hb.
    + rewrite Hb in Hr.
      set (size := if Z.shiftl 1 (logical_cluster_bits d) - off >? len
                   then len else Z.shiftl 1 (logical_cluster_bits d) - off) in *.
      assert (Hsize : 1 <= size <= len).
      { unfold size. destruct (_ >? len) eqn:E'; lia. }
      destruct (grub_disk_read disk (data_sector d') off size) as [bs|] eqn:Ebs.
      * apply grub_disk_read_length in Ebs; [|lia].
        pose proof (shiftl_1_pos _ HB).
        apply IH in Hr; rewrite ?Hb; try lia.
        rewrite length_app, Nat2Z.inj_add in Hr. destruct Hr as [H1 H2].
        split; [lia|]. intros n Hn. specialize (H2 n Hn). lia.
      * injection Hr as <-. cbn. split; [lia|]. discriminate.
    + injection Hr as <-. cbn. split; [lia|]. intros n Hn. injection Hn as <-. lia.
    + injection Hr as <-. cbn. split; [lia|]. discriminate.
Qed.

(** Property X11.  A read on a file kept in a cluster chain never stores
    more than [len] bytes, and when it returns a count (not -1) the count
    is the number of bytes stored. *)
Theorem read_stores_count_bytes (disk : grub_disk) (d : grub_fat_data)
    (offset len : Z) (r : read_result) :
  file_cluster d <> ALL_ONES ->
  0 <= logical_cluster_bits d -> 0 <= len < 2 ^ 31 ->
  grub_fat_read_data disk d offset len = Some r ->
  Z.of_nat (length (rd_buf r)) <= len
  /\ (forall n, rd_ret r = Ok n -> Z.of_nat (length (rd_buf r)) = n).
Proof.
  intros Hch HB Hlen Hr. unfold grub_fat_read_data in Hr.
  destruct (file_cluster d =? ALL_ONES) eqn:E; [lia|]. cbv zeta in Hr.
  apply read_loop_buffer in Hr.
  - cbn [length] in Hr. destruct Hr as [H1 H2]. split; [lia|].
    intros n Hn. specialize (H2 n Hn). lia.
  - destruct (_ <? _); assumption.
  - destruct (_ <? _); apply land_mask_range; assumption.
  - change (2 ^ 31) with 2147483648 in Hlen. change (2 ^ 32) with 4294967296. lia.
Qed.

(** Property X11 at /hello.txt on [floppy]. *)
Lemma read_stores_count_bytes_witness :
  exists r, grub_fat_read_data floppy hello_file 0 6 = Some r
    /\ Z.of_nat (length (rd_buf r)) = 6.
Proof.
  destruct (grub_fat_read_data floppy hello_file 0 6) as [r|] eqn:Er;
    [|vm_compute in Er; discriminate].
  exists r. split; [reflexivity|].
  apply (read_stores_count_bytes floppy hello_file 0 6 r).
  - vm_compute. discriminate.
  - vm_compute. discriminate.
  - lia.
  - exact Er.
  - vm_compute in Er. injection Er as <-. reflexivity.
Defined.

Lemma walk_error_same_file a b e : same_file a b -> walk_error b e -> walk_error a e.
Proof.
  intros Hs [H | (v & H1 & H2 & H3)]; [left; assumption|].
  destruct (same_file_fields _ _ Hs) as (_ & Hn & Hm & _).
  right. exists v. rewrite <- Hn, <- Hm. auto.
Qed.

Lemma find_next_cluster_error disk n : forall d d' e,
  find_next_cluster disk n d = WalkFail d' e -> walk_error d e.
Proof.
  induction n as [|n IH]; intros d d' e H; cbn [find_next_cluster] in H; [discriminate|].
  destruct (fat_next disk d) as [v|]; [|injection H as _ <-; left; reflexivity].
  destruct (v >=? cluster_eof_mark d) eqn:E1; [discriminate|].
  destruct ((v <? 2) || (v >=? num_clusters d)) eqn:E2.
  - injection H as _ <-. right. exists v. split; [reflexivity|].
    apply orb_true_iff in E2. lia.
  - apply IH in H. eapply walk_error_same_file; [|exact H]. reflexivity.
Qed.

Lemma read_loop_error disk f : forall d lc off len ret buf reads r e,
  read_loop disk f d lc off len ret buf reads = Some r ->
  rd_ret r = Err e -> walk_error d e.
Proof.
  induction f as [|f IH]; intros d lc off len ret buf reads r e Hr He;
    cbn [read_loop] in Hr.
  - destruct (len =? 0); [|discriminate]. injection Hr as <-. discriminate.
  - destruct (len =? 0); [injection Hr as <-; discriminate|].
    pose proof (find_next_cluster_same_file disk (Z.to_nat (lc - cur_cluster_num d)) d) as Hs.
    destruct (find_next_cluster disk _ d) as [d'|d'|d' e'] eqn:Ew; cbn [walk_data] in Hs.
    + destruct (grub_disk_read disk _ _ _) as [bs|].
      * eapply walk_error_same_file; [exact Hs|]. eapply IH; eassumption.
      * injection Hr as <-. cbn in He. injection He as <-. left. reflexivity.
    + injection Hr as <-. discriminate.
    + injection Hr as <-. cbn in He. injection He as <-.
      eapply find_next_cluster_error. exact Ew.
Qed.

(** ** [grub_errno] at entry: the reader *)

(** Entered with [grub_errno] clear, the loop is the one above. *)
Lemma errno_clear_read_loop disk fuel : forall d lc off len ret buf reads,
  Errno.read_loop disk None fuel d lc off len ret buf reads
  = read_loop disk fuel d lc off len ret buf reads.
Proof.
  induction fuel as [|fuel IH]; intros d lc off len ret buf reads;
    cbn [Errno.read_loop read_loop]; [reflexivity|].
  destruct (len =? 0); [reflexivity|].
  destruct (find_next_cluster disk _ d) as [d'|d'|d' e']; try reflexivity.
  destruct (grub_disk_read disk _ _ _); [apply IH | reflexivity].
Qed.

Lemma errno_clear_read_data disk d offset len :
  Errno.grub_fat_read_data disk None d offset len = grub_fat_read_data disk d offset len.
Proof.
  unfold Errno.grub_fat_read_data, grub_fat_read_data.
  destruct (file_cluster d =? ALL_ONES); [reflexivity|].
  apply errno_clear_read_loop.
Qed.

(** With an error pending, one turn of the loop. *)
Lemma errno_read_loop_pending disk e fuel d lc off len ret buf reads :
  len <> 0 ->
  Errno.read_loop disk (Some e) (S fuel) d lc off len ret buf reads
  = match find_next_cluster disk (Z.to_nat (lc - cur_cluster_num d)) d with
    | WalkEnd d' => Some (mk_read d' (Ok ret) buf reads)
    | WalkFail d' e' => Some (mk_read d' (Err e') buf reads)
    | WalkReached d' =>
        let size := chunk_size d' off len in
        let reads' := reads ++ [mk_data_read (cur_cluster d') (data_sector d') off size] in
        match grub_disk_read disk (data_sector d') off size with
        | None => Some (mk_read d' (Err disk_failure) buf reads')
        | Some bs => Some (mk_read d' (Err e) (buf ++ bs) reads')
        end
    end.
Proof.
  intros Hlen. cbn [Errno.read_loop].
  destruct (Z.eqb_spec len 0) as [E|_]; [contradiction|]. reflexivity.
Qed.

(** What the loop returns is what it returns when entered with
    [grub_errno] clear, or it is the pending error, returned after a data
    read that succeeded. *)
Lemma errno_read_loop_cases disk errno fuel d lc off len ret buf reads r :
  Errno.read_loop disk errno fuel d lc off len ret buf reads = Some r ->
  (exists fuel', read_loop disk fuel' d lc off len ret buf reads = Some r)
  \/ (exists e, errno = Some e /\ rd_ret r = Err e /\ same_file d (rd_data r)).
Proof.
  destruct errno as [e|];
    [|rewrite errno_clear_read_loop; intros H; left; exists fuel; exact H].
  destruct fuel as [|fuel]; cbn [Errno.read_loop].
  - intros H. left. exists 0%nat. cbn [read_loop]. exact H.
  - intros H.
    pose proof (find_next_cluster_same_file disk (Z.to_nat (lc - cur_cluster_num d)) d) as Hs.
    destruct (len =? 0) eqn:El.
    { left. exists 0%nat. cbn [read_loop]. rewrite El. exact H. }
    destruct (find_next_cluster disk _ d) as [d'|d'|d' e'] eqn:Ew; cbn [walk_data] in Hs.
    + destruct (grub_disk_read disk _ _ _) as [bs|] eqn:Ed.
      * right. exists e. injection H as <-. auto.
      * left. exists 1%nat. cbn [read_loop]. rewrite El, Ew, Ed. exact H.
    + left. exists 1%nat. cbn [read_loop]. rewrite El, Ew. exact H.
    + left. exists 1%nat. cbn [read_loop]. rewrite El, Ew. exact H.
Qed.

Lemma errno_read_loop_error disk errno fuel d lc off len ret buf reads r e :
  Errno.read_loop disk errno fuel d lc off len ret buf reads = Some r ->
  rd_ret r = Err e -> errno = Some e \/ walk_error d e.
Proof.
  intros Hr He.
  destruct (errno_read_loop_cases _ _ _ _ _ _ _ _ _ _ _ Hr)
    as [[f Hf] | (e' & -> & He' & _)].
  - right. eapply read_loop_error; eassumption.
  - left. congruence.
Qed.

Lemma errno_read_loop_same_file disk errno fuel d lc off len ret buf reads r :
  Errno.read_loop disk errno fuel d lc off len ret buf reads = Some r ->
  same_file d (rd_data r).
Proof.
  intros Hr.
  destruct (errno_read_loop_cases _ _ _ _ _ _ _ _ _ _ _ Hr)
    as [[f Hf] | (e' & _ & _ & Hs)]; [|exact Hs].
  eapply read_loop_same_file. exact Hf.
Qed.

Lemma errno_read_data_error disk errno d offset len r e :
  Errno.grub_fat_read_data disk errno d offset len = Some r ->
  rd_ret r = Err e -> errno = Some e \/ walk_error d e.
Proof.
  unfold Errno.grub_fat_read_data. intros Hr He.
  destruct (file_cluster d =? ALL_ONES).
  - destruct (grub_disk_read disk _ _ _); injection Hr as <-; [discriminate|].
    cbn in He. injection He as <-. right. left. reflexivity.
  - cbv zeta in Hr. apply errno_read_loop_error with (e := e) in Hr; [|assumption].
    destruct Hr as [Hr | Hr]; [left; exact Hr | right].
    destruct (_ <? _); [|assumption].
    eapply walk_error_same_file; [|exact Hr]. reflexivity.
Qed.

Lemma errno_read_data_keeps_file disk errno d offset len r :
  Errno.grub_fat_read_data disk errno d offset len = Some r ->
  same_file d (rd_data r).
Proof.
  unfold Errno.grub_fat_read_data. intros Hr.
  destruct (file_cluster d =? ALL_ONES).
  - destruct (grub_disk_read disk _ _ _); injection Hr as <-; reflexivity.
  - cbv zeta in Hr. apply errno_read_loop_same_file in Hr.
    destruct (_ <? _); [|assumption].
    eapply same_file_trans; [|exact Hr]. reflexivity.
Qed.

(** The walk that a read makes from a sound cursor arrives where the walk
    from the first cluster arrives. *)
Lemma walk_from_cursor disk d lc :
  cursor_ok disk d -> 0 <= lc < 2 ^ 31 ->
  let d0 := if lc <? cur_cluster_num d then restart d else d in
  find_next_cluster disk (Z.to_nat (lc - cur_cluster_num d0)) d0
  = find_next_cluster disk (Z.to_nat lc) (restart d).
Proof.
  intros Hok Hlc. cbv zeta.
  destruct (lc <? cur_cluster_num d) eqn:E.
  - change (cur_cluster_num (restart d)) with 0. rewrite Z.sub_0_r. reflexivity.
  - destruct Hok as [Hinv | (Hr & Hw)]; [unfold ALL_ONES in Hinv; lia|].
    replace (Z.to_nat lc)
      with (Z.to_nat (cur_cluster_num d) + Z.to_nat (lc - cur_cluster_num d))%nat by lia.
    rewrite find_next_cluster_add, Hw. reflexivity.
Qed.

(** Property X9.  A read of [len > 0] bytes that stays within one cluster
    of a chain file, where the walk from the first cluster reaches cluster
    number [offset / P] of the chain ([P] the cluster size in bytes), makes
    one device read of [len] bytes at offset [offset mod P] of the sector
    of that cluster.  What it returns depends on [grub_errno], which the
    code tests after the data read in place of the value the read
    returned: entered with [grub_errno] clear the call returns [len];
    entered with an error pending it stores the bytes and returns -1 with
    that error still in [grub_errno]; if the device read fails it returns
    -1 with the device error. *)
Theorem read_within_cluster (disk : grub_disk) (errno : option grub_error_t)
    (d d' : grub_fat_data) (offset len : Z) :
  cursor_ok disk d -> file_cluster d <> ALL_ONES ->
  0 <= logical_cluster_bits d ->
  let P := 2 ^ logical_cluster_bits d in
  0 <= offset < 2 ^ 31 -> 0 < len -> offset mod P + len <= P ->
  find_next_cluster disk (Z.to_nat (offset / P)) (restart d) = WalkReached d' ->
  read_out (Errno.grub_fat_read_data disk errno d offset len)
  = match grub_disk_read disk (data_sector d') (offset mod P) len with
    | Some bs =>
        Some (match errno with None => Ok len | Some e => Err e end, bs)
    | None => Some (Err disk_failure, [])
    end.
Proof.
  intros Hok Hch HB P Hoff Hlen Hin Hw.
  destruct (read_position d offset HB Hoff) as (Hlc & Hro & Hr1 & Hr2 & _).
  rewrite Z.shiftl_1_l in Hlc, Hro, Hr2. fold P in Hlc, Hro, Hr2.
  unfold Errno.grub_fat_read_data.
  destruct (Z.eqb_spec (file_cluster d) ALL_ONES) as [E|_]; [contradiction|].
  cbv zeta. fold (read_cluster d offset). fold (read_offset d offset).
  fold (restart d).
  pose proof (walk_from_cursor disk d (read_cluster d offset) Hok ltac:(lia)) as Hwalk.
  cbv zeta in Hwalk. rewrite Hlc, Hw in Hwalk. rewrite Hlc, Hro.
  set (d0 := if offset / P <? cur_cluster_num d then restart d else d) in *.
  pose proof (walk_bits disk (Z.to_nat (offset / P)) (restart d)) as Hb.
  rewrite Hw in Hb. cbn [walk_data] in Hb. rewrite restart_bits in Hb.
  assert (Hsize : chunk_size d' (offset mod P) len = len).
  { unfold chunk_size. rewrite Hb, Z.shiftl_1_l. fold P.
    destruct (P - offset mod P >? len) eqn:E; lia. }
  destruct (Z.abs_nat len) as [|f] eqn:Ef; [lia|].
  destruct errno as [e|].
  - rewrite errno_read_loop_pending by lia. rewrite Hwalk. cbv zeta. rewrite Hsize.
    destruct (grub_disk_read disk (data_sector d') (offset mod P) len); reflexivity.
  - rewrite errno_clear_read_loop. cbn [read_loop].
    destruct (Z.eqb_spec len 0) as [E|_]; [lia|]. rewrite Hwalk.
    fold (chunk_size d' (offset mod P) len). rewrite Hsize.
    destruct (grub_disk_read disk (data_sector d') (offset mod P) len) as [bs|];
      [|reflexivity].
    rewrite Z.sub_diag. destruct f; cbn [read_loop Z.eqb]; reflexivity.
Qed.

(** Property X9 at /hello.txt on [floppy], bytes 1 to 4: entered with
    [grub_errno] clear, and entered with "file not found" pending. *)
Lemma read_within_cluster_witness :
  read_out (Errno.grub_fat_read_data floppy None hello_file 1 4)
  = Some (Ok 4, bytes_of_string "ello")
  /\ read_out (Errno.grub_fat_read_data floppy (Some file_not_found) hello_file 1 4)
     = Some (Err file_not_found, bytes_of_string "ello").
Proof.
  split.
  - rewrite (read_within_cluster floppy None hello_file (restart hello_file) 1 4).
    + vm_compute. reflexivity.
    + left. reflexivity.
    + vm_compute. discriminate.
    + vm_compute. discriminate.
    + lia.
    + lia.
    + vm_compute. discriminate.
    + vm_compute. reflexivity.
  - rewrite (read_within_cluster floppy (Some file_not_found) hello_file
               (restart hello_file) 1 4).
    + vm_compute. reflexivity.
    + left. reflexivity.
    + vm_compute. discriminate.
    + vm_compute. discriminate.
    + lia.
    + lia.
    + vm_compute. discriminate.
    + vm_compute. reflexivity.
Defined.

(** Property X12.  [grub_fat_read_data] returns -1 in three ways only:
    an error was pending in [grub_errno] when the call was entered (the
    call then returns -1 after its first data read and leaves that error;
    this does not happen on the fixed root directory); a device read
    failed; or the chain walk fetched a FAT value below the end-of-chain
    mark that is below 2 or not below [num_clusters] ([GRUB_ERR_BAD_FS],
    "invalid cluster %u" with that value). *)
Theorem read_error_kinds (disk : grub_disk) (errno : option grub_error_t)
    (d : grub_fat_data) (offset len : Z) (r : read_result) (e : grub_error_t) :
  Errno.grub_fat_read_data disk errno d offset len = Some r ->
  rd_ret r = Err e ->
  (errno = Some e /\ file_cluster d <> ALL_ONES)
  \/ e = disk_failure
  \/ exists v, e = grub_error_u GRUB_ERR_BAD_FS "invalid cluster %u" v
       /\ (v < 2 \/ num_clusters d <= v) /\ v < cluster_eof_mark d.
Proof.
  intros Hr He.
  destruct (Z.eq_dec (file_cluster d) ALL_ONES) as [Hroot | Hch].
  - right. unfold Errno.grub_fat_read_data in Hr. rewrite Hroot in Hr.
    change (ALL_ONES =? ALL_ONES) with true in Hr. cbv iota zeta in Hr.
    destruct (grub_disk_read disk _ _ _); injection Hr as <-; [discriminate|].
    cbn in He. injection He as <-. left. reflexivity.
  - destruct (errno_read_data_error _ _ _ _ _ _ _ Hr He)
      as [Hp | [-> | (v & -> & Hv)]].
    + left. split; assumption.
    + right. left. reflexivity.
    + right. right. exists v. split; [reflexivity | exact Hv].
Qed.

(** Property X12 at /big.bin on [corrupt], where the FAT entry of cluster
    2 is 0; and at /hello.txt on [floppy], entered with a device error
    pending. *)
Lemma read_error_kinds_witness :
  (exists r v, Errno.grub_fat_read_data corrupt None big_file 0 1024 = Some r
     /\ rd_ret r = Err (invalid_cluster v) /\ v < 2)
  /\ read_out (Errno.grub_fat_read_data floppy (Some disk_failure) hello_file 0 6)
     = Some (Err disk_failure, bytes_of_string "hello" ++ [10]).
Proof.
  split; [|vm_compute; reflexivity].
  destruct (Errno.grub_fat_read_data corrupt None big_file 0 1024) as [r|] eqn:Er;
    [|vm_compute in Er; discriminate].
  assert (He : rd_ret r = Err (invalid_cluster 0))
    by (vm_compute in Er; injection Er as <-; reflexivity).
  destruct (read_error_kinds _ _ _ _ _ _ _ Er He)
    as [(H & _) | [H | (v & Hv & Hb & _)]]; [discriminate H | discriminate H|].
  exists r, v. split; [reflexivity|]. rewrite He, Hv. split; [reflexivity|].
  injection Hv as <-. lia.
Defined.

Lemma data_sector_same_file a b :
  same_file a b -> data_sector b = cluster_to_sector a (cur_cluster b).
Proof.
  intros H. rewrite (same_file_eq _ _ H). reflexivity.
Qed.

(** Every data read of the loop starts at the sector of its cluster and
    stays inside the cluster. *)
Lemma read_loop_read_shape disk f : forall d lc off len ret buf reads r x,
  0 <= logical_cluster_bits d ->
  0 <= off < Z.shiftl 1 (logical_cluster_bits d) -> 0 <= len ->
  read_loop disk f d lc off len ret buf reads = Some r ->
  In x (rd_reads r) ->
  In x reads
  \/ (dr_sector x = cluster_to_sector d (dr_cluster x)
      /\ (dr_cluster x = cur_cluster d \/ 2 <= dr_cluster x < num_clusters d)
      /\ 0 <= dr_offset x /\ 0 <= dr_size x
      /\ dr_offset x + dr_size x <= Z.shiftl 1 (logical_cluster_bits d)).
Proof.
  induction f as [|f IH]; intros d lc off len ret buf reads r x HB Hoff Hlen Hr Hx;
    cbn [read_loop] in Hr.
  - destruct (len =? 0); [|discriminate]. injection Hr as <-. left. assumption.
  - destruct (len =? 0) eqn:E0; [injection Hr as <-; left; assumption|].
    pose proof (find_next_cluster_checked disk (Z.to_nat (lc - cur_cluster_num d)) d) as Hc.
    pose proof (find_next_cluster_same_file disk (Z.to_nat (lc - cur_cluster_num d)) d) as Hs.
    pose proof (walk_bits disk (Z.to_nat (lc - cur_cluster_num d)) d) as Hb.
    destruct (find_next_cluster disk _ d) as [d'|d'|d' e]; cbn [walk_data] in Hc, Hs, Hb;
      try (injection Hr as <-; left; assumption).
    destruct (same_file_fields _ _ Hs) as (_ & Hnc & _).
    assert (Hd' : cur_cluster d' = cur_cluster d
                  \/ 2 <= cur_cluster d' < num_clusters d).
    { destruct Hc as [-> | Hc]; [left; reflexivity | right; lia]. }
    rewrite Hb in Hr.
    set (size := if Z.shiftl 1 (logical_cluster_bits d) - off >? len
                 then len else Z.shiftl 1 (logical_cluster_bits d) - off) in *.
    assert (Hsize : 1 <= size <= len /\ off + size <= Z.shiftl 1 (logical_cluster_bits d)).
    { unfold size. destruct (_ >? len) eqn:E'; lia. }
    assert (Hthis : forall y,
              y = mk_data_read (cur_cluster d') (data_sector d') off size ->
              dr_sector y = cluster_to_sector d (dr_cluster y)
              /\ (dr_cluster y = cur_cluster d \/ 2 <= dr_cluster y < num_clusters d)
              /\ 0 <= dr_offset y /\ 0 <= dr_size y
              /\ dr_offset y + dr_size y <= Z.shiftl 1 (logical_cluster_bits d)).
    { intros y ->. cbn [dr_sector dr_cluster dr_offset dr_size].
      split; [apply data_sector_same_file; assumption|].
      split; [assumption|]. lia. }
    destruct (grub_disk_read disk (data_sector d') off size) as [bs|].
    + pose proof (shiftl_1_pos _ HB).
      destruct (IH d' (u32 (lc + 1)) 0 (len - size) _ _ _ _ x
                  ltac:(rewrite Hb; lia) ltac:(rewrite Hb; lia) ltac:(lia) Hr Hx)
        as [Hin | (H1 & H2 & H3 & H4 & H5)].
      * apply in_app_or in Hin. destruct Hin as [Hin | [<- | []]]; [left; assumption|].
        right. apply Hthis. reflexivity.
      * right. rewrite Hb in H5.
        split; [rewrite H1; unfold cluster_to_sector; rewrite (same_file_eq _ _ Hs);
                reflexivity|].
        split; [|lia]. destruct H2 as [H2 | H2]; [rewrite H2; assumption | right; lia].
    + injection Hr as <-. cbn [rd_reads] in Hx.
      apply in_app_or in Hx. destruct Hx as [Hin | [<- | []]]; [left; assumption|].
      right. apply Hthis. reflexivity.
Qed.

Lemma same_volume_fields a b :
  same_volume a b ->
  cluster_sector b = cluster_sector a /\ num_sectors b = num_sectors a
  /\ cluster_bits b = cluster_bits a /\ logical_sector_bits b = logical_sector_bits a
  /\ num_clusters b = num_clusters a.
Proof.
  unfold same_volume, volume_of. intros H.
  injection H as H1 H2 _ _ _ _ _ _ H3 _ H4 H5. auto.
Qed.

(** The cluster count of a mounted volume whose data area starts inside
    the volume: the whole clusters between [cluster_sector] and
    [num_sectors], plus 2. *)
Lemma mount_cluster_count disk d0 :
  grub_fat_mount (Some disk) = Ok d0 ->
  cluster_sector d0 <= num_sectors d0 ->
  let s := cluster_bits d0 + logical_sector_bits d0 in
  0 <= s /\ 0 <= cluster_sector d0 /\ num_sectors d0 < 2 ^ 32
  /\ num_clusters d0 < 2 ^ 32
  /\ num_clusters d0 = (num_sectors d0 - cluster_sector d0) / 2 ^ s + 2.
Proof.
  intros H Hle s.
  destruct (mount_inv _ _ H)
    as (d & bpb & g & Hd & Hb & Hg & Hnc & Hl & Hc & _ & Hn & _).
  injection Hd as <-.
  destruct (mount_layout _ _ H)
    as (bpb' & g' & ff & Hb' & Hg' & Hns & _ & _ & Hcs & _).
  rewrite Hb in Hb'. injection Hb' as <-. rewrite Hg in Hg'. injection Hg' as <-.
  destruct (mount_geometry_inv _ _ Hg) as (H1 & H2 & H3 & H4 & _).
  destruct (mount_geometry_fields _ _ Hg) as (_ & _ & _ & Ens & _ & _ & _ & Ecs & Enc).
  assert (Hs : 0 <= s) by (unfold s; lia).
  assert (Rns : 0 <= num_sectors d0 < 2 ^ 32) by (rewrite Hns, Ens; apply u32_range).
  assert (Rcs : 0 <= cluster_sector d0 < 2 ^ 32) by (rewrite Hcs, Ecs; apply u32_range).
  split; [exact Hs|]. split; [lia|]. split; [lia|].
  split; [rewrite Hn, Enc; apply u32_range|].
  rewrite Hn, Enc, <- Hns, <- Hcs, <- H3, <- Hl, <- Hc. fold s.
  rewrite (u32_small (num_sectors d0 - cluster_sector d0)) by lia.
  rewrite Z.shiftr_div_pow2 by assumption.
  set (q := (num_sectors d0 - cluster_sector d0) / 2 ^ s).
  assert (Hq : 0 <= q < 2 ^ 32).
  { unfold q. pose proof (Z.pow_pos_nonneg 2 s ltac:(lia) Hs).
    split; [apply Z.div_pos; lia|].
    apply Z.div_lt_upper_bound; [lia|]. nia. }
  rewrite Enc, <- Hns, <- Hcs, <- H3, <- Hl, <- Hc in Hnc. fold s in Hnc.
  rewrite (u32_small (num_sectors d0 - cluster_sector d0)) in Hnc by lia.
  rewrite Z.shiftr_div_pow2 in Hnc by assumption. fold q in Hnc.
  unfold u32 in *. change (2 ^ 32) with 4294967296 in *.
  destruct (Z_lt_le_dec (q + 2) 4294967296) as [Hlt | Hge].
  - apply Z.mod_small. lia.
  - exfalso. replace (q + 2) with (q + 2 - 4294967296 + 1 * 4294967296) in Hnc by lia.
    rewrite Z.mod_add, Z.mod_small in Hnc by lia. lia.
Qed.

(** Property X13.  On a mounted volume whose data area starts inside the
    volume, for a handle of that volume with a sound cursor whose first
    cluster is in [2, num_clusters): every data read is from a cluster [c]
    in [2, num_clusters), at sector
    [cluster_sector + ((c - 2) << (cluster_bits + logical_sector_bits))],
    and the bytes it reads lie between the start of the data area and the
    end of the volume. *)
Theorem data_reads_inside_volume (disk : grub_disk) (d0 d : grub_fat_data)
    (offset len : Z) (r : read_result) (x : data_read) :
  grub_fat_mount (Some disk) = Ok d0 ->
  cluster_sector d0 <= num_sectors d0 ->
  same_volume d0 d -> cursor_ok disk d ->
  2 <= file_cluster d < num_clusters d ->
  0 <= offset < 2 ^ 31 -> 0 <= len ->
  grub_fat_read_data disk d offset len = Some r ->
  In x (rd_reads r) ->
  2 <= dr_cluster x < num_clusters d
  /\ dr_sector x
     = cluster_sector d
       + (dr_cluster x - 2) * 2 ^ (cluster_bits d + logical_sector_bits d)
  /\ cluster_sector d * 512 <= dr_sector x * 512 + dr_offset x
  /\ dr_sector x * 512 + dr_offset x + dr_size x <= num_sectors d * 512.
Proof.
  intros Hm Hle Hv Hok Hfc Hoff Hlen Hr Hx.
  destruct (mount_cluster_count _ _ Hm Hle) as (Hs & Hcs & Hns & Hnb & Hnc).
  destruct (same_volume_fields _ _ Hv) as (Ecs & Ens & Ecb & Elsb & Enc).
  rewrite <- Ecs, <- Ens, <- Ecb, <- Elsb, <- Enc in *. clear Ecs Ens Ecb Elsb Enc.
  set (s := cluster_bits d + logical_sector_bits d) in *.
  assert (HB : 0 <= logical_cluster_bits d)
    by (unfold logical_cluster_bits, GRUB_DISK_SECTOR_BITS; fold s; lia).
  assert (Hch : file_cluster d <> ALL_ONES).
  { unfold ALL_ONES. change (2 ^ 32) with 4294967296 in Hnb. lia. }
  (* the shape of the read *)
  assert (Hshape :
    dr_sector x = cluster_to_sector d (dr_cluster x)
    /\ 2 <= dr_cluster x < num_clusters d
    /\ 0 <= dr_offset x /\ 0 <= dr_size x
    /\ dr_offset x + dr_size x <= Z.shiftl 1 (logical_cluster_bits d)).
  { rewrite read_data_chain in Hr by assumption.
    destruct (read_position d offset HB Hoff) as (_ & _ & Hlc & Hro & _).
    unfold loop_run in Hr.
    destruct (read_cluster d offset <? cur_cluster_num d) eqn:E.
    - destruct (read_loop_read_shape _ _ _ _ _ _ _ _ _ _ x
                  ltac:(rewrite restart_bits; exact HB)
                  ltac:(rewrite restart_bits; exact Hro) Hlen Hr Hx)
        as [[] | (H1 & H2 & H3)].
      rewrite restart_bits in H3. split; [exact H1|]. split; [|exact H3].
      destruct H2 as [H2 | H2]; [|exact H2]. rewrite H2. exact Hfc.
    - destruct (read_loop_read_shape _ _ _ _ _ _ _ _ _ _ x HB Hro Hlen Hr Hx)
        as [[] | (H1 & H2 & H3)].
      split; [exact H1|]. split; [|exact H3].
      destruct H2 as [H2 | H2]; [|exact H2]. rewrite H2.
      destruct Hok as [Hinv | (Hr' & Hw)]; [unfold ALL_ONES in Hinv; lia|].
      pose proof (find_next_cluster_checked disk (Z.to_nat (cur_cluster_num d))
                    (restart d)) as Hc.
      rewrite Hw in Hc. cbn [walk_data] in Hc.
      destruct Hc as [Hc | Hc]; [|exact Hc].
      rewrite Hc. exact Hfc. }
  destruct Hshape as (Hsec & Hcl & Ho & Hz & Hin).
  split; [exact Hcl|].
  pose proof (Z.pow_pos_nonneg 2 s ltac:(lia) Hs) as Hp.
  assert (Hq : (dr_cluster x - 1) * 2 ^ s <= num_sectors d - cluster_sector d).
  { pose proof (Z.mul_div_le (num_sectors d - cluster_sector d) (2 ^ s) Hp).
    nia. }
  assert (Hsec' : dr_sector x = cluster_sector d + (dr_cluster x - 2) * 2 ^ s).
  { rewrite Hsec. unfold cluster_to_sector, data_sector.
    cbn [cluster_sector cur_cluster cluster_bits logical_sector_bits set_cursor]. fold s.
    rewrite Z.shiftl_mul_pow2 by assumption.
    rewrite (u32_small ((dr_cluster x - 2) * 2 ^ s)) by nia.
    apply u32_small. nia. }
  split; [exact Hsec'|].
  assert (HP : Z.shiftl 1 (logical_cluster_bits d) = 2 ^ s * 512).
  { rewrite Z.shiftl_1_l. unfold logical_cluster_bits, GRUB_DISK_SECTOR_BITS. fold s.
    rewrite Z.pow_add_r by lia. reflexivity. }
  rewrite HP in Hin. rewrite Hsec'. split; nia.
Qed.

(** Property X13 at /hello.txt on [floppy]: one data read. *)
Lemma data_reads_inside_volume_witness :
  exists r x, grub_fat_read_data floppy hello_file 0 6 = Some r
    /\ rd_reads r = [x]
    /\ dr_sector x * 512 + dr_offset x + dr_size x <= num_sectors hello_file * 512.
Proof.
  destruct (grub_fat_read_data floppy hello_file 0 6) as [r|] eqn:Er;
    [|vm_compute in Er; discriminate].
  assert (Hx : exists x, rd_reads r = [x])
    by (vm_compute in Er; injection Er as <-; eexists; reflexivity).
  destruct Hx as [x Hx].
  exists r, x. split; [reflexivity|]. split; [exact Hx|].
  apply (data_reads_inside_volume floppy floppy_root hello_file 0 6 r x).
  - vm_compute. reflexivity.
  - vm_compute. discriminate.
  - reflexivity.
  - left. reflexivity.
  - vm_compute. split; [discriminate | reflexivity].
  - lia.
  - lia.
  - exact Er.
  - rewrite Hx. left. reflexivity.
Defined.

(** Property X8.  On FAT16 the walker reads the 2 bytes at FAT byte offset
    [2 * c] and takes them as a little-endian 16-bit value; on FAT32 it
    reads the 4 bytes at [4 * c] and takes the little-endian 32-bit value
    as it is: the four upper bits are not masked off. *)
Theorem fat16_fat32_walker_decodes (disk : grub_disk) (d : grub_fat_data)
    (b0 b1 b2 b3 : Z) :
  let c := cur_cluster d in
  let fat := fat_sector d * 2 ^ GRUB_DISK_SECTOR_BITS in
  0 <= c ->
  (fat_size d = 16 -> 2 * c < 2 ^ 32 ->
   disk (fat + 2 * c) = Some b0 -> disk (fat + 2 * c + 1) = Some b1 ->
   fat_offset d = 2 * c /\ fat_entry_bytes d = 2
   /\ fat_next disk d = Some (u8 b0 + 2 ^ 8 * u8 b1))
  /\ (fat_size d = 32 -> 4 * c < 2 ^ 32 ->
      disk (fat + 4 * c) = Some b0 -> disk (fat + 4 * c + 1) = Some b1 ->
      disk (fat + 4 * c + 2) = Some b2 -> disk (fat + 4 * c + 3) = Some b3 ->
      fat_offset d = 4 * c /\ fat_entry_bytes d = 4
      /\ fat_next disk d
         = Some (u8 b0 + 2 ^ 8 * u8 b1 + 2 ^ 16 * u8 b2 + 2 ^ 24 * u8 b3)).
Proof.
  intros c fat Hc. split.
  - intros Hsz Hb H0 H1.
    assert (Hoff : fat_offset d = 2 * c).
    { unfold fat_offset. rewrite Hsz. cbn [Z.eqb Pos.eqb]. fold c.
      rewrite Z.shiftl_mul_pow2 by lia. change (2 ^ 1) with 2.
      rewrite u32_small by lia. lia. }
    assert (Hw : fat_entry_bytes d = 2) by (unfold fat_entry_bytes; rewrite Hsz; reflexivity).
    split; [exact Hoff|]. split; [exact Hw|].
    unfold fat_next. rewrite Hoff, Hw. unfold grub_disk_read. fold fat.
    rewrite u32_small by lia. change (Z.to_nat (u32 2)) with 2%nat.
    cbn [disk_bytes]. rewrite H0, H1.
    unfold fat_entry_value. rewrite Hsz. cbn [Z.eqb Pos.eqb].
    unfold le32, byte_at. simpl nth.
    f_equal. pose proof (u8_range b0). pose proof (u8_range b1).
    replace (u8 b0 + 2 ^ 8 * u8 b1 + 2 ^ 16 * 0 + 2 ^ 24 * 0)
      with (u8 b0 + 2 ^ 8 * u8 b1) by lia.
    change 65535 with (Z.ones 16). rewrite Z.land_ones by lia.
    apply Z.mod_small. change (2 ^ 16) with 65536. change (2 ^ 8) with 256. lia.
  - intros Hsz Hb H0 H1 H2 H3.
    assert (Hoff : fat_offset d = 4 * c).
    { unfold fat_offset. rewrite Hsz. cbn [Z.eqb Pos.eqb]. fold c.
      rewrite Z.shiftl_mul_pow2 by lia. change (2 ^ 2) with 4.
      rewrite u32_small by lia. lia. }
    assert (Hw : fat_entry_bytes d = 4) by (unfold fat_entry_bytes; rewrite Hsz; reflexivity).
    split; [exact Hoff|]. split; [exact Hw|].
    unfold fat_next. rewrite Hoff, Hw. unfold grub_disk_read. fold fat.
    rewrite u32_small by lia. change (Z.to_nat (u32 4)) with 4%nat.
    cbn [disk_bytes].
    replace (fat + 4 * c + 1 + 1) with (fat + 4 * c + 2) by lia.
    replace (fat + 4 * c + 2 + 1) with (fat + 4 * c + 3) by lia.
    rewrite H0, H1, H2, H3.
    unfold fat_entry_value. rewrite Hsz. cbn [Z.eqb Pos.eqb].
    unfold le32, byte_at. simpl nth. reflexivity.
Qed.

(** Property X8 at entry 2 of the FAT of [small32]. *)
Lemma fat16_fat32_walker_decodes_witness :
  fat_next small32 (restart small32_root) = Some 0x0FFFFFFF.
Proof.
  destruct (fat16_fat32_walker_decodes small32 (restart small32_root)
              0xFF 0xFF 0xFF 0x0F) as [_ H].
  - vm_compute. discriminate.
  - destruct H as (_ & _ & H).
    + reflexivity.
    + vm_compute. reflexivity.
    + vm_compute. reflexivity.
    + vm_compute. reflexivity.
    + vm_compute. reflexivity.
    + vm_compute. reflexivity.
    + exact H.
Defined.

Lemma read_chain_buffer disk d offset len r n :
  file_cluster d <> ALL_ONES ->
  0 <= logical_cluster_bits d -> 0 <= len < 2 ^ 31 ->
  grub_fat_read_data disk d offset len = Some r ->
  rd_ret r = Ok n -> Z.of_nat (length (rd_buf r)) = n /\ n <= len.
Proof.
  intros Hch HB Hlen Hr Hn. rewrite read_data_chain in Hr by assumption.
  unfold loop_run in Hr. apply read_loop_buffer in Hr.
  - cbn [length] in Hr. destruct Hr as [H1 H2]. specialize (H2 n Hn). lia.
  - destruct (_ <? _); assumption.
  - destruct (_ <? _); apply land_mask_range; assumption.
  - change (2 ^ 31) with 2147483648 in Hlen. change (2 ^ 32) with 4294967296. lia.
Qed.

(** Property X10.  When the chain of a file ends after [j] clusters, a read
    that starts within the chain and asks for bytes beyond it delivers
    what the read up to byte [j * P] delivers ([P] the cluster size in
    bytes), without an error for the missing part; the count returned
    is at most [j * P - offset]. *)
Theorem read_across_end_of_chain (disk : grub_disk) (d d' : grub_fat_data)
    (j : nat) (offset len : Z) :
  cursor_ok disk d -> file_cluster d <> ALL_ONES ->
  0 <= logical_cluster_bits d ->
  let P := 2 ^ logical_cluster_bits d in
  find_next_cluster disk j (restart d) = WalkEnd d' ->
  0 <= offset <= Z.of_nat j * P ->
  Z.of_nat j * P <= offset + len -> offset + len < 2 ^ 31 ->
  read_bytes (grub_fat_read_data disk d offset len)
  = read_bytes (grub_fat_read_data disk d offset (Z.of_nat j * P - offset))
  /\ (forall r n, grub_fat_read_data disk d offset len = Some r ->
        rd_ret r = Ok n -> n <= Z.of_nat j * P - offset).
Proof.
  intros Hok Hch HB P Hj Hoff Hend Hb.
  set (l1 := Z.of_nat j * P - offset).
  set (l2 := offset + len - Z.of_nat j * P).
  assert (HP : 0 < P) by (apply Z.pow_pos_nonneg; lia).
  assert (Heq : read_bytes (grub_fat_read_data disk d offset len)
                = read_bytes (grub_fat_read_data disk d offset l1)).
  { replace len with (l1 + l2) by (unfold l1, l2; lia).
    rewrite (read_bytes_of_out _ _
               (read_data_cold disk d offset (l1 + l2) Hok Hch HB ltac:(lia))).
    rewrite cold_read_split by (unfold l1, l2; lia).
    rewrite <- (read_bytes_of_out _ _
                  (read_data_cold disk d offset l1 Hok Hch HB ltac:(lia))).
    rewrite <- (read_bytes_of_out _ _
                  (read_data_cold disk d (offset + l1) l2 Hok Hch HB
                     ltac:(unfold l1; lia))).
    assert (Hpast : read_out (grub_fat_read_data disk d (offset + l1) l2)
                    = Some (Ok 0, [])).
    { apply (read_data_past_end disk d d' (offset + l1) l2 j); try assumption.
      - unfold l1. lia.
      - destruct (read_position d (offset + l1) HB ltac:(unfold l1; lia)) as (-> & _).
        rewrite Z.shiftl_1_l. fold P. replace (offset + l1) with (Z.of_nat j * P)
          by (unfold l1; lia).
        rewrite Z.div_mul by lia. lia. }
    destruct (grub_fat_read_data disk d (offset + l1) l2) as [r2|]; [|discriminate].
    cbn [read_out] in Hpast. injection Hpast as H1 H2.
    assert (read_bytes (Some r2) = Some (Ok [])) as ->
      by (unfold read_bytes; rewrite H1, H2; reflexivity).
    apply combine_bytes_nil_r. }
  split; [exact Heq|].
  intros r n Hr Hn. rewrite Hr in Heq.
  destruct (grub_fat_read_data disk d offset l1) as [r1|] eqn:Er1.
  - unfold read_bytes in Heq. rewrite Hn in Heq.
    destruct (rd_ret r1) as [n1|e1] eqn:En1; [|discriminate].
    injection Heq as Hbuf.
    destruct (read_chain_buffer disk d offset len r n Hch HB ltac:(lia) Hr Hn) as [H1 _].
    destruct (read_chain_buffer disk d offset l1 r1 n1 Hch HB
                ltac:(unfold l1; lia) Er1 En1) as [H2 H3].
    rewrite Hbuf in H1. fold l1. lia.
  - unfold read_bytes in Heq. destruct (rd_ret r); discriminate.
Qed.

(** Property X10 at /hello.txt on [floppy]: a chain of one cluster, 100
    bytes asked for from byte 500. *)
Lemma read_across_end_of_chain_witness :
  read_bytes (grub_fat_read_data floppy hello_file 500 100)
  = read_bytes (grub_fat_read_data floppy hello_file 500 12).
Proof.
  apply (read_across_end_of_chain floppy hello_file (restart hello_file) 1 500 100).
  - left. reflexivity.
  - vm_compute. discriminate.
  - vm_compute. discriminate.
  - vm_compute. reflexivity.
  - vm_compute. split; discriminate.
  - vm_compute. discriminate.
  - lia.
Defined.

(** ** Path components *)

Lemma skip_slashes_spec path :
  (exists k, path = repeat 47 k ++ skip_slashes path)
  /\ hd 0 (skip_slashes path) <> 47
  /\ (length (skip_slashes path) <= length path)%nat.
Proof.
  induction path as [|c p (IH1 & IH2 & IH3)]; cbn [skip_slashes].
  - split; [exists 0%nat; reflexivity|]. split; [cbn; lia | lia].
  - destruct (Z.eqb_spec c 47) as [-> | Hne].
    + split; [|split; [assumption | cbn [length]; lia]].
      destruct IH1 as [k Hk]. exists (S k). cbn [repeat app]. f_equal. exact Hk.
    + split; [exists 0%nat; reflexivity|]. split; [cbn; assumption | lia].
Qed.

Lemma grub_strchr_some s c : forall rest,
  grub_strchr s c = Some rest ->
  exists pre, s = pre ++ rest /\ ~ In c pre /\ hd 0 rest = c /\ rest <> [].
Proof.
  induction s as [|b s IH]; intros rest H; cbn [grub_strchr] in H; [discriminate|].
  destruct (Z.eqb_spec b c) as [-> | Hne].
  - injection H as <-. exists []. repeat split; [intros [] | discriminate].
  - destruct (IH _ H) as (pre & -> & Hin & Hhd & Hnil).
    exists (b :: pre). repeat split; try assumption.
    intros [Hb | Hp]; [congruence | contradiction].
Qed.

Lemma grub_strchr_none s c : grub_strchr s c = None -> ~ In c s.
Proof.
  induction s as [|b s IH]; intros H; cbn [grub_strchr] in H; [intros []|].
  destruct (Z.eqb_spec b c) as [-> | Hne]; [discriminate|].
  intros [Hb | Hp]; [congruence | exact (IH H Hp)].
Qed.

(** Property X14.  "Extract a directory name": after the leading slashes
    the path is [dirname] followed by the returned rest; [dirname] holds
    no slash; a rest, if there is one, starts with a slash, comes after a
    [dirname] that is not empty, and is strictly shorter than the path. *)
Theorem extract_dirname_splits (path : bytes) :
  let dirp := fst (extract_dirname path) in
  let dirname := snd (extract_dirname path) in
  ~ In 47 dirname
  /\ skip_slashes path = dirname ++ match dirp with Some rest => rest | None => [] end
  /\ (exists k, path = repeat 47 k ++ skip_slashes path)
  /\ (forall rest, dirp = Some rest ->
        hd 0 rest = 47 /\ dirname <> [] /\ (length rest < length path)%nat).
Proof.
  cbv zeta. unfold extract_dirname.
  destruct (skip_slashes_spec path) as (Hk & Hhd & Hlen).
  destruct (grub_strchr (skip_slashes path) 47) as [rest|] eqn:E; cbn [fst snd].
  - destruct (grub_strchr_some _ _ _ E) as (pre & Hp & Hin & Hr & Hnil).
    assert (Hfirst : firstn (length (skip_slashes path) - length rest) (skip_slashes path) = pre).
    { rewrite Hp at 2. rewrite Hp at 1. rewrite length_app.
      replace (length pre + length rest - length rest)%nat with (length pre) by lia.
      rewrite firstn_app, Nat.sub_diag, firstn_all. cbn [firstn]. apply app_nil_r. }
    rewrite Hfirst. split; [assumption|]. split; [assumption|]. split; [assumption|].
    intros rest' Hrest. injection Hrest as <-.
    assert (Hne : pre <> []).
    { intros ->. cbn [app] in Hp. rewrite Hp in Hhd. contradiction. }
    split; [assumption|]. split; [assumption|].
    rewrite Hp, length_app in Hlen. destruct pre; [contradiction | cbn [length] in Hlen; lia].
  - split; [apply grub_strchr_none; assumption|].
    split; [rewrite app_nil_r; reflexivity|]. split; [assumption|]. discriminate.
Qed.

(** ** More on the scanner *)

Section ScanLoop.

Variable grub_isspace : Z -> bool.
Variable grub_tolower : Z -> Z.
Variable grub_utf16_to_utf8 : list Z -> bytes.
Variable disk : grub_disk.

Lemma offer_no_hook dirname hook filename dir :
  offer dirname false hook filename dir
  = if bytes_eqb dirname filename then Some (true, []) else None.
Proof.
  unfold offer. rewrite andb_false_r. reflexivity.
Qed.

Lemma scan_entry_no_hook dirname hook st dir :
  step_calls (scan_entry grub_isspace grub_tolower grub_utf16_to_utf8
                dirname false hook st dir) = [].
Proof.
  unfold scan_entry. rewrite !offer_no_hook.
  destruct (dir_attr dir =? GRUB_FAT_ATTR_LONG_NAME); [reflexivity|].
  destruct ((byte_at dir 0 =? 229) || _); [reflexivity|].
  destruct (negb (checksum st =? -1) && (slot st =? 0)).
  - destruct (sum8dot3 _ =? checksum st).
    + destruct (bytes_eqb dirname (long_filename _ _)); [reflexivity|].
      destruct (bytes_eqb dirname (convert_8dot3 _ _ _)); reflexivity.
    + destruct (bytes_eqb dirname (convert_8dot3 _ _ _)); reflexivity.
  - destruct (bytes_eqb dirname (convert_8dot3 _ _ _)); reflexivity.
Qed.

Lemma find_dir_loop_no_hook dirname hook fuel :
  forall data st dir offset calls data' dir' errno calls',
  find_dir_loop grub_isspace grub_tolower grub_utf16_to_utf8 disk dirname
    false hook fuel data st dir offset calls
  = Some (data', dir', errno, calls') ->
  calls' = calls.
Proof.
  induction fuel as [|fuel IH]; intros data st dir offset calls data' dir' errno calls' H;
    cbn [find_dir_loop] in H; [discriminate|].
  destruct (grub_fat_read_data disk data _ _) as [r|]; [|discriminate].
  destruct (negb _ || _).
  - injection H as _ _ _ <-. reflexivity.
  - pose proof (scan_entry_no_hook dirname hook st (overwrite dir (rd_buf r))) as Hc.
    destruct (scan_entry _ _ _ _ _ _ _ _) as [st' dir1 c | dir1 c]; cbn [step_calls] in Hc;
      subst c; rewrite app_nil_r in H.
    + eapply IH. exact H.
    + injection H as _ _ _ <-. reflexivity.
Qed.

End ScanLoop.

(** Property X15.  [grub_fat_find_dir] calls the hook only for the last
    component of a path: with no hook, or with a path that goes on after
    the component, no call is made. *)
Theorem hook_called_for_last_component_only
    (grub_isspace : Z -> bool) (grub_tolower : Z -> Z)
    (grub_utf16_to_utf8 : list Z -> bytes) (disk : grub_disk)
    (fuel : nat) (data : grub_fat_data) (path : bytes)
    (hook : option (bytes -> Z -> bool)) (r : find_result) :
  grub_fat_find_dir grub_isspace grub_tolower grub_utf16_to_utf8 disk
    fuel data path hook = Some r ->
  hook = None \/ fst (extract_dirname path) <> None ->
  fr_calls r = [].
Proof.
  unfold grub_fat_find_dir. intros H Hmode.
  destruct (Z.land (attr data) GRUB_FAT_ATTR_DIRECTORY =? 0);
    [injection H as <-; reflexivity|].
  destruct (extract_dirname path) as [dirp dirname]. cbn [fst] in Hmode.
  assert (Hch : match dirp, hook with None, Some _ => true | _, _ => false end = false).
  { destruct Hmode as [-> | Hd]; [destruct dirp; reflexivity|].
    destruct dirp; [reflexivity | contradiction]. }
  rewrite Hch in H.
  destruct (find_dir_loop _ _ _ _ _ _ _ _ _ _ _ _ _) as [[[[data' dir'] errno] calls]|] eqn:E;
    [|discriminate].
  apply find_dir_loop_no_hook in E. injection H as <-. exact E.
Qed.

(** Property X15 at /hello.txt/x on [floppy], with a hook that would stop
    the scan. *)
Lemma hook_called_for_last_component_only_witness :
  exists r, grub_fat_find_dir ascii_isspace ascii_tolower ascii_utf16_to_utf8 floppy
              17 floppy_root (bytes_of_string "/hello.txt/x") (Some (fun _ _ => true))
            = Some r
    /\ fr_calls r = [].
Proof.
  destruct (grub_fat_find_dir ascii_isspace ascii_tolower ascii_utf16_to_utf8 floppy
              17 floppy_root (bytes_of_string "/hello.txt/x") (Some (fun _ _ => true)))
    as [r|] eqn:Er; [|vm_compute in Er; discriminate].
  exists r. split; [reflexivity|].
  apply (hook_called_for_last_component_only _ _ _ _ _ _ _ _ _ Er).
  right. vm_compute. discriminate.
Defined.

(** ** Long-name groups *)

(** Property X17.  A well-formed group of long-name slots (the first with
    bit 0x40 and the slot count [n <= 63] in its low six bits, then the
    slots [n - 1], ..., 1, all with one checksum) leaves the assembler
    with expected slot 0, [slots = n] and that checksum; the buffer then
    starts with the code units of the slots in name order (the slot
    stored last comes first), and the long name is what
    [grub_utf16_to_utf8] makes of these [13 * n] code units, up to the
    first NUL. *)
Theorem long_name_group_assembles (grub_utf16_to_utf8 : list Z -> bytes)
    (st : lfn_state) (first : bytes) (rest : list bytes) (sum : Z) :
  let n := S (length rest) in
  (n <= 63)%nat ->
  Z.land (ln_id first) 0x40 <> 0 ->
  Z.land (ln_id first) 0x3f = Z.of_nat n ->
  ln_checksum first = sum ->
  slot_run (length rest) sum rest ->
  (13 * n <= length (unibuf st))%nat ->
  let st' := fold_left long_name_entry (first :: rest) st in
  slot st' = 0 /\ slots st' = Z.of_nat n /\ checksum st' = sum
  /\ firstn (13 * n) (unibuf st') = flat_map ln_units (rev (first :: rest))
  /\ long_filename grub_utf16_to_utf8 st'
     = cstr (grub_utf16_to_utf8 (flat_map ln_units (rev (first :: rest)))).
Proof.
  intros n Hn Hflag Hid Hsum Hrun Hlen st'. subst sum.
  destruct (long_name_group_fold st first rest Hn Hflag Hid Hrun Hlen)
    as (H1 & H2 & H3 & H4).
  fold st' in H1, H2, H3, H4.
  do 4 (split; [assumption|]).
  apply long_name_group_filename; assumption.
Qed.

(** Property X17 at the two slots of "A Long File Name.txt". *)
Lemma long_name_group_assembles_witness :
  long_filename ascii_utf16_to_utf8
    (fold_left long_name_entry
       [lfn_slot 0x42 long_sum (bytes_of_string "ame.txt" ++ [0]);
        lfn_slot 0x01 long_sum (bytes_of_string "A Long File N")] lfn_initial)
  = bytes_of_string "A Long File Name.txt".
Proof.
  destruct (long_name_group_assembles ascii_utf16_to_utf8 lfn_initial
              (lfn_slot 0x42 long_sum (bytes_of_string "ame.txt" ++ [0]))
              [lfn_slot 0x01 long_sum (bytes_of_string "A Long File N")] long_sum)
    as (_ & _ & _ & _ & H).
  - cbn [length]. lia.
  - vm_compute. discriminate.
  - vm_compute. reflexivity.
  - vm_compute. reflexivity.
  - vm_compute. repeat split.
  - vm_compute. lia.
  - rewrite H. vm_compute. reflexivity.
Defined.

(** Property X18.  The long-name assembler stays within [unibuf]: from the
    initial state on, the buffer has [0x40 * 13] code units and the
    expected slot is between -1 and 63; and whenever a slot changes the
    buffer, its 13 code units are stored at [slot * 13] with
    [0 <= slot * 13] and [slot * 13 + 13 <= 0x40 * 13]. *)
Theorem long_name_assembler_stays_in_buffer (st : lfn_state) (dir : bytes) :
  0 <= ln_id dir ->
  lfn_in_buffer st ->
  lfn_in_buffer lfn_initial
  /\ lfn_in_buffer (long_name_entry st dir)
  /\ (unibuf (long_name_entry st dir) <> unibuf st ->
      let pos := slot (long_name_entry st dir) * 13 in
      0 <= pos /\ pos + 13 <= 0x40 * 13
      /\ unibuf (long_name_entry st dir) = store_units (unibuf st) pos (ln_units dir)).
Proof.
  intros Hid [Hlen Hslot].
  split; [split; [reflexivity | cbn; lia]|].
  unfold long_name_entry, lfn_in_buffer.
  pose proof (land_63_range (ln_id dir)) as H63.
  destruct (negb (Z.land (ln_id dir) 64 =? 0)) eqn:Efirst; cbv iota;
    cbn [slot slots checksum unibuf].
  - rewrite !Z.eqb_refl. cbn [negb orb].
    destruct (Z.eqb_spec (Z.land (ln_id dir) 63) 0) as [E0|E0]; cbn [orb].
    + split.
      * split; [exact Hlen|]. cbn [slot]. lia.
      * cbn [unibuf]. intros H. contradiction.
    + cbn [unibuf slot].
      assert (Hp : (Z.to_nat ((Z.land (ln_id dir) 63 - 1) * 13) + length (ln_units dir)
                    <= length (unibuf st))%nat)
        by (rewrite Hlen, ln_units_length; lia).
      split.
      * split; [|lia]. rewrite store_units_length; [exact Hlen | lia | exact Hp].
      * intros _. cbv zeta. repeat split; try lia.
  - destruct (negb (ln_id dir =? slot st) || (slot st =? 0)
              || negb (checksum st =? ln_checksum dir)) eqn:E.
    + split.
      * split; [exact Hlen|]. cbn [slot]. lia.
      * cbn [unibuf]. intros H. contradiction.
    + apply orb_false_iff in E. destruct E as [E _].
      apply orb_false_iff in E. destruct E as [E1 E2].
      apply negb_false_iff in E1.
      assert (Hs : 1 <= slot st <= 63) by lia.
      cbn [unibuf slot].
      assert (Hp : (Z.to_nat ((slot st - 1) * 13) + length (ln_units dir)
                    <= length (unibuf st))%nat)
        by (rewrite Hlen, ln_units_length; lia).
      split.
      * split; [|lia]. rewrite store_units_length; [exact Hlen | lia | exact Hp].
      * intros _. cbv zeta. repeat split; try lia.
Qed.

(** Property X18 at the first slot of a group of two. *)
Lemma long_name_assembler_stays_in_buffer_witness :
  lfn_in_buffer (long_name_entry lfn_initial (lfn_slot 0x42 long_sum [65])).
Proof.
  apply (long_name_assembler_stays_in_buffer lfn_initial (lfn_slot 0x42 long_sum [65])).
  - vm_compute. discriminate.
  - split; [reflexivity | cbn; lia].
Defined.

(** ** Records the scanner passes over or names *)

Lemma cstr_length bs : (length (cstr bs) <= length bs)%nat /\ ~ In 0 (cstr bs).
Proof.
  induction bs as [|b bs [IH1 IH2]]; cbn [cstr]; [split; [lia | intros []]|].
  destruct (Z.eqb_spec b 0) as [E|E]; [split; [cbn [length]; lia | intros []]|].
  split; [cbn [length]; lia|]. intros [H | H]; [lia | contradiction].
Qed.

Lemma name_chars_length isspace tolower bs :
  (length (name_chars isspace tolower bs) <= length bs)%nat.
Proof.
  induction bs as [|b bs IH]; cbn [name_chars]; [lia|].
  destruct ((b =? 0) || isspace b); cbn [length]; lia.
Qed.

(** Property X21.  The 8.3 name the scanner forms has at most 12 bytes
    (8, a dot, 3) and holds no NUL, whatever the name bytes of the record
    and whatever [grub_isspace] and [grub_tolower] do. *)
Theorem short_name_fits_twelve_bytes
    (grub_isspace : Z -> bool) (grub_tolower : Z -> Z) (name : bytes) :
  (length (convert_8dot3 grub_isspace grub_tolower name) <= 12)%nat
  /\ ~ In 0 (convert_8dot3 grub_isspace grub_tolower name).
Proof.
  unfold convert_8dot3.
  set (buf := name_chars grub_isspace grub_tolower (firstn 8 name) ++ [46]
              ++ name_chars grub_isspace grub_tolower (firstn 3 (skipn 8 name))).
  assert (Hbuf : (length buf <= 12)%nat).
  { unfold buf. rewrite !length_app. cbn [length].
    pose proof (name_chars_length grub_isspace grub_tolower (firstn 8 name)).
    pose proof (name_chars_length grub_isspace grub_tolower (firstn 3 (skipn 8 name))).
    pose proof (firstn_le_length 8 name).
    pose proof (firstn_le_length 3 (skipn 8 name)). lia. }
  assert (Hrm : (length (removelast buf) <= length buf)%nat).
  { clear. induction buf as [|x l IH]; [cbn; lia|].
    cbn [removelast]. destruct l; [cbn; lia|]. cbn [length] in *. lia. }
  destruct (last buf 0 =? 46);
    match goal with |- context [cstr ?l] => destruct (cstr_length l) as [H1 H2] end;
    split; (lia || assumption).
Qed.

Lemma valid_bits_of_byte a :
  0 <= a < 256 ->
  (Z.land a (Z.lnot GRUB_FAT_ATTR_VALID) = 0
   <-> Z.testbit a 3 = false /\ Z.testbit a 6 = false /\ Z.testbit a 7 = false).
Proof.
  intros Ha. change GRUB_FAT_ATTR_VALID with 55. split.
  - intros H.
    assert (Hb : forall n, 0 <= n -> Z.testbit a n && negb (Z.testbit 55 n) = false).
    { intros n Hn. rewrite <- Z.lnot_spec, <- Z.land_spec, H by assumption.
      apply Z.bits_0. }
    pose proof (Hb 3 ltac:(lia)) as H3. pose proof (Hb 6 ltac:(lia)) as H6.
    pose proof (Hb 7 ltac:(lia)) as H7.
    change (Z.testbit 55 3) with false in H3. change (Z.testbit 55 6) with false in H6.
    change (Z.testbit 55 7) with false in H7.
    rewrite andb_true_r in H3, H6, H7. auto.
  - intros (H3 & H6 & H7). apply Z.bits_inj'. intros n Hn.
    rewrite Z.land_spec, Z.lnot_spec, Z.bits_0 by assumption.
    destruct (Z_lt_le_dec n 8) as [Hlt | Hge].
    + assert (n = 0 \/ n = 1 \/ n = 2 \/ n = 3 \/ n = 4 \/ n = 5 \/ n = 6 \/ n = 7)
        as [-> | [-> | [-> | [-> | [-> | [-> | [-> | ->]]]]]]] by lia;
        rewrite ?H3, ?H6, ?H7; try reflexivity; apply andb_false_r.
    + rewrite <- (Z.mod_small a (2 ^ 8)) by (change (2 ^ 8) with 256; lia).
      rewrite Z.mod_pow2_bits_high by lia. reflexivity.
Qed.

(** Property X20.  The validity check of the scanner: a record that is not
    a long-name slot and has attribute bit 3 (volume label), 6 or 7 set is
    skipped; such a record is accepted exactly when its first byte is not
    0xE5 and these three bits are clear; every record that is not accepted
    is skipped, with no hook call and no change of state. *)
Theorem scanner_skips_labels_and_reserved_bits
    (grub_isspace : Z -> bool) (grub_tolower : Z -> Z)
    (grub_utf16_to_utf8 : list Z -> bytes)
    (dirname : bytes) (call_hook : bool) (hook : bytes -> Z -> bool)
    (st : lfn_state) (dir : bytes) :
  0 <= dir_attr dir < 256 ->
  dir_attr dir <> GRUB_FAT_ATTR_LONG_NAME ->
  (Z.testbit (dir_attr dir) 3 = true \/ Z.testbit (dir_attr dir) 6 = true
   \/ Z.testbit (dir_attr dir) 7 = true ->
   skipped (scan_entry grub_isspace grub_tolower grub_utf16_to_utf8
              dirname call_hook hook st dir) st dir)
  /\ (accepted_entry dir
      <-> byte_at dir 0 <> 0xe5 /\ Z.testbit (dir_attr dir) 3 = false
          /\ Z.testbit (dir_attr dir) 6 = false /\ Z.testbit (dir_attr dir) 7 = false)
  /\ (~ accepted_entry dir ->
      skipped (scan_entry grub_isspace grub_tolower grub_utf16_to_utf8
                 dirname call_hook hook st dir) st dir).
Proof.
  intros Ha Hln. pose proof (valid_bits_of_byte _ Ha) as Hbits.
  assert (Hskip : ~ accepted_entry dir ->
            skipped (scan_entry grub_isspace grub_tolower grub_utf16_to_utf8
                       dirname call_hook hook st dir) st dir).
  { intros Hn. unfold skipped, scan_entry.
    destruct (Z.eqb_spec (dir_attr dir) GRUB_FAT_ATTR_LONG_NAME) as [E|_]; [contradiction|].
    destruct (Z.eqb_spec (byte_at dir 0) 229) as [E0|E0]; [reflexivity|].
    destruct (Z.eqb_spec (Z.land (dir_attr dir) (Z.lnot GRUB_FAT_ATTR_VALID)) 0) as [Ev|Ev];
      [|reflexivity].
    exfalso. apply Hn. repeat split; assumption. }
  split; [|split; [|exact Hskip]].
  - intros Hset. apply Hskip. intros (_ & _ & Hv). apply Hbits in Hv.
    destruct Hv as (H3 & H6 & H7). destruct Hset as [H | [H | H]]; congruence.
  - unfold accepted_entry. rewrite Hbits. tauto.
Qed.

(** Property X20 at a volume-label record. *)
Lemma scanner_skips_labels_and_reserved_bits_witness :
  skipped (scan_entry ascii_isspace ascii_tolower ascii_utf16_to_utf8
             [] true no_hook lfn_initial (dirent (bytes_of_string "MY VOLUME  ") 0x08 0 0))
    lfn_initial (dirent (bytes_of_string "MY VOLUME  ") 0x08 0 0).
Proof.
  destruct (scanner_skips_labels_and_reserved_bits ascii_isspace ascii_tolower
              ascii_utf16_to_utf8 [] true no_hook lfn_initial
              (dirent (bytes_of_string "MY VOLUME  ") 0x08 0 0)) as (H & _).
  - vm_compute. split; [discriminate | reflexivity].
  - vm_compute. discriminate.
  - apply H. left. vm_compute. reflexivity.
Defined.

(** Property X19.  An accepted record that does not end the scan leaves
    the slot counters and the buffer of the assembler as they were, and
    [dir] is the record with the 0x05 rewrite applied.  It resets the
    remembered checksum exactly when a group was complete (a checksum
    remembered and the expected slot 0): the name of a complete group is
    not attached a second time, and no complete group is pending after
    the record.  A group that is not complete is left as it is: a record
    that stands between the slots of a group does not end the group, and
    the slots after it can complete it for a later record. *)
Theorem accepted_record_resets_complete_group
    (grub_isspace : Z -> bool) (grub_tolower : Z -> Z)
    (grub_utf16_to_utf8 : list Z -> bytes)
    (dirname : bytes) (call_hook : bool) (hook : bytes -> Z -> bool)
    (st st' : lfn_state) (dir dir' : bytes) (calls : list hook_call) :
  accepted_entry dir ->
  scan_entry grub_isspace grub_tolower grub_utf16_to_utf8
    dirname call_hook hook st dir = ScanContinue st' dir' calls ->
  st' = mk_lfn (slot st) (slots st)
          (if negb (checksum st =? -1) && (slot st =? 0) then -1 else checksum st)
          (unibuf st)
  /\ dir' = name0_workaround dir
  /\ (forall name, ~ lfn_complete st' name)
  /\ (slot st <> 0 -> st' = st).
Proof.
  intros (Ha & H0 & Hv) H. unfold scan_entry in H.
  destruct (Z.eqb_spec (dir_attr dir) GRUB_FAT_ATTR_LONG_NAME) as [E|_]; [contradiction|].
  destruct (Z.eqb_spec (byte_at dir 0) 229) as [E0|_]; [contradiction|].
  rewrite Hv in H. cbn [Z.eqb negb orb] in H.
  assert (Hshort : forall s,
            match offer dirname call_hook hook
                    (convert_8dot3 grub_isspace grub_tolower
                       (dir_name (name0_workaround dir))) (name0_workaround dir) with
            | Some (true, calls) => ScanBreak (name0_workaround dir) calls
            | Some (false, calls) => ScanContinue s (name0_workaround dir) calls
            | None => ScanContinue s (name0_workaround dir) []
            end = ScanContinue st' dir' calls ->
            st' = s /\ dir' = name0_workaround dir).
  { intros s.
    destruct (offer dirname call_hook hook
                (convert_8dot3 grub_isspace grub_tolower
                   (dir_name (name0_workaround dir))) (name0_workaround dir))
      as [[[|] c]|]; intros Hs;
      [discriminate Hs | injection Hs as <- <- _ | injection Hs as <- <- _]; auto. }
  destruct (negb (checksum st =? -1) && (slot st =? 0)) eqn:Ec.
  - assert (Hst : st' = mk_lfn (slot st) (slots st) (-1) (unibuf st)
                  /\ dir' = name0_workaround dir).
    { destruct (sum8dot3 _ =? checksum st).
      - revert H.
        destruct (offer dirname call_hook hook (long_filename _ _) _) as [[[|] c]|];
          intros H.
        + discriminate H.
        + injection H as <- <- _. auto.
        + apply Hshort. exact H.
      - apply Hshort. exact H. }
    destruct Hst as [-> ->].
    split; [reflexivity|]. split; [reflexivity|]. split.
    + intros name [_ Hc]. cbn [checksum] in Hc. pose proof (sum8dot3_range name). lia.
    + intros Hs. apply andb_true_iff in Ec. lia.
  - apply Hshort in H. destruct H as [-> ->].
    split; [destruct st; reflexivity|]. split; [reflexivity|]. split; [|reflexivity].
    intros name [Hs Hc].
    apply andb_false_iff in Ec. destruct Ec as [Ec | Ec].
    + apply negb_false_iff in Ec. pose proof (sum8dot3_range name). lia.
    + lia.
Qed.

(** Property X19 at HELLO.TXT after a complete group, which is reset;
    and at A.TXT after the first of the two slots of
    "A Long File Name.txt", which stays pending: the second slot and the
    record ALONGF~1.TXT after it get the long name. *)
Lemma accepted_record_resets_complete_group_witness :
  (exists st' dir' calls,
     scan_entry ascii_isspace ascii_tolower ascii_utf16_to_utf8
       [] true no_hook hello_lfn hello_entry = ScanContinue st' dir' calls
     /\ checksum hello_lfn = hello_sum /\ checksum st' = -1
     /\ slot st' = slot hello_lfn /\ unibuf st' = unibuf hello_lfn)
  /\ (exists dir' calls,
        scan_entry ascii_isspace ascii_tolower ascii_utf16_to_utf8
          [] true no_hook long_pending (dirent (bytes_of_string "A       TXT") 0x20 2 6)
        = ScanContinue long_pending dir' calls
        /\ slot long_pending = 1 /\ checksum long_pending = long_sum
        /\ step_calls
             (scan_entry ascii_isspace ascii_tolower ascii_utf16_to_utf8
                [] true no_hook
                (long_name_entry long_pending
                   (lfn_slot 0x01 long_sum (bytes_of_string "A Long File N")))
                (dirent long_short 0x20 3 6))
           = [(bytes_of_string "A Long File Name.txt", 0)]).
Proof.
  split.
  - destruct (scan_entry ascii_isspace ascii_tolower ascii_utf16_to_utf8
                [] true no_hook hello_lfn hello_entry)
      as [st' dir' calls | dir' calls] eqn:E; [|vm_compute in E; discriminate].
    exists st', dir', calls. split; [reflexivity|].
    assert (Hacc : accepted_entry hello_entry)
      by (vm_compute; repeat split; discriminate).
    destruct (accepted_record_resets_complete_group _ _ _ _ _ _ _ _ _ _ _ Hacc E)
      as (-> & _).
    vm_compute. repeat split.
  - destruct (scan_entry ascii_isspace ascii_tolower ascii_utf16_to_utf8
                [] true no_hook long_pending (dirent (bytes_of_string "A       TXT") 0x20 2 6))
      as [st' dir' calls | dir' calls] eqn:E; [|vm_compute in E; discriminate].
    exists dir', calls.
    assert (Hacc : accepted_entry (dirent (bytes_of_string "A       TXT") 0x20 2 6))
      by (vm_compute; repeat split; discriminate).
    destruct (accepted_record_resets_complete_group _ _ _ _ _ _ _ _ _ _ _ Hacc E)
      as (_ & _ & _ & Hsame).
    rewrite Hsame by (vm_compute; discriminate).
    split; [reflexivity|]. vm_compute. repeat split.
Defined.

(** ** Directories as lists of records *)

Lemma name0_workaround_length dir : length (name0_workaround dir) = length dir.
Proof.
  unfold name0_workaround, set_name0, byte_at.
  destruct dir as [|b dir]; [reflexivity|]. cbn [Z.to_nat nth].
  destruct (b =? 5); reflexivity.
Qed.

Lemma overwrite_full dir bs : (length dir <= length bs)%nat -> overwrite dir bs = bs.
Proof.
  intros H. unfold overwrite. rewrite skipn_all2 by assumption. apply app_nil_r.
Qed.

Lemma read_full_length disk d off r :
  0 <= logical_cluster_bits d ->
  grub_fat_read_data disk d off GRUB_FAT_DIR_ENTRY_SIZE = Some r ->
  rd_ret r = Ok GRUB_FAT_DIR_ENTRY_SIZE -> length (rd_buf r) = 32%nat.
Proof.
  intros HB Hr Hret. unfold GRUB_FAT_DIR_ENTRY_SIZE in *.
  destruct (Z.eq_dec (file_cluster d) ALL_ONES) as [Hroot | Hch].
  - unfold grub_fat_read_data in Hr. rewrite Hroot, Z.eqb_refl in Hr. cbv zeta in Hr.
    match type of Hr with
    | context [grub_disk_read disk ?s ?o ?z] =>
        remember z as size eqn:Esz;
        destruct (grub_disk_read disk s o size) as [bs|] eqn:E
    end; injection Hr as <-; [|discriminate Hret].
    injection Hret as ->. apply grub_disk_read_length in E; [|lia].
    change (length bs = 32%nat). lia.
  - destruct (read_chain_buffer disk d off 32 r 32 Hch HB ltac:(lia) Hr Hret) as [H _].
    lia.
Qed.

Section RecordLoop.

Variable grub_isspace : Z -> bool.
Variable grub_tolower : Z -> Z.
Variable grub_utf16_to_utf8 : list Z -> bytes.
Variable disk : grub_disk.

Lemma scan_entry_dir dirname call_hook hook st dir :
  match scan_entry grub_isspace grub_tolower grub_utf16_to_utf8
          dirname call_hook hook st dir with
  | ScanContinue _ dir' _ | ScanBreak dir' _ => length dir' = length dir
  end.
Proof.
  unfold scan_entry.
  destruct (dir_attr dir =? GRUB_FAT_ATTR_LONG_NAME); [reflexivity|].
  destruct ((byte_at dir 0 =? 229) || _); [reflexivity|].
  pose proof (name0_workaround_length dir) as Hl.
  repeat match goal with
  | |- context [if ?c then _ else _] => destruct c
  | |- context [match offer ?a ?b ?c ?d ?e with _ => _ end] =>
      destruct (offer a b c d e) as [[[|] ?]|]
  end; exact Hl.
Qed.

Lemma find_dir_loop_records dirname call_hook hook d0 :
  cursor_ok disk d0 -> 0 <= logical_cluster_bits d0 ->
  forall (recs : list bytes) (i : nat) stt st dir calls fuel,
  cursor_ok disk stt -> same_file d0 stt ->
  32 * Z.of_nat (i + length recs) + 32 < 2 ^ 31 ->
  (forall j, (j < length recs)%nat ->
     exists r, dir_record disk d0 (Z.of_nat (i + j)) = Some r
       /\ rd_ret r = Ok GRUB_FAT_DIR_ENTRY_SIZE
       /\ rd_buf r = nth j recs []
       /\ byte_at (nth j recs []) 0 <> 0) ->
  length dir = 32%nat ->
  match scan_records grub_isspace grub_tolower grub_utf16_to_utf8
          dirname call_hook hook st dir recs calls with
  | ScanBreak dir' calls' =>
      exists d', same_file d0 d'
        /\ find_dir_loop grub_isspace grub_tolower grub_utf16_to_utf8 disk
             dirname call_hook hook (length recs + fuel) stt st dir
             (32 * Z.of_nat i - 32) calls
           = Some (d', dir', None, calls')
  | ScanContinue st' dir' calls' =>
      exists stt', cursor_ok disk stt' /\ same_file d0 stt'
        /\ length dir' = 32%nat
        /\ find_dir_loop grub_isspace grub_tolower grub_utf16_to_utf8 disk
             dirname call_hook hook (length recs + fuel) stt st dir
             (32 * Z.of_nat i - 32) calls
           = find_dir_loop grub_isspace grub_tolower grub_utf16_to_utf8 disk
               dirname call_hook hook fuel stt' st' dir'
               (32 * Z.of_nat (i + length recs) - 32) calls'
  end.
Proof.
  intros Hok0 HB. induction recs as [|rec rest IH];
    intros i stt st dir calls fuel Hok Hs Hb Hrecs Hdir.
  - cbn [scan_records length]. exists stt. rewrite Nat.add_0_r.
    repeat split; assumption.
  - cbn [scan_records length Nat.add] in *.
    destruct (label_read disk d0 stt i Hok0 HB Hok Hs) as (r & Hr & Hout & Hok' & Hs').
    { unfold GRUB_FAT_DIR_ENTRY_SIZE. lia. }
    destruct (Hrecs 0%nat ltac:(lia)) as (r0 & Hr0 & Hret0 & Hbuf0 & Hnz).
    rewrite Nat.add_0_r in Hr0. cbn [nth] in Hbuf0, Hnz.
    unfold root_record in Hout. unfold dir_record in Hr0. rewrite Hr0 in Hout.
    cbn [read_out] in Hout. injection Hout as Hret Hbuf.
    pose proof (read_full_length disk d0 _ r0 HB Hr0 Hret0) as Hlen.
    rewrite Hbuf0 in Hlen.
    assert (Hstep : forall fuel',
      find_dir_loop grub_isspace grub_tolower grub_utf16_to_utf8 disk
        dirname call_hook hook (S fuel') stt st dir (32 * Z.of_nat i - 32) calls
      = match scan_entry grub_isspace grub_tolower grub_utf16_to_utf8
                dirname call_hook hook st rec with
        | ScanContinue st' dir' c =>
            find_dir_loop grub_isspace grub_tolower grub_utf16_to_utf8 disk
              dirname call_hook hook fuel' (rd_data r) st' dir'
              (32 * Z.of_nat (S i) - 32) (calls ++ c)
        | ScanBreak dir' c => Some (rd_data r, dir', None, calls ++ c)
        end).
    { intros fuel'. cbn [find_dir_loop].
      replace (32 * Z.of_nat i - 32 + GRUB_FAT_DIR_ENTRY_SIZE)
        with (GRUB_FAT_DIR_ENTRY_SIZE * Z.of_nat i)
        by (unfold GRUB_FAT_DIR_ENTRY_SIZE; lia).
      rewrite Hr, <- Hret, Hret0, <- Hbuf, Hbuf0.
      rewrite overwrite_full by lia. rewrite Z.eqb_refl. cbn [negb orb].
      destruct (Z.eqb_spec (byte_at rec 0) 0) as [E|_]; [contradiction|].
      replace (32 * Z.of_nat (S i) - 32) with (GRUB_FAT_DIR_ENTRY_SIZE * Z.of_nat i)
        by (unfold GRUB_FAT_DIR_ENTRY_SIZE; lia).
      reflexivity. }
    rewrite Hstep. clear Hstep.
    pose proof (scan_entry_dir dirname call_hook hook st rec) as Hd.
    destruct (scan_entry grub_isspace grub_tolower grub_utf16_to_utf8
                dirname call_hook hook st rec) as [st' dir' c | dir' c].
    + specialize (IH (S i) (rd_data r) st' dir' (calls ++ c) fuel Hok' Hs').
      replace (S i + length rest)%nat with (i + S (length rest))%nat in IH by lia.
      apply IH; [exact Hb | | lia].
      intros j Hj. destruct (Hrecs (S j) ltac:(lia)) as (rj & H1 & H2 & H3 & H4).
      exists rj. replace (S i + j)%nat with (i + S j)%nat by lia.
      repeat split; assumption.
    + exists (rd_data r). split; [exact Hs' | reflexivity].
Qed.

End RecordLoop.

Section FindDirRecords.

Variable grub_isspace : Z -> bool.
Variable grub_tolower : Z -> Z.
Variable grub_utf16_to_utf8 : list Z -> bytes.
Variable disk : grub_disk.

(** The scan of a directory that starts with the records [recs], from the
    first record on. *)
Lemma find_dir_loop_from_start dirname call_hook hook data (recs : list bytes) fuel :
  cursor_ok disk data -> 0 <= logical_cluster_bits data ->
  (length recs < fuel)%nat ->
  32 * Z.of_nat (length recs) + 32 < 2 ^ 31 ->
  holds_records disk data recs ->
  match scan_records grub_isspace grub_tolower grub_utf16_to_utf8
          dirname call_hook hook lfn_initial dir_initial recs [] with
  | ScanBreak dir' calls' =>
      exists d', same_file data d'
        /\ find_dir_loop grub_isspace grub_tolower grub_utf16_to_utf8 disk
             dirname call_hook hook fuel data lfn_initial dir_initial
             (- GRUB_FAT_DIR_ENTRY_SIZE) []
           = Some (d', dir', None, calls')
  | ScanContinue st' dir' calls' =>
      forall rk, dir_record disk data (Z.of_nat (length recs)) = Some rk ->
        ends_directory rk ->
        exists d', same_file data d'
          /\ find_dir_loop grub_isspace grub_tolower grub_utf16_to_utf8 disk
               dirname call_hook hook fuel data lfn_initial dir_initial
               (- GRUB_FAT_DIR_ENTRY_SIZE) []
             = Some (d', overwrite dir' (rd_buf rk),
                     match rd_ret rk with
                     | Err e => Some e
                     | Ok _ => if call_hook then None else Some file_not_found
                     end, calls')
  end.
Proof.
  intros Hok HB Hfuel Hb Hrecs.
  assert (Hf : exists f', fuel = (length recs + S f')%nat)
    by (exists (fuel - S (length recs))%nat; lia).
  destruct Hf as [f' ->].
  pose proof (find_dir_loop_records grub_isspace grub_tolower grub_utf16_to_utf8 disk
                dirname call_hook hook data Hok HB recs 0 data lfn_initial dir_initial []
                (S f') Hok (same_file_refl data) Hb Hrecs eq_refl) as H.
  change (32 * Z.of_nat 0 - 32) with (- GRUB_FAT_DIR_ENTRY_SIZE) in H.
  change (0 + length recs)%nat with (length recs) in H.
  destruct (scan_records grub_isspace grub_tolower grub_utf16_to_utf8
              dirname call_hook hook lfn_initial dir_initial recs []) as [st' dir' c | dir' c].
  - intros rk Hrk Hend.
    destruct H as (stt' & Hok' & Hs' & Hlen & Heq).
    destruct (label_read disk data stt' (length recs) Hok HB Hok' Hs')
      as (r & Hr & Hout & _ & Hs'').
    { unfold GRUB_FAT_DIR_ENTRY_SIZE. lia. }
    unfold root_record in Hout. unfold dir_record in Hrk. rewrite Hrk in Hout.
    cbn [read_out] in Hout. injection Hout as Hret Hbuf.
    exists (rd_data r). split; [exact Hs''|].
    rewrite Heq. cbn [find_dir_loop].
    replace (32 * Z.of_nat (length recs) - 32 + GRUB_FAT_DIR_ENTRY_SIZE)
      with (GRUB_FAT_DIR_ENTRY_SIZE * Z.of_nat (length recs))
      by (unfold GRUB_FAT_DIR_ENTRY_SIZE; lia).
    rewrite Hr, <- Hret, <- Hbuf.
    assert (Hstop : negb match rd_ret rk with
                         | Ok n => n =? GRUB_FAT_DIR_ENTRY_SIZE
                         | Err _ => false
                         end
                    || (byte_at (overwrite dir' (rd_buf rk)) 0 =? 0) = true).
    { destruct (rd_ret rk) as [n|e] eqn:En; [|reflexivity].
      destruct (Z.eqb_spec n GRUB_FAT_DIR_ENTRY_SIZE) as [-> | Hne]; [|reflexivity].
      cbn [negb orb].
      pose proof (read_full_length disk data _ rk HB Hrk En) as Hl.
      rewrite overwrite_full by lia.
      destruct Hend as [Hend | Hend]; [contradiction|]. rewrite Hend. reflexivity. }
    rewrite Hstop. reflexivity.
  - destruct H as (d' & Hs' & Hd'). exists d'. split; assumption.
Qed.

(** [grub_fat_find_dir] on a directory, by the result of its loop. *)
Lemma find_dir_of_loop fuel data path hook d' dir' errno calls' :
  Z.land (attr data) GRUB_FAT_ATTR_DIRECTORY <> 0 ->
  let dirp := fst (extract_dirname path) in
  let dirname := snd (extract_dirname path) in
  let call_hook := match dirp, hook with None, Some _ => true | _, _ => false end in
  let h := match hook with Some h => h | None => no_hook end in
  find_dir_loop grub_isspace grub_tolower grub_utf16_to_utf8 disk
    dirname call_hook h fuel data lfn_initial dir_initial
    (- GRUB_FAT_DIR_ENTRY_SIZE) [] = Some (d', dir', errno, calls') ->
  exists r, grub_fat_find_dir grub_isspace grub_tolower grub_utf16_to_utf8 disk
              fuel data path hook = Some r
    /\ fr_errno r = errno /\ fr_next r = dirp /\ fr_calls r = calls'
    /\ attr (fr_data r) = dir_attr dir'
    /\ file_size (fr_data r) = s32 (dir_file_size dir')
    /\ file_cluster (fr_data r)
       = u32 (Z.lor (Z.shiftl (dir_first_cluster_high dir') 16)
                (dir_first_cluster_low dir'))
    /\ cur_cluster_num (fr_data r) = ALL_ONES
    /\ volume_of (fr_data r) = volume_of d'.
Proof.
  intros Hdir dirp dirname call_hook h Hl. unfold grub_fat_find_dir.
  destruct (Z.eqb_spec (Z.land (attr data) GRUB_FAT_ATTR_DIRECTORY) 0) as [E|_];
    [contradiction|].
  subst dirp dirname call_hook h.
  destruct (extract_dirname path) as [dp dn]. cbn [fst snd] in *.
  rewrite Hl. eexists. split; [reflexivity|]. repeat split.
Qed.

Lemma find_dir_of_loop_lookup fuel data path hook d' dir' errno calls' :
  Z.land (attr data) GRUB_FAT_ATTR_DIRECTORY <> 0 ->
  hook = None \/ fst (extract_dirname path) <> None ->
  find_dir_loop grub_isspace grub_tolower grub_utf16_to_utf8 disk
    (snd (extract_dirname path)) false
    (match hook with Some h => h | None => no_hook end)
    fuel data lfn_initial dir_initial
    (- GRUB_FAT_DIR_ENTRY_SIZE) [] = Some (d', dir', errno, calls') ->
  exists r, grub_fat_find_dir grub_isspace grub_tolower grub_utf16_to_utf8 disk
              fuel data path hook = Some r
    /\ fr_errno r = errno /\ fr_next r = fst (extract_dirname path)
    /\ fr_calls r = calls'
    /\ attr (fr_data r) = dir_attr dir'
    /\ file_size (fr_data r) = s32 (dir_file_size dir')
    /\ file_cluster (fr_data r)
       = u32 (Z.lor (Z.shiftl (dir_first_cluster_high dir') 16)
                (dir_first_cluster_low dir'))
    /\ cur_cluster_num (fr_data r) = ALL_ONES
    /\ volume_of (fr_data r) = volume_of d'.
Proof.
  intros Hdir Hmode Hl.
  apply (find_dir_of_loop fuel data path hook d' dir' errno calls' Hdir).
  destruct Hmode as [-> | Hn].
  - destruct (fst (extract_dirname path)); exact Hl.
  - destruct (fst (extract_dirname path)); [exact Hl | contradiction].
Qed.

End FindDirRecords.

(** Property X22.  On a directory whose first records are [recs] (each
    read in full, none starting with 0) [grub_fat_find_dir] is the loop
    body folded over the records.  If the fold leaves the loop at a
    record, the call returns [dirp] without an error, with the hook calls
    of the fold, and the handle takes attribute byte, size and first
    cluster from that record, gets an invalid cursor and stays on its
    volume.  If the fold passes all records and the next read ends the
    directory, the hook calls are those of the fold, and the error is that
    of the read, or "file not found" for a look-up, or none for a
    listing. *)
Theorem find_dir_scans_records
    (grub_isspace : Z -> bool) (grub_tolower : Z -> Z)
    (grub_utf16_to_utf8 : list Z -> bytes) (disk : grub_disk)
    (fuel : nat) (data : grub_fat_data) (path : bytes)
    (hook : option (bytes -> Z -> bool)) (recs : list bytes) :
  cursor_ok disk data -> 0 <= logical_cluster_bits data ->
  Z.land (attr data) GRUB_FAT_ATTR_DIRECTORY <> 0 ->
  (length recs < fuel)%nat ->
  32 * Z.of_nat (length recs) + 32 < 2 ^ 31 ->
  holds_records disk data recs ->
  let dirp := fst (extract_dirname path) in
  let dirname := snd (extract_dirname path) in
  let call_hook := match dirp, hook with None, Some _ => true | _, _ => false end in
  let h := match hook with Some h => h | None => no_hook end in
  match scan_records grub_isspace grub_tolower grub_utf16_to_utf8
          dirname call_hook h lfn_initial dir_initial recs [] with
  | ScanBreak dir calls =>
      exists r, grub_fat_find_dir grub_isspace grub_tolower grub_utf16_to_utf8 disk
                  fuel data path hook = Some r
        /\ fr_errno r = None /\ fr_next r = dirp /\ fr_calls r = calls
        /\ attr (fr_data r) = dir_attr dir
        /\ file_size (fr_data r) = s32 (dir_file_size dir)
        /\ file_cluster (fr_data r)
           = u32 (Z.lor (Z.shiftl (dir_first_cluster_high dir) 16)
                    (dir_first_cluster_low dir))
        /\ cur_cluster_num (fr_data r) = ALL_ONES
        /\ same_volume data (fr_data r)
  | ScanContinue st dir calls =>
      forall rk, dir_record disk data (Z.of_nat (length recs)) = Some rk ->
        ends_directory rk ->
        exists r, grub_fat_find_dir grub_isspace grub_tolower grub_utf16_to_utf8 disk
                    fuel data path hook = Some r
          /\ fr_next r = dirp /\ fr_calls r = calls
          /\ fr_errno r
             = match rd_ret rk with
               | Err e => Some e
               | Ok _ => if call_hook then None else Some file_not_found
               end
  end.
Proof.
  intros Hok HB Hdir Hfuel Hb Hrecs dirp dirname call_hook h.
  pose proof (find_dir_loop_from_start grub_isspace grub_tolower grub_utf16_to_utf8 disk
                dirname call_hook h data recs fuel Hok HB Hfuel Hb Hrecs) as H.
  pose proof (fun d' dir' errno calls' =>
                find_dir_of_loop grub_isspace grub_tolower grub_utf16_to_utf8 disk
                  fuel data path hook d' dir' errno calls' Hdir) as Hunfold.
  cbv zeta in Hunfold. fold dirp dirname call_hook h in Hunfold.
  destruct (scan_records grub_isspace grub_tolower grub_utf16_to_utf8
              dirname call_hook h lfn_initial dir_initial recs []) as [st' dir' c | dir' c].
  - intros rk Hrk Hend. destruct (H rk Hrk Hend) as (d' & Hs' & Hl).
    destruct (Hunfold _ _ _ _ Hl) as (r & Hr & He & Hn & Hc & _).
    exists r. repeat split; assumption.
  - destruct H as (d' & Hs' & Hl).
    destruct (Hunfold _ _ _ _ Hl) as (r & Hr & He & Hn & Hc & Ha & Hz & Hf & Hcur & Hv).
    exists r. do 8 (split; [assumption|]).
    unfold same_volume. rewrite Hv. apply same_file_volume. exact Hs'.
Qed.

(** Property X22 at /hello.txt in the root directory of [floppy]. *)
Lemma find_dir_scans_records_witness :
  exists r, grub_fat_find_dir ascii_isspace ascii_tolower ascii_utf16_to_utf8 floppy
              17 floppy_root (bytes_of_string "/hello.txt") None = Some r
    /\ fr_errno r = None /\ file_cluster (fr_data r) = 2.
Proof.
  assert (Hok : cursor_ok floppy floppy_root) by (left; reflexivity).
  assert (HB : 0 <= logical_cluster_bits floppy_root) by (vm_compute; discriminate).
  assert (Hdir : Z.land (attr floppy_root) GRUB_FAT_ATTR_DIRECTORY <> 0)
    by (vm_compute; discriminate).
  assert (Hrecs : holds_records floppy floppy_root [hello_entry]).
  { intros i Hi. cbn [length] in Hi. assert (i = 0%nat) as -> by lia.
    eexists. split; [vm_compute; reflexivity|].
    split; [reflexivity|]. split; [reflexivity|]. vm_compute. discriminate. }
  pose proof (find_dir_scans_records ascii_isspace ascii_tolower ascii_utf16_to_utf8
                floppy 17 floppy_root (bytes_of_string "/hello.txt") None [hello_entry]
                Hok HB Hdir ltac:(cbn [length]; lia) ltac:(cbn [length]; lia) Hrecs) as H.
  vm_compute in H. destruct H as (r & Hr & He & _ & _ & _ & _ & Hfc & _).
  exists r. split; [vm_compute; exact Hr|]. split; [exact He | exact Hfc].
Defined.

(** ** Directories without long names *)

Lemma byte_at_name0_workaround dir i :
  1 <= i -> byte_at (name0_workaround dir) i = byte_at dir i.
Proof.
  intros Hi. unfold name0_workaround, set_name0.
  destruct (byte_at dir 0 =? 5) eqn:E; [|reflexivity].
  destruct dir as [|b dir]; [discriminate E|].
  unfold byte_at. replace (Z.to_nat i) with (S (Z.to_nat (i - 1))) by lia. reflexivity.
Qed.

Lemma name0_workaround_fields dir :
  dir_attr (name0_workaround dir) = dir_attr dir
  /\ dir_file_size (name0_workaround dir) = dir_file_size dir
  /\ dir_first_cluster_high (name0_workaround dir) = dir_first_cluster_high dir
  /\ dir_first_cluster_low (name0_workaround dir) = dir_first_cluster_low dir.
Proof.
  unfold dir_attr, dir_file_size, dir_first_cluster_high, dir_first_cluster_low,
    le16, le32.
  rewrite !byte_at_name0_workaround by lia. repeat split.
Qed.

Section ShortNames.

Variable grub_isspace : Z -> bool.
Variable grub_tolower : Z -> Z.
Variable grub_utf16_to_utf8 : list Z -> bytes.

Lemma scan_records_app dirname call_hook hook (a b : list bytes) :
  forall st dir calls,
  scan_records grub_isspace grub_tolower grub_utf16_to_utf8
    dirname call_hook hook st dir (a ++ b) calls
  = match scan_records grub_isspace grub_tolower grub_utf16_to_utf8
            dirname call_hook hook st dir a calls with
    | ScanContinue st' dir' calls' =>
        scan_records grub_isspace grub_tolower grub_utf16_to_utf8
          dirname call_hook hook st' dir' b calls'
    | ScanBreak dir' calls' => ScanBreak dir' calls'
    end.
Proof.
  induction a as [|rec a IH]; intros st dir calls; [reflexivity|].
  cbn [app scan_records].
  destruct (scan_entry _ _ _ _ _ _ _ _) as [st' dir' c | dir' c]; [apply IH | reflexivity].
Qed.

(** A record that is not a long-name slot, met with no long name
    pending. *)
Lemma scan_entry_short dirname call_hook hook st rec :
  checksum st = -1 -> dir_attr rec <> GRUB_FAT_ATTR_LONG_NAME ->
  scan_entry grub_isspace grub_tolower grub_utf16_to_utf8
    dirname call_hook hook st rec
  = if listed rec then
      match offer dirname call_hook hook
              (fst (short_entry grub_isspace grub_tolower rec))
              (name0_workaround rec) with
      | Some (true, calls) => ScanBreak (name0_workaround rec) calls
      | Some (false, calls) => ScanContinue st (name0_workaround rec) calls
      | None => ScanContinue st (name0_workaround rec) []
      end
    else ScanContinue st rec [].
Proof.
  intros Hc Hln. unfold scan_entry, listed.
  destruct (Z.eqb_spec (dir_attr rec) GRUB_FAT_ATTR_LONG_NAME) as [E|_]; [contradiction|].
  destruct (byte_at rec 0 =? 229); [reflexivity|]. cbn [negb andb orb].
  destruct (Z.land (dir_attr rec) (Z.lnot GRUB_FAT_ATTR_VALID) =? 0); [|reflexivity].
  cbn [negb]. rewrite Hc. reflexivity.
Qed.

Lemma scan_records_listing hook (recs : list bytes) :
  (forall name flag, hook name flag = false) ->
  Forall (fun rec => dir_attr rec <> GRUB_FAT_ATTR_LONG_NAME) recs ->
  forall st dir calls, checksum st = -1 ->
  exists dir',
    scan_records grub_isspace grub_tolower grub_utf16_to_utf8
      [] true hook st dir recs calls
    = ScanContinue st dir'
        (calls ++ map (short_entry grub_isspace grub_tolower) (filter listed recs)).
Proof.
  intros Hhook Hrecs. induction Hrecs as [|rec recs Hln _ IH]; intros st dir calls Hc.
  - exists dir. cbn. rewrite app_nil_r. reflexivity.
  - cbn [scan_records filter]. rewrite scan_entry_short by assumption.
    destruct (listed rec).
    + unfold offer. cbn [bytes_eqb andb]. rewrite Hhook.
      destruct (IH st (name0_workaround rec)
                  (calls ++ [(fst (short_entry grub_isspace grub_tolower rec),
                              dir_flag (name0_workaround rec))]) Hc) as [dir' ->].
      exists dir'. cbn [map]. rewrite <- app_assoc. reflexivity.
    + destruct (IH st rec (calls ++ []) Hc) as [dir' ->].
      exists dir'. rewrite app_nil_r. reflexivity.
Qed.

Lemma scan_records_miss dirname hook (recs : list bytes) :
  Forall (fun rec => dir_attr rec <> GRUB_FAT_ATTR_LONG_NAME
                     /\ (listed rec = true ->
                         fst (short_entry grub_isspace grub_tolower rec) <> dirname))
    recs ->
  forall st dir calls, checksum st = -1 ->
  exists dir',
    scan_records grub_isspace grub_tolower grub_utf16_to_utf8
      dirname false hook st dir recs calls
    = ScanContinue st dir' calls.
Proof.
  intros Hrecs. induction Hrecs as [|rec recs [Hln Hmiss] _ IH]; intros st dir calls Hc.
  - exists dir. reflexivity.
  - cbn [scan_records]. rewrite scan_entry_short by assumption.
    destruct (listed rec).
    + rewrite offer_no_hook.
      destruct (bytes_eqb dirname (fst (short_entry grub_isspace grub_tolower rec))) eqn:E.
      * apply bytes_eqb_eq in E. exfalso. apply Hmiss; [reflexivity | symmetry; exact E].
      * rewrite app_nil_r. apply IH. exact Hc.
    + rewrite app_nil_r. apply IH. exact Hc.
Qed.

Lemma scan_entry_hit hook st rec :
  checksum st = -1 -> dir_attr rec <> GRUB_FAT_ATTR_LONG_NAME -> listed rec = true ->
  scan_entry grub_isspace grub_tolower grub_utf16_to_utf8
    (fst (short_entry grub_isspace grub_tolower rec)) false hook st rec
  = ScanBreak (name0_workaround rec) [].
Proof.
  intros Hc Hln Hl. rewrite scan_entry_short by assumption. rewrite Hl, offer_no_hook.
  assert (E : bytes_eqb (fst (short_entry grub_isspace grub_tolower rec))
                (fst (short_entry grub_isspace grub_tolower rec)) = true)
    by (apply bytes_eqb_eq; reflexivity).
  rewrite E. reflexivity.
Qed.

End ShortNames.

(** Property X23.  Listing a directory without long-name slots, with a
    hook that never stops the scan: the hook is called once for every
    record that is not deleted and has no attribute bit outside
    [GRUB_FAT_ATTR_VALID], in directory order, with the 8.3 name and the
    directory flag of the record; NULL is returned, and no error unless
    the read that ends the directory fails. *)
Theorem listing_offers_short_names_in_order
    (grub_isspace : Z -> bool) (grub_tolower : Z -> Z)
    (grub_utf16_to_utf8 : list Z -> bytes) (disk : grub_disk)
    (fuel : nat) (data : grub_fat_data) (path : bytes)
    (hook : bytes -> Z -> bool) (recs : list bytes) (rk : read_result) :
  cursor_ok disk data -> 0 <= logical_cluster_bits data ->
  Z.land (attr data) GRUB_FAT_ATTR_DIRECTORY <> 0 ->
  (length recs < fuel)%nat ->
  32 * Z.of_nat (length recs) + 32 < 2 ^ 31 ->
  extract_dirname path = (None, []) ->
  holds_records disk data recs ->
  Forall (fun rec => dir_attr rec <> GRUB_FAT_ATTR_LONG_NAME) recs ->
  (forall name flag, hook name flag = false) ->
  dir_record disk data (Z.of_nat (length recs)) = Some rk ->
  ends_directory rk ->
  exists r, grub_fat_find_dir grub_isspace grub_tolower grub_utf16_to_utf8 disk
              fuel data path (Some hook) = Some r
    /\ fr_calls r = map (short_entry grub_isspace grub_tolower) (filter listed recs)
    /\ fr_next r = None
    /\ fr_errno r = match rd_ret rk with Err e => Some e | Ok _ => None end.
Proof.
  intros Hok HB Hdir Hfuel Hb Hpath Hrecs Hln Hhook Hrk Hend.
  pose proof (find_dir_loop_from_start grub_isspace grub_tolower grub_utf16_to_utf8 disk
                [] true hook data recs fuel Hok HB Hfuel Hb Hrecs) as H.
  destruct (scan_records_listing grub_isspace grub_tolower grub_utf16_to_utf8
              hook recs Hhook Hln lfn_initial dir_initial [] eq_refl) as [dir' E].
  rewrite E in H. destruct (H rk Hrk Hend) as (d' & _ & Hl).
  pose proof (find_dir_of_loop grub_isspace grub_tolower grub_utf16_to_utf8 disk
                fuel data path (Some hook) d'
                (overwrite dir' (rd_buf rk))
                (match rd_ret rk with Err e => Some e | Ok _ => None end)
                ([] ++ map (short_entry grub_isspace grub_tolower) (filter listed recs))
                Hdir) as Hf.
  cbv zeta in Hf. rewrite Hpath in Hf. cbn [fst snd] in Hf.
  destruct (Hf Hl) as (r & Hr & He & Hn & Hc & _).
  exists r. repeat split; assumption.
Qed.

(** Property X23 at the root directory of [named]: the volume label is
    not listed. *)
Lemma listing_offers_short_names_in_order_witness :
  exists r, grub_fat_find_dir ascii_isspace ascii_tolower ascii_utf16_to_utf8 named
              17 named_root (bytes_of_string "/") (Some no_hook) = Some r
    /\ fr_calls r = [(bytes_of_string "hello.txt", 0)].
Proof.
  assert (Hrecs : holds_records named named_root
                    [dirent (bytes_of_string "HELLO   TXT") 0x20 2 6;
                     dirent (bytes_of_string "MY VOLUME  ") 0x08 0 0]).
  { intros i Hi. cbn [length] in Hi.
    assert (i = 0%nat \/ i = 1%nat) as [-> | ->] by lia;
      (eexists; split; [vm_compute; reflexivity|];
       split; [reflexivity|]; split; [reflexivity|]; vm_compute; discriminate). }
  destruct (grub_fat_read_data named named_root 64 32) as [rk|] eqn:Erk;
    [|vm_compute in Erk; discriminate].
  destruct (listing_offers_short_names_in_order
              ascii_isspace ascii_tolower ascii_utf16_to_utf8 named 17 named_root
              (bytes_of_string "/") no_hook
              [dirent (bytes_of_string "HELLO   TXT") 0x20 2 6;
               dirent (bytes_of_string "MY VOLUME  ") 0x08 0 0] rk)
    as (r & Hr & Hc & _).
  - left. reflexivity.
  - vm_compute. discriminate.
  - vm_compute. discriminate.
  - cbn [length]. lia.
  - cbn [length]. lia.
  - reflexivity.
  - exact Hrecs.
  - repeat constructor; vm_compute; discriminate.
  - reflexivity.
  - exact Erk.
  - right. vm_compute in Erk. injection Erk as <-. reflexivity.
  - exists r. split; [exact Hr|]. rewrite Hc. vm_compute. reflexivity.
Defined.

Section ShortNameLookup.

Variable grub_isspace : Z -> bool.
Variable grub_tolower : Z -> Z.
Variable grub_utf16_to_utf8 : list Z -> bytes.
Variable disk : grub_disk.

Lemma find_dir_hit fuel data path hook (recs : list bytes) m :
  cursor_ok disk data -> 0 <= logical_cluster_bits data ->
  Z.land (attr data) GRUB_FAT_ATTR_DIRECTORY <> 0 ->
  hook = None \/ fst (extract_dirname path) <> None ->
  passes grub_isspace grub_tolower (snd (extract_dirname path)) recs ->
  (S (length recs) < fuel)%nat ->
  32 * Z.of_nat (S (length recs)) + 32 < 2 ^ 31 ->
  holds_records disk data (recs ++ [m]) ->
  dir_attr m <> GRUB_FAT_ATTR_LONG_NAME -> listed m = true ->
  fst (short_entry grub_isspace grub_tolower m) = snd (extract_dirname path) ->
  exists r, grub_fat_find_dir grub_isspace grub_tolower grub_utf16_to_utf8 disk
              fuel data path hook = Some r
    /\ fr_errno r = None /\ fr_next r = fst (extract_dirname path)
    /\ fr_calls r = []
    /\ attr (fr_data r) = dir_attr m
    /\ file_size (fr_data r) = s32 (dir_file_size m)
    /\ file_cluster (fr_data r)
       = u32 (Z.lor (Z.shiftl (dir_first_cluster_high m) 16)
                (dir_first_cluster_low m))
    /\ cur_cluster_num (fr_data r) = ALL_ONES
    /\ same_volume data (fr_data r).
Proof.
  intros Hok HB Hdir Hmode Hmiss Hfuel Hb Hrecs Hln Hl Hname.
  set (dirname := snd (extract_dirname path)) in *.
  set (h := match hook with Some h => h | None => no_hook end).
  pose proof (find_dir_loop_from_start grub_isspace grub_tolower grub_utf16_to_utf8 disk
                dirname false h data (recs ++ [m]) fuel Hok HB) as H.
  rewrite length_app, Nat.add_1_r in H. specialize (H Hfuel Hb Hrecs).
  rewrite scan_records_app in H.
  destruct (scan_records_miss grub_isspace grub_tolower grub_utf16_to_utf8
              dirname h recs Hmiss lfn_initial dir_initial [] eq_refl) as [dir' E].
  rewrite E in H. cbn [scan_records] in H. rewrite <- Hname in H.
  rewrite scan_entry_hit in H by (assumption || reflexivity).
  rewrite Hname in H. destruct H as (d' & Hs' & Hl').
  destruct (find_dir_of_loop_lookup grub_isspace grub_tolower grub_utf16_to_utf8 disk
              fuel data path hook d' (name0_workaround m) None ([] ++ []) Hdir Hmode Hl')
    as (r & Hr & He & Hn & Hc & Ha & Hz & Hfc & Hcur & Hv).
  destruct (name0_workaround_fields m) as (F1 & F2 & F3 & F4).
  rewrite F1 in Ha. rewrite F2 in Hz. rewrite F3, F4 in Hfc.
  exists r. do 8 (split; [assumption|]).
  unfold same_volume. rewrite Hv. apply same_file_volume. exact Hs'.
Qed.

Lemma find_dir_miss fuel data path (recs : list bytes) rk n :
  cursor_ok disk data -> 0 <= logical_cluster_bits data ->
  Z.land (attr data) GRUB_FAT_ATTR_DIRECTORY <> 0 ->
  passes grub_isspace grub_tolower (snd (extract_dirname path)) recs ->
  (length recs < fuel)%nat ->
  32 * Z.of_nat (length recs) + 32 < 2 ^ 31 ->
  holds_records disk data recs ->
  dir_record disk data (Z.of_nat (length recs)) = Some rk ->
  ends_directory rk -> rd_ret rk = Ok n ->
  exists r, grub_fat_find_dir grub_isspace grub_tolower grub_utf16_to_utf8 disk
              fuel data path None = Some r
    /\ fr_errno r = Some file_not_found.
Proof.
  intros Hok HB Hdir Hmiss Hfuel Hb Hrecs Hrk Hend Hn.
  set (dirname := snd (extract_dirname path)) in *.
  pose proof (find_dir_loop_from_start grub_isspace grub_tolower grub_utf16_to_utf8 disk
                dirname false no_hook data recs fuel Hok HB Hfuel Hb Hrecs) as H.
  destruct (scan_records_miss grub_isspace grub_tolower grub_utf16_to_utf8
              dirname no_hook recs Hmiss lfn_initial dir_initial [] eq_refl) as [dir' E].
  rewrite E in H. destruct (H rk Hrk Hend) as (d' & _ & Hl). rewrite Hn in Hl.
  destruct (find_dir_of_loop_lookup grub_isspace grub_tolower grub_utf16_to_utf8 disk
              fuel data path None d' (overwrite dir' (rd_buf rk))
              (Some file_not_found) [] Hdir (or_introl eq_refl) Hl) as (r & Hr & He & _).
  exists r. split; assumption.
Qed.

End ShortNameLookup.

(** Property X24.  Looking up a name in a directory (no hook) whose
    records [recs] are not long-name slots and are not listed under that
    name: if the next record [m] is listed under the name, the rest of the
    path is returned without an error and the handle takes attribute
    byte, size and first cluster from [m], with an invalid cursor, on the
    same volume; if instead the directory ends there, the error is "file
    not found". *)
Theorem lookup_by_short_name
    (grub_isspace : Z -> bool) (grub_tolower : Z -> Z)
    (grub_utf16_to_utf8 : list Z -> bytes) (disk : grub_disk)
    (fuel : nat) (data : grub_fat_data) (path : bytes) (recs : list bytes) :
  cursor_ok disk data -> 0 <= logical_cluster_bits data ->
  Z.land (attr data) GRUB_FAT_ATTR_DIRECTORY <> 0 ->
  passes grub_isspace grub_tolower (snd (extract_dirname path)) recs ->
  (forall m,
     (S (length recs) < fuel)%nat ->
     32 * Z.of_nat (S (length recs)) + 32 < 2 ^ 31 ->
     holds_records disk data (recs ++ [m]) ->
     dir_attr m <> GRUB_FAT_ATTR_LONG_NAME -> listed m = true ->
     fst (short_entry grub_isspace grub_tolower m) = snd (extract_dirname path) ->
     exists r, grub_fat_find_dir grub_isspace grub_tolower grub_utf16_to_utf8 disk
                 fuel data path None = Some r
       /\ fr_errno r = None /\ fr_next r = fst (extract_dirname path)
       /\ attr (fr_data r) = dir_attr m
       /\ file_size (fr_data r) = s32 (dir_file_size m)
       /\ file_cluster (fr_data r)
          = u32 (Z.lor (Z.shiftl (dir_first_cluster_high m) 16)
                   (dir_first_cluster_low m))
       /\ cur_cluster_num (fr_data r) = ALL_ONES
       /\ same_volume data (fr_data r))
  /\ (forall rk n,
        (length recs < fuel)%nat ->
        32 * Z.of_nat (length recs) + 32 < 2 ^ 31 ->
        holds_records disk data recs ->
        dir_record disk data (Z.of_nat (length recs)) = Some rk ->
        ends_directory rk -> rd_ret rk = Ok n ->
        exists r, grub_fat_find_dir grub_isspace grub_tolower grub_utf16_to_utf8 disk
                    fuel data path None = Some r
          /\ fr_errno r = Some file_not_found).
Proof.
  intros Hok HB Hdir Hmiss. split.
  - intros m Hfuel Hb Hrecs Hln Hl Hname.
    destruct (find_dir_hit grub_isspace grub_tolower grub_utf16_to_utf8 disk
                fuel data path None recs m Hok HB Hdir (or_introl eq_refl)
                Hmiss Hfuel Hb Hrecs Hln Hl Hname)
      as (r & Hr & He & Hn & _ & H).
    exists r. auto.
  - intros rk n Hfuel Hb Hrecs Hrk Hend Hn. eapply find_dir_miss; eassumption.
Qed.

(** Property X24 at /empty.txt, the second record on [floppy2]. *)
Lemma lookup_by_short_name_witness :
  exists r, grub_fat_find_dir ascii_isspace ascii_tolower ascii_utf16_to_utf8 floppy2
              17 floppy_root (bytes_of_string "/empty.txt") None = Some r
    /\ fr_errno r = None /\ file_size (fr_data r) = 0.
Proof.
  assert (Hmiss : passes ascii_isspace ascii_tolower
                    (snd (extract_dirname (bytes_of_string "/empty.txt"))) [hello_entry]).
  { repeat constructor; vm_compute; discriminate. }
  destruct (lookup_by_short_name ascii_isspace ascii_tolower ascii_utf16_to_utf8
              floppy2 17 floppy_root (bytes_of_string "/empty.txt") [hello_entry])
    as [H _].
  - left. reflexivity.
  - vm_compute. discriminate.
  - vm_compute. discriminate.
  - exact Hmiss.
  - destruct (H (dirent (bytes_of_string "EMPTY   TXT") 0x20 0 0))
      as (r & Hr & He & _ & _ & Hz & _).
    + cbn [length]. lia.
    + cbn [length]. lia.
    + intros i Hi. cbn [length app] in Hi.
      assert (i = 0%nat \/ i = 1%nat) as [-> | ->] by lia;
        (eexists; split; [vm_compute; reflexivity|];
         split; [reflexivity|]; split; [reflexivity|]; vm_compute; discriminate).
    + vm_compute. discriminate.
    + reflexivity.
    + vm_compute. reflexivity.
    + exists r. split; [exact Hr|]. split; [exact He|]. rewrite Hz. reflexivity.
Defined.



(** ** The loops over the path components *)

Lemma walk_error_same_volume a b e : same_volume a b -> walk_error b e -> walk_error a e.
Proof.
  unfold same_volume, volume_of. intros H [He | (v & H1 & H2 & H3)]; [left; assumption|].
  injection H as _ _ _ _ _ _ _ _ _ Hm _ Hn.
  right. exists v. rewrite Hm, Hn. auto.
Qed.

Lemma extract_dirname_next path rest :
  fst (extract_dirname path) = Some rest -> (length rest < length path)%nat.
Proof.
  unfold extract_dirname.
  destruct (skip_slashes_spec path) as (_ & Hhd & Hlen).
  destruct (grub_strchr (skip_slashes path) 47) as [rest'|] eqn:E; cbn [fst];
    intros H; [|discriminate].
  injection H as ->.
  destruct (grub_strchr_some _ _ _ E) as (pre & Hp & _ & Hr & _).
  rewrite Hp in Hhd, Hlen. rewrite length_app in Hlen.
  destruct pre as [|b pre]; [cbn [app] in Hhd; contradiction|].
  cbn [length] in Hlen. lia.
Qed.

Section PathLoops.

Variable grub_isspace : Z -> bool.
Variable grub_tolower : Z -> Z.
Variable grub_utf16_to_utf8 : list Z -> bytes.
Variable disk : grub_disk.

Lemma find_dir_next fuel data path hook r p' :
  grub_fat_find_dir grub_isspace grub_tolower grub_utf16_to_utf8 disk
    fuel data path hook = Some r ->
  fr_next r = Some p' -> (length p' < length path)%nat.
Proof.
  unfold grub_fat_find_dir. intros H Hn.
  destruct (Z.land (attr data) GRUB_FAT_ATTR_DIRECTORY =? 0);
    [injection H as <-; discriminate Hn|].
  pose proof (extract_dirname_next path p') as Hp.
  destruct (extract_dirname path) as [dirp dirname]. cbn [fst] in Hp.
  destruct (find_dir_loop _ _ _ _ _ _ _ _ _ _ _ _ _) as [[[[data' dir'] errno] calls]|];
    [|discriminate].
  injection H as <-. apply Hp. exact Hn.
Qed.

End PathLoops.

(** Property X25.  Every call of [grub_fat_find_dir] that returns a next
    path returns one that is strictly shorter than the path it was given.
    So the [do ... while] loops of [grub_fat_open] and [grub_fat_dir] end
    by themselves: any two bounds on the number of turns that exceed the
    length of the path give the same result. *)
Theorem path_loops_consume_path
    (grub_isspace : Z -> bool) (grub_tolower : Z -> Z)
    (grub_utf16_to_utf8 : list Z -> bytes) (disk : grub_disk)
    (n m fuel : nat) (data : grub_fat_data) (p : bytes)
    (hook : option (bytes -> Z -> bool)) (calls : list hook_call) :
  (length p < n)%nat -> (length p < m)%nat ->
  (forall r p',
     grub_fat_find_dir grub_isspace grub_tolower grub_utf16_to_utf8 disk
       fuel data p hook = Some r ->
     fr_next r = Some p' -> (length p' < length p)%nat)
  /\ open_loop grub_isspace grub_tolower grub_utf16_to_utf8 disk n fuel data p
     = open_loop grub_isspace grub_tolower grub_utf16_to_utf8 disk m fuel data p
  /\ dir_loop grub_isspace grub_tolower grub_utf16_to_utf8 disk n fuel data p hook calls
     = dir_loop grub_isspace grub_tolower grub_utf16_to_utf8 disk m fuel data p hook calls.
Proof.
  intros Hn Hm. split; [intros r p'; apply find_dir_next|]. split.
  - revert m data p Hn Hm.
    induction n as [|n IH]; intros m data p Hn Hm; [lia|].
    destruct m as [|m]; [lia|]. cbn [open_loop].
    destruct (grub_fat_find_dir _ _ _ _ _ _ _ _) as [r|] eqn:Er; [|reflexivity].
    destruct (fr_errno r); [reflexivity|].
    destruct (fr_next r) as [p'|] eqn:En; [|reflexivity].
    pose proof (find_dir_next _ _ _ _ _ _ _ _ _ _ Er En).
    apply IH; lia.
  - revert m data p calls Hn Hm.
    induction n as [|n IH]; intros m data p calls Hn Hm; [lia|].
    destruct m as [|m]; [lia|]. cbn [dir_loop].
    destruct (grub_fat_find_dir _ _ _ _ _ _ _ _) as [r|] eqn:Er; [|reflexivity].
    destruct (fr_next r) as [p'|] eqn:En; [|reflexivity].
    destruct (fr_errno r); [reflexivity|].
    pose proof (find_dir_next _ _ _ _ _ _ _ _ _ _ Er En).
    apply IH; lia.
Qed.

(** Property X25 at /hello.txt on [floppy], with the bounds 40 and 11. *)
Lemma path_loops_consume_path_witness :
  open_loop ascii_isspace ascii_tolower ascii_utf16_to_utf8 floppy 40 17 floppy_root
    (bytes_of_string "/hello.txt")
  = open_loop ascii_isspace ascii_tolower ascii_utf16_to_utf8 floppy 11 17 floppy_root
      (bytes_of_string "/hello.txt").
Proof.
  apply (path_loops_consume_path ascii_isspace ascii_tolower ascii_utf16_to_utf8 floppy
           40 11 17 floppy_root (bytes_of_string "/hello.txt") None []);
    cbn; lia.
Defined.

(** ** The errors of the entry points *)

(** The scanner and the entry points for any value of [grub_errno] at
    entry and any outcome of the allocations. *)

Section ErrnoScanner.

Variable grub_isspace : Z -> bool.
Variable grub_tolower : Z -> Z.
Variable grub_utf16_to_utf8 : list Z -> bytes.
Variable disk : grub_disk.

Lemma errno_clear_find_dir_loop dirname call_hook hook fuel :
  forall data st dir offset calls,
  Errno.find_dir_loop grub_isspace grub_tolower grub_utf16_to_utf8 disk (Some dirname)
    call_hook hook fuel None data st dir offset calls
  = find_dir_loop grub_isspace grub_tolower grub_utf16_to_utf8 disk dirname
      call_hook hook fuel data st dir offset calls.
Proof.
  induction fuel as [|fuel IH]; intros data st dir offset calls;
    cbn [Errno.find_dir_loop Errno.scan_entry_dirname find_dir_loop]; [reflexivity|].
  rewrite errno_clear_read_data.
  destruct (grub_fat_read_data disk data _ _) as [r|]; [|reflexivity].
  destruct (negb _ || _).
  - destruct (rd_ret r); reflexivity.
  - destruct (scan_entry _ _ _ _ _ _ _ _); [apply IH | reflexivity].
Qed.

Lemma errno_clear_find_dir fuel data path hook :
  Errno.grub_fat_find_dir grub_isspace grub_tolower grub_utf16_to_utf8 disk
    fuel allocs_ok None data path hook
  = grub_fat_find_dir grub_isspace grub_tolower grub_utf16_to_utf8 disk
      fuel data path hook.
Proof.
  unfold Errno.grub_fat_find_dir, grub_fat_find_dir, find_dir_result.
  destruct (Z.land (attr data) GRUB_FAT_ATTR_DIRECTORY =? 0); [reflexivity|].
  destruct (extract_dirname path) as [dirp dirname].
  destruct dirp;
    cbn [allocs_ok alloc_dirname alloc_filename alloc_unibuf alloc_failed errno_alloc orb];
    rewrite errno_clear_find_dir_loop; reflexivity.
Qed.

Lemma errno_clear_open_loop n fuel : forall i data p,
  Errno.open_loop grub_isspace grub_tolower grub_utf16_to_utf8 disk
    n fuel (fun _ => allocs_ok) i None data p
  = open_loop grub_isspace grub_tolower grub_utf16_to_utf8 disk n fuel data p.
Proof.
  induction n as [|n IH]; intros i data p; cbn [Errno.open_loop open_loop];
    [reflexivity|].
  rewrite errno_clear_find_dir.
  destruct (grub_fat_find_dir _ _ _ _ _ _ _ _) as [r|]; [|reflexivity].
  destruct (fr_errno r); [reflexivity|].
  destruct (fr_next r); [apply IH | reflexivity].
Qed.

Lemma errno_clear_dir_loop n fuel : forall i data p hook calls,
  Errno.dir_loop grub_isspace grub_tolower grub_utf16_to_utf8 disk
    n fuel (fun _ => allocs_ok) i None data p hook calls
  = dir_loop grub_isspace grub_tolower grub_utf16_to_utf8 disk n fuel data p hook calls.
Proof.
  induction n as [|n IH]; intros i data p hook calls; cbn [Errno.dir_loop dir_loop];
    [reflexivity|].
  rewrite errno_clear_find_dir.
  destruct (grub_fat_find_dir _ _ _ _ _ _ _ _) as [r|]; [|reflexivity].
  destruct (fr_next r), (fr_errno r); try reflexivity. apply IH.
Qed.

Lemma errno_clear_label_loop fuel : forall data offset,
  Errno.label_loop disk fuel AllocOk None data offset = label_loop disk fuel data offset.
Proof.
  induction fuel as [|fuel IH]; intros data offset; cbn [Errno.label_loop label_loop];
    [reflexivity|].
  rewrite errno_clear_read_data.
  destruct (grub_fat_read_data disk data _ _) as [r|]; [|reflexivity].
  destruct (negb _ || _); [destruct (rd_ret r); reflexivity|].
  destruct (dir_attr (rd_buf r) =? GRUB_FAT_ATTR_VOLUME_ID); [reflexivity | apply IH].
Qed.

(** Entered with [grub_errno] clear and with every allocation
    succeeding, the entry points are the functions described first. *)
Lemma errno_clear_entry_points fuel path hook :
  Errno.grub_fat_open grub_isspace grub_tolower grub_utf16_to_utf8 disk
    fuel AllocOk (fun _ => allocs_ok) None path
  = grub_fat_open grub_isspace grub_tolower grub_utf16_to_utf8 disk fuel path
  /\ Errno.grub_fat_dir grub_isspace grub_tolower grub_utf16_to_utf8 disk
       fuel AllocOk (fun _ => allocs_ok) None path hook
     = grub_fat_dir grub_isspace grub_tolower grub_utf16_to_utf8 disk fuel path hook
  /\ Errno.grub_fat_label disk fuel AllocOk AllocOk None = grub_fat_label disk fuel.
Proof.
  unfold Errno.grub_fat_open, Errno.grub_fat_dir, Errno.grub_fat_label,
    grub_fat_open, grub_fat_dir, grub_fat_label, Errno.grub_fat_mount.
  destruct (grub_fat_mount (Some disk)) as [d0|e0]; [|repeat split].
  rewrite errno_clear_open_loop, errno_clear_dir_loop, errno_clear_label_loop.
  repeat split.
Qed.

Lemma errno_find_dir_loop_volume dirname call_hook hook fuel errno :
  forall data st dir offset calls data' dir' errno' calls',
  Errno.find_dir_loop grub_isspace grub_tolower grub_utf16_to_utf8 disk dirname
    call_hook hook fuel errno data st dir offset calls
  = Some (data', dir', errno', calls') ->
  same_file data data'.
Proof.
  induction fuel as [|fuel IH]; intros data st dir offset calls data' dir' errno' calls' H;
    cbn [Errno.find_dir_loop] in H; [discriminate|].
  destruct (Errno.grub_fat_read_data disk errno data _ _) as [r|] eqn:Er; [|discriminate].
  apply errno_read_data_keeps_file in Er.
  destruct (negb _ || _).
  - injection H as <- _ _ _. assumption.
  - destruct (Errno.scan_entry_dirname _ _ _ _ _ _ _ _) as [[st' dir1 c | dir1 c]|];
      [| |discriminate].
    + eapply same_file_trans; [eassumption|]. eapply IH. eassumption.
    + injection H as <- _ _ _. assumption.
Qed.

Lemma errno_find_dir_loop_errno dirname call_hook hook fuel errno :
  forall data st dir offset calls data' dir' e calls',
  Errno.find_dir_loop grub_isspace grub_tolower grub_utf16_to_utf8 disk dirname
    call_hook hook fuel errno data st dir offset calls
  = Some (data', dir', Some e, calls') ->
  errno = Some e
  \/ (e = file_not_found /\ errno = None /\ call_hook = false)
  \/ walk_error data e.
Proof.
  induction fuel as [|fuel IH]; intros data st dir offset calls data' dir' e calls' H;
    cbn [Errno.find_dir_loop] in H; [discriminate|].
  destruct (Errno.grub_fat_read_data disk errno data _ _) as [r|] eqn:Er; [|discriminate].
  pose proof (errno_read_data_keeps_file _ _ _ _ _ _ Er) as Hs.
  destruct (negb _ || _).
  - destruct (rd_ret r) as [n|e'] eqn:Eret; cbn [errno_after] in H.
    + destruct errno as [e0|]; [injection H as _ _ <- _; left; reflexivity|].
      destruct call_hook; [discriminate|]. injection H as _ _ <- _. right. left. auto.
    + injection H as _ _ <- _.
      destruct (errno_read_data_error _ _ _ _ _ _ _ Er Eret) as [Hp | Hw]; auto.
  - destruct (Errno.scan_entry_dirname _ _ _ _ _ _ _ _) as [[st' dir1 c | dir1 c]|];
      [| |discriminate].
    + apply IH in H. destruct H as [H | [H | H]]; auto.
      right. right. eapply walk_error_same_file; eassumption.
    + injection H as _ _ -> _. left. reflexivity.
Qed.

Lemma errno_find_dir_unfold fuel mem errno data path hook :
  Z.land (attr data) GRUB_FAT_ATTR_DIRECTORY <> 0 ->
  Errno.grub_fat_find_dir grub_isspace grub_tolower grub_utf16_to_utf8 disk
    fuel mem errno data path hook
  = let dirp := fst (extract_dirname path) in
    let a := alloc_dirname mem in
    let errno' := errno_alloc (errno_alloc (errno_alloc errno a) (alloc_filename mem))
                    (alloc_unibuf mem) in
    match dirp, a with
    | Some _, AllocFail errno' => Some (mk_find data None errno' [])
    | _, _ =>
        if alloc_failed (alloc_filename mem) || alloc_failed (alloc_unibuf mem)
        then Some (mk_find data None errno' [])
        else
          find_dir_result dirp
            (Errno.find_dir_loop grub_isspace grub_tolower grub_utf16_to_utf8 disk
               (if alloc_failed a then None else Some (snd (extract_dirname path)))
               (match dirp, hook with None, Some _ => true | _, _ => false end)
               (match hook with Some h => h | None => no_hook end)
               fuel errno' data lfn_initial dir_initial (- GRUB_FAT_DIR_ENTRY_SIZE) [])
    end.
Proof.
  intros Hd. unfold Errno.grub_fat_find_dir.
  destruct (Z.eqb_spec (Z.land (attr data) GRUB_FAT_ATTR_DIRECTORY) 0); [contradiction|].
  destruct (extract_dirname path) as [dirp dirname]. cbn [fst snd].
  destruct dirp, (alloc_dirname mem); reflexivity.
Qed.

Lemma find_dir_result_volume dirp l data r :
  (forall d1 dir errno' calls, l = Some (d1, dir, errno', calls) -> same_file data d1) ->
  find_dir_result dirp l = Some r -> same_volume data (fr_data r).
Proof.
  intros Hl H. destruct l as [[[[d1 dir] errno'] calls]|]; [|discriminate].
  specialize (Hl _ _ _ _ eq_refl). injection H as <-. cbn [fr_data].
  apply same_file_volume in Hl. unfold same_volume in *. rewrite Hl. reflexivity.
Qed.

Lemma errno_find_dir_volume fuel mem errno data path hook r :
  Errno.grub_fat_find_dir grub_isspace grub_tolower grub_utf16_to_utf8 disk
    fuel mem errno data path hook = Some r ->
  same_volume data (fr_data r).
Proof.
  destruct (Z.eq_dec (Z.land (attr data) GRUB_FAT_ATTR_DIRECTORY) 0) as [Ed|Ed].
  { unfold Errno.grub_fat_find_dir. apply Z.eqb_eq in Ed. rewrite Ed.
    intros H. injection H as <-. reflexivity. }
  rewrite errno_find_dir_unfold by exact Ed. cbv zeta. intros H.
  assert (Hgo : forall dn ch h e0 r,
            find_dir_result (fst (extract_dirname path))
              (Errno.find_dir_loop grub_isspace grub_tolower grub_utf16_to_utf8 disk
                 dn ch h fuel e0 data lfn_initial dir_initial
                 (- GRUB_FAT_DIR_ENTRY_SIZE) []) = Some r ->
            same_volume data (fr_data r)).
  { intros dn ch h e0 r0. apply find_dir_result_volume.
    intros d1 dir errno' calls. apply errno_find_dir_loop_volume. }
  destruct (fst (extract_dirname path)) as [p'|], (alloc_dirname mem) as [|e1];
    try (injection H as <-; reflexivity);
    (destruct (alloc_failed (alloc_filename mem) || alloc_failed (alloc_unibuf mem));
     [injection H as <-; reflexivity | eapply Hgo; exact H]).
Qed.

Lemma errno_allocs_failed errno a f u e :
  alloc_failed f || alloc_failed u = true ->
  errno_alloc (errno_alloc (errno_alloc errno a) f) u = Some e ->
  f = AllocFail (Some e) \/ u = AllocFail (Some e).
Proof.
  destruct f as [|e1], u as [|e2]; cbn; intros Hf He; try discriminate; subst; auto.
Qed.

Lemma errno_allocs_ok errno a f u :
  alloc_failed f || alloc_failed u = false ->
  errno_alloc (errno_alloc (errno_alloc errno a) f) u = errno_alloc errno a.
Proof.
  destruct f, u; cbn; intros Hf; try discriminate; reflexivity.
Qed.

Lemma errno_find_dir_errno fuel mem errno data path hook r e :
  Errno.grub_fat_find_dir grub_isspace grub_tolower grub_utf16_to_utf8 disk
    fuel mem errno data path hook = Some r ->
  fr_errno r = Some e ->
  (e = not_a_directory /\ Z.land (attr data) GRUB_FAT_ATTR_DIRECTORY = 0
   /\ r = mk_find data None (Some e) [])
  \/ (alloc_error mem e
      /\ (alloc_dirname mem = AllocOk \/ fst (extract_dirname path) <> None ->
          r = mk_find data None (Some e) []))
  \/ errno = Some e
  \/ (e = file_not_found
      /\ (errno = None \/ alloc_dirname mem = AllocFail None)
      /\ (hook = None \/ fst (extract_dirname path) <> None))
  \/ walk_error data e.
Proof.
  destruct (Z.eq_dec (Z.land (attr data) GRUB_FAT_ATTR_DIRECTORY) 0) as [Ed|Ed].
  { unfold Errno.grub_fat_find_dir. rewrite (proj2 (Z.eqb_eq _ _) Ed).
    intros H He. injection H as <-. injection He as <-. left. auto. }
  rewrite errno_find_dir_unfold by exact Ed. cbv zeta. intros H He.
  set (dirp := fst (extract_dirname path)) in *.
  assert (Hloop : forall dn ch h e0 r0,
            find_dir_result dirp
              (Errno.find_dir_loop grub_isspace grub_tolower grub_utf16_to_utf8 disk
                 dn ch h fuel e0 data lfn_initial dir_initial
                 (- GRUB_FAT_DIR_ENTRY_SIZE) []) = Some r0 ->
            fr_errno r0 = Some e ->
            e0 = Some e
            \/ (e = file_not_found /\ e0 = None /\ ch = false)
            \/ walk_error data e).
  { clear H. intros dn ch h e0 r0 Hl Hr. unfold find_dir_result in Hl.
    destruct (Errno.find_dir_loop _ _ _ _ _ _ _ _ _ _ _ _ _ _)
      as [[[[d1 dir'] errno'] calls]|] eqn:E; [|discriminate].
    injection Hl as <-. cbn [fr_errno] in Hr. subst errno'.
    eapply errno_find_dir_loop_errno. exact E. }
  assert (Hbuf : forall a,
            alloc_failed (alloc_filename mem) || alloc_failed (alloc_unibuf mem) = true ->
            Some (mk_find data None
                    (errno_alloc (errno_alloc (errno_alloc errno a) (alloc_filename mem))
                       (alloc_unibuf mem)) []) = Some r ->
            alloc_error mem e /\ r = mk_find data None (Some e) []).
  { intros a Hf Hr. injection Hr as <-. cbn [fr_errno] in He.
    split; [|rewrite He; reflexivity].
    destruct (errno_allocs_failed _ _ _ _ _ Hf He) as [Hx | Hx];
      unfold alloc_error; auto. }
  destruct dirp as [p'|] eqn:Edp; destruct (alloc_dirname mem) as [|e1] eqn:Ea.
  - destruct (alloc_failed (alloc_filename mem) || alloc_failed (alloc_unibuf mem)) eqn:Ef.
    + right. left. destruct (Hbuf _ eq_refl H) as [Hx Hy]. split; [exact Hx | intros _; exact Hy].
    + rewrite (errno_allocs_ok _ _ _ _ Ef) in H. cbn [errno_alloc alloc_failed] in H.
      destruct (Hloop _ _ _ _ _ H He) as [Hx | [(Hx & Hy & Hz) | Hx]].
      * do 2 right. left. exact Hx.
      * do 3 right. left. split; [exact Hx|]. split; [left; exact Hy|]. right. discriminate.
      * do 4 right. exact Hx.
  - injection H as <-. cbn [fr_errno] in He. subst e1. right. left.
    split; [left; exact Ea | intros _; reflexivity].
  - destruct (alloc_failed (alloc_filename mem) || alloc_failed (alloc_unibuf mem)) eqn:Ef.
    + right. left. destruct (Hbuf _ eq_refl H) as [Hx Hy]. split; [exact Hx | intros _; exact Hy].
    + rewrite (errno_allocs_ok _ _ _ _ Ef) in H. cbn [errno_alloc alloc_failed] in H.
      destruct (Hloop _ _ _ _ _ H He) as [Hx | [(Hx & Hy & Hz) | Hx]].
      * do 2 right. left. exact Hx.
      * do 3 right. left. split; [exact Hx|]. split; [left; exact Hy|].
        destruct hook; [discriminate Hz | left; reflexivity].
      * do 4 right. exact Hx.
  - destruct (alloc_failed (alloc_filename mem) || alloc_failed (alloc_unibuf mem)) eqn:Ef.
    + right. left. destruct (Hbuf _ eq_refl H) as [Hx Hy]. split; [exact Hx | intros _; exact Hy].
    + rewrite (errno_allocs_ok _ _ _ _ Ef) in H. cbn [errno_alloc alloc_failed] in H.
      destruct (Hloop _ _ _ _ _ H He) as [Hx | [(Hx & Hy & Hz) | Hx]].
      * right. left. split; [left; rewrite Ea, Hx; reflexivity|].
        intros [Hc | Hc]; [discriminate Hc | contradiction Hc; reflexivity].
      * do 3 right. left. split; [exact Hx|]. split; [right; rewrite Hy; reflexivity|].
        destruct hook; [discriminate Hz | left; reflexivity].
      * do 4 right. exact Hx.
Qed.

Lemma errno_open_loop_errno n fuel mem : forall i errno data p e,
  Errno.open_loop grub_isspace grub_tolower grub_utf16_to_utf8 disk
    n fuel mem i errno data p = Some (Err e) ->
  e = not_a_directory \/ e = file_not_found \/ errno = Some e
  \/ (exists j, alloc_error (mem j) e) \/ walk_error data e.
Proof.
  induction n as [|n IH]; intros i errno data p e H; cbn [Errno.open_loop] in H;
    [discriminate|].
  destruct (Errno.grub_fat_find_dir _ _ _ _ _ _ _ _ _ _) as [r|] eqn:Er; [|discriminate].
  destruct (fr_errno r) as [e'|] eqn:Ee.
  - injection H as <-.
    destruct (errno_find_dir_errno _ _ _ _ _ _ _ _ Er Ee)
      as [(H & _) | [(H & _) | [H | [(H & _) | H]]]]; auto.
    do 3 right. left. exists i. exact H.
  - destruct (fr_next r) as [p'|]; [|discriminate].
    apply IH in H. destruct H as [H | [H | [H | [H | H]]]]; auto; [discriminate|].
    do 4 right. apply errno_find_dir_volume in Er.
    eapply walk_error_same_volume; [exact Er | exact H].
Qed.

Lemma errno_dir_loop_errno n fuel mem : forall i errno data p hook calls e calls',
  Errno.dir_loop grub_isspace grub_tolower grub_utf16_to_utf8 disk
    n fuel mem i errno data p hook calls = Some (Some e, calls') ->
  e = not_a_directory \/ e = file_not_found \/ errno = Some e
  \/ (exists j, alloc_error (mem j) e) \/ walk_error data e.
Proof.
  induction n as [|n IH]; intros i errno data p hook calls e calls' H;
    cbn [Errno.dir_loop] in H; [discriminate|].
  destruct (Errno.grub_fat_find_dir _ _ _ _ _ _ _ _ _ _) as [r|] eqn:Er; [|discriminate].
  assert (Hone : fr_errno r = Some e ->
            e = not_a_directory \/ e = file_not_found \/ errno = Some e
            \/ (exists j, alloc_error (mem j) e) \/ walk_error data e).
  { intros Ee.
    destruct (errno_find_dir_errno _ _ _ _ _ _ _ _ Er Ee)
      as [(H1 & _) | [(H1 & _) | [H1 | [(H1 & _) | H1]]]]; auto.
    do 3 right. left. exists i. exact H1. }
  destruct (fr_next r) as [p'|], (fr_errno r) as [e'|] eqn:Ee.
  - injection H as <- _. apply Hone. reflexivity.
  - apply IH in H. destruct H as [H | [H | [H | [H | H]]]].
    + left. exact H.
    + right. left. exact H.
    + discriminate H.
    + do 3 right. left. exact H.
    + do 4 right. apply errno_find_dir_volume in Er.
      eapply walk_error_same_volume; [exact Er | exact H].
  - injection H as <- _. apply Hone. reflexivity.
  - discriminate.
Qed.

Lemma errno_label_loop_errno fuel alloc_label errno : forall data offset e,
  Errno.label_loop disk fuel alloc_label errno data offset = Some (Err e) ->
  errno = Some e \/ walk_error data e.
Proof.
  induction fuel as [|fuel IH]; intros data offset e H; cbn [Errno.label_loop] in H;
    [discriminate|].
  destruct (Errno.grub_fat_read_data disk errno data _ _) as [r|] eqn:Er; [|discriminate].
  destruct (negb _ || _).
  - destruct (rd_ret r) as [n|e'] eqn:Eret; cbn [errno_after] in H.
    + destruct errno as [e0|]; [|discriminate]. injection H as <-. left. reflexivity.
    + injection H as <-. eapply errno_read_data_error; eassumption.
  - destruct (dir_attr (rd_buf r) =? GRUB_FAT_ATTR_VOLUME_ID); [discriminate|].
    apply IH in H. destruct H as [H | H]; [left; exact H | right].
    eapply walk_error_same_file; [|exact H].
    eapply errno_read_data_keeps_file. exact Er.
Qed.

End ErrnoScanner.

Lemma errno_mount_inv alloc_data disk d0 :
  Errno.grub_fat_mount alloc_data (Some disk) = Ok d0 ->
  alloc_data = AllocOk /\ grub_fat_mount (Some disk) = Ok d0.
Proof.
  unfold Errno.grub_fat_mount. destruct alloc_data; [auto | discriminate].
Qed.

Lemma errno_mount_error alloc_data disk e :
  Errno.grub_fat_mount alloc_data disk = Err e -> e = not_a_fat.
Proof.
  unfold Errno.grub_fat_mount. destruct disk as [d|]; [|congruence].
  destruct alloc_data; [apply mount_error | congruence].
Qed.

(** The unchecked [grub_strdup]: with a null [dirname] the scan of an
    empty directory ends as usual, with the allocator's error still in
    [grub_errno]; a directory with a record that reaches [*dirname] has no
    defined result. *)
Lemma errno_null_dirname :
  (exists r, Errno.grub_fat_find_dir ascii_isspace ascii_tolower ascii_utf16_to_utf8
               floppy_blank 17
               (mk_allocs (AllocFail (Some out_of_memory)) AllocOk AllocOk) None
               floppy_root (bytes_of_string "/hello.txt") None = Some r
     /\ fr_errno r = Some out_of_memory /\ fr_next r = None)
  /\ Errno.grub_fat_find_dir ascii_isspace ascii_tolower ascii_utf16_to_utf8
       floppy 17
       (mk_allocs (AllocFail (Some out_of_memory)) AllocOk AllocOk) None
       floppy_root (bytes_of_string "/hello.txt") None = None.
Proof.
  split; [|vm_compute; reflexivity].
  eexists. split; [vm_compute; reflexivity|]. split; reflexivity.
Qed.

(** Property X16.  [grub_fat_find_dir], entered with [grub_errno = errno]
    and with the allocations [mem], returns with an error [e] in
    [grub_errno] in these ways only: "not a directory" when the handle
    lacks the directory bit (the handle is then untouched, NULL is
    returned and no hook call is made); an allocation failed and left [e]
    (after a failure the code tests for, which is every failure but that
    of the [grub_strdup] of the last component, the handle is untouched,
    NULL is returned and no hook call is made); [e] was pending when the
    call was entered; "file not found", raised at the end of the
    directory only when a name is looked up (no hook, or more path to
    come) and [grub_errno] was clear then; a device read failure; or
    "invalid cluster %u" from the chain walk.  When listing (a hook and
    no more path) the function itself never raises "file not found". *)
Theorem scanner_error_kinds
    (grub_isspace : Z -> bool) (grub_tolower : Z -> Z)
    (grub_utf16_to_utf8 : list Z -> bytes) (disk : grub_disk)
    (fuel : nat) (mem : find_dir_allocs) (errno : option grub_error_t)
    (data : grub_fat_data) (path : bytes)
    (hook : option (bytes -> Z -> bool)) (r : find_result) (e : grub_error_t) :
  Errno.grub_fat_find_dir grub_isspace grub_tolower grub_utf16_to_utf8 disk
    fuel mem errno data path hook = Some r ->
  fr_errno r = Some e ->
  ((e = grub_error GRUB_ERR_BAD_FILE_TYPE "not a directory"
    /\ Z.land (attr data) GRUB_FAT_ATTR_DIRECTORY = 0
    /\ fr_data r = data /\ fr_next r = None /\ fr_calls r = [])
   \/ (alloc_error mem e
       /\ (alloc_dirname mem = AllocOk \/ fst (extract_dirname path) <> None ->
           fr_data r = data /\ fr_next r = None /\ fr_calls r = []))
   \/ errno = Some e
   \/ (e = grub_error GRUB_ERR_FILE_NOT_FOUND "file not found"
       /\ (errno = None \/ alloc_dirname mem = AllocFail None)
       /\ (hook = None \/ fst (extract_dirname path) <> None))
   \/ e = disk_failure
   \/ (exists v, e = grub_error_u GRUB_ERR_BAD_FS "invalid cluster %u" v
         /\ (v < 2 \/ num_clusters data <= v) /\ v < cluster_eof_mark data))
  /\ (hook <> None -> fst (extract_dirname path) = None ->
      err_code e = GRUB_ERR_FILE_NOT_FOUND ->
      errno = Some e \/ alloc_error mem e).
Proof.
  intros H He.
  destruct (errno_find_dir_errno _ _ _ _ _ _ _ _ _ _ _ _ H He)
    as [(H1 & H2 & ->) | [(H1 & H2) | [H1 | [H1 | [-> | (v & -> & Hv)]]]]].
  - subst e. split; [|intros _ _ Hc; discriminate Hc].
    left. repeat split. exact H2.
  - split; [|intros _ _ _; right; exact H1].
    right. left. split; [exact H1|]. intros Ht. rewrite (H2 Ht). repeat split.
  - split; [|intros _ _ _; left; exact H1].
    do 2 right. left. exact H1.
  - split; [do 3 right; left; exact H1|].
    intros Hh Hd _. destruct H1 as (_ & _ & [Hc | Hc]); contradiction.
  - split; [|intros _ _ Hc; discriminate Hc].
    do 4 right. left. reflexivity.
  - split; [|intros _ _ Hc; discriminate Hc].
    do 5 right. exists v. split; [reflexivity | exact Hv].
Qed.

(** Property X16 on [floppy]: /nothere looked up; /hello.txt looked up
    when the allocation of [filename] fails; and /hello.txt looked up with
    a device error pending. *)
Lemma scanner_error_kinds_witness :
  (exists r, Errno.grub_fat_find_dir ascii_isspace ascii_tolower ascii_utf16_to_utf8 floppy
               17 allocs_ok None floppy_root (bytes_of_string "/nothere") None = Some r
     /\ fr_errno r = Some file_not_found
     /\ (@None (bytes -> Z -> bool) = None
         \/ fst (extract_dirname (bytes_of_string "/nothere")) <> None))
  /\ Errno.grub_fat_find_dir ascii_isspace ascii_tolower ascii_utf16_to_utf8 floppy
       17 (mk_allocs AllocOk (AllocFail (Some out_of_memory)) AllocOk) None
       floppy_root (bytes_of_string "/hello.txt") None
     = Some (mk_find floppy_root None (Some out_of_memory) [])
  /\ (exists r, Errno.grub_fat_find_dir ascii_isspace ascii_tolower ascii_utf16_to_utf8
                  floppy 17 allocs_ok (Some disk_failure) floppy_root
                  (bytes_of_string "/hello.txt") None = Some r
        /\ fr_errno r = Some disk_failure /\ fr_data r = hello_file).
Proof.
  split; [|split].
  - destruct (Errno.grub_fat_find_dir ascii_isspace ascii_tolower ascii_utf16_to_utf8
                floppy 17 allocs_ok None floppy_root (bytes_of_string "/nothere") None)
      as [r|] eqn:Er; [|vm_compute in Er; discriminate].
    assert (Ee : fr_errno r = Some file_not_found)
      by (vm_compute in Er; injection Er as <-; reflexivity).
    exists r. split; [reflexivity|]. split; [exact Ee|].
    destruct (scanner_error_kinds _ _ _ _ _ _ _ _ _ _ _ _ Er Ee)
      as [[(H & _) | [([H | [H | H]] & _) | [H | [(_ & _ & H) | [H | (v & H & _)]]]]] _];
      try discriminate H.
    exact H.
  - vm_compute. reflexivity.
  - eexists. split; [vm_compute; reflexivity|]. split; vm_compute; reflexivity.
Defined.

(** Property X27.  [grub_fat_open], entered with [grub_errno = errno] and
    with the allocations [alloc_data] and [mem], fails in these ways
    only: "not a fat filesystem" (the mount failed, which includes a
    failed allocation of the handle); "not a file" (the path resolved to
    an entry with the directory bit); "not a directory"; "file not
    found"; the error that was pending when the call was entered; the
    error a failed allocation of [grub_fat_find_dir] left; a device read
    failure; or "invalid cluster %u" with a value below the end-of-chain
    mark that is below 2 or not below [num_clusters]. *)
Theorem open_error_kinds
    (grub_isspace : Z -> bool) (grub_tolower : Z -> Z)
    (grub_utf16_to_utf8 : list Z -> bytes) (disk : grub_disk)
    (fuel : nat) (alloc_data : alloc_result) (mem : nat -> find_dir_allocs)
    (errno : option grub_error_t) (name : bytes) (e : grub_error_t) :
  Errno.grub_fat_open grub_isspace grub_tolower grub_utf16_to_utf8 disk
    fuel alloc_data mem errno name = Some (Err e) ->
  (e = not_a_fat /\ Errno.grub_fat_mount alloc_data (Some disk) = Err not_a_fat)
  \/ exists d0, Errno.grub_fat_mount alloc_data (Some disk) = Ok d0
       /\ ((e = grub_error GRUB_ERR_BAD_FILE_TYPE "not a file"
            /\ exists d, Errno.open_loop grub_isspace grub_tolower grub_utf16_to_utf8
                           disk (S (length name)) fuel mem 0 errno d0 name = Some (Ok d)
                 /\ Z.land (attr d) GRUB_FAT_ATTR_DIRECTORY <> 0)
           \/ e = grub_error GRUB_ERR_BAD_FILE_TYPE "not a directory"
           \/ e = grub_error GRUB_ERR_FILE_NOT_FOUND "file not found"
           \/ errno = Some e
           \/ (exists j, alloc_error (mem j) e)
           \/ e = disk_failure
           \/ (exists v, e = grub_error_u GRUB_ERR_BAD_FS "invalid cluster %u" v
                 /\ (v < 2 \/ num_clusters d0 <= v) /\ v < cluster_eof_mark d0)).
Proof.
  unfold Errno.grub_fat_open. intros H.
  destruct (Errno.grub_fat_mount alloc_data (Some disk)) as [d0|e0] eqn:Em.
  - right. exists d0. split; [reflexivity|].
    destruct (Errno.open_loop _ _ _ _ _ _ _ _ _ _ _) as [[d|e']|] eqn:El;
      [| |discriminate].
    + destruct (Z.land (attr d) GRUB_FAT_ATTR_DIRECTORY =? 0) eqn:Ea;
        cbn [negb] in H; [discriminate|].
      injection H as <-. left. split; [reflexivity|].
      exists d. split; [reflexivity | lia].
    + injection H as <-. right.
      apply errno_open_loop_errno in El.
      destruct El as [-> | [-> | [Hp | [Ha | [-> | (v & -> & Hv)]]]]]; auto 7.
      do 5 right. exists v. split; [reflexivity | exact Hv].
  - injection H as <-. left. apply errno_mount_error in Em. subst e0. auto.
Qed.

(** Property X27 on [tree]: /sub is a directory and is not opened as a
    file; with the handle not allocated the mount fails; and /hello.txt
    is not opened when a device error is pending. *)
Lemma open_error_kinds_witness :
  (Errno.grub_fat_open ascii_isspace ascii_tolower ascii_utf16_to_utf8 tree 17
     AllocOk (fun _ => allocs_ok) None (bytes_of_string "/sub") = Some (Err not_a_file)
   /\ exists d, Errno.open_loop ascii_isspace ascii_tolower ascii_utf16_to_utf8 tree
                  (S (length (bytes_of_string "/sub"))) 17 (fun _ => allocs_ok) 0 None
                  floppy_root (bytes_of_string "/sub")
                = Some (Ok d)
        /\ Z.land (attr d) GRUB_FAT_ATTR_DIRECTORY <> 0)
  /\ Errno.grub_fat_open ascii_isspace ascii_tolower ascii_utf16_to_utf8 tree 17
       (AllocFail (Some out_of_memory)) (fun _ => allocs_ok) None
       (bytes_of_string "/hello.txt") = Some (Err not_a_fat)
  /\ Errno.grub_fat_open ascii_isspace ascii_tolower ascii_utf16_to_utf8 tree 17
       AllocOk (fun _ => allocs_ok) (Some disk_failure)
       (bytes_of_string "/hello.txt") = Some (Err disk_failure).
Proof.
  split; [|split; vm_compute; reflexivity].
  assert (Ho : Errno.grub_fat_open ascii_isspace ascii_tolower ascii_utf16_to_utf8 tree 17
                 AllocOk (fun _ => allocs_ok) None (bytes_of_string "/sub")
               = Some (Err not_a_file))
    by (vm_compute; reflexivity).
  split; [exact Ho|].
  destruct (open_error_kinds _ _ _ _ _ _ _ _ _ _ Ho) as [[_ Hm] | (d0 & Hm & H)];
    [vm_compute in Hm; discriminate|].
  assert (d0 = floppy_root) as -> by (vm_compute in Hm; injection Hm as <-; reflexivity).
  destruct H as [(_ & H) | [H | [H | [H | [(j & [H | [H | H]]) | [H | (v & H & _)]]]]]];
    try discriminate H.
  exact H.
Defined.

(** Property X29.  [grub_fat_dir], entered with [grub_errno = errno] and
    with the allocations [alloc_data] and [mem], returns these errors
    only: "not a fat filesystem" when the mount fails, which includes a
    failed allocation of the handle (no hook call is made); "not a
    directory"; "file not found"; the error that was pending when the
    call was entered; the error a failed allocation of
    [grub_fat_find_dir] left; a device read failure; or "invalid cluster
    %u" with a value below the end-of-chain mark that is below 2 or not
    below [num_clusters]. *)
Theorem dir_error_kinds
    (grub_isspace : Z -> bool) (grub_tolower : Z -> Z)
    (grub_utf16_to_utf8 : list Z -> bytes) (disk : grub_disk)
    (fuel : nat) (alloc_data : alloc_result) (mem : nat -> find_dir_allocs)
    (errno : option grub_error_t) (path : bytes)
    (hook : option (bytes -> Z -> bool))
    (e : grub_error_t) (calls : list hook_call) :
  Errno.grub_fat_dir grub_isspace grub_tolower grub_utf16_to_utf8 disk
    fuel alloc_data mem errno path hook = Some (Some e, calls) ->
  (e = not_a_fat /\ Errno.grub_fat_mount alloc_data (Some disk) = Err not_a_fat
   /\ calls = [])
  \/ exists d0, Errno.grub_fat_mount alloc_data (Some disk) = Ok d0
       /\ (e = grub_error GRUB_ERR_BAD_FILE_TYPE "not a directory"
           \/ e = grub_error GRUB_ERR_FILE_NOT_FOUND "file not found"
           \/ errno = Some e
           \/ (exists j, alloc_error (mem j) e)
           \/ e = disk_failure
           \/ (exists v, e = grub_error_u GRUB_ERR_BAD_FS "invalid cluster %u" v
                 /\ (v < 2 \/ num_clusters d0 <= v) /\ v < cluster_eof_mark d0)).
Proof.
  unfold Errno.grub_fat_dir. intros H.
  destruct (Errno.grub_fat_mount alloc_data (Some disk)) as [d0|e0] eqn:Em.
  - right. exists d0. split; [reflexivity|].
    apply errno_dir_loop_errno in H.
    destruct H as [-> | [-> | [Hp | [Ha | [-> | (v & -> & Hv)]]]]]; auto 6.
    do 5 right. exists v. split; [reflexivity | exact Hv].
  - injection H as <- <-. left. apply errno_mount_error in Em. subst e0. auto.
Qed.

(** Property X29 on [floppy]: /hello.txt/ is a file and is not listed as
    a directory; the root is listed to its end with a device error
    pending, and that error is returned; and the listing of the root
    stops when the allocation of [unibuf] fails. *)
Lemma dir_error_kinds_witness :
  (Errno.grub_fat_dir ascii_isspace ascii_tolower ascii_utf16_to_utf8 floppy 17
     AllocOk (fun _ => allocs_ok) None
     (bytes_of_string "/hello.txt/") (Some no_hook) = Some (Some not_a_directory, [])
   /\ Errno.grub_fat_mount AllocOk (Some floppy) = Ok floppy_root)
  /\ Errno.grub_fat_dir ascii_isspace ascii_tolower ascii_utf16_to_utf8 floppy 17
       AllocOk (fun _ => allocs_ok) (Some disk_failure)
       (bytes_of_string "/") (Some no_hook)
     = Some (Some disk_failure, [(bytes_of_string "hello.txt", 0)])
  /\ Errno.grub_fat_dir ascii_isspace ascii_tolower ascii_utf16_to_utf8 floppy 17
       AllocOk (fun _ => mk_allocs AllocOk AllocOk (AllocFail (Some out_of_memory))) None
       (bytes_of_string "/") (Some no_hook)
     = Some (Some out_of_memory, []).
Proof.
  split; [|split; vm_compute; reflexivity].
  assert (Hd : Errno.grub_fat_dir ascii_isspace ascii_tolower ascii_utf16_to_utf8 floppy 17
                 AllocOk (fun _ => allocs_ok) None
                 (bytes_of_string "/hello.txt/") (Some no_hook)
               = Some (Some not_a_directory, []))
    by (vm_compute; reflexivity).
  split; [exact Hd|].
  destruct (dir_error_kinds _ _ _ _ _ _ _ _ _ _ _ _ Hd) as [(_ & Hm & _) | (d0 & Hm & _)];
    [vm_compute in Hm; discriminate|].
  vm_compute. reflexivity.
Defined.

(** Property X30.  [grub_fat_label], entered with [grub_errno = errno],
    fails in these ways only: "not a fat filesystem" (the mount failed,
    which includes a failed allocation of the handle); the error that was
    pending when the call was entered, which the call returns when a read
    of a record in a cluster chain is made or the directory ends before a
    label is found; a device read failure; or "invalid cluster %u" from
    the chain walk.  Its "not a directory" branch is never taken, and it
    raises no "file not found" of its own.  A failed [grub_strndup] is
    not an error: the label is then a null pointer. *)
Theorem label_error_kinds (disk : grub_disk) (fuel : nat)
    (alloc_data alloc_label : alloc_result) (errno : option grub_error_t)
    (e : grub_error_t) :
  Errno.grub_fat_label disk fuel alloc_data alloc_label errno = Some (Err e) ->
  ((e = not_a_fat /\ Errno.grub_fat_mount alloc_data (Some disk) = Err not_a_fat)
   \/ exists d0, Errno.grub_fat_mount alloc_data (Some disk) = Ok d0
        /\ (errno = Some e
            \/ e = disk_failure
            \/ (exists v, e = grub_error_u GRUB_ERR_BAD_FS "invalid cluster %u" v
                  /\ (v < 2 \/ num_clusters d0 <= v) /\ v < cluster_eof_mark d0)))
  /\ (forall d0, Errno.grub_fat_mount alloc_data (Some disk) = Ok d0 ->
        Z.land (attr d0) GRUB_FAT_ATTR_DIRECTORY <> 0).
Proof.
  assert (Hdir : forall d0, Errno.grub_fat_mount alloc_data (Some disk) = Ok d0 ->
            Z.land (attr d0) GRUB_FAT_ATTR_DIRECTORY <> 0).
  { intros d0 Hm. apply errno_mount_inv in Hm. destruct Hm as [_ Hm].
    destruct (mount_inv _ _ Hm) as (? & ? & ? & _ & _ & _ & _ & _ & _ & _ & _ & Ha & _).
    rewrite Ha. discriminate. }
  unfold Errno.grub_fat_label. intros H. split; [|exact Hdir].
  destruct (Errno.grub_fat_mount alloc_data (Some disk)) as [d0|e0] eqn:Em.
  - specialize (Hdir d0 eq_refl).
    destruct (Z.eqb_spec (Z.land (attr d0) GRUB_FAT_ATTR_DIRECTORY) 0) as [E|_];
      [contradiction|].
    right. exists d0. split; [reflexivity|].
    apply errno_label_loop_errno in H.
    destruct H as [Hp | [-> | (v & -> & Hv)]]; auto.
    do 2 right. exists v. split; [reflexivity | exact Hv].
  - injection H as <-. apply errno_mount_error in Em. subst e0. left. auto.
Qed.

(** Property X30 with "file not found" pending: on [small32], whose root
    is a cluster chain, the first read returns -1; on [floppy], whose
    root has no label, the end of the directory is reached.  With
    [grub_errno] clear the label of [labelled] is found, and is a null
    pointer when [grub_strndup] fails. *)
Lemma label_error_kinds_witness :
  (Errno.grub_fat_label small32 17 AllocOk AllocOk (Some file_not_found)
   = Some (Err file_not_found)
   /\ Z.land (attr small32_root) GRUB_FAT_ATTR_DIRECTORY <> 0)
  /\ Errno.grub_fat_label floppy 17 AllocOk AllocOk (Some file_not_found)
     = Some (Err file_not_found)
  /\ Errno.grub_fat_label floppy 17 AllocOk AllocOk None = Some (Ok None)
  /\ Errno.grub_fat_label labelled 17 AllocOk (AllocFail (Some out_of_memory)) None
     = Some (Ok None).
Proof.
  split; [|repeat split; vm_compute; reflexivity].
  assert (Hl : Errno.grub_fat_label small32 17 AllocOk AllocOk (Some file_not_found)
               = Some (Err file_not_found))
    by (vm_compute; reflexivity).
  split; [exact Hl|].
  apply (proj2 (label_error_kinds _ _ _ _ _ _ Hl)).
  vm_compute. reflexivity.
Defined.

(** ** Reads on two handles of one file *)

Lemma read_out_same_file disk a b offset len :
  same_file a b -> cursor_ok disk a -> cursor_ok disk b ->
  0 <= logical_cluster_bits a -> 0 <= offset < 2 ^ 31 ->
  read_out (grub_fat_read_data disk a offset len)
  = read_out (grub_fat_read_data disk b offset len).
Proof.
  intros Hs Ha Hb HB Hoff.
  destruct (same_file_fields _ _ Hs) as (Hfc & _ & _ & _ & Hl & Hnr & Hrs & _).
  destruct (Z.eq_dec (file_cluster a) ALL_ONES) as [Hroot | Hch].
  - unfold grub_fat_read_data. rewrite Hfc, Hroot, Hnr, Hrs.
    change (ALL_ONES =? ALL_ONES) with true. cbv iota zeta.
    destruct (grub_disk_read disk _ _ _); reflexivity.
  - rewrite !read_data_cold by (rewrite ?Hfc, ?Hl; assumption).
    unfold cold_read, read_cluster, read_offset.
    rewrite Hl, (same_file_restart _ _ Hs). reflexivity.
Qed.

Lemma holds_records_same_file disk a b (recs : list bytes) :
  same_file a b -> cursor_ok disk a -> cursor_ok disk b ->
  0 <= logical_cluster_bits a ->
  32 * Z.of_nat (length recs) < 2 ^ 31 ->
  holds_records disk a recs -> holds_records disk b recs.
Proof.
  intros Hs Ha Hb HB Hbound H i Hi.
  destruct (H i Hi) as (r & Hr & Hret & Hbuf & H0).
  pose proof (read_out_same_file disk a b (GRUB_FAT_DIR_ENTRY_SIZE * Z.of_nat i)
                GRUB_FAT_DIR_ENTRY_SIZE Hs Ha Hb HB) as E.
  unfold dir_record in *. rewrite Hr in E.
  change GRUB_FAT_DIR_ENTRY_SIZE with 32 in *.
  specialize (E ltac:(lia)).
  destruct (grub_fat_read_data disk b (32 * Z.of_nat i) 32) as [r'|];
    [|discriminate E].
  cbn [read_out] in E. injection E as E1 E2.
  exists r'. rewrite <- E1, <- E2. auto.
Qed.

Lemma entry_handle_same_file data m d :
  same_volume data d -> attr d = dir_attr m ->
  file_size d = s32 (dir_file_size m) ->
  file_cluster d = u32 (Z.lor (Z.shiftl (dir_first_cluster_high m) 16)
                          (dir_first_cluster_low m)) ->
  same_file (entry_handle data m) d.
Proof.
  unfold same_volume, volume_of, same_file, entry_handle, set_cursor.
  destruct d; cbn. intros H -> -> ->.
  injection H as -> -> -> -> -> -> -> -> -> -> -> ->. reflexivity.
Qed.

Section PathWalk.

Variable grub_isspace : Z -> bool.
Variable grub_tolower : Z -> Z.
Variable grub_utf16_to_utf8 : list Z -> bytes.
Variable disk : grub_disk.
Variable fuel : nat.

(** One component of a path, looked up on a fresh handle of the
    directory. *)
Lemma find_dir_first_match a a' q hook recs m :
  first_match grub_isspace grub_tolower disk fuel a (snd (extract_dirname q)) recs m ->
  hook = None \/ fst (extract_dirname q) <> None ->
  same_file a a' ->
  cur_cluster_num a = ALL_ONES -> cur_cluster_num a' = ALL_ONES ->
  0 <= logical_cluster_bits a ->
  exists r, grub_fat_find_dir grub_isspace grub_tolower grub_utf16_to_utf8
              disk fuel a' q hook = Some r
    /\ fr_errno r = None /\ fr_next r = fst (extract_dirname q)
    /\ fr_calls r = []
    /\ same_file (entry_handle a m) (fr_data r)
    /\ cur_cluster_num (fr_data r) = ALL_ONES
    /\ logical_cluster_bits (entry_handle a m) = logical_cluster_bits a.
Proof.
  intros (Hdir & Hpass & Hfuel & Hb & Hrecs & Hln & Hl & Hname) Hmode Hs Hc Hc' HB.
  destruct (same_file_fields _ _ Hs) as (_ & _ & _ & _ & Hlb & _).
  assert (Hattr : attr a' = attr a)
    by (rewrite (same_file_eq _ _ Hs); reflexivity).
  assert (Hrecs' : holds_records disk a' (recs ++ [m])).
  { apply (holds_records_same_file disk a a'); auto;
      [left; assumption | left; assumption |].
    rewrite length_app. cbn [length]. lia. }
  assert (Hok : cursor_ok disk a') by (left; assumption).
  assert (HB' : 0 <= logical_cluster_bits a') by lia.
  assert (Hdir' : Z.land (attr a') GRUB_FAT_ATTR_DIRECTORY <> 0) by congruence.
  destruct (find_dir_hit grub_isspace grub_tolower grub_utf16_to_utf8 disk
              fuel a' q hook recs m Hok HB' Hdir' Hmode Hpass Hfuel Hb Hrecs' Hln Hl Hname)
    as (r & Hr & He & Hn & Hcalls & Ha & Hz & Hfc & Hcur & Hv).
  exists r. do 4 (split; [assumption|]).
  split; [|split; [assumption | reflexivity]].
  apply entry_handle_same_file; try assumption.
  apply same_file_volume in Hs. unfold same_volume in *. congruence.
Qed.

(** The path loop of [grub_fat_open] along the components that [leads]
    follows. *)
Lemma open_loop_leads data p d q :
  leads grub_isspace grub_tolower disk fuel data p d q ->
  forall n data',
  same_file data data' ->
  cur_cluster_num data = ALL_ONES -> cur_cluster_num data' = ALL_ONES ->
  0 <= logical_cluster_bits data -> (length p < n)%nat ->
  exists d' n', same_file d d'
    /\ cur_cluster_num d = ALL_ONES /\ cur_cluster_num d' = ALL_ONES
    /\ logical_cluster_bits d = logical_cluster_bits data
    /\ (length q < n')%nat
    /\ open_loop grub_isspace grub_tolower grub_utf16_to_utf8 disk n fuel data' p
       = open_loop grub_isspace grub_tolower grub_utf16_to_utf8 disk n' fuel d' q.
Proof.
  induction 1 as [data p | data p p' recs m d q Hm Hp Hres IH];
    intros n data' Hs Hc Hc' HB Hn.
  - exists data', n. auto 10.
  - destruct n as [|n]; [lia|].
    pose proof (extract_dirname_next _ _ Hp) as Hlen.
    destruct (find_dir_first_match _ data' _ None _ _ Hm (or_introl eq_refl) Hs Hc Hc' HB)
      as (r & Hr & He & Hnx & _ & Hsf & Hcur & Hlb).
    destruct (IH n (fr_data r) Hsf eq_refl Hcur ltac:(rewrite Hlb; exact HB) ltac:(lia))
      as (d1 & n1 & Hs1 & Hcd & Hc1 & Hl1 & Hq1 & Ho1).
    cbn [open_loop]. rewrite Hr, He, Hnx, Hp.
    exists d1, n1. do 3 (split; [assumption|]).
    split; [congruence|]. split; assumption.
Qed.

(** The path loop of [grub_fat_dir] likewise: no call of the hook is
    made on the way. *)
Lemma dir_loop_leads data p d q :
  leads grub_isspace grub_tolower disk fuel data p d q ->
  forall n data' hook,
  same_file data data' ->
  cur_cluster_num data = ALL_ONES -> cur_cluster_num data' = ALL_ONES ->
  0 <= logical_cluster_bits data -> (length p < n)%nat ->
  exists d' n', same_file d d'
    /\ cur_cluster_num d = ALL_ONES /\ cur_cluster_num d' = ALL_ONES
    /\ logical_cluster_bits d = logical_cluster_bits data
    /\ (length q < n')%nat
    /\ forall calls,
         dir_loop grub_isspace grub_tolower grub_utf16_to_utf8 disk n fuel data' p
           hook calls
         = dir_loop grub_isspace grub_tolower grub_utf16_to_utf8 disk n' fuel d' q
             hook calls.
Proof.
  induction 1 as [data p | data p p' recs m d q Hm Hp Hres IH];
    intros n data' hook Hs Hc Hc' HB Hn.
  - exists data', n. auto 10.
  - destruct n as [|n]; [lia|].
    pose proof (extract_dirname_next _ _ Hp) as Hlen.
    assert (Hmode : hook = None \/ fst (extract_dirname p) <> None)
      by (right; rewrite Hp; discriminate).
    destruct (find_dir_first_match _ data' _ hook _ _ Hm Hmode Hs Hc Hc' HB)
      as (r & Hr & He & Hnx & Hcalls & Hsf & Hcur & Hlb).
    destruct (IH n (fr_data r) hook Hsf eq_refl Hcur ltac:(rewrite Hlb; exact HB)
                ltac:(lia))
      as (d1 & n1 & Hs1 & Hcd & Hc1 & Hl1 & Hq1 & Ho1).
    exists d1, n1. do 3 (split; [assumption|]).
    split; [congruence|]. split; [assumption|].
    intros calls. cbn [dir_loop]. rewrite Hr, He, Hnx, Hcalls, Hp, app_nil_r.
    apply Ho1.
Qed.

End PathWalk.

(** ** Opening a file and listing a directory by path *)

(** Property X26.  [grub_fat_open] follows a path through directories
    with short names: if each component but the last is the first match
    in its directory ([leads]) and the last component is the first match
    [m] in the directory reached, then the call fails with "not a file"
    when [m] has the directory bit, and otherwise returns a handle with
    the attribute byte, size and first cluster of [m] and an invalid
    cursor. *)
Theorem open_follows_short_names
    (grub_isspace : Z -> bool) (grub_tolower : Z -> Z)
    (grub_utf16_to_utf8 : list Z -> bytes) (disk : grub_disk)
    (fuel : nat) (name q : bytes) (d0 d : grub_fat_data) (recs : list bytes) (m : bytes) :
  grub_fat_mount (Some disk) = Ok d0 ->
  leads grub_isspace grub_tolower disk fuel d0 name d q ->
  fst (extract_dirname q) = None ->
  first_match grub_isspace grub_tolower disk fuel d (snd (extract_dirname q)) recs m ->
  exists d', same_file (entry_handle d m) d' /\ cur_cluster_num d' = ALL_ONES
    /\ grub_fat_open grub_isspace grub_tolower grub_utf16_to_utf8 disk fuel name
       = if Z.land (dir_attr m) GRUB_FAT_ATTR_DIRECTORY =? 0
         then Some (Ok d') else Some (Err not_a_file).
Proof.
  intros Hm Hlead Hq Hfm. unfold grub_fat_open. rewrite Hm.
  destruct (mount_inv _ _ Hm) as (? & ? & ? & _ & _ & _ & _ & _ & _ & _ & _ & _ & Hc & _).
  pose proof (mount_bits _ _ Hm) as HB.
  destruct (open_loop_leads grub_isspace grub_tolower grub_utf16_to_utf8 disk fuel
              d0 name d q Hlead (S (length name)) d0 (same_file_refl d0) Hc Hc
              ltac:(lia) ltac:(lia))
    as (d1 & n1 & Hs1 & Hcd & Hc1 & Hl1 & Hq1 & ->).
  destruct n1 as [|n1]; [lia|].
  destruct (find_dir_first_match grub_isspace grub_tolower grub_utf16_to_utf8 disk fuel
              d d1 q None recs m Hfm (or_introl eq_refl) Hs1 Hcd Hc1 ltac:(lia))
    as (r & Hr & He & Hnx & _ & Hsf & Hcur & _).
  cbn [open_loop]. rewrite Hr, He, Hnx, Hq.
  exists (fr_data r). do 2 (split; [assumption|]).
  replace (attr (fr_data r)) with (dir_attr m)
    by (rewrite (same_file_eq _ _ Hsf); reflexivity).
  destruct (Z.land (dir_attr m) GRUB_FAT_ATTR_DIRECTORY =? 0); reflexivity.
Qed.

(** Property X26 at /sub/inner.txt on [tree]. *)
Lemma open_follows_short_names_witness :
  exists d', grub_fat_open ascii_isspace ascii_tolower ascii_utf16_to_utf8 tree 17
               (bytes_of_string "/sub/inner.txt") = Some (Ok d')
    /\ file_size d' = 6 /\ file_cluster d' = 2.
Proof.
  pose (sub := dirent (bytes_of_string "SUB") 0x10 3 0).
  pose (inner := dirent (bytes_of_string "INNER   TXT") 0x20 2 6).
  assert (Hsub : first_match ascii_isspace ascii_tolower tree 17 floppy_root
                   (snd (extract_dirname (bytes_of_string "/sub/inner.txt")))
                   [hello_entry] sub).
  { split; [vm_compute; discriminate|].
    split; [repeat constructor; vm_compute; discriminate|].
    split; [cbn [length]; lia|]. split; [cbn [length]; lia|].
    split; [|split; [vm_compute; discriminate | split; reflexivity]].
    intros i Hi. cbn [length app] in Hi.
    assert (i = 0%nat \/ i = 1%nat) as [-> | ->] by lia;
      (eexists; split; [vm_compute; reflexivity|];
       split; [reflexivity|]; split; [reflexivity|]; vm_compute; discriminate). }
  assert (Hinner : first_match ascii_isspace ascii_tolower tree 17
                     (entry_handle floppy_root sub)
                     (snd (extract_dirname (bytes_of_string "/inner.txt"))) [] inner).
  { split; [vm_compute; discriminate|].
    split; [constructor|].
    split; [cbn [length]; lia|]. split; [cbn [length]; lia|].
    split; [|split; [vm_compute; discriminate | split; reflexivity]].
    intros i Hi. cbn [length app] in Hi.
    assert (i = 0%nat) as -> by lia.
    eexists; split; [vm_compute; reflexivity|].
    split; [reflexivity|]. split; [reflexivity|]. vm_compute; discriminate. }
  destruct (open_follows_short_names ascii_isspace ascii_tolower ascii_utf16_to_utf8
              tree 17 (bytes_of_string "/sub/inner.txt") (bytes_of_string "/inner.txt")
              floppy_root (entry_handle floppy_root sub) [] inner eq_refl)
    as (d' & Hs & Hc & Ho).
  - apply leads_below with (p' := bytes_of_string "/inner.txt")
                           (recs := [hello_entry]) (m := sub);
      [exact Hsub | reflexivity | apply leads_nowhere].
  - reflexivity.
  - exact Hinner.
  - exists d'. split; [exact Ho|].
    rewrite (same_file_eq _ _ Hs). split; reflexivity.
Defined.

(** Property X28.  [grub_fat_dir] on a path that leads to a directory and
    ends there (nothing but slashes is left): if the directory holds the
    records [recs], none a long-name slot, and the hook never stops the
    scan, the hook is called for the listed records of [recs] in order,
    with their 8.3 names and directory flags, and for nothing else; the
    value returned is the error of the read that ends the directory, if
    it fails, and [GRUB_ERR_NONE] otherwise. *)
Theorem dir_lists_short_names
    (grub_isspace : Z -> bool) (grub_tolower : Z -> Z)
    (grub_utf16_to_utf8 : list Z -> bytes) (disk : grub_disk)
    (fuel : nat) (path q : bytes) (hook : bytes -> Z -> bool)
    (d0 d : grub_fat_data) (recs : list bytes) (rk : read_result) :
  grub_fat_mount (Some disk) = Ok d0 ->
  leads grub_isspace grub_tolower disk fuel d0 path d q ->
  extract_dirname q = (None, []) ->
  Z.land (attr d) GRUB_FAT_ATTR_DIRECTORY <> 0 ->
  (length recs < fuel)%nat ->
  32 * Z.of_nat (length recs) + 32 < 2 ^ 31 ->
  holds_records disk d recs ->
  Forall (fun rec => dir_attr rec <> GRUB_FAT_ATTR_LONG_NAME) recs ->
  (forall name flag, hook name flag = false) ->
  dir_record disk d (Z.of_nat (length recs)) = Some rk ->
  ends_directory rk ->
  grub_fat_dir grub_isspace grub_tolower grub_utf16_to_utf8 disk fuel path (Some hook)
  = Some (match rd_ret rk with Err e => Some e | Ok _ => None end,
          map (short_entry grub_isspace grub_tolower) (filter listed recs)).
Proof.
  intros Hm Hlead Hq Hdir Hfuel Hb Hrecs Hln Hhook Hrk Hend.
  unfold grub_fat_dir. rewrite Hm.
  destruct (mount_inv _ _ Hm) as (? & ? & ? & _ & _ & _ & _ & _ & _ & _ & _ & _ & Hc & _).
  pose proof (mount_bits _ _ Hm) as HB.
  destruct (dir_loop_leads grub_isspace grub_tolower grub_utf16_to_utf8 disk fuel
              d0 path d q Hlead (S (length path)) d0 (Some hook) (same_file_refl d0)
              Hc Hc ltac:(lia) ltac:(lia))
    as (d1 & n1 & Hs1 & Hcd & Hc1 & Hl1 & Hq1 & ->).
  destruct n1 as [|n1]; [lia|].
  assert (HBd : 0 <= logical_cluster_bits d) by lia.
  assert (Hokd : cursor_ok disk d) by (left; assumption).
  assert (Hok1 : cursor_ok disk d1) by (left; assumption).
  destruct (same_file_fields _ _ Hs1) as (_ & _ & _ & _ & Hlb & _).
  assert (Hdir1 : Z.land (attr d1) GRUB_FAT_ATTR_DIRECTORY <> 0)
    by (rewrite (same_file_eq _ _ Hs1); exact Hdir).
  assert (Hrecs1 : holds_records disk d1 recs)
    by (apply (holds_records_same_file disk d d1); auto; lia).
  pose proof (read_out_same_file disk d d1
                (GRUB_FAT_DIR_ENTRY_SIZE * Z.of_nat (length recs))
                GRUB_FAT_DIR_ENTRY_SIZE Hs1 Hokd Hok1 HBd
                ltac:(unfold GRUB_FAT_DIR_ENTRY_SIZE; lia)) as E.
  unfold dir_record in Hrk. rewrite Hrk in E.
  destruct (grub_fat_read_data disk d1 _ _) as [rk1|] eqn:Erk1; [|discriminate E].
  cbn [read_out] in E. injection E as E1 E2.
  assert (Hend1 : ends_directory rk1)
    by (unfold ends_directory in *; rewrite <- E1, <- E2; exact Hend).
  pose proof (find_dir_loop_from_start grub_isspace grub_tolower grub_utf16_to_utf8 disk
                [] true hook d1 recs fuel Hok1 ltac:(lia) Hfuel Hb Hrecs1) as H.
  destruct (scan_records_listing grub_isspace grub_tolower grub_utf16_to_utf8
              hook recs Hhook Hln lfn_initial dir_initial [] eq_refl) as [dir' E].
  rewrite E in H. destruct (H rk1 Erk1 Hend1) as (d' & _ & Hl).
  pose proof (find_dir_of_loop grub_isspace grub_tolower grub_utf16_to_utf8 disk
                fuel d1 q (Some hook) d'
                (overwrite dir' (rd_buf rk1))
                (match rd_ret rk1 with Err e => Some e | Ok _ => None end)
                ([] ++ map (short_entry grub_isspace grub_tolower) (filter listed recs))
                Hdir1) as Hf.
  cbv zeta in Hf. rewrite Hq in Hf. cbn [fst snd] in Hf.
  destruct (Hf Hl) as (r & Hr & He & Hn & Hcalls & _).
  cbn [dir_loop]. rewrite Hr, Hn, He, Hcalls, <- E1. cbn [app].
  destruct (rd_ret rk); reflexivity.
Qed.

(** Property X28 at /sub/ on [tree]. *)
Lemma dir_lists_short_names_witness :
  grub_fat_dir ascii_isspace ascii_tolower ascii_utf16_to_utf8 tree 17
    (bytes_of_string "/sub/") (Some no_hook)
  = Some (None, [(bytes_of_string "inner.txt", 0)]).
Proof.
  pose (sub := dirent (bytes_of_string "SUB") 0x10 3 0).
  pose (inner := dirent (bytes_of_string "INNER   TXT") 0x20 2 6).
  assert (Hsub : first_match ascii_isspace ascii_tolower tree 17 floppy_root
                   (snd (extract_dirname (bytes_of_string "/sub/")))
                   [hello_entry] sub).
  { split; [vm_compute; discriminate|].
    split; [repeat constructor; vm_compute; discriminate|].
    split; [cbn [length]; lia|]. split; [cbn [length]; lia|].
    split; [|split; [vm_compute; discriminate | split; reflexivity]].
    intros i Hi. cbn [length app] in Hi.
    assert (i = 0%nat \/ i = 1%nat) as [-> | ->] by lia;
      (eexists; split; [vm_compute; reflexivity|];
       split; [reflexivity|]; split; [reflexivity|]; vm_compute; discriminate). }
  destruct (grub_fat_read_data tree (entry_handle floppy_root sub) 32 32) as [rk|] eqn:Erk;
    [|vm_compute in Erk; discriminate].
  rewrite (dir_lists_short_names ascii_isspace ascii_tolower ascii_utf16_to_utf8
             tree 17 (bytes_of_string "/sub/") (bytes_of_string "/") no_hook
             floppy_root (entry_handle floppy_root sub) [inner] rk eq_refl).
  - vm_compute in Erk. injection Erk as <-. reflexivity.
  - apply leads_below with (p' := bytes_of_string "/") (recs := [hello_entry]) (m := sub);
      [exact Hsub | reflexivity | apply leads_nowhere].
  - reflexivity.
  - vm_compute. discriminate.
  - cbn [length]. lia.
  - cbn [length]. lia.
  - intros i Hi. cbn [length] in Hi. assert (i = 0%nat) as -> by lia.
    eexists; split; [vm_compute; reflexivity|].
    split; [reflexivity|]. split; [reflexivity|]. vm_compute; discriminate.
  - repeat constructor; vm_compute; discriminate.
  - reflexivity.
  - exact Erk.
  - right. vm_compute in Erk. injection Erk as <-. reflexivity.
Defined.
